(** * The receive side of an RxRPC call (net/rxrpc/receive.c)

    A shallow embedding of the packet-reception engine of one call:
    DATA admission into the receive window, jumbo splitting, ACK
    processing with Tx-window rotation, and TCP-style congestion
    management.  Each C function is a Rocq function of the same name on
    an explicit call state; what the C code asks of its collaborators
    (send an ACK, abort, free a buffer, ...) is collected in a list of
    actions, in program order.

    Left out on purpose: tracing, statistics counters and the timer
    fields (resend_at, delay_ack_at, expect_rx_by, expect_req_by), which
    no decision of the receive path reads back.
    [rxrpc_implicit_end_call] is given [rxrpc_input_call_packet], which
    is defined outside receive.c, as an argument.

    Integers are modelled as [Z].  Sequence and serial numbers are
    32-bit and wrap ([u32]); [ackr_window] is the 64-bit packed pair of
    the code.  [nr_jumbo_bad] and [cong_extra] are 8-bit fields ([u8])
    and wrap from 255 to 0 as the C fields do.  The other counters,
    whose C type is declared in ar-internal.h (outside the sources),
    are left unbounded. *)

From Stdlib Require Import ZArith Lia Bool String List.
From stdpp Require Import base list.
Import ListNotations.
Open Scope Z_scope.

(** ** 32-bit sequence arithmetic *)

Definition u32 (x : Z) : Z := x mod 2^32.
Definition u64 (x : Z) : Z := x mod 2^64.
Definition u8 (x : Z) : Z := x mod 2^8.

(** The value of [(s32)x] for an unsigned 32-bit difference [x]. *)
Definition s32 (x : Z) : Z :=
  let y := x mod 2^32 in if y <? 2^31 then y else y - 2^32.

(** Modelled from the spec: the four comparisons of ar-internal.h, which
    is not part of the sources; section 4.1 defines
    after(a,b) as (int32)(a-b) > 0 and the other three analogously. *)
Definition after (a b : Z) : bool := 0 <? s32 (a - b).
Definition before (a b : Z) : bool := s32 (a - b) <? 0.
Definition after_eq (a b : Z) : bool := 0 <=? s32 (a - b).
Definition before_eq (a b : Z) : bool := s32 (a - b) <=? 0.

Definition lower_32_bits (n : Z) : Z := Z.land n (Z.ones 32).
Definition upper_32_bits (n : Z) : Z := Z.land (Z.shiftr n 32) (Z.ones 32).

(** ** Wire constants

    Header flag bits, packet types, ACK reasons and abort codes of the
    wire protocol (protocol.h), and the error numbers used. *)
Definition RXRPC_REQUEST_ACK : Z := 2.
Definition RXRPC_LAST_PACKET : Z := 4.
Definition RXRPC_JUMBO_PACKET : Z := 32.

Definition RXRPC_PACKET_TYPE_DATA : Z := 1.
Definition RXRPC_PACKET_TYPE_ACK : Z := 2.
Definition RXRPC_PACKET_TYPE_BUSY : Z := 3.
Definition RXRPC_PACKET_TYPE_ABORT : Z := 4.
Definition RXRPC_PACKET_TYPE_ACKALL : Z := 5.

Definition RXRPC_ACK_REQUESTED : Z := 1.
Definition RXRPC_ACK_DUPLICATE : Z := 2.
Definition RXRPC_ACK_OUT_OF_SEQUENCE : Z := 3.
Definition RXRPC_ACK_EXCEEDS_WINDOW : Z := 4.
Definition RXRPC_ACK_NOSPACE : Z := 5.
Definition RXRPC_ACK_PING : Z := 6.
Definition RXRPC_ACK_PING_RESPONSE : Z := 7.
Definition RXRPC_ACK_DELAY : Z := 8.
Definition RXRPC_ACK_IDLE : Z := 9.
Definition RXRPC_ACK__INVALID : Z := 10.

Definition RXRPC_ACK_TYPE_ACK : Z := 1.

Definition RX_CALL_DEAD : Z := -1.
Definition RX_PROTOCOL_ERROR : Z := -5.
Definition EBADMSG : Z := 74.
Definition ENETRESET : Z := 102.
Definition ECONNABORTED : Z := 103.
Definition ESHUTDOWN : Z := 108.

(** [flags & BIT] read as a C truth value. *)
Definition has_flag (flags bit : Z) : bool := negb (Z.land flags bit =? 0).

(** ** Call flags: one bit set, with the kernel's bit operations *)

Inductive rxrpc_call_flag :=
| RXRPC_CALL_IS_SERVICE
| RXRPC_CALL_RX_LAST
| RXRPC_CALL_TX_LAST
| RXRPC_CALL_TX_ALL_ACKED
| RXRPC_CALL_RETRANS_TIMEOUT
| RXRPC_CALL_IS_DEAD.

Definition flag_nr (f : rxrpc_call_flag) : Z :=
  match f with
  | RXRPC_CALL_IS_SERVICE => 2
  | RXRPC_CALL_RX_LAST => 4
  | RXRPC_CALL_TX_LAST => 5
  | RXRPC_CALL_TX_ALL_ACKED => 6
  | RXRPC_CALL_RETRANS_TIMEOUT => 8
  | RXRPC_CALL_IS_DEAD => 11
  end.

Definition test_bit (f : rxrpc_call_flag) (word : Z) : bool :=
  Z.testbit word (flag_nr f).
Definition set_bit (f : rxrpc_call_flag) (word : Z) : Z :=
  Z.setbit word (flag_nr f).
Definition clear_bit (f : rxrpc_call_flag) (word : Z) : Z :=
  Z.clearbit word (flag_nr f).

(** ** Call states *)

Inductive rxrpc_call_state :=
| RXRPC_CALL_UNINITIALISED
| RXRPC_CALL_CLIENT_AWAIT_CONN
| RXRPC_CALL_CLIENT_SEND_REQUEST
| RXRPC_CALL_CLIENT_AWAIT_REPLY
| RXRPC_CALL_CLIENT_RECV_REPLY
| RXRPC_CALL_SERVER_PREALLOC
| RXRPC_CALL_SERVER_SECURING
| RXRPC_CALL_SERVER_RECV_REQUEST
| RXRPC_CALL_SERVER_ACK_REQUEST
| RXRPC_CALL_SERVER_SEND_REPLY
| RXRPC_CALL_SERVER_AWAIT_ACK
| RXRPC_CALL_COMPLETE.

(** The position of a state in the enumeration, for the comparisons
    [state >= RXRPC_CALL_COMPLETE] of the code. *)
Definition state_nr (s : rxrpc_call_state) : Z :=
  match s with
  | RXRPC_CALL_UNINITIALISED => 0
  | RXRPC_CALL_CLIENT_AWAIT_CONN => 1
  | RXRPC_CALL_CLIENT_SEND_REQUEST => 2
  | RXRPC_CALL_CLIENT_AWAIT_REPLY => 3
  | RXRPC_CALL_CLIENT_RECV_REPLY => 4
  | RXRPC_CALL_SERVER_PREALLOC => 5
  | RXRPC_CALL_SERVER_SECURING => 6
  | RXRPC_CALL_SERVER_RECV_REQUEST => 7
  | RXRPC_CALL_SERVER_ACK_REQUEST => 8
  | RXRPC_CALL_SERVER_SEND_REPLY => 9
  | RXRPC_CALL_SERVER_AWAIT_ACK => 10
  | RXRPC_CALL_COMPLETE => 11
  end.

Inductive rxrpc_call_completion :=
| RXRPC_CALL_SUCCEEDED
| RXRPC_CALL_REMOTELY_ABORTED
| RXRPC_CALL_LOCALLY_ABORTED
| RXRPC_CALL_LOCAL_ERROR
| RXRPC_CALL_NETWORK_ERROR.

Inductive rxrpc_congest_mode :=
| RXRPC_CALL_SLOW_START
| RXRPC_CALL_CONGEST_AVOIDANCE
| RXRPC_CALL_PACKET_LOSS
| RXRPC_CALL_FAST_RETRANSMIT.

Inductive rxrpc_congest_change :=
| rxrpc_cong_no_change
| rxrpc_cong_idle_reset
| rxrpc_cong_rtt_window_end
| rxrpc_cong_new_low_nack
| rxrpc_cong_begin_retransmission
| rxrpc_cong_retransmit_again
| rxrpc_cong_progress
| rxrpc_cong_cleared_nacks
| rxrpc_cong_saw_nack.

Inductive rxrpc_rtt_rx_trace :=
| rxrpc_rtt_rx_cancel
| rxrpc_rtt_rx_ping_response
| rxrpc_rtt_rx_requested_ack.

Inductive rxrpc_propose_ack_trace :=
| rxrpc_propose_ack_input_data
| rxrpc_propose_ack_respond_to_ping
| rxrpc_propose_ack_respond_to_ack
| rxrpc_propose_ack_ping_for_lost_reply.

(** ** Packets *)

Record rxrpc_host_header := {
  hdr_type : Z;
  hdr_flags : Z;
  hdr_seq : Z;
  hdr_serial : Z;
  hdr_securityIndex : Z;
  hdr_serviceId : Z;
  hdr_rsvd : Z
}.

Record rxrpc_jumbo_header := { jhdr_flags : Z; jhdr_rsvd : Z }.

(** The ACK header in host byte order (the [ntohl] of each field). *)
Record rxrpc_ackpacket := {
  ack_serial_f : Z;
  ack_firstPacket : Z;
  ack_previousPacket : Z;
  ack_reason_f : Z;
  ack_nAcks : Z
}.

Record rxrpc_ackinfo := {
  info_rxMTU : Z;
  info_maxMTU : Z;
  info_rwind : Z;
  info_jumbo_max : Z
}.

(** A socket buffer: the parsed header and the window onto the payload
    kept in its private area ([rxrpc_skb(skb)]), the total length, the
    arrival time, and what [skb_copy_bits] finds in the payload: the
    jumbo headers by offset, the ACK header, the soft-ACK bytes, the
    trailing ackinfo and the abort code ([None] where the copy
    fails). *)
Record sk_buff := {
  skb_hdr : rxrpc_host_header;
  skb_offset : Z;
  skb_plen : Z;
  skb_len : Z;
  skb_tstamp : Z;
  skb_jumbo : list (Z * rxrpc_jumbo_header);
  skb_ack : option rxrpc_ackpacket;
  skb_soft_acks : list Z;
  skb_ackinfo : option rxrpc_ackinfo;
  skb_abort : option Z
}.

Record rxrpc_txbuf := { txb_seq : Z; txb_last : bool }.

(** ** The call *)

Record rxrpc_peer := {
  srtt_us : Z;
  rtt_count : Z;
  maxdata : Z;
  mtu : Z;
  hdrsize : Z
}.

(** The receive window and its queues. *)
Record call_rx := {
  ackr_window : Z;
  ackr_sack_table : list Z;
  ackr_nr_unacked : Z;
  rx_winsize : Z;
  rx_highest_seq : Z;
  nr_jumbo_bad : Z;
  rx_queue : list sk_buff;
  rx_oos_queue : list sk_buff
}.

(** The transmit window as the receive path sees it, and the ACK
    bookkeeping. *)
Record call_tx := {
  tx_top : Z;
  tx_winsize : Z;
  tx_buffer : list rxrpc_txbuf;
  tx_last_sent : Z;
  acks_hard_ack : Z;
  acks_lowest_nak : Z;
  acks_first_seq : Z;
  acks_prev_seq : Z;
  acks_latest_ts : Z;
  acks_highest_serial : Z
}.

Record call_cong := {
  cong_mode : rxrpc_congest_mode;
  cong_cwnd : Z;
  cong_ssthresh : Z;
  cong_dup_acks : Z;
  cong_cumul_acks : Z;
  cong_extra : Z;
  cong_tstamp : Z
}.

Record call_rtt := {
  rtt_avail : Z;
  rtt_serial : list Z;
  rtt_sent_at : list Z
}.

(** [struct rxrpc_call], its fields grouped by the part of the engine
    that owns them. *)
Record rxrpc_call := {
  state : rxrpc_call_state;
  completion : rxrpc_call_completion;
  abort_code : Z;
  error : Z;
  flags : Z;
  tx_phase : bool;
  ackr_reason : Z;
  service_id : Z;
  rx_serial : Z;
  rx : call_rx;
  tx : call_tx;
  cong : call_cong;
  rtt : call_rtt;
  peer : rxrpc_peer
}.

Record rxrpc_ack_summary := {
  ack_reason : Z;
  nr_acks : Z;
  nr_new_acks : Z;
  nr_rot_new_acks : Z;
  new_low_nack : bool;
  retrans_timeo : bool;
  saw_nacks : bool;
  flight_size : Z;
  sum_mode : rxrpc_congest_mode;
  sum_cwnd : Z;
  sum_ssthresh : Z;
  sum_cumulative_acks : Z;
  sum_dup_acks : Z
}.

(** ** Constants declared outside the sources

    Sizes and limits that receive.c uses but ar-internal.h and
    protocol.h declare, and the RTT estimator of rtt.c: how one sample
    (sent_at, resp_time) changes the peer.  They are parameters of the
    development; [linux_params] below gives the values of the kernel. *)
Class rxrpc_params := {
  RXRPC_SACK_SIZE : Z;
  RXRPC_TX_MAX_WINDOW : Z;
  RXRPC_TX_SMSS : Z;
  RXRPC_JUMBO_DATALEN : Z;
  RXRPC_JUMBO_SUBPKTLEN : Z;
  RXRPC_CALL_RTT_PEND_SHIFT : Z;
  sizeof_wire_header : Z;
  sizeof_ackpacket : Z;
  sizeof_ackinfo : Z;
  rxrpc_peer_add_rtt : rxrpc_peer -> Z -> Z -> rxrpc_peer
}.

(** What the proofs need of the parameters: the SACK table size is a
    power of two below 2^31 (section 6 of the spec) and a jumbo
    subpacket is not empty. *)
Definition params_ok `{rxrpc_params} : Prop :=
  (exists k, 0 <= k <= 30 /\ RXRPC_SACK_SIZE = 2^k) /\
  0 < RXRPC_JUMBO_SUBPKTLEN.

(** Field updates. *)
Definition set_hdr_flags v (r : rxrpc_host_header) : rxrpc_host_header :=
  Build_rxrpc_host_header (hdr_type r) v (hdr_seq r) (hdr_serial r) (hdr_securityIndex r) (hdr_serviceId r) (hdr_rsvd r).
Definition set_hdr_seq v (r : rxrpc_host_header) : rxrpc_host_header :=
  Build_rxrpc_host_header (hdr_type r) (hdr_flags r) v (hdr_serial r) (hdr_securityIndex r) (hdr_serviceId r) (hdr_rsvd r).
Definition set_hdr_serial v (r : rxrpc_host_header) : rxrpc_host_header :=
  Build_rxrpc_host_header (hdr_type r) (hdr_flags r) (hdr_seq r) v (hdr_securityIndex r) (hdr_serviceId r) (hdr_rsvd r).
Definition set_hdr_rsvd v (r : rxrpc_host_header) : rxrpc_host_header :=
  Build_rxrpc_host_header (hdr_type r) (hdr_flags r) (hdr_seq r) (hdr_serial r) (hdr_securityIndex r) (hdr_serviceId r) v.
Definition set_skb_hdr v (r : sk_buff) : sk_buff :=
  Build_sk_buff v (skb_offset r) (skb_plen r) (skb_len r) (skb_tstamp r) (skb_jumbo r) (skb_ack r) (skb_soft_acks r) (skb_ackinfo r) (skb_abort r).
Definition set_skb_offset v (r : sk_buff) : sk_buff :=
  Build_sk_buff (skb_hdr r) v (skb_plen r) (skb_len r) (skb_tstamp r) (skb_jumbo r) (skb_ack r) (skb_soft_acks r) (skb_ackinfo r) (skb_abort r).
Definition set_skb_plen v (r : sk_buff) : sk_buff :=
  Build_sk_buff (skb_hdr r) (skb_offset r) v (skb_len r) (skb_tstamp r) (skb_jumbo r) (skb_ack r) (skb_soft_acks r) (skb_ackinfo r) (skb_abort r).
Definition set_maxdata v (r : rxrpc_peer) : rxrpc_peer :=
  Build_rxrpc_peer (srtt_us r) (rtt_count r) v (mtu r) (hdrsize r).
Definition set_mtu v (r : rxrpc_peer) : rxrpc_peer :=
  Build_rxrpc_peer (srtt_us r) (rtt_count r) (maxdata r) v (hdrsize r).
Definition set_ackr_window v (r : call_rx) : call_rx :=
  Build_call_rx v (ackr_sack_table r) (ackr_nr_unacked r) (rx_winsize r) (rx_highest_seq r) (nr_jumbo_bad r) (rx_queue r) (rx_oos_queue r).
Definition set_ackr_sack_table v (r : call_rx) : call_rx :=
  Build_call_rx (ackr_window r) v (ackr_nr_unacked r) (rx_winsize r) (rx_highest_seq r) (nr_jumbo_bad r) (rx_queue r) (rx_oos_queue r).
Definition set_ackr_nr_unacked v (r : call_rx) : call_rx :=
  Build_call_rx (ackr_window r) (ackr_sack_table r) v (rx_winsize r) (rx_highest_seq r) (nr_jumbo_bad r) (rx_queue r) (rx_oos_queue r).
Definition set_rx_highest_seq v (r : call_rx) : call_rx :=
  Build_call_rx (ackr_window r) (ackr_sack_table r) (ackr_nr_unacked r) (rx_winsize r) v (nr_jumbo_bad r) (rx_queue r) (rx_oos_queue r).
Definition set_nr_jumbo_bad v (r : call_rx) : call_rx :=
  Build_call_rx (ackr_window r) (ackr_sack_table r) (ackr_nr_unacked r) (rx_winsize r) (rx_highest_seq r) v (rx_queue r) (rx_oos_queue r).
Definition set_rx_queue v (r : call_rx) : call_rx :=
  Build_call_rx (ackr_window r) (ackr_sack_table r) (ackr_nr_unacked r) (rx_winsize r) (rx_highest_seq r) (nr_jumbo_bad r) v (rx_oos_queue r).
Definition set_rx_oos_queue v (r : call_rx) : call_rx :=
  Build_call_rx (ackr_window r) (ackr_sack_table r) (ackr_nr_unacked r) (rx_winsize r) (rx_highest_seq r) (nr_jumbo_bad r) (rx_queue r) v.
Definition set_tx_winsize v (r : call_tx) : call_tx :=
  Build_call_tx (tx_top r) v (tx_buffer r) (tx_last_sent r) (acks_hard_ack r) (acks_lowest_nak r) (acks_first_seq r) (acks_prev_seq r) (acks_latest_ts r) (acks_highest_serial r).
Definition set_acks_hard_ack v (r : call_tx) : call_tx :=
  Build_call_tx (tx_top r) (tx_winsize r) (tx_buffer r) (tx_last_sent r) v (acks_lowest_nak r) (acks_first_seq r) (acks_prev_seq r) (acks_latest_ts r) (acks_highest_serial r).
Definition set_acks_lowest_nak v (r : call_tx) : call_tx :=
  Build_call_tx (tx_top r) (tx_winsize r) (tx_buffer r) (tx_last_sent r) (acks_hard_ack r) v (acks_first_seq r) (acks_prev_seq r) (acks_latest_ts r) (acks_highest_serial r).
Definition set_acks_first_seq v (r : call_tx) : call_tx :=
  Build_call_tx (tx_top r) (tx_winsize r) (tx_buffer r) (tx_last_sent r) (acks_hard_ack r) (acks_lowest_nak r) v (acks_prev_seq r) (acks_latest_ts r) (acks_highest_serial r).
Definition set_acks_prev_seq v (r : call_tx) : call_tx :=
  Build_call_tx (tx_top r) (tx_winsize r) (tx_buffer r) (tx_last_sent r) (acks_hard_ack r) (acks_lowest_nak r) (acks_first_seq r) v (acks_latest_ts r) (acks_highest_serial r).
Definition set_acks_latest_ts v (r : call_tx) : call_tx :=
  Build_call_tx (tx_top r) (tx_winsize r) (tx_buffer r) (tx_last_sent r) (acks_hard_ack r) (acks_lowest_nak r) (acks_first_seq r) (acks_prev_seq r) v (acks_highest_serial r).
Definition set_acks_highest_serial v (r : call_tx) : call_tx :=
  Build_call_tx (tx_top r) (tx_winsize r) (tx_buffer r) (tx_last_sent r) (acks_hard_ack r) (acks_lowest_nak r) (acks_first_seq r) (acks_prev_seq r) (acks_latest_ts r) v.
Definition set_cong_mode v (r : call_cong) : call_cong :=
  Build_call_cong v (cong_cwnd r) (cong_ssthresh r) (cong_dup_acks r) (cong_cumul_acks r) (cong_extra r) (cong_tstamp r).
Definition set_cong_cwnd v (r : call_cong) : call_cong :=
  Build_call_cong (cong_mode r) v (cong_ssthresh r) (cong_dup_acks r) (cong_cumul_acks r) (cong_extra r) (cong_tstamp r).
Definition set_cong_ssthresh v (r : call_cong) : call_cong :=
  Build_call_cong (cong_mode r) (cong_cwnd r) v (cong_dup_acks r) (cong_cumul_acks r) (cong_extra r) (cong_tstamp r).
Definition set_cong_dup_acks v (r : call_cong) : call_cong :=
  Build_call_cong (cong_mode r) (cong_cwnd r) (cong_ssthresh r) v (cong_cumul_acks r) (cong_extra r) (cong_tstamp r).
Definition set_cong_cumul_acks v (r : call_cong) : call_cong :=
  Build_call_cong (cong_mode r) (cong_cwnd r) (cong_ssthresh r) (cong_dup_acks r) v (cong_extra r) (cong_tstamp r).
Definition set_cong_extra v (r : call_cong) : call_cong :=
  Build_call_cong (cong_mode r) (cong_cwnd r) (cong_ssthresh r) (cong_dup_acks r) (cong_cumul_acks r) v (cong_tstamp r).
Definition set_cong_tstamp v (r : call_cong) : call_cong :=
  Build_call_cong (cong_mode r) (cong_cwnd r) (cong_ssthresh r) (cong_dup_acks r) (cong_cumul_acks r) (cong_extra r) v.
Definition set_rtt_avail v (r : call_rtt) : call_rtt :=
  Build_call_rtt v (rtt_serial r) (rtt_sent_at r).
Definition set_state v (r : rxrpc_call) : rxrpc_call :=
  Build_rxrpc_call v (completion r) (abort_code r) (error r) (flags r) (tx_phase r) (ackr_reason r) (service_id r) (rx_serial r) (rx r) (tx r) (cong r) (rtt r) (peer r).
Definition set_completion v (r : rxrpc_call) : rxrpc_call :=
  Build_rxrpc_call (state r) v (abort_code r) (error r) (flags r) (tx_phase r) (ackr_reason r) (service_id r) (rx_serial r) (rx r) (tx r) (cong r) (rtt r) (peer r).
Definition set_abort_code v (r : rxrpc_call) : rxrpc_call :=
  Build_rxrpc_call (state r) (completion r) v (error r) (flags r) (tx_phase r) (ackr_reason r) (service_id r) (rx_serial r) (rx r) (tx r) (cong r) (rtt r) (peer r).
Definition set_error v (r : rxrpc_call) : rxrpc_call :=
  Build_rxrpc_call (state r) (completion r) (abort_code r) v (flags r) (tx_phase r) (ackr_reason r) (service_id r) (rx_serial r) (rx r) (tx r) (cong r) (rtt r) (peer r).
Definition set_flags v (r : rxrpc_call) : rxrpc_call :=
  Build_rxrpc_call (state r) (completion r) (abort_code r) (error r) v (tx_phase r) (ackr_reason r) (service_id r) (rx_serial r) (rx r) (tx r) (cong r) (rtt r) (peer r).
Definition set_tx_phase v (r : rxrpc_call) : rxrpc_call :=
  Build_rxrpc_call (state r) (completion r) (abort_code r) (error r) (flags r) v (ackr_reason r) (service_id r) (rx_serial r) (rx r) (tx r) (cong r) (rtt r) (peer r).
Definition set_service_id v (r : rxrpc_call) : rxrpc_call :=
  Build_rxrpc_call (state r) (completion r) (abort_code r) (error r) (flags r) (tx_phase r) (ackr_reason r) v (rx_serial r) (rx r) (tx r) (cong r) (rtt r) (peer r).
Definition set_rx_serial v (r : rxrpc_call) : rxrpc_call :=
  Build_rxrpc_call (state r) (completion r) (abort_code r) (error r) (flags r) (tx_phase r) (ackr_reason r) (service_id r) v (rx r) (tx r) (cong r) (rtt r) (peer r).
Definition set_rx v (r : rxrpc_call) : rxrpc_call :=
  Build_rxrpc_call (state r) (completion r) (abort_code r) (error r) (flags r) (tx_phase r) (ackr_reason r) (service_id r) (rx_serial r) v (tx r) (cong r) (rtt r) (peer r).
Definition set_tx v (r : rxrpc_call) : rxrpc_call :=
  Build_rxrpc_call (state r) (completion r) (abort_code r) (error r) (flags r) (tx_phase r) (ackr_reason r) (service_id r) (rx_serial r) (rx r) v (cong r) (rtt r) (peer r).
Definition set_cong v (r : rxrpc_call) : rxrpc_call :=
  Build_rxrpc_call (state r) (completion r) (abort_code r) (error r) (flags r) (tx_phase r) (ackr_reason r) (service_id r) (rx_serial r) (rx r) (tx r) v (rtt r) (peer r).
Definition set_rtt v (r : rxrpc_call) : rxrpc_call :=
  Build_rxrpc_call (state r) (completion r) (abort_code r) (error r) (flags r) (tx_phase r) (ackr_reason r) (service_id r) (rx_serial r) (rx r) (tx r) (cong r) v (peer r).
Definition set_peer v (r : rxrpc_call) : rxrpc_call :=
  Build_rxrpc_call (state r) (completion r) (abort_code r) (error r) (flags r) (tx_phase r) (ackr_reason r) (service_id r) (rx_serial r) (rx r) (tx r) (cong r) (rtt r) v.
Definition set_ack_reason v (r : rxrpc_ack_summary) : rxrpc_ack_summary :=
  Build_rxrpc_ack_summary v (nr_acks r) (nr_new_acks r) (nr_rot_new_acks r) (new_low_nack r) (retrans_timeo r) (saw_nacks r) (flight_size r) (sum_mode r) (sum_cwnd r) (sum_ssthresh r) (sum_cumulative_acks r) (sum_dup_acks r).
Definition set_nr_acks v (r : rxrpc_ack_summary) : rxrpc_ack_summary :=
  Build_rxrpc_ack_summary (ack_reason r) v (nr_new_acks r) (nr_rot_new_acks r) (new_low_nack r) (retrans_timeo r) (saw_nacks r) (flight_size r) (sum_mode r) (sum_cwnd r) (sum_ssthresh r) (sum_cumulative_acks r) (sum_dup_acks r).
Definition set_nr_new_acks v (r : rxrpc_ack_summary) : rxrpc_ack_summary :=
  Build_rxrpc_ack_summary (ack_reason r) (nr_acks r) v (nr_rot_new_acks r) (new_low_nack r) (retrans_timeo r) (saw_nacks r) (flight_size r) (sum_mode r) (sum_cwnd r) (sum_ssthresh r) (sum_cumulative_acks r) (sum_dup_acks r).
Definition set_nr_rot_new_acks v (r : rxrpc_ack_summary) : rxrpc_ack_summary :=
  Build_rxrpc_ack_summary (ack_reason r) (nr_acks r) (nr_new_acks r) v (new_low_nack r) (retrans_timeo r) (saw_nacks r) (flight_size r) (sum_mode r) (sum_cwnd r) (sum_ssthresh r) (sum_cumulative_acks r) (sum_dup_acks r).
Definition set_new_low_nack v (r : rxrpc_ack_summary) : rxrpc_ack_summary :=
  Build_rxrpc_ack_summary (ack_reason r) (nr_acks r) (nr_new_acks r) (nr_rot_new_acks r) v (retrans_timeo r) (saw_nacks r) (flight_size r) (sum_mode r) (sum_cwnd r) (sum_ssthresh r) (sum_cumulative_acks r) (sum_dup_acks r).
Definition set_retrans_timeo v (r : rxrpc_ack_summary) : rxrpc_ack_summary :=
  Build_rxrpc_ack_summary (ack_reason r) (nr_acks r) (nr_new_acks r) (nr_rot_new_acks r) (new_low_nack r) v (saw_nacks r) (flight_size r) (sum_mode r) (sum_cwnd r) (sum_ssthresh r) (sum_cumulative_acks r) (sum_dup_acks r).
Definition set_saw_nacks v (r : rxrpc_ack_summary) : rxrpc_ack_summary :=
  Build_rxrpc_ack_summary (ack_reason r) (nr_acks r) (nr_new_acks r) (nr_rot_new_acks r) (new_low_nack r) (retrans_timeo r) v (flight_size r) (sum_mode r) (sum_cwnd r) (sum_ssthresh r) (sum_cumulative_acks r) (sum_dup_acks r).
Definition set_flight_size v (r : rxrpc_ack_summary) : rxrpc_ack_summary :=
  Build_rxrpc_ack_summary (ack_reason r) (nr_acks r) (nr_new_acks r) (nr_rot_new_acks r) (new_low_nack r) (retrans_timeo r) (saw_nacks r) v (sum_mode r) (sum_cwnd r) (sum_ssthresh r) (sum_cumulative_acks r) (sum_dup_acks r).
Definition set_sum_mode v (r : rxrpc_ack_summary) : rxrpc_ack_summary :=
  Build_rxrpc_ack_summary (ack_reason r) (nr_acks r) (nr_new_acks r) (nr_rot_new_acks r) (new_low_nack r) (retrans_timeo r) (saw_nacks r) (flight_size r) v (sum_cwnd r) (sum_ssthresh r) (sum_cumulative_acks r) (sum_dup_acks r).
Definition set_sum_cwnd v (r : rxrpc_ack_summary) : rxrpc_ack_summary :=
  Build_rxrpc_ack_summary (ack_reason r) (nr_acks r) (nr_new_acks r) (nr_rot_new_acks r) (new_low_nack r) (retrans_timeo r) (saw_nacks r) (flight_size r) (sum_mode r) v (sum_ssthresh r) (sum_cumulative_acks r) (sum_dup_acks r).
Definition set_sum_ssthresh v (r : rxrpc_ack_summary) : rxrpc_ack_summary :=
  Build_rxrpc_ack_summary (ack_reason r) (nr_acks r) (nr_new_acks r) (nr_rot_new_acks r) (new_low_nack r) (retrans_timeo r) (saw_nacks r) (flight_size r) (sum_mode r) (sum_cwnd r) v (sum_cumulative_acks r) (sum_dup_acks r).
Definition set_sum_cumulative_acks v (r : rxrpc_ack_summary) : rxrpc_ack_summary :=
  Build_rxrpc_ack_summary (ack_reason r) (nr_acks r) (nr_new_acks r) (nr_rot_new_acks r) (new_low_nack r) (retrans_timeo r) (saw_nacks r) (flight_size r) (sum_mode r) (sum_cwnd r) (sum_ssthresh r) v (sum_dup_acks r).
Definition set_sum_dup_acks v (r : rxrpc_ack_summary) : rxrpc_ack_summary :=
  Build_rxrpc_ack_summary (ack_reason r) (nr_acks r) (nr_new_acks r) (nr_rot_new_acks r) (new_low_nack r) (retrans_timeo r) (saw_nacks r) (flight_size r) (sum_mode r) (sum_cwnd r) (sum_ssthresh r) (sum_cumulative_acks r) v.

Definition upd_rx (f : call_rx -> call_rx) (c : rxrpc_call) := set_rx (f (rx c)) c.
Definition upd_tx (f : call_tx -> call_tx) (c : rxrpc_call) := set_tx (f (tx c)) c.
Definition upd_cong (f : call_cong -> call_cong) (c : rxrpc_call) := set_cong (f (cong c)) c.
Definition upd_rtt (f : call_rtt -> call_rtt) (c : rxrpc_call) := set_rtt (f (rtt c)) c.
Definition upd_peer (f : rxrpc_peer -> rxrpc_peer) (c : rxrpc_call) := set_peer (f (peer c)) c.

(** ** Outcomes and actions

    A run of the model ends with a result, in a kernel [BUG()] (a failed
    [ASSERT]), or because a loop of the model ran out of fuel; the
    totality lemmas ([receive_total] and those before it) show that
    neither of the last two happens. *)
Inductive outcome (A : Type) :=
| Done (a : A)
| Bug
| OutOfFuel.
Arguments Done {A} a.
Arguments Bug {A}.
Arguments OutOfFuel {A}.

Definition obind {A B} (m : outcome A) (k : A -> outcome B) : outcome B :=
  match m with
  | Done a => k a
  | Bug => Bug
  | OutOfFuel => OutOfFuel
  end.

#[global] Instance outcome_ret : MRet outcome := @Done.
#[global] Instance outcome_bind : MBind outcome :=
  fun A B k m => obind m k.

(** What the receive path asks of the rest of the stack. *)
Inductive action :=
| A_send_ACK (reason serial : Z) (why : rxrpc_propose_ack_trace)
| A_propose_delay_ACK (serial : Z) (why : rxrpc_propose_ack_trace)
| A_propose_ping (serial : Z) (why : rxrpc_propose_ack_trace)
| A_abort (why : string) (seq code err : Z)
| A_send_abort_packet
| A_resend
| A_wake_up
| A_notify_socket
| A_free_skb (skb : sk_buff)
| A_eaten_skb (skb : sk_buff)
| A_peer_add_rtt (type : rxrpc_rtt_rx_trace) (slot : nat)
    (acked_serial ack_serial sent_at resp_time : Z).

(** What the environment decides for one packet: the wall clock read by
    the congestion code, whether [skb_unshare] fails ([None]), returns
    a new buffer ([Some true]) or the same one, and which of the
    [skb_clone] calls of the jumbo splitter succeed. *)
Record rx_env := {
  env_now : Z;
  env_unshare : option bool;
  env_clone_ok : nat -> bool
}.

(** ** Collaborators outside the sources *)

(** Modelled from the spec: [rxrpc_set_call_completion] (call_object
    code, not under src): section 5 makes call termination idempotent,
    a terminating event after completion being a no-op; the result
    tells whether this call changed the state. *)
Definition rxrpc_set_call_completion (call : rxrpc_call)
    (compl : rxrpc_call_completion) (code err : Z) : bool * rxrpc_call :=
  if state_nr (state call) <? state_nr RXRPC_CALL_COMPLETE then
    (true, set_state RXRPC_CALL_COMPLETE
             (set_completion compl (set_abort_code code (set_error err call))))
  else (false, call).

(** Modelled from the spec: [__rxrpc_call_completed], which section 4.6
    describes as marking the call completed (normal). *)
Definition rxrpc_call_completed (call : rxrpc_call) : rxrpc_call :=
  snd (rxrpc_set_call_completion call RXRPC_CALL_SUCCEEDED 0 0).

(** Modelled from the spec: [rxrpc_abort_call], which by section 7 sets
    the call to locally-aborted with the given code; the abort is
    recorded with its reason tag. *)
Definition rxrpc_abort_call (why : string) (call : rxrpc_call)
    (seq code err : Z) : bool * rxrpc_call * list action :=
  let '(ok, call) :=
    rxrpc_set_call_completion call RXRPC_CALL_LOCALLY_ABORTED code err in
  (ok, call, [A_abort why seq code err]).

Definition rxrpc_is_client_call (call : rxrpc_call) : bool :=
  negb (test_bit RXRPC_CALL_IS_SERVICE (flags call)).

(** [rxrpc_free_skb] of a pointer that may be NULL. *)
Definition rxrpc_free_skb (skb : option sk_buff) : list action :=
  match skb with
  | Some s => [A_free_skb s]
  | None => []
  end.

(** [skb_copy_bits] of a jumbo header at the given offset. *)
Fixpoint skb_copy_jumbo (l : list (Z * rxrpc_jumbo_header)) (offset : Z)
  : option rxrpc_jumbo_header :=
  match l with
  | [] => None
  | (o, j) :: l' => if o =? offset then Some j else skb_copy_jumbo l' offset
  end.

(** ** The receive path: DATA *)

Definition rxrpc_proto_abort (why : string) (call : rxrpc_call) (seq : Z)
  : rxrpc_call * list action :=
  let '(ok, call, out) :=
    rxrpc_abort_call why call seq RX_PROTOCOL_ERROR (- EBADMSG) in
  (call, out ++ (if ok then [A_send_abort_packet] else [])).

(** [call->nr_jumbo_bad] is a [u8]: [call->nr_jumbo_bad++] wraps from
    255 to 0. *)
Definition rxrpc_receive_dup_data (call : rxrpc_call) (seq : Z)
    (is_jumbo : bool) (jumbo_bad : bool) : rxrpc_call * bool :=
  if is_jumbo then (call, jumbo_bad)
  else if negb jumbo_bad then
    (upd_rx (fun r => set_nr_jumbo_bad (u8 (nr_jumbo_bad r + 1)) r) call, true)
  else (call, jumbo_bad).

(** [((u64)wtop) << 32 | window] *)
Definition ackr_pack (window wtop : Z) : Z :=
  Z.lor (u64 (Z.shiftl wtop 32)) window.

Definition rxrpc_receive_update_ack_window (call : rxrpc_call)
    (window wtop : Z) : rxrpc_call :=
  upd_rx (set_ackr_window (ackr_pack window wtop)) call.

Definition rxrpc_receive_queue_data (call : rxrpc_call) (skb : sk_buff)
    (window wtop : Z) : rxrpc_call :=
  rxrpc_receive_update_ack_window
    (upd_rx (fun r => set_rx_queue (rx_queue r ++ [skb]) r) call) window wtop.

Definition sack_index `{rxrpc_params} (seq : Z) : nat :=
  Z.to_nat (seq mod RXRPC_SACK_SIZE).

(** [call->ackr_sack_table[seq % RXRPC_SACK_SIZE]] *)
Definition sack_get `{rxrpc_params} (tbl : list Z) (seq : Z) : Z :=
  default 0 (tbl !! sack_index seq).

Definition sack_set `{rxrpc_params} (tbl : list Z) (seq v : Z) : list Z :=
  <[sack_index seq := v]> tbl.

(** The [while ((oos = skb_peek(&call->rx_oos_queue)))] loop of
    [rxrpc_receive_data_one]: [q] is the out-of-sequence queue, whose
    head is unlinked in each round; [reset] is [reset_from] once
    [reset_sack] is set. *)
Fixpoint rxrpc_drain_oos (q : list sk_buff) (call : rxrpc_call)
    (window wtop : Z) (reset : option Z) : rxrpc_call * Z * option Z :=
  match q with
  | [] => (call, window, reset)
  | oos :: rest =>
    if after (hdr_seq (skb_hdr oos)) window then (call, window, reset)
    else
      let call := upd_rx (set_rx_oos_queue rest) call in
      let reset :=
        match reset with
        | None => Some (hdr_seq (skb_hdr oos))
        | Some _ => reset
        end in
      let window := u32 (window + 1) in
      rxrpc_drain_oos rest (rxrpc_receive_queue_data call oos window wtop)
        window wtop reset
  end.

(** The [do ... while (reset_from++, before(reset_from, window))] loop
    that clears the SACK table. *)
Fixpoint rxrpc_reset_sack `{rxrpc_params} (fuel : nat) (tbl : list Z)
    (reset_from window : Z) : outcome (list Z) :=
  let tbl := sack_set tbl reset_from 0 in
  let reset_from := u32 (reset_from + 1) in
  if before reset_from window then
    match fuel with
    | O => OutOfFuel
    | S fuel => rxrpc_reset_sack fuel tbl reset_from window
    end
  else Done tbl.

(** The [skb_queue_walk] of the out-of-sequence branch: the packet goes
    before the first queued one with a later sequence number, or to the
    tail. *)
Fixpoint rxrpc_oos_insert (skb : sk_buff) (seq : Z) (q : list sk_buff)
  : list sk_buff :=
  match q with
  | [] => [skb]
  | oos :: rest =>
    if after (hdr_seq (skb_hdr oos)) seq then skb :: q
    else oos :: rxrpc_oos_insert skb seq rest
  end.

(** The code at the labels [send_ack] and [err_free]. *)
Definition rxrpc_send_ack_label (ack_reason serial : Z)
    (skb : option sk_buff) : list action :=
  (if 0 <=? ack_reason
   then [A_send_ACK ack_reason serial rxrpc_propose_ack_input_data]
   else [A_propose_delay_ACK serial rxrpc_propose_ack_input_data])
  ++ rxrpc_free_skb skb.

(** DATA admission: [rxrpc_receive_data_one] from the jumbo limit (line
    415) to its end, with the locals [window], [wtop] and [wlimit] as
    they are at that point. *)
Definition rxrpc_data_admission `{rxrpc_params} (call : rxrpc_call)
    (skb : sk_buff) (window wtop wlimit : Z)
  : outcome (rxrpc_call * list action) :=
  let sp := skb_hdr skb in
  let serial := hdr_serial sp in
  let seq := hdr_seq sp in
  if has_flag (hdr_flags sp) RXRPC_JUMBO_PACKET && (3 <? nr_jumbo_bad (rx call))
  then Done (call, rxrpc_send_ack_label RXRPC_ACK_NOSPACE serial (Some skb))
  else if before seq window
  then Done (call, rxrpc_send_ack_label RXRPC_ACK_DUPLICATE serial (Some skb))
  else if after seq wlimit
  then Done (call, rxrpc_send_ack_label RXRPC_ACK_EXCEEDS_WINDOW serial (Some skb))
  else if seq =? window then
    let '(ack_reason, call) :=
      if has_flag (hdr_flags sp) RXRPC_REQUEST_ACK
      then (RXRPC_ACK_REQUESTED, call)
      else if negb (match rx_oos_queue (rx call) with [] => true | _ => false end)
      then (RXRPC_ACK_DELAY, call)
      else (-1, upd_rx (fun r => set_ackr_nr_unacked (ackr_nr_unacked r + 1) r) call) in
    let window := u32 (window + 1) in
    let wtop := if after window wtop then window else wtop in
    let call := rxrpc_receive_queue_data call skb window wtop in
    let '(call, window, reset) :=
      rxrpc_drain_oos (rx_oos_queue (rx call)) call window wtop None in
    call ← match reset with
            | None => Done call
            | Some reset_from =>
              tbl ← rxrpc_reset_sack (Z.to_nat (u32 (window - reset_from)))
                       (ackr_sack_table (rx call)) reset_from window;
              Done (upd_rx (set_ackr_sack_table tbl) call)
            end;
    Done (call, rxrpc_send_ack_label ack_reason serial None)
  else
    let '(keep, call) :=
      if sack_get (ackr_sack_table (rx call)) seq =? 0
      then (true, upd_rx (fun r => set_ackr_sack_table
                                     (sack_set (ackr_sack_table r) seq 1) r) call)
      else (false, call) in
    let '(wtop, call) :=
      if after (u32 (seq + 1)) wtop
      then (u32 (seq + 1),
            rxrpc_receive_update_ack_window call window (u32 (seq + 1)))
      else (wtop, call) in
    if negb keep then
      let '(call, _) :=
        rxrpc_receive_dup_data call seq
          (has_flag (hdr_flags sp) RXRPC_JUMBO_PACKET) false in
      Done (call, rxrpc_send_ack_label RXRPC_ACK_DUPLICATE serial (Some skb))
    else
      let call :=
        upd_rx (fun r => set_rx_oos_queue
                           (rxrpc_oos_insert skb seq (rx_oos_queue r)) r) call in
      Done (call, rxrpc_send_ack_label RXRPC_ACK_OUT_OF_SEQUENCE serial None).

(** Process a DATA packet. *)
Definition rxrpc_receive_data_one `{rxrpc_params} (call : rxrpc_call)
    (skb : sk_buff) : outcome (rxrpc_call * list action) :=
  let sp := skb_hdr skb in
  let win := ackr_window (rx call) in
  let window := lower_32_bits win in
  let wtop := upper_32_bits win in
  let wlimit := u32 (window + rx_winsize (rx call) - 1) in
  let seq := hdr_seq sp in
  let last := has_flag (hdr_flags sp) RXRPC_LAST_PACKET in
  let checked :=
    if last then
      let was_set := test_bit RXRPC_CALL_RX_LAST (flags call) in
      let call := set_flags (set_bit RXRPC_CALL_RX_LAST (flags call)) call in
      if was_set && negb (u32 (seq + 1) =? wtop)
      then inl (rxrpc_proto_abort "LSN" call seq)
      else inr call
    else
      if test_bit RXRPC_CALL_RX_LAST (flags call) && after_eq seq wtop
      then inl (rxrpc_proto_abort "LSA" call seq)
      else inr call in
  match checked with
  | inl (call, out) => Done (call, out ++ rxrpc_free_skb (Some skb))
  | inr call =>
    let call :=
      if after seq (rx_highest_seq (rx call))
      then upd_rx (set_rx_highest_seq seq) call
      else call in
    rxrpc_data_admission call skb window wtop wlimit
  end.

(** The [while (sp->hdr.flags & RXRPC_JUMBO_PACKET)] loop of
    [rxrpc_receive_split_jumbo] and the tail after it; [n] counts the
    calls of [skb_clone].  The result carries the buffer, whose header
    the loop rewrites. *)
Fixpoint rxrpc_split_jumbo_loop `{rxrpc_params} (fuel : nat)
    (clone_ok : nat -> bool) (n : nat) (call : rxrpc_call) (skb : sk_buff)
    (offset len : Z) : outcome (bool * rxrpc_call * sk_buff * list action) :=
  match fuel with
  | O => OutOfFuel
  | S fuel =>
    let sp := skb_hdr skb in
    if has_flag (hdr_flags sp) RXRPC_JUMBO_PACKET then
      if len <? RXRPC_JUMBO_SUBPKTLEN then Done (false, call, skb, [])
      else if has_flag (hdr_flags sp) RXRPC_LAST_PACKET
      then Done (false, call, skb, [])
      else
        match skb_copy_jumbo (skb_jumbo skb) (u32 (offset + RXRPC_JUMBO_DATALEN)) with
        | None => Done (false, call, skb, [])
        | Some jhdr =>
          if negb (clone_ok n) then Done (false, call, skb, [])
          else
            let jskb := set_skb_plen RXRPC_JUMBO_DATALEN (set_skb_offset offset skb) in
            '(call, out1) ← rxrpc_receive_data_one call jskb;
            let sp := set_hdr_serial (u32 (hdr_serial sp + 1))
                        (set_hdr_seq (u32 (hdr_seq sp + 1))
                           (set_hdr_rsvd (jhdr_rsvd jhdr)
                              (set_hdr_flags (jhdr_flags jhdr) sp))) in
            '(ok, call, skb, out2) ←
              rxrpc_split_jumbo_loop fuel clone_ok (S n) call
                (set_skb_hdr sp skb)
                (u32 (offset + RXRPC_JUMBO_SUBPKTLEN))
                (u32 (len - RXRPC_JUMBO_SUBPKTLEN));
            Done (ok, call, skb, out1 ++ out2)
        end
    else
      let skb := set_skb_plen len (set_skb_offset offset skb) in
      '(call, out) ← rxrpc_receive_data_one call skb;
      Done (true, call, skb, out)
  end.

(** Split a jumbo packet and file the bits separately. *)
Definition rxrpc_receive_split_jumbo `{rxrpc_params} (env : rx_env)
    (call : rxrpc_call) (skb : sk_buff)
  : outcome (bool * rxrpc_call * sk_buff * list action) :=
  let offset := sizeof_wire_header in
  let len := u32 (skb_len skb - offset) in
  rxrpc_split_jumbo_loop (S (Z.to_nat (len / RXRPC_JUMBO_SUBPKTLEN)))
    (env_clone_ok env) 0%nat call skb offset len.

(** ** Congestion management

    The labels of [rxrpc_congestion_management], each with the locals
    that are live when the code jumps to it. *)

(** The label [out_no_clear_ca]. *)
Definition rxrpc_cong_out_no_clear_ca `{rxrpc_params} (call : rxrpc_call)
    (cwnd cumulative_acks : Z) (resend : bool) : rxrpc_call * list action :=
  let cwnd := if RXRPC_TX_MAX_WINDOW <=? cwnd then RXRPC_TX_MAX_WINDOW else cwnd in
  (upd_cong (fun c => set_cong_cumul_acks cumulative_acks (set_cong_cwnd cwnd c)) call,
   if resend then [A_resend] else []).

(** The label [out]. *)
Definition rxrpc_cong_out `{rxrpc_params} (call : rxrpc_call) (cwnd : Z)
    (resend : bool) : rxrpc_call * list action :=
  rxrpc_cong_out_no_clear_ca call cwnd 0 resend.

(** The label [resume_normality]. *)
Definition rxrpc_cong_resume_normality `{rxrpc_params} (call : rxrpc_call)
    (skb : sk_buff) (cwnd : Z) (resend : bool) : rxrpc_call * list action :=
  let call :=
    upd_cong (fun c => set_cong_tstamp (skb_tstamp skb)
                         (set_cong_extra 0 (set_cong_dup_acks 0 c))) call in
  let call :=
    if cwnd <? cong_ssthresh (cong call)
    then upd_cong (set_cong_mode RXRPC_CALL_SLOW_START) call
    else upd_cong (set_cong_mode RXRPC_CALL_CONGEST_AVOIDANCE) call in
  rxrpc_cong_out call cwnd resend.

(** The label [send_extra_data].  [call->cong_extra] is a [u8]:
    [call->cong_extra++] wraps from 255 to 0. *)
Definition rxrpc_cong_send_extra_data `{rxrpc_params} (call : rxrpc_call)
    (summary : rxrpc_ack_summary) (cwnd cumulative_acks : Z) (resend : bool)
  : rxrpc_call * list action :=
  if test_bit RXRPC_CALL_TX_LAST (flags call)
     || negb (nr_acks summary =? u32 (tx_top (tx call) - acks_hard_ack (tx call)))
  then
    let call := upd_cong (fun c => set_cong_extra (u8 (cong_extra c + 1)) c) call in
    let '(call, out) := rxrpc_cong_out_no_clear_ca call cwnd cumulative_acks resend in
    (call, A_wake_up :: out)
  else rxrpc_cong_out_no_clear_ca call cwnd cumulative_acks resend.

(** The label [packet_loss_detected]. *)
Definition rxrpc_cong_packet_loss_detected `{rxrpc_params} (call : rxrpc_call)
    (summary : rxrpc_ack_summary) (cwnd cumulative_acks : Z) (resend : bool)
  : rxrpc_call * list action :=
  let call :=
    upd_cong (fun c => set_cong_dup_acks 0
                         (set_cong_mode RXRPC_CALL_PACKET_LOSS c)) call in
  rxrpc_cong_send_extra_data call summary cwnd cumulative_acks resend.

(** Do TCP-style congestion management [RFC 5681]. *)
Definition rxrpc_congestion_management `{rxrpc_params} (env : rx_env)
    (call : rxrpc_call) (skb : sk_buff) (summary : rxrpc_ack_summary)
    (acked_serial : Z) : rxrpc_call * rxrpc_ack_summary * list action :=
  let cumulative_acks := cong_cumul_acks (cong call) in
  let cwnd := cong_cwnd (cong call) in
  let summary :=
    set_flight_size
      (u32 (u32 (tx_top (tx call) - acks_hard_ack (tx call)) - nr_acks summary))
      summary in
  let timeo := test_bit RXRPC_CALL_RETRANS_TIMEOUT (flags call) in
  let call := set_flags (clear_bit RXRPC_CALL_RETRANS_TIMEOUT (flags call)) call in
  let '(call, summary, cwnd, cumulative_acks) :=
    if timeo then
      let summary := set_retrans_timeo true summary in
      let call :=
        upd_cong (set_cong_ssthresh (Z.max (flight_size summary / 2) 2)) call in
      let cwnd := 1 in
      if (cong_ssthresh (cong call) <=? cwnd)
         && match cong_mode (cong call) with
            | RXRPC_CALL_SLOW_START => true
            | _ => false
            end
      then
        (upd_cong (fun c => set_cong_tstamp (skb_tstamp skb)
                              (set_cong_mode RXRPC_CALL_CONGEST_AVOIDANCE c)) call,
         summary, cwnd, 0)
      else (call, summary, cwnd, cumulative_acks)
    else (call, summary, cwnd, cumulative_acks) in
  let cumulative_acks := cumulative_acks + nr_new_acks summary in
  let cumulative_acks := cumulative_acks + nr_rot_new_acks summary in
  let cumulative_acks := if 255 <? cumulative_acks then 255 else cumulative_acks in
  let summary :=
    set_sum_dup_acks (cong_dup_acks (cong call))
      (set_sum_cumulative_acks cumulative_acks
         (set_sum_ssthresh (cong_ssthresh (cong call))
            (set_sum_cwnd (cong_cwnd (cong call))
               (set_sum_mode (cong_mode (cong call)) summary)))) in
  let idle :=
    match cong_mode (cong call) with
    | RXRPC_CALL_SLOW_START | RXRPC_CALL_CONGEST_AVOIDANCE =>
      tx_last_sent (tx call) + 1000 * Z.shiftr (srtt_us (peer call)) 3 <? env_now env
    | _ => false
    end in
  let summary :=
    if idle then
      set_sum_cwnd (if 2190 <? RXRPC_TX_SMSS then 2
                    else if 1095 <? RXRPC_TX_SMSS then 3 else 4)
        (set_sum_mode RXRPC_CALL_SLOW_START summary)
    else summary in
  let '(call, out) :=
    match cong_mode (cong call) with
    | RXRPC_CALL_SLOW_START =>
      if saw_nacks summary
      then rxrpc_cong_packet_loss_detected call summary cwnd cumulative_acks false
      else
        let cwnd := if 0 <? sum_cumulative_acks summary then cwnd + 1 else cwnd in
        let call :=
          if cong_ssthresh (cong call) <=? cwnd
          then upd_cong (fun c => set_cong_tstamp (skb_tstamp skb)
                                    (set_cong_mode RXRPC_CALL_CONGEST_AVOIDANCE c)) call
          else call in
        rxrpc_cong_out call cwnd false
    | RXRPC_CALL_CONGEST_AVOIDANCE =>
      if saw_nacks summary
      then rxrpc_cong_packet_loss_detected call summary cwnd cumulative_acks false
      else if rtt_count (peer call) =? 0
      then rxrpc_cong_out call cwnd false
      else if skb_tstamp skb
                <? cong_tstamp (cong call) + 1000 * Z.shiftr (srtt_us (peer call)) 3
      then rxrpc_cong_out_no_clear_ca call cwnd cumulative_acks false
      else
        let call := upd_cong (set_cong_tstamp (skb_tstamp skb)) call in
        let cwnd := if cwnd <=? cumulative_acks then cwnd + 1 else cwnd in
        rxrpc_cong_out call cwnd false
    | RXRPC_CALL_PACKET_LOSS =>
      if negb (saw_nacks summary)
      then rxrpc_cong_resume_normality call skb cwnd false
      else if new_low_nack summary then
        let call := upd_cong (set_cong_dup_acks 1) call in
        let call :=
          if 1 <? cong_extra (cong call)
          then upd_cong (set_cong_extra 1) call
          else call in
        rxrpc_cong_send_extra_data call summary cwnd cumulative_acks false
      else
        let call := upd_cong (fun c => set_cong_dup_acks (cong_dup_acks c + 1) c) call in
        if cong_dup_acks (cong call) <? 3
        then rxrpc_cong_send_extra_data call summary cwnd cumulative_acks false
        else
          let call := upd_cong (set_cong_mode RXRPC_CALL_FAST_RETRANSMIT) call in
          let call :=
            upd_cong (set_cong_ssthresh (Z.max (flight_size summary / 2) 2)) call in
          let cwnd := cong_ssthresh (cong call) + 3 in
          let call := upd_cong (fun c => set_cong_dup_acks 0 (set_cong_extra 0 c)) call in
          rxrpc_cong_out call cwnd true
    | RXRPC_CALL_FAST_RETRANSMIT =>
      if negb (new_low_nack summary) then
        let cwnd := if nr_new_acks summary =? 0 then cwnd + 1 else cwnd in
        let call := upd_cong (fun c => set_cong_dup_acks (cong_dup_acks c + 1) c) call in
        if cong_dup_acks (cong call) =? 2
        then rxrpc_cong_out (upd_cong (set_cong_dup_acks 0) call) cwnd true
        else rxrpc_cong_out call cwnd false
      else
        let cwnd := cong_ssthresh (cong call) in
        if negb (saw_nacks summary)
        then rxrpc_cong_resume_normality call skb cwnd false
        else rxrpc_cong_out call cwnd false
    end in
  (call, summary, out).

(** ** Tx window rotation and the end of the Tx phase *)

(** The [list_for_each_entry_rcu] loop of [rxrpc_rotate_tx_window]. *)
Fixpoint rxrpc_rotate_loop (buf : list rxrpc_txbuf) (call : rxrpc_call)
    (to : Z) (summary : rxrpc_ack_summary) (rot_last : bool)
  : rxrpc_call * rxrpc_ack_summary * bool :=
  match buf with
  | [] => (call, summary, rot_last)
  | txb :: rest =>
    if before_eq (txb_seq txb) (acks_hard_ack (tx call))
    then rxrpc_rotate_loop rest call to summary rot_last
    else
      let summary := set_nr_rot_new_acks (nr_rot_new_acks summary + 1) summary in
      let '(call, rot_last) :=
        if txb_last txb
        then (set_flags (set_bit RXRPC_CALL_TX_LAST (flags call)) call, true)
        else (call, rot_last) in
      if txb_seq txb =? to then (call, summary, rot_last)
      else rxrpc_rotate_loop rest call to summary rot_last
  end.

(** Apply a hard ACK by advancing the Tx window. *)
Definition rxrpc_rotate_tx_window (call : rxrpc_call) (to : Z)
    (summary : rxrpc_ack_summary)
  : bool * rxrpc_call * rxrpc_ack_summary * list action :=
  let '(call, summary, rot_last) :=
    rxrpc_rotate_loop (tx_buffer (tx call)) call to summary false in
  let call :=
    if rot_last
    then set_flags (set_bit RXRPC_CALL_TX_ALL_ACKED (flags call)) call
    else call in
  let '(call, summary) :=
    if acks_lowest_nak (tx call) =? acks_hard_ack (tx call)
    then (upd_tx (set_acks_lowest_nak to) call, summary)
    else if after to (acks_lowest_nak (tx call))
    then (upd_tx (set_acks_lowest_nak to) call, set_new_low_nack true summary)
    else (call, summary) in
  let call := upd_tx (set_acks_hard_ack to) call in
  (rot_last, call, summary, [A_wake_up]).

(** End the transmission phase of a call. *)
Definition rxrpc_end_tx_phase (call : rxrpc_call) (reply_begun : bool)
    (abort_why : string) : outcome (bool * rxrpc_call * list action) :=
  if negb (test_bit RXRPC_CALL_TX_LAST (flags call)) then Bug
  else
    match state call with
    | RXRPC_CALL_CLIENT_SEND_REQUEST
    | RXRPC_CALL_CLIENT_AWAIT_REPLY =>
      if reply_begun
      then Done (true, set_state RXRPC_CALL_CLIENT_RECV_REPLY call, [])
      else Done (true, set_state RXRPC_CALL_CLIENT_AWAIT_REPLY call, [])
    | RXRPC_CALL_SERVER_AWAIT_ACK =>
      Done (true, rxrpc_call_completed call, [])
    | _ =>
      let '(call, out) := rxrpc_proto_abort abort_why call (tx_top (tx call)) in
      Done (false, call, out)
    end.

Definition empty_summary : rxrpc_ack_summary :=
  {| ack_reason := 0; nr_acks := 0; nr_new_acks := 0; nr_rot_new_acks := 0;
     new_low_nack := false; retrans_timeo := false; saw_nacks := false;
     flight_size := 0; sum_mode := RXRPC_CALL_SLOW_START; sum_cwnd := 0;
     sum_ssthresh := 0; sum_cumulative_acks := 0; sum_dup_acks := 0 |}.

(** Begin the reply reception phase of a call. *)
Definition rxrpc_receiving_reply (call : rxrpc_call)
  : outcome (bool * rxrpc_call * list action) :=
  let summary := empty_summary in
  let top := tx_top (tx call) in
  let rotated :=
    if negb (test_bit RXRPC_CALL_TX_LAST (flags call)) then
      let '(rot_last, call, _, out) := rxrpc_rotate_tx_window call top summary in
      if negb rot_last then
        let '(call, out') := rxrpc_proto_abort "TXL" call top in
        inl (call, out ++ out')
      else inr (call, out)
    else inr (call, []) in
  match rotated with
  | inl (call, out) => Done (false, call, out)
  | inr (call, out) =>
    '(ok, call, out') ← rxrpc_end_tx_phase call true "ETD";
    if negb ok then Done (false, call, out ++ out')
    else Done (true, set_tx_phase false call, out ++ out')
  end.

(** Process a DATA packet, adding the packet to the Rx ring. *)
Definition rxrpc_receive_data `{rxrpc_params} (env : rx_env)
    (call : rxrpc_call) (skb : sk_buff)
  : outcome (rxrpc_call * list action) :=
  let sp := skb_hdr skb in
  let serial := hdr_serial sp in
  let st := state call in
  let out_label (call : rxrpc_call) (skb : option sk_buff) :=
    [A_notify_socket] ++ rxrpc_free_skb skb in
  if state_nr RXRPC_CALL_COMPLETE <=? state_nr st
  then Done (call, out_label call (Some skb))
  else
    let unshared :=
      if negb (hdr_securityIndex sp =? 0) then
        match env_unshare env with
        | None => inl [A_eaten_skb skb]
        | Some true => inr [A_eaten_skb skb]
        | Some false => inr []
        end
      else inr [] in
    match unshared with
    | inl out => Done (call, out)
    | inr out0 =>
      '(ok, call, out1) ←
        match st with
        | RXRPC_CALL_CLIENT_SEND_REQUEST
        | RXRPC_CALL_CLIENT_AWAIT_REPLY => rxrpc_receiving_reply call
        | _ => Done (true, call, [])
        end;
      if negb ok then Done (call, out0 ++ out1 ++ out_label call (Some skb))
      else
        '(split, call, skb, out2) ← rxrpc_receive_split_jumbo env call skb;
        if negb split then
          let '(call, out3) := rxrpc_proto_abort "VLD" call (hdr_seq (skb_hdr skb)) in
          Done (call, out0 ++ out1 ++ out2 ++ out3 ++ out_label call (Some skb))
        else Done (call, out0 ++ out1 ++ out2 ++ out_label call None)
    end.

(** ** The receive path: ACK *)

(** See if there's a cached RTT probe to complete. *)
Definition rxrpc_complete_rtt_probe `{rxrpc_params} (call : rxrpc_call)
    (resp_time acked_serial ack_serial : Z) (type : rxrpc_rtt_rx_trace)
  : rxrpc_call * list action :=
  let avail := rtt_avail (rtt call) in
  fold_left
    (fun (acc : rxrpc_call * list action) (i : nat) =>
       let '(call, out) := acc in
       let pend := Z.of_nat i + RXRPC_CALL_RTT_PEND_SHIFT in
       if negb (Z.testbit avail pend) then (call, out)
       else
         let sent_at := default 0 (rtt_sent_at (rtt call) !! i) in
         let orig_serial := default 0 (rtt_serial (rtt call) !! i) in
         let '(call, out) :=
           if orig_serial =? acked_serial then
             let call :=
               upd_rtt (fun r => set_rtt_avail
                          (Z.setbit (Z.clearbit (rtt_avail r) pend) (Z.of_nat i)) r)
                 call in
             match type with
             | rxrpc_rtt_rx_cancel => (call, out)
             | _ =>
               (upd_peer (fun p => rxrpc_peer_add_rtt p sent_at resp_time) call,
                out ++ [A_peer_add_rtt type i acked_serial ack_serial sent_at resp_time])
             end
           else (call, out) in
         if after acked_serial orig_serial then
           (upd_rtt (fun r => set_rtt_avail
                       (Z.setbit (Z.clearbit (rtt_avail r) pend) (Z.of_nat i)) r)
              call, out)
         else (call, out))
    (seq 0 (length (rtt_serial (rtt call)))) (call, []).

(** Process the extra information that may be appended to an ACK
    packet. *)
Definition rxrpc_receive_ackinfo `{rxrpc_params} (call : rxrpc_call)
    (skb : sk_buff) (ackinfo : rxrpc_ackinfo) : rxrpc_call * list action :=
  let rwind := info_rwind ackinfo in
  let rwind := if RXRPC_TX_MAX_WINDOW <? rwind then RXRPC_TX_MAX_WINDOW else rwind in
  let '(call, wake) :=
    if negb (tx_winsize (tx call) =? rwind)
    then (upd_tx (set_tx_winsize rwind) call, tx_winsize (tx call) <? rwind)
    else (call, false) in
  let call :=
    if rwind <? cong_ssthresh (cong call)
    then upd_cong (set_cong_ssthresh rwind) call
    else call in
  let mtu := Z.min (info_rxMTU ackinfo) (info_maxMTU ackinfo) in
  let call :=
    if mtu <? maxdata (peer call)
    then upd_peer (fun p => set_mtu (mtu + hdrsize p) (set_maxdata mtu p)) call
    else call in
  (call, if wake then [A_wake_up] else []).

(** The [for (i = 0; i < nr_acks; i++)] loop of
    [rxrpc_receive_soft_acks]; [n] rounds are left. *)
Fixpoint rxrpc_soft_acks_loop (n : nat) (i : Z) (call : rxrpc_call)
    (acks : list Z) (seq : Z) (summary : rxrpc_ack_summary)
  : rxrpc_call * rxrpc_ack_summary :=
  match n with
  | O => (call, summary)
  | S n =>
    let '(call, summary) :=
      if default 0 (acks !! Z.to_nat i) =? RXRPC_ACK_TYPE_ACK then
        (call, set_nr_new_acks (nr_new_acks summary + 1)
                 (set_nr_acks (nr_acks summary + 1) summary))
      else
        let '(call, summary) :=
          if negb (saw_nacks summary)
             && negb (acks_lowest_nak (tx call) =? u32 (seq + i))
          then (upd_tx (set_acks_lowest_nak (u32 (seq + i))) call,
                set_new_low_nack true summary)
          else (call, summary) in
        (call, set_saw_nacks true summary) in
    rxrpc_soft_acks_loop n (i + 1) call acks seq summary
  end.

(** Process individual soft ACKs. *)
Definition rxrpc_receive_soft_acks (call : rxrpc_call) (acks : list Z)
    (seq nr_acks : Z) (summary : rxrpc_ack_summary)
  : rxrpc_call * rxrpc_ack_summary :=
  rxrpc_soft_acks_loop (Z.to_nat nr_acks) 0 call acks seq summary.

(** Return true if the ACK is valid - ie. it doesn't appear to have
    regressed with respect to the ack state conveyed by preceding
    ACKs. *)
Definition rxrpc_is_ack_valid (call : rxrpc_call) (first_pkt prev_pkt : Z)
  : bool :=
  let base := acks_first_seq (tx call) in
  if after first_pkt base then true
  else if before first_pkt base then false
  else if after_eq prev_pkt (acks_prev_seq (tx call)) then true
  else if after_eq prev_pkt (u32 (base + tx_winsize (tx call))) then false
  else true.

(** The end of [rxrpc_receive_ack], for a call that is or has just been
    transmitting (from line 942 on): the hard-ACK checks, the rotation
    of the Tx window, the soft ACKs and congestion management. *)
Definition rxrpc_receive_ack_tx `{rxrpc_params} (env : rx_env)
    (call : rxrpc_call) (skb : sk_buff) (ack : rxrpc_ackpacket)
    (summary : rxrpc_ack_summary) : outcome (rxrpc_call * list action) :=
  let sp := skb_hdr skb in
  let offset := sizeof_wire_header + sizeof_ackpacket in
  let ack_serial := hdr_serial sp in
  let acked_serial := ack_serial_f ack in
  let first_soft_ack := ack_firstPacket ack in
  let hard_ack := u32 (first_soft_ack - 1) in
  let nAcks := ack_nAcks ack in
  if before hard_ack (acks_hard_ack (tx call))
     || after hard_ack (tx_top (tx call))
  then Done (rxrpc_proto_abort "AKW" call 0)
  else if u32 (tx_top (tx call) - hard_ack) <? nAcks
  then Done (rxrpc_proto_abort "AKN" call 0)
  else
    let '(rot_last, call, summary, out2) :=
      if after hard_ack (acks_hard_ack (tx call))
      then rxrpc_rotate_tx_window call hard_ack summary
      else (false, call, summary, []) in
    if rot_last then
      '(_, call, out3) ← rxrpc_end_tx_phase call false "ETA";
      Done (call, out2 ++ out3)
    else
      let soft :=
        if 0 <? nAcks then
          if skb_len skb - nAcks <? offset then None
          else Some (rxrpc_receive_soft_acks call (skb_soft_acks skb)
                       first_soft_ack nAcks summary)
        else Some (call, summary) in
      match soft with
      | None =>
        let '(call, out) := rxrpc_proto_abort "XSA" call 0 in
        Done (call, out2 ++ out)
      | Some (call, summary) =>
        let out3 :=
          if test_bit RXRPC_CALL_TX_LAST (flags call)
             && (nr_acks summary =? u32 (tx_top (tx call) - hard_ack))
             && rxrpc_is_client_call call
          then [A_propose_ping ack_serial rxrpc_propose_ack_ping_for_lost_reply]
          else [] in
        let '(call, _, out4) :=
          rxrpc_congestion_management env call skb summary acked_serial in
        Done (call, out2 ++ out3 ++ out4)
      end.

(** [rxrpc_receive_ack] once the ACK has passed [rxrpc_is_ack_valid]
    (from line 902 on). *)
Definition rxrpc_receive_ack_valid `{rxrpc_params} (env : rx_env)
    (call : rxrpc_call) (skb : sk_buff) (ack : rxrpc_ackpacket)
    (summary : rxrpc_ack_summary) : outcome (rxrpc_call * list action) :=
  let offset := sizeof_wire_header + sizeof_ackpacket in
  let acked_serial := ack_serial_f ack in
  let first_soft_ack := ack_firstPacket ack in
  let prev_pkt := ack_previousPacket ack in
  let nAcks := ack_nAcks ack in
  let ioffset := offset + nAcks + 3 in
  let copied :=
    if ioffset + sizeof_ackinfo <=? skb_len skb then
      match skb_ackinfo skb with
      | None => None
      | Some info => Some (info_rxMTU info, skb_ackinfo skb)
      end
    else Some (0, None) in
  match copied with
  | None => Done (rxrpc_proto_abort "XAI" call 0)
  | Some (rxMTU, info) =>
    let call :=
      upd_tx (fun t => set_acks_prev_seq prev_pkt
                         (set_acks_first_seq first_soft_ack
                            (set_acks_latest_ts (skb_tstamp skb) t))) call in
    let call :=
      if ack_reason_f ack =? RXRPC_ACK_PING then call
      else if after acked_serial (acks_highest_serial (tx call))
      then upd_tx (set_acks_highest_serial acked_serial) call
      else call in
    let '(call, out1) :=
      match info with
      | Some info =>
        if negb (rxMTU =? 0) then rxrpc_receive_ackinfo call skb info
        else (call, [])
      | None => (call, [])
      end in
    if first_soft_ack =? 0 then
      let '(call, out) := rxrpc_proto_abort "AK0" call 0 in
      Done (call, out1 ++ out)
    else
      match state call with
      | RXRPC_CALL_CLIENT_SEND_REQUEST
      | RXRPC_CALL_CLIENT_AWAIT_REPLY
      | RXRPC_CALL_SERVER_SEND_REPLY
      | RXRPC_CALL_SERVER_AWAIT_ACK =>
        '(call, out) ← rxrpc_receive_ack_tx env call skb ack summary;
        Done (call, out1 ++ out)
      | _ => Done (call, out1)
      end
  end.

(** Process an ACK packet. *)
Definition rxrpc_receive_ack `{rxrpc_params} (env : rx_env)
    (call : rxrpc_call) (skb : sk_buff) : outcome (rxrpc_call * list action) :=
  let sp := skb_hdr skb in
  match skb_ack skb with
  | None => Done (rxrpc_proto_abort "XAK" call 0)
  | Some ack =>
    let ack_serial := hdr_serial sp in
    let acked_serial := ack_serial_f ack in
    let first_soft_ack := ack_firstPacket ack in
    let prev_pkt := ack_previousPacket ack in
    let reason := ack_reason_f ack in
    let summary :=
      set_ack_reason (if reason <? RXRPC_ACK__INVALID then reason
                      else RXRPC_ACK__INVALID) empty_summary in
    let '(call, out1) :=
      if reason =? RXRPC_ACK_PING_RESPONSE then
        rxrpc_complete_rtt_probe call (skb_tstamp skb) acked_serial ack_serial
          rxrpc_rtt_rx_ping_response
      else if reason =? RXRPC_ACK_REQUESTED then
        rxrpc_complete_rtt_probe call (skb_tstamp skb) acked_serial ack_serial
          rxrpc_rtt_rx_requested_ack
      else if negb (acked_serial =? 0) then
        rxrpc_complete_rtt_probe call (skb_tstamp skb) acked_serial ack_serial
          rxrpc_rtt_rx_cancel
      else (call, []) in
    let out2 :=
      if reason =? RXRPC_ACK_PING
      then [A_send_ACK RXRPC_ACK_PING_RESPONSE ack_serial
              rxrpc_propose_ack_respond_to_ping]
      else if has_flag (hdr_flags sp) RXRPC_REQUEST_ACK
      then [A_send_ACK RXRPC_ACK_REQUESTED ack_serial
              rxrpc_propose_ack_respond_to_ack]
      else [] in
    if (reason =? RXRPC_ACK_EXCEEDS_WINDOW) && (first_soft_ack =? 1)
       && (prev_pkt =? 0) && rxrpc_is_client_call call
    then Done (snd (rxrpc_set_call_completion call RXRPC_CALL_REMOTELY_ABORTED
                      0 (- ENETRESET)), out1 ++ out2)
    else if (reason =? RXRPC_ACK_OUT_OF_SEQUENCE) && (first_soft_ack =? 1)
            && (prev_pkt =? 0) && (acks_hard_ack (tx call) =? 0)
            && rxrpc_is_client_call call
    then Done (snd (rxrpc_set_call_completion call RXRPC_CALL_REMOTELY_ABORTED
                      0 (- ENETRESET)), out1 ++ out2)
    else if negb (rxrpc_is_ack_valid call first_soft_ack prev_pkt)
    then Done (call, out1 ++ out2)
    else
      '(call, out3) ← rxrpc_receive_ack_valid env call skb ack summary;
      Done (call, out1 ++ out2 ++ out3)
  end.

(** Process an ACKALL packet. *)
Definition rxrpc_receive_ackall (call : rxrpc_call) (skb : sk_buff)
  : outcome (rxrpc_call * list action) :=
  let '(rot_last, call, _, out) :=
    rxrpc_rotate_tx_window call (tx_top (tx call)) empty_summary in
  if rot_last then
    '(_, call, out') ← rxrpc_end_tx_phase call false "ETL";
    Done (call, out ++ out')
  else Done (call, out).

(** Process an ABORT packet directed at a call. *)
Definition rxrpc_receive_abort (call : rxrpc_call) (skb : sk_buff)
  : rxrpc_call :=
  let abort_code :=
    if 4 <=? skb_len skb then
      match skb_abort skb with
      | Some code => code
      | None => RX_CALL_DEAD
      end
    else RX_CALL_DEAD in
  snd (rxrpc_set_call_completion call RXRPC_CALL_REMOTELY_ABORTED
         abort_code (- ECONNABORTED)).

(** Process an incoming call packet. *)
Definition rxrpc_receive_call_packet `{rxrpc_params} (env : rx_env)
    (call : rxrpc_call) (skb : sk_buff) : outcome (rxrpc_call * list action) :=
  let type := hdr_type (skb_hdr skb) in
  if type =? RXRPC_PACKET_TYPE_DATA then rxrpc_receive_data env call skb
  else
    '(call, out) ←
      (if type =? RXRPC_PACKET_TYPE_ACK then rxrpc_receive_ack env call skb
       else if type =? RXRPC_PACKET_TYPE_BUSY then Done (call, [])
       else if type =? RXRPC_PACKET_TYPE_ABORT
       then Done (rxrpc_receive_abort call skb, [])
       else if type =? RXRPC_PACKET_TYPE_ACKALL then rxrpc_receive_ackall call skb
       else Done (call, []));
    Done (call, out ++ rxrpc_free_skb (Some skb)).

(** Process a call's receive queue. *)
Definition rxrpc_receive `{rxrpc_params} (env : rx_env) (call : rxrpc_call)
    (skb : sk_buff) : outcome (rxrpc_call * list action) :=
  let sp := skb_hdr skb in
  let call :=
    if negb (hdr_serviceId sp =? service_id call)
    then set_service_id (hdr_serviceId sp) call
    else call in
  let call :=
    if 0 <? s32 (hdr_serial sp - rx_serial call)
    then set_rx_serial (hdr_serial sp) call
    else call in
  rxrpc_receive_call_packet env call skb.

(** The packets of a call are processed one after the other, in arrival
    order; each comes with what the environment decides for it. *)
Fixpoint receive_all `{rxrpc_params} (pkts : list (rx_env * sk_buff))
    (call : rxrpc_call) : outcome (rxrpc_call * list action) :=
  match pkts with
  | [] => Done (call, [])
  | (env, skb) :: rest =>
    '(call, out) ← rxrpc_receive env call skb;
    '(call, out') ← receive_all rest call;
    Done (call, out ++ out')
  end.

(** ** Well-formed receive windows *)

Definition is_u32 (x : Z) : Prop := 0 <= x < 2^32.

(** [rxrpc_skb(skb)->hdr.seq] *)
Definition skb_seq (skb : sk_buff) : Z := hdr_seq (skb_hdr skb).

(** The two halves of the packed [ackr_window], as
    [rxrpc_receive_data_one] reads them. *)
Definition call_window (r : call_rx) : Z := lower_32_bits (ackr_window r).
Definition call_wtop (r : call_rx) : Z := upper_32_bits (ackr_window r).

(** The queue [q] holds 32-bit sequence numbers in ascending order, each
    at a distance from [window] in the range [lo, hi). *)
Fixpoint oos_sorted (window lo hi : Z) (q : list sk_buff) : Prop :=
  match q with
  | [] => True
  | s :: q' =>
    is_u32 (skb_seq s) /\
    lo <= u32 (skb_seq s - window) < hi /\
    oos_sorted window (u32 (skb_seq s - window) + 1) hi q'
  end.

(** The state of the receive window that the engine maintains: the
    window is at most [rx_winsize] wide and fits the SACK table; the
    out-of-sequence queue holds distinct packets strictly between
    [window] and [wtop], in ascending order; each of them has its SACK
    entry set. *)
Definition rx_wf `{rxrpc_params} (r : call_rx) : Prop :=
  1 <= rx_winsize r <= RXRPC_SACK_SIZE /\
  u32 (call_wtop r - call_window r) <= rx_winsize r /\
  oos_sorted (call_window r) 1 (u32 (call_wtop r - call_window r))
    (rx_oos_queue r) /\
  Forall (fun s => sack_get (ackr_sack_table r) (skb_seq s) <> 0) (rx_oos_queue r) /\
  length (ackr_sack_table r) = Z.to_nat RXRPC_SACK_SIZE.

(** The same as boolean functions, to check a given state. *)
Fixpoint oos_sortedb (window lo hi : Z) (q : list sk_buff) : bool :=
  match q with
  | [] => true
  | s :: q' =>
    (0 <=? skb_seq s) && (skb_seq s <? 2^32)
    && (lo <=? u32 (skb_seq s - window)) && (u32 (skb_seq s - window) <? hi)
    && oos_sortedb window (u32 (skb_seq s - window) + 1) hi q'
  end.

Definition rx_wfb `{rxrpc_params} (r : call_rx) : bool :=
  (1 <=? rx_winsize r) && (rx_winsize r <=? RXRPC_SACK_SIZE)
  && (u32 (call_wtop r - call_window r) <=? rx_winsize r)
  && oos_sortedb (call_window r) 1 (u32 (call_wtop r - call_window r)) (rx_oos_queue r)
  && forallb (fun s => negb (sack_get (ackr_sack_table r) (skb_seq s) =? 0))
       (rx_oos_queue r)
  && (Z.of_nat (length (ackr_sack_table r)) =? RXRPC_SACK_SIZE).

(** The two tests of [rxrpc_receive_ack] that take an ACK as the sign of
    a lost call (lines 871 and 884) and complete the call before the
    ACK is looked at any further. *)
Definition ack_reports_reset (call : rxrpc_call) (ack : rxrpc_ackpacket) : bool :=
  ((ack_reason_f ack =? RXRPC_ACK_EXCEEDS_WINDOW) && (ack_firstPacket ack =? 1)
   && (ack_previousPacket ack =? 0) && rxrpc_is_client_call call)
  || ((ack_reason_f ack =? RXRPC_ACK_OUT_OF_SEQUENCE) && (ack_firstPacket ack =? 1)
      && (ack_previousPacket ack =? 0) && (acks_hard_ack (tx call) =? 0)
      && rxrpc_is_client_call call).

(** An ACK is accepted when it gets to the validity check of line 895
    and passes it. *)
Definition ack_accepted (call : rxrpc_call) (ack : rxrpc_ackpacket) : bool :=
  negb (ack_reports_reset call ack)
  && rxrpc_is_ack_valid call (ack_firstPacket ack) (ack_previousPacket ack).

(** The states in which [rxrpc_receive_ack] applies an ACK to the Tx
    window (the switch of line 932). *)
Definition call_is_transmitting (call : rxrpc_call) : bool :=
  match state call with
  | RXRPC_CALL_CLIENT_SEND_REQUEST
  | RXRPC_CALL_CLIENT_AWAIT_REPLY
  | RXRPC_CALL_SERVER_SEND_REPLY
  | RXRPC_CALL_SERVER_AWAIT_ACK => true
  | _ => false
  end.

(** The last-packet checks at the head of [rxrpc_receive_data_one]
    (lines 393 to 408) let the packet through and find RX_LAST as the
    packet needs it: a LAST packet meets RX_LAST set and the recorded
    end of the data, another packet is not beyond a recorded end. *)
Definition passes_last_check (call : rxrpc_call) (skb : sk_buff) : bool :=
  if has_flag (hdr_flags (skb_hdr skb)) RXRPC_LAST_PACKET
  then test_bit RXRPC_CALL_RX_LAST (flags call)
       && (u32 (skb_seq skb + 1) =? call_wtop (rx call))
  else negb (test_bit RXRPC_CALL_RX_LAST (flags call)
             && after_eq (skb_seq skb) (call_wtop (rx call))).

(** The summary of an ACK that shows missing packets without a new
    lowest NAK, and for which [rxrpc_congestion_management] computes
    the given flight size. *)
Definition dup_nack_summary (call : rxrpc_call) (flight : Z)
    (summary : rxrpc_ack_summary) : Prop :=
  saw_nacks summary = true /\
  new_low_nack summary = false /\
  u32 (u32 (tx_top (tx call) - acks_hard_ack (tx call)) - nr_acks summary) = flight.

(** The two properties of the receive window that the specification
    states as invariants. *)
Definition window_inv (r : call_rx) : Prop :=
  before_eq (call_window r) (call_wtop r) = true /\
  u32 (call_wtop r - call_window r) <= rx_winsize r.

(** The reasons of the ACKs sent, and the number of resend requests, in
    a list of actions. *)
Definition sent_acks (out : list action) : list Z :=
  flat_map (fun a => match a with A_send_ACK r _ _ => [r] | _ => [] end) out.

Definition resends (out : list action) : nat :=
  length (List.filter (fun a => match a with A_resend => true | _ => false end) out).

(** Successive DATA packets handed to [rxrpc_receive_data_one]. *)
Fixpoint data_one_all `{rxrpc_params} (pkts : list sk_buff) (call : rxrpc_call)
  : outcome (rxrpc_call * list action) :=
  match pkts with
  | [] => Done (call, [])
  | skb :: rest =>
    '(call, out) ← rxrpc_receive_data_one call skb;
    '(call, out') ← data_one_all rest call;
    Done (call, out ++ out')
  end.

(** Successive ACK summaries handed to [rxrpc_congestion_management]. *)
Fixpoint congestion_all `{rxrpc_params} (env : rx_env) (skb : sk_buff)
    (acked_serial : Z) (sums : list rxrpc_ack_summary) (call : rxrpc_call)
  : rxrpc_call * list action :=
  match sums with
  | [] => (call, [])
  | summary :: rest =>
    let '(call, _, out) :=
      rxrpc_congestion_management env call skb summary acked_serial in
    let '(call, out') := congestion_all env skb acked_serial rest call in
    (call, out ++ out')
  end.

(** ** Concrete parameters, calls and packets *)

(** The values of the kernel the sources belong to.  The RTT estimator
    is not part of the sources; here a sample only counts. *)
Definition linux_params : rxrpc_params := {|
  RXRPC_SACK_SIZE := 256;
  RXRPC_TX_MAX_WINDOW := 128;
  RXRPC_TX_SMSS := 1412;
  RXRPC_JUMBO_DATALEN := 1412;
  RXRPC_JUMBO_SUBPKTLEN := 1416;
  RXRPC_CALL_RTT_PEND_SHIFT := 8;
  sizeof_wire_header := 28;
  sizeof_ackpacket := 18;
  sizeof_ackinfo := 16;
  rxrpc_peer_add_rtt := fun p _ _ => Build_rxrpc_peer (srtt_us p) (rtt_count p + 1)
                                       (maxdata p) (mtu p) (hdrsize p)
|}.

(** A service call that has just been set up: the window is [1, 1), the
    window size 4, nothing queued, nothing sent. *)
Definition fresh_rx : call_rx := {|
  ackr_window := ackr_pack 1 1;
  ackr_sack_table := replicate 256 0;
  ackr_nr_unacked := 0;
  rx_winsize := 4;
  rx_highest_seq := 0;
  nr_jumbo_bad := 0;
  rx_queue := [];
  rx_oos_queue := []
|}.

Definition fresh_tx : call_tx := {|
  tx_top := 0; tx_winsize := 16; tx_buffer := []; tx_last_sent := 0;
  acks_hard_ack := 0; acks_lowest_nak := 0; acks_first_seq := 0;
  acks_prev_seq := 0; acks_latest_ts := 0; acks_highest_serial := 0
|}.

Definition fresh_cong : call_cong := {|
  cong_mode := RXRPC_CALL_SLOW_START; cong_cwnd := 4; cong_ssthresh := 16;
  cong_dup_acks := 0; cong_cumul_acks := 0; cong_extra := 0; cong_tstamp := 0
|}.

Definition fresh_call : rxrpc_call := {|
  state := RXRPC_CALL_SERVER_RECV_REQUEST;
  completion := RXRPC_CALL_SUCCEEDED;
  abort_code := 0; error := 0;
  flags := set_bit RXRPC_CALL_IS_SERVICE 0;
  tx_phase := false; ackr_reason := 0; service_id := 1; rx_serial := 0;
  rx := fresh_rx; tx := fresh_tx; cong := fresh_cong;
  rtt := {| rtt_avail := 15; rtt_serial := [0; 0; 0; 0]; rtt_sent_at := [0; 0; 0; 0] |};
  peer := {| srtt_us := 0; rtt_count := 0; maxdata := 1412; mtu := 1440; hdrsize := 28 |}
|}.

(** A DATA packet with the given sequence number, header flags and
    embedded jumbo headers; its serial is 100 more than its sequence
    number. *)
Definition data_pkt (seq flags len : Z) (jumbo : list (Z * rxrpc_jumbo_header))
  : sk_buff := {|
  skb_hdr := {| hdr_type := RXRPC_PACKET_TYPE_DATA; hdr_flags := flags;
                hdr_seq := seq; hdr_serial := 100 + seq;
                hdr_securityIndex := 0; hdr_serviceId := 1; hdr_rsvd := 0 |};
  skb_offset := 28; skb_plen := len - 28; skb_len := len; skb_tstamp := 0;
  skb_jumbo := jumbo; skb_ack := None; skb_soft_acks := [];
  skb_ackinfo := None; skb_abort := None
|}.

(** An ACK packet with the given header and soft-ACK bytes, without
    ackinfo. *)
Definition ack_pkt (serial : Z) (ack : rxrpc_ackpacket) (acks : list Z) : sk_buff := {|
  skb_hdr := {| hdr_type := RXRPC_PACKET_TYPE_ACK; hdr_flags := 0;
                hdr_seq := 0; hdr_serial := serial;
                hdr_securityIndex := 0; hdr_serviceId := 1; hdr_rsvd := 0 |};
  skb_offset := 28; skb_plen := 18 + ack_nAcks ack + 3;
  skb_len := 28 + 18 + ack_nAcks ack + 3; skb_tstamp := 0;
  skb_jumbo := []; skb_ack := Some ack; skb_soft_acks := acks;
  skb_ackinfo := None; skb_abort := None
|}.

(** An environment in which every allocation succeeds. *)
Definition quiet_env : rx_env :=
  {| env_now := 0; env_unshare := Some false; env_clone_ok := fun _ => true |}.

(** An environment in which [skb_clone] fails. *)
Definition no_clone_env : rx_env :=
  {| env_now := 0; env_unshare := Some false; env_clone_ok := fun _ => false |}.

(** A call that has already counted four bad jumbo packets. *)
Definition jumbo_bad_call : rxrpc_call :=
  upd_rx (set_nr_jumbo_bad 4) fresh_call.

(** A jumbo packet of two subpackets, sequence numbers 1 and 2: the
    outer header carries the JUMBO flag, the embedded header of the
    second subpacket does not. *)
Definition jumbo_pkt : sk_buff :=
  data_pkt 1 RXRPC_JUMBO_PACKET (28 + 1416 + 100)
    [(28 + 1412, {| jhdr_flags := 0; jhdr_rsvd := 0 |})].

(** A client call in congestion avoidance with cwnd 10 and ssthresh 8
    that has sent packets 1 to 10, none of them hard-ACKed. *)
Definition ca_call : rxrpc_call :=
  set_state RXRPC_CALL_CLIENT_SEND_REQUEST
    (set_flags 0
       (upd_tx (fun t => Build_call_tx 10 (tx_winsize t)
                           (map (fun s => {| txb_seq := s; txb_last := s =? 10 |})
                                [1; 2; 3; 4; 5; 6; 7; 8; 9; 10])
                           (tx_last_sent t) 0 0 1 0 0 0)
          (upd_cong (fun c => set_cong_ssthresh 8 (set_cong_cwnd 10
                                (set_cong_mode RXRPC_CALL_CONGEST_AVOIDANCE c)))
             fresh_call))).

(** The summary of an ACK whose soft-ACK list acknowledges two packets
    and NAKs others, none of them a new lowest NAK; with ten packets
    outstanding the flight size is 8. *)
Definition nack_summary : rxrpc_ack_summary :=
  set_saw_nacks true (set_nr_new_acks 2 (set_nr_acks 2 empty_summary)).

(** [ca_call] after an ACK with first packet 5 has been accepted, and an
    ACK whose first packet has regressed to 3. *)
Definition advanced_call : rxrpc_call :=
  upd_tx (set_acks_first_seq 5) ca_call.

Definition regressed_ack : rxrpc_ackpacket :=
  {| ack_serial_f := 0; ack_firstPacket := 3; ack_previousPacket := 2;
     ack_reason_f := RXRPC_ACK_DELAY; ack_nAcks := 0 |}.

(** An ACK that hard-ACKs packet 11 of a call that has sent only ten. *)
Definition overshoot_ack : rxrpc_ackpacket :=
  {| ack_serial_f := 0; ack_firstPacket := 12; ack_previousPacket := 11;
     ack_reason_f := RXRPC_ACK_DELAY; ack_nAcks := 0 |}.

(** The call after DATA 1 and 3 have arrived: packet 3 waits in the
    out-of-sequence queue for packet 2. *)
Definition gap_call : rxrpc_call :=
  match @data_one_all linux_params [data_pkt 1 0 38 []; data_pkt 3 0 38 []] fresh_call with
  | Done (call, _) => call
  | _ => fresh_call
  end.

(** The call after DATA 3 has arrived: packet 3 waits for packets 1 and
    2. *)
Definition hole_call : rxrpc_call :=
  match @data_one_all linux_params [data_pkt 3 0 38 []] fresh_call with
  | Done (call, _) => call
  | _ => fresh_call
  end.

(** A subpacket of a jumbo with sequence number 1 (its header carries
    the JUMBO flag), and the replays that bring [nr_jumbo_bad] to 4:
    packet 1 is delivered, packet 3 is queued out of sequence, and
    packet 3 arrives four more times. *)
Definition jumbo_sub1 : sk_buff := data_pkt 1 RXRPC_JUMBO_PACKET 38 [].

Definition replayed_call : rxrpc_call :=
  match @data_one_all linux_params
          [jumbo_sub1; data_pkt 3 0 38 []; data_pkt 3 0 38 []; data_pkt 3 0 38 [];
           data_pkt 3 0 38 []; data_pkt 3 0 38 []] fresh_call with
  | Done (call, _) => call
  | _ => fresh_call
  end.

(** The call after DATA 3 and then DATA 2 carrying the LAST flag have
    arrived: both wait for DATA 1, RX_LAST is set, wtop is 4. *)
Definition early_last_call : rxrpc_call :=
  match @data_one_all linux_params
          [data_pkt 3 0 38 []; data_pkt 2 RXRPC_LAST_PACKET 38 []] fresh_call with
  | Done (call, _) => call
  | _ => fresh_call
  end.

(** [ca_call] after three and after four ACKs that each show missing
    packets without a new lowest NAK. *)
Definition after_three_nacks : rxrpc_call * list action :=
  @congestion_all linux_params quiet_env (ack_pkt 7 regressed_ack []) 0
    [nack_summary; nack_summary; nack_summary] ca_call.

Definition after_four_nacks : rxrpc_call * list action :=
  @congestion_all linux_params quiet_env (ack_pkt 7 regressed_ack []) 0
    [nack_summary; nack_summary; nack_summary; nack_summary] ca_call.

(** A DATA packet of a secured connection, and an environment in which
    [skb_unshare] fails. *)
Definition secure_pkt : sk_buff :=
  set_skb_hdr
    (Build_rxrpc_host_header RXRPC_PACKET_TYPE_DATA 0 1 101 2 1 0)
    (data_pkt 1 0 38 []).

Definition no_unshare_env : rx_env :=
  {| env_now := 0; env_unshare := None; env_clone_ok := fun _ => true |}.

(** [gap_call] after plain DATA 3, which waits in the out-of-sequence
    queue, has arrived again [n] times. *)
Definition duplicated_call (n : nat) : rxrpc_call :=
  match @data_one_all linux_params (replicate n (data_pkt 3 0 38 [])) gap_call with
  | Done (call, _) => call
  | _ => gap_call
  end.

(** DATA 2 as a subpacket of a jumbo: its header carries the JUMBO
    flag. *)
Definition jumbo_sub2 : sk_buff := data_pkt 2 RXRPC_JUMBO_PACKET 38 [].

(** * Further definitions *)

(** ** Transmit buffers *)

(** The buffers of [buf] carry the sequence numbers [first], [first]+1,
    ... in this order. *)
Fixpoint tx_consecutive (first : Z) (buf : list rxrpc_txbuf) : Prop :=
  match buf with
  | [] => True
  | txb :: rest => txb_seq txb = u32 first /\ tx_consecutive (first + 1) rest
  end.

(** ** Frames *)

(** The fields of a call that only its completion writes. *)
Definition same_result (c c' : rxrpc_call) : Prop :=
  state c' = state c /\ completion c' = completion c /\
  abort_code c' = abort_code c /\ error c' = error c.

(** The fields of a call that only the dispatcher and the reply edge write. *)
Definition same_ident (c c' : rxrpc_call) : Prop :=
  service_id c' = service_id c /\ rx_serial c' = rx_serial c /\
  tx_phase c' = tx_phase c /\ ackr_reason c' = ackr_reason c.


(** ** More calls and packets *)

(** Buffers of a request of ten packets, the tenth being the last. *)
Definition request_bufs (l : list Z) : list rxrpc_txbuf :=
  map (fun s => {| txb_seq := s; txb_last := s =? 10 |}) l.

(** [ca_call] once packets 1 and 2 have been hard-ACKed; their buffers
    are still in the list. *)
Definition half_acked_call : rxrpc_call :=
  upd_tx (set_acks_hard_ack 2) ca_call.

(** A client call that has queued packets 1 to 3 of a longer request. *)
Definition sending_call : rxrpc_call :=
  upd_tx (fun t => Build_call_tx 3 (tx_winsize t)
                     (map (fun s => {| txb_seq := s; txb_last := false |}) [1; 2; 3])
                     (tx_last_sent t) 0 0 1 0 0 0) ca_call.

(** ** Soft-ACK arrays *)

(** The position of the first entry of a soft-ACK array that is not an
    ACK, and the number of entries that are ACKs. *)
Fixpoint first_nak (acks : list Z) : option Z :=
  match acks with
  | [] => None
  | a :: rest =>
    if a =? RXRPC_ACK_TYPE_ACK then option_map Z.succ (first_nak rest) else Some 0
  end.

Definition count_acks (acks : list Z) : Z :=
  Z.of_nat (length (List.filter (fun a => a =? RXRPC_ACK_TYPE_ACK) acks)).

(** ** RTT probe slots *)

(** Slot [i] of the probe table waits for a response ([rtt_pending]) or
    is free for a new probe ([rtt_free]): the two bit sets of
    [rtt_avail]. *)
Definition rtt_pending `{rxrpc_params} (call : rxrpc_call) (i : nat) : bool :=
  Z.testbit (rtt_avail (rtt call)) (Z.of_nat i + RXRPC_CALL_RTT_PEND_SHIFT).

Definition rtt_free (call : rxrpc_call) (i : nat) : bool :=
  Z.testbit (rtt_avail (rtt call)) (Z.of_nat i).

(** An ACK of [acked_serial] answers the probe of slot [i], or one sent
    after it. *)
Definition rtt_retires (call : rxrpc_call) (acked_serial : Z) (i : nat) : bool :=
  let orig_serial := default 0 (rtt_serial (rtt call) !! i) in
  (orig_serial =? acked_serial) || after acked_serial orig_serial.

(** The RTT sample that an ACK of [acked_serial] takes from slot [i]:
    one if the slot is pending with that very serial and the ACK is not
    one that only cancels probes. *)
Definition rtt_sample `{rxrpc_params} (call : rxrpc_call)
    (resp_time acked_serial ack_serial : Z) (type : rxrpc_rtt_rx_trace) (i : nat)
  : list action :=
  if rtt_pending call i && (default 0 (rtt_serial (rtt call) !! i) =? acked_serial)
  then match type with
       | rxrpc_rtt_rx_cancel => []
       | _ => [A_peer_add_rtt type i acked_serial ack_serial
                 (default 0 (rtt_sent_at (rtt call) !! i)) resp_time]
       end
  else [].

(** A call whose slot 0 holds a probe sent with serial 7 at time 100 and
    not yet answered; the other three slots are free. *)
Definition probing_call : rxrpc_call :=
  upd_rtt (fun _ => {| rtt_avail := 14 + 256; rtt_serial := [7; 0; 0; 0];
                       rtt_sent_at := [100; 0; 0; 0] |}) fresh_call.

(** [ca_call] after its retransmission timer has expired. *)
Definition timed_out_call : rxrpc_call :=
  set_flags (set_bit RXRPC_CALL_RETRANS_TIMEOUT (flags ca_call)) ca_call.

(** ** Kinds of actions *)

(** The actions by which ACK processing works on the transmit side:
    none of them answers the peer with an ACK, and none disposes of a
    packet or wakes the socket. *)
Definition tx_side_action (a : action) : bool :=
  match a with
  | A_propose_ping _ _ | A_abort _ _ _ _ | A_send_abort_packet | A_resend
  | A_wake_up | A_peer_add_rtt _ _ _ _ _ _ => true
  | _ => false
  end.

(** An RTT sample handed to the peer's estimator. *)
Definition is_rtt_sample (a : action) : bool :=
  match a with
  | A_peer_add_rtt _ _ _ _ _ _ => true
  | _ => false
  end.

(** The buffers that a list of actions frees or eats. *)
Definition released (out : list action) : list sk_buff :=
  flat_map (fun a => match a with
                     | A_free_skb s | A_eaten_skb s => [s]
                     | _ => []
                     end) out.

(** The ACK that [rxrpc_receive_ack] sends in answer to an ACK packet. *)
Definition reactive_ack (skb : sk_buff) (ack : rxrpc_ackpacket) : list action :=
  if ack_reason_f ack =? RXRPC_ACK_PING
  then [A_send_ACK RXRPC_ACK_PING_RESPONSE (hdr_serial (skb_hdr skb))
          rxrpc_propose_ack_respond_to_ping]
  else if has_flag (hdr_flags (skb_hdr skb)) RXRPC_REQUEST_ACK
  then [A_send_ACK RXRPC_ACK_REQUESTED (hdr_serial (skb_hdr skb))
          rxrpc_propose_ack_respond_to_ack]
  else [].

(** All of a call but the RTT probe table and the peer record. *)
Definition same_but_rtt_peer (c c' : rxrpc_call) : Prop :=
  same_result c c' /\ same_ident c c' /\ flags c' = flags c /\
  rx c' = rx c /\ tx c' = tx c /\ cong c' = cong c.

(** A call that has been completed, and an ABORT packet with abort code
    17. *)
Definition completed_call : rxrpc_call :=
  (rxrpc_set_call_completion fresh_call RXRPC_CALL_SUCCEEDED 0 0).2.

Definition abort_pkt : sk_buff := {|
  skb_hdr := {| hdr_type := RXRPC_PACKET_TYPE_ABORT; hdr_flags := 0;
                hdr_seq := 0; hdr_serial := 9;
                hdr_securityIndex := 0; hdr_serviceId := 1; hdr_rsvd := 0 |};
  skb_offset := 28; skb_plen := 4; skb_len := 32; skb_tstamp := 0;
  skb_jumbo := []; skb_ack := None; skb_soft_acks := [];
  skb_ackinfo := None; skb_abort := Some 17
|}.

(** A PING ACK. *)
Definition ping_ack : rxrpc_ackpacket :=
  {| ack_serial_f := 0; ack_firstPacket := 1; ack_previousPacket := 0;
     ack_reason_f := RXRPC_ACK_PING; ack_nAcks := 0 |}.

(** The head of [rxrpc_receive] (lines 1108 to 1111): the call follows
    the service ID of the packet and keeps the latest serial number
    seen. *)
Definition rxrpc_receive_note (call : rxrpc_call) (skb : sk_buff) : rxrpc_call :=
  let sp := skb_hdr skb in
  let call :=
    if negb (hdr_serviceId sp =? service_id call)
    then set_service_id (hdr_serviceId sp) call
    else call in
  if 0 <? s32 (hdr_serial sp - rx_serial call)
  then set_rx_serial (hdr_serial sp) call
  else call.

(** ** Delivery and the SACK table *)

(** The packets of [q] carry the sequence numbers [first], [first]+1,
    ... in this order. *)
Fixpoint seq_consecutive (first : Z) (q : list sk_buff) : Prop :=
  match q with
  | [] => True
  | s :: q' => skb_seq s = u32 first /\ seq_consecutive (first + 1) q'
  end.

(** Since the window stood at [w0], the receive queue has been given
    exactly the packets from [w0] up to the window, in order. *)
Definition rx_delivered (w0 : Z) (r : call_rx) : Prop :=
  seq_consecutive w0 (rx_queue r) /\
  call_window r = u32 (w0 + Z.of_nat (length (rx_queue r))).

(** Every SACK entry that is set belongs to a packet of the
    out-of-sequence queue. *)
Definition sack_backed `{rxrpc_params} (r : call_rx) : Prop :=
  forall seq, sack_get (ackr_sack_table r) seq <> 0 ->
    exists s, In s (rx_oos_queue r) /\ sack_index (skb_seq s) = sack_index seq.

(** The invariant of a run: the window is well formed, the receive queue
    is the initial queue [q0] followed by more packets, and it holds the
    packets from [w0] up to the window in order. *)
Definition delivery_inv `{rxrpc_params} (w0 : Z) (q0 : list sk_buff) (r : call_rx) : Prop :=
  rx_wf r /\ rx_delivered w0 r /\ exists more, rx_queue r = q0 ++ more.


(** [sack_backed] as a boolean function, to check a given state. *)
Definition sack_backedb `{rxrpc_params} (r : call_rx) : bool :=
  forallb (fun i =>
             (default 0 (ackr_sack_table r !! i) =? 0)
             || existsb (fun s => Nat.eqb (sack_index (skb_seq s)) i) (rx_oos_queue r))
    (seq 0 (length (ackr_sack_table r))).

(** ** What a step of the receive path keeps *)

(** Call flags are only ever set, but for RETRANS_TIMEOUT, which
    congestion management consumes. *)
Definition flags_grow (w w' : Z) : Prop :=
  forall f, f <> RXRPC_CALL_RETRANS_TIMEOUT ->
    test_bit f w = true -> test_bit f w' = true.

(** From [c] to [c']: the identity of the call and what has been
    transmitted are untouched, flags are only set, and the span of
    transmitted packets that are not yet hard-ACKed does not grow. *)
Definition receive_frame (c c' : rxrpc_call) : Prop :=
  service_id c' = service_id c /\ rx_serial c' = rx_serial c /\
  tx_top (tx c') = tx_top (tx c) /\ tx_buffer (tx c') = tx_buffer (tx c) /\
  tx_last_sent (tx c') = tx_last_sent (tx c) /\
  flags_grow (flags c) (flags c') /\
  u32 (tx_top (tx c') - acks_hard_ack (tx c'))
    <= u32 (tx_top (tx c) - acks_hard_ack (tx c)).

(** ** Implicit end of a call *)

(** Handle a new service call on a channel implicitly completing the
    preceding call on that channel.  [rxrpc_input_call_packet] lives
    outside receive.c and is taken as an argument; the boolean of the
    result tells whether [__rxrpc_disconnect_call] was reached. *)
Definition rxrpc_implicit_end_call
    (rxrpc_input_call_packet :
       rxrpc_call -> sk_buff -> outcome (rxrpc_call * list action))
    (call : rxrpc_call) (skb : sk_buff)
  : outcome (rxrpc_call * list action * bool) :=
  if state_nr (state call) <? state_nr RXRPC_CALL_COMPLETE then
    let call := set_flags (set_bit RXRPC_CALL_IS_DEAD (flags call)) call in
    '(call, out) ← rxrpc_input_call_packet call skb;
    let '(call, out') :=
      match state call with
      | RXRPC_CALL_SERVER_AWAIT_ACK => (rxrpc_call_completed call, [])
      | RXRPC_CALL_COMPLETE => (call, [])
      | _ =>
        let '(ok, call, out) :=
          rxrpc_abort_call "IMP" call 0 RX_CALL_DEAD (- ESHUTDOWN) in
        (call, out ++ (if ok then [A_send_abort_packet] else []))
      end in
    Done (call, out ++ out', true)
  else Done (call, [], false).

(** A jumbo packet that is too short to hold one subpacket. *)
Definition short_jumbo_pkt : sk_buff := data_pkt 1 RXRPC_JUMBO_PACKET 128 [].

(** What [rxrpc_receive] makes of DATA 1 on a fresh call that has been
    marked dead. *)
Definition dead_step : rxrpc_call * list action :=
  match @rxrpc_receive linux_params quiet_env
          (set_flags (set_bit RXRPC_CALL_IS_DEAD (flags fresh_call)) fresh_call)
          (data_pkt 1 0 38 []) with
  | Done r => r
  | _ => (fresh_call, [])
  end.

(** * Properties *)

(** ** Sequence arithmetic *)

(** Goals about distances modulo 2^32 go to [lia] once the remainders
    are named. *)
Ltac mod_lia :=
  unfold u32, s32 in *;
  change (2^32) with 4294967296 in *; change (2^31) with 2147483648 in *;
  Z.to_euclidean_division_equations; lia.

(** The four comparisons in terms of the distance modulo 2^32. *)
Lemma after_iff a b : after a b = true <-> 1 <= u32 (a - b) < 2^31.
Proof.
  unfold after, s32, u32.
  destruct (Z.ltb_spec ((a - b) mod 2 ^ 32) (2^31)); rewrite Z.ltb_lt;
  pose proof (Z.mod_pos_bound (a - b) (2^32) ltac:(lia)); lia.
Qed.

Lemma before_iff a b : before a b = true <-> 2^31 <= u32 (a - b).
Proof.
  unfold before, s32, u32.
  destruct (Z.ltb_spec ((a - b) mod 2 ^ 32) (2^31)); rewrite Z.ltb_lt;
  pose proof (Z.mod_pos_bound (a - b) (2^32) ltac:(lia)); lia.
Qed.

Lemma after_eq_iff a b : after_eq a b = true <-> u32 (a - b) < 2^31.
Proof.
  unfold after_eq, s32, u32.
  destruct (Z.ltb_spec ((a - b) mod 2 ^ 32) (2^31)); rewrite Z.leb_le;
  pose proof (Z.mod_pos_bound (a - b) (2^32) ltac:(lia)); lia.
Qed.

Lemma before_eq_iff a b : before_eq a b = true <-> u32 (a - b) = 0 \/ 2^31 <= u32 (a - b).
Proof.
  unfold before_eq, s32, u32.
  destruct (Z.ltb_spec ((a - b) mod 2 ^ 32) (2^31)); rewrite Z.leb_le;
  pose proof (Z.mod_pos_bound (a - b) (2^32) ltac:(lia)); lia.
Qed.

(** Packing a window and reading it back. *)
Lemma pack_lower window wtop : 0 <= window < 2^32 -> 0 <= wtop < 2^32 ->
  lower_32_bits (ackr_pack window wtop) = window.
Proof.
  intros. unfold ackr_pack, lower_32_bits, u64. rewrite Z.land_ones by lia.
  rewrite Z.shiftl_mul_pow2 by lia. rewrite (Z.mod_small (wtop * 2^32)) by lia.
  rewrite <- Z.land_ones by lia. rewrite Z.land_lor_distr_l.
  rewrite !Z.land_ones by lia. rewrite Z.mod_mul by lia. rewrite Z.lor_0_l.
  apply Z.mod_small; lia.
Qed.

Lemma pack_upper window wtop : 0 <= window < 2^32 -> 0 <= wtop < 2^32 ->
  upper_32_bits (ackr_pack window wtop) = wtop.
Proof.
  intros. unfold ackr_pack, upper_32_bits, u64.
  rewrite Z.shiftl_mul_pow2 by lia. rewrite (Z.mod_small (wtop * 2^32)) by lia.
  rewrite Z.shiftr_lor. rewrite !Z.shiftr_div_pow2 by lia.
  rewrite Z.div_mul by lia. rewrite (Z.div_small window) by lia. rewrite Z.lor_0_r.
  rewrite Z.land_ones by lia. apply Z.mod_small; lia.
Qed.
Lemma u32_range x : 0 <= u32 x < 2^32.
Proof. unfold u32. apply Z.mod_pos_bound. lia. Qed.

Lemma lower_32_bits_range n : is_u32 (lower_32_bits n).
Proof. unfold is_u32, lower_32_bits. rewrite Z.land_ones by lia. apply Z.mod_pos_bound. lia. Qed.
Lemma upper_32_bits_range n : is_u32 (upper_32_bits n).
Proof. unfold is_u32, upper_32_bits. rewrite Z.land_ones by lia. apply Z.mod_pos_bound. lia. Qed.

Lemma mod_eq_divide a b n : 0 < n -> a mod n = b mod n -> (n | a - b).
Proof.
  intros Hn E. apply Z.mod_divide; [lia|].
  rewrite Zminus_mod, E, Z.sub_diag. apply Zmod_0_l.
Qed.

(** ** The SACK table *)

Section SackTable.
Context `{P : rxrpc_params}.
Hypothesis Pok : params_ok.

Lemma sack_size_pos : 0 < RXRPC_SACK_SIZE <= 2^30.
Proof.
  destruct Pok as [(k & Hk & ->) _]. split.
  - apply Z.pow_pos_nonneg; lia.
  - apply Z.pow_le_mono_r; lia.
Qed.

Lemma sack_size_divides : (RXRPC_SACK_SIZE | 2^32).
Proof.
  destruct Pok as [(k & Hk & ->) _]. exists (2^(32 - k)).
  rewrite <- Z.pow_add_r by lia. f_equal. lia.
Qed.

Lemma sack_index_ne s s' :
  0 < u32 (s - s') < RXRPC_SACK_SIZE -> sack_index s <> sack_index s'.
Proof.
  intros Hd E. pose proof sack_size_pos as Hp. unfold sack_index in E.
  apply Z2Nat.inj in E; try (apply Z.mod_pos_bound; lia).
  apply mod_eq_divide in E; [|lia].
  assert (D : (RXRPC_SACK_SIZE | u32 (s - s'))).
  { unfold u32. rewrite Z.mod_eq by lia. apply Z.divide_sub_r; [assumption|].
    apply Z.divide_mul_l. apply sack_size_divides. }
  apply Z.divide_pos_le in D; lia.
Qed.

Lemma sack_index_lt (tbl : list Z) s :
  length tbl = Z.to_nat RXRPC_SACK_SIZE -> (sack_index s < length tbl)%nat.
Proof.
  intros ->. pose proof sack_size_pos. unfold sack_index.
  apply Z2Nat.inj_lt; try lia; apply Z.mod_pos_bound; lia.
Qed.

Lemma sack_get_set_eq (tbl : list Z) s v :
  length tbl = Z.to_nat RXRPC_SACK_SIZE -> sack_get (sack_set tbl s v) s = v.
Proof.
  intros L. unfold sack_get, sack_set.
  rewrite list_lookup_insert_eq; [reflexivity|]. apply sack_index_lt; assumption.
Qed.

Lemma sack_get_set_ne (tbl : list Z) s s' v :
  sack_index s <> sack_index s' -> sack_get (sack_set tbl s v) s' = sack_get tbl s'.
Proof.
  intros N. unfold sack_get, sack_set. rewrite list_lookup_insert_ne; auto.
Qed.

Lemma sack_set_length (tbl : list Z) s v : length (sack_set tbl s v) = length tbl.
Proof. unfold sack_set. apply length_insert. Qed.

End SackTable.

(** ** The out-of-sequence queue *)

Lemma oos_sorted_weaken w hi hi' q : hi <= hi' ->
  forall lo lo', oos_sorted w lo hi q -> lo' <= lo -> oos_sorted w lo' hi' q.
Proof.
  intros Hh. induction q as [|s q IH]; simpl; [trivial|].
  intros lo lo' (Hs & Hr & Hq) Hl. repeat split; try lia; try apply Hs.
  eapply IH; [eassumption|lia].
Qed.

Lemma oos_sorted_rebase w0 k hi q : is_u32 w0 -> 0 <= k -> hi <= 2^32 ->
  forall lo, k <= lo -> oos_sorted w0 lo hi q ->
  oos_sorted (u32 (w0 + k)) (lo - k) (hi - k) q.
Proof.
  intros Hw Hk Hh. induction q as [|s q IH]; simpl; [trivial|].
  intros lo Hl (Hs & Hr & Hq).
  assert (E : u32 (skb_seq s - u32 (w0 + k)) = u32 (skb_seq s - w0) - k).
  { unfold is_u32 in *. mod_lia. }
  rewrite E. repeat split; try lia; try apply Hs.
  replace (u32 (skb_seq s - w0) - k + 1) with (u32 (skb_seq s - w0) + 1 - k) by lia.
  apply IH; [lia|assumption].
Qed.

Lemma oos_insert_Forall (Q : sk_buff -> Prop) skb seq q :
  Q skb -> Forall Q q -> Forall Q (rxrpc_oos_insert skb seq q).
Proof.
  intros Hs Hq. induction Hq as [|s q Hs' Hq IH]; simpl.
  - constructor; [assumption|constructor].
  - destruct (after _ _); repeat constructor; assumption.
Qed.

Lemma oos_insert_sorted w0 skb T T' :
  is_u32 w0 -> is_u32 (skb_seq skb) -> T <= T' -> T' <= 2^31 ->
  u32 (skb_seq skb - w0) < T' ->
  forall q lo, oos_sorted w0 lo T q -> lo <= u32 (skb_seq skb - w0) ->
    Forall (fun s => skb_seq s <> skb_seq skb) q ->
    oos_sorted w0 lo T' (rxrpc_oos_insert skb (skb_seq skb) q).
Proof.
  intros Hw Hs HT HT' Hd. induction q as [|s q IH]; simpl.
  - intros lo _ Hl _. repeat split; try lia; apply Hs.
  - intros lo (Hu & Hr & Hq) Hl Hne. inversion Hne as [|? ? Hne1 Hne2]; subst.
    destruct (after (hdr_seq (skb_hdr s)) (skb_seq skb)) eqn:E.
    + apply after_iff in E. fold (skb_seq s) in E. simpl.
      assert (u32 (skb_seq skb - w0) < u32 (skb_seq s - w0)).
      { unfold is_u32 in *. mod_lia. }
      repeat split; try lia; try apply Hs; try apply Hu.
      eapply oos_sorted_weaken; [| eassumption | lia]. lia.
    + assert (N : ~ (1 <= u32 (skb_seq s - skb_seq skb) < 2^31)).
      { intros C. apply after_iff in C. unfold skb_seq in C at 1. congruence. }
      assert (u32 (skb_seq s - w0) < u32 (skb_seq skb - w0)).
      { unfold is_u32 in *. mod_lia. }
      simpl. repeat split; try lia; try apply Hu.
      apply IH; [assumption | lia | assumption].
Qed.

Lemma reset_sack_total `{P : rxrpc_params} window fuel : forall tbl rf,
  u32 (window - rf) <= Z.of_nat fuel ->
  exists tbl', rxrpc_reset_sack fuel tbl rf window = Done tbl'.
Proof.
  induction fuel as [|fuel IH]; intros tbl rf Hd; simpl.
  - destruct (before _ _) eqn:E; [|eauto].
    apply before_iff in E. exfalso. mod_lia.
  - destruct (before _ _) eqn:E; [|eauto].
    apply before_iff in E. apply IH. mod_lia.
Qed.

Section SackReset.
Context `{P : rxrpc_params}.
Hypothesis Pok : params_ok.

Lemma reset_sack_spec window : forall (n : nat) (tbl : list Z) rf,
  is_u32 rf -> u32 (window - rf) = Z.of_nat (S n) -> Z.of_nat (S n) <= 2^31 ->
  forall fuel tbl', rxrpc_reset_sack fuel tbl rf window = Done tbl' ->
    length tbl' = length tbl /\
    forall s, (forall j, 0 <= j <= Z.of_nat n ->
                 sack_index s <> sack_index (u32 (rf + j))) ->
      sack_get tbl' s = sack_get tbl s.
Proof.
  induction n as [|n IH]; intros tbl rf Hrf Hd Hb fuel tbl' R.
  - destruct fuel; simpl in R.
    + destruct (before _ _) eqn:E; [discriminate|]. injection R as <-.
      split; [apply sack_set_length|]. intros s Hs. apply sack_get_set_ne.
      specialize (Hs 0 ltac:(lia)). replace (u32 (rf + 0)) with rf in Hs; [congruence|].
      unfold is_u32 in *; mod_lia.
    + destruct (before _ _) eqn:E.
      * apply before_iff in E. exfalso. unfold is_u32 in *. mod_lia.
      * injection R as <-.
        split; [apply sack_set_length|]. intros s Hs. apply sack_get_set_ne.
        specialize (Hs 0 ltac:(lia)). replace (u32 (rf + 0)) with rf in Hs; [congruence|].
        unfold is_u32 in *; mod_lia.
  - destruct fuel; simpl in R.
    + destruct (before _ _) eqn:E; [discriminate|].
      exfalso. assert (before (u32 (rf + 1)) window = true); [|congruence].
      apply before_iff. unfold is_u32 in *. mod_lia.
    + destruct (before _ _) eqn:E.
      * apply IH in R; try (unfold is_u32 in *; mod_lia).
        destruct R as [L R]. rewrite L, sack_set_length. split; [reflexivity|].
        intros s Hs. rewrite R.
        -- apply sack_get_set_ne. specialize (Hs 0 ltac:(lia)).
           replace (u32 (rf + 0)) with rf in Hs; [congruence|].
           unfold is_u32 in *; mod_lia.
        -- intros j Hj. specialize (Hs (j + 1) ltac:(lia)).
           replace (u32 (u32 (rf + 1) + j)) with (u32 (rf + (j + 1))); [assumption|].
           mod_lia.
      * exfalso. assert (before (u32 (rf + 1)) window = true); [|congruence].
        apply before_iff. unfold is_u32 in *. mod_lia.
Qed.

End SackReset.

Lemma ackr_pack_window window wtop : is_u32 window -> is_u32 wtop ->
  lower_32_bits (ackr_pack window wtop) = window.
Proof. apply pack_lower. Qed.

Lemma ackr_pack_wtop window wtop : is_u32 window -> is_u32 wtop ->
  upper_32_bits (ackr_pack window wtop) = wtop.
Proof. apply pack_upper. Qed.

Lemma drain_spec w0 wtop T1 : is_u32 w0 -> T1 <= 2^31 ->
  forall q call k reset,
    rx_oos_queue (rx call) = q -> oos_sorted w0 k T1 q -> 1 <= k <= T1 ->
    ackr_window (rx call) = ackr_pack (u32 (w0 + k)) wtop ->
    exists call' k',
      rxrpc_drain_oos q call (u32 (w0 + k)) wtop reset =
        (call', u32 (w0 + k'),
         match reset with
         | Some r => Some r
         | None => if k' =? k then None else Some (u32 (w0 + k))
         end) /\
      k <= k' <= T1 /\
      oos_sorted w0 (k' + 1) T1 (rx_oos_queue (rx call')) /\
      (exists pre, q = pre ++ rx_oos_queue (rx call')) /\
      ackr_sack_table (rx call') = ackr_sack_table (rx call) /\
      rx_winsize (rx call') = rx_winsize (rx call) /\
      ackr_window (rx call') = ackr_pack (u32 (w0 + k')) wtop.
Proof.
  intros Hw HT. induction q as [|s q IH]; intros call k reset Hq Hs Hk Ha; simpl.
  - exists call, k. rewrite Z.eqb_refl, Hq. split_and!; try lia; try assumption; try reflexivity.
    + destruct reset; reflexivity.
    + exists []; reflexivity.
  - destruct Hs as (Hu & Hr & Hs). fold (skb_seq s).
    destruct (after (skb_seq s) (u32 (w0 + k))) eqn:E.
    + exists call, k. rewrite Z.eqb_refl, Hq. apply after_iff in E.
      assert (k < u32 (skb_seq s - w0)) by (unfold is_u32 in *; mod_lia).
      split_and!; try lia; try assumption; try reflexivity.
      * destruct reset; reflexivity.
      * simpl. split_and!; try lia; try apply Hu. assumption.
      * exists []; reflexivity.
    + assert (N : ~ (1 <= u32 (skb_seq s - u32 (w0 + k)) < 2^31)).
      { intros C. apply after_iff in C. congruence. }
      assert (Ek : u32 (skb_seq s - w0) = k) by (unfold is_u32 in *; mod_lia).
      assert (Es : skb_seq s = u32 (w0 + k)) by (unfold is_u32 in *; mod_lia).
      replace (u32 (u32 (w0 + k) + 1)) with (u32 (w0 + (k + 1))) by mod_lia.
      edestruct (IH (rxrpc_receive_queue_data (upd_rx (set_rx_oos_queue q) call) s
                       (u32 (w0 + (k + 1))) wtop) (k + 1)
                    (match reset with None => Some (skb_seq s) | Some _ => reset end))
        as (call' & k' & R & Hk' & Hs' & (pre & Hpre) & Ht & Hz & Ha');
        try reflexivity; try lia.
      { rewrite Ek in Hs. assumption. }
      exists call', k'. rewrite R. split_and!; try lia; try assumption; try reflexivity.
      * destruct reset; [reflexivity|]. rewrite Es.
        destruct (Z.eqb_spec k' k); [lia|reflexivity].
      * exists (s :: pre). rewrite Hpre at 1. reflexivity.
Qed.

Lemma drain_total q : forall call window wtop reset,
  exists call' window' reset',
    rxrpc_drain_oos q call window wtop reset = (call', window', reset').
Proof.
  induction q as [|s q IH]; intros; simpl; [eauto|].
  destruct (after _ _); eauto.
Qed.

Lemma oos_sorted_Forall w hi q : forall lo, oos_sorted w lo hi q ->
  Forall (fun s => is_u32 (skb_seq s) /\ lo <= u32 (skb_seq s - w) < hi) q.
Proof.
  induction q as [|s q IH]; simpl; intros lo H; [constructor|].
  destruct H as (Hu & Hr & Hq). constructor; [auto|].
  eapply Forall_impl; [apply IH; eassumption|]. simpl. intros x [? ?]. split; [assumption|lia].
Qed.

Section Admission.
Context `{P : rxrpc_params}.
Hypothesis Pok : params_ok.

Lemma sack_get_set_nonzero (tbl : list Z) seq s :
  length tbl = Z.to_nat RXRPC_SACK_SIZE ->
  sack_get tbl s <> 0 -> sack_get (sack_set tbl seq 1) s <> 0.
Proof.
  intros L H. destruct (decide (sack_index seq = sack_index s)) as [E|E].
  - unfold sack_get, sack_set. rewrite <- E, list_lookup_insert_eq; [simpl; lia|].
    apply sack_index_lt; assumption.
  - rewrite sack_get_set_ne; assumption.
Qed.

(** In-window test *)
Lemma in_window_offset w0 W seq :
  is_u32 w0 -> is_u32 seq -> 1 <= W <= 2^30 ->
  before seq w0 = false -> after seq (u32 (w0 + W - 1)) = false ->
  u32 (seq - w0) <= W - 1.
Proof.
  intros Hw Hs HW Hb Ha.
  assert (B : ~ (2^31 <= u32 (seq - w0))) by (rewrite <- before_iff; congruence).
  assert (A : ~ (1 <= u32 (seq - u32 (w0 + W - 1)) < 2^31)) by (rewrite <- after_iff; congruence).
  unfold is_u32 in *. mod_lia.
Qed.

Lemma data_admission_wf call skb :
  rx_wf (rx call) -> is_u32 (skb_seq skb) ->
  exists call' out,
    rxrpc_data_admission call skb (call_window (rx call)) (call_wtop (rx call))
      (u32 (call_window (rx call) + rx_winsize (rx call) - 1)) = Done (call', out) /\
    rx_wf (rx call').
Proof.
  intros Hwf Hseq. pose proof Hwf as (HW & HT & Hsorted & Hsack & Hlen).
  pose proof sack_size_pos Pok as HN.
  pose proof (lower_32_bits_range (ackr_window (rx call))) as Hw0.
  pose proof (upper_32_bits_range (ackr_window (rx call))) as Hwt.
  fold (call_window (rx call)) in Hw0. fold (call_wtop (rx call)) in Hwt.
  unfold rxrpc_data_admission. fold (skb_seq skb).
  set (w0 := call_window (rx call)) in *. set (wtop := call_wtop (rx call)) in *.
  set (T := u32 (wtop - w0)) in *.
  destruct (_ && _); [eauto|].
  destruct (before (skb_seq skb) w0) eqn:Eb; [eauto|].
  destruct (after (skb_seq skb) _) eqn:Ea; [eauto|].
  pose proof (in_window_offset w0 (rx_winsize (rx call)) (skb_seq skb) Hw0 Hseq
                ltac:(lia) Eb Ea) as Hd.
  destruct (Z.eqb_spec (skb_seq skb) w0) as [Eq|Ne].
  - (* the packet is the next one in order *)
    set (ac := if has_flag _ _ then _ else _).
    assert (Hac : rx_oos_queue (rx ac.2) = rx_oos_queue (rx call) /\
                  ackr_sack_table (rx ac.2) = ackr_sack_table (rx call) /\
                  rx_winsize (rx ac.2) = rx_winsize (rx call)).
    { subst ac. destruct (has_flag _ _); [auto|]. destruct (negb _); auto. }
    destruct ac as [ack_reason call1]. simpl in Hac. destruct Hac as (Hq1 & Ht1 & Hz1).
    set (wtop1 := if after (u32 (w0 + 1)) wtop then u32 (w0 + 1) else wtop).
    assert (Hwt1 : is_u32 wtop1 /\ u32 (wtop1 - w0) = Z.max T 1).
    { subst wtop1. destruct (after (u32 (w0 + 1)) wtop) eqn:E.
      - apply after_iff in E. split; [apply u32_range|].
        subst T. unfold is_u32 in *. mod_lia.
      - assert (A : ~ (1 <= u32 (u32 (w0 + 1) - wtop) < 2^31))
          by (rewrite <- after_iff; congruence).
        split; [assumption|]. subst T. unfold is_u32 in *. mod_lia. }
    destruct Hwt1 as [Hwt1 HT1].
    destruct (drain_spec w0 wtop1 (Z.max T 1) Hw0 ltac:(lia)
                (rx_oos_queue (rx call))
                (rxrpc_receive_queue_data call1 skb (u32 (w0 + 1)) wtop1) 1 None)
      as (call2 & k' & R & Hk' & Hs' & (pre & Hpre) & Ht2 & Hz2 & Ha2).
    { simpl. assumption. }
    { eapply oos_sorted_weaken; [| eassumption | lia]. lia. }
    { lia. }
    { reflexivity. }
    change (rx_oos_queue (rx (rxrpc_receive_queue_data call1 skb (u32 (w0 + 1)) wtop1)))
      with (rx_oos_queue (rx call1)).
    rewrite Hq1, R. simpl in Ht2, Hz2.
    assert (Hwin : is_u32 (u32 (w0 + k'))) by apply u32_range.
    assert (HT' : u32 (wtop1 - u32 (w0 + k')) = Z.max T 1 - k').
    { unfold is_u32 in *. mod_lia. }
    assert (Hfin : forall r : call_rx,
               rx_winsize r = rx_winsize (rx call2) ->
               ackr_window r = ackr_window (rx call2) ->
               rx_oos_queue r = rx_oos_queue (rx call2) ->
               length (ackr_sack_table r) = length (ackr_sack_table (rx call)) ->
               Forall (fun s => sack_get (ackr_sack_table r) (skb_seq s) <> 0)
                 (rx_oos_queue (rx call2)) ->
               rx_wf r).
    { intros r Hrz Hra Hrq Ltbl Ftbl. unfold rx_wf, call_window, call_wtop.
      rewrite Hrz, Hra, Hrq, Ha2, ackr_pack_window, ackr_pack_wtop by assumption.
      rewrite HT', Hz2, Hz1. split_and!; try lia; try assumption.
      pose proof (oos_sorted_rebase w0 k' (Z.max T 1) _ Hw0 ltac:(lia) ltac:(lia)
                    (k' + 1) ltac:(lia) Hs') as Hr.
      replace (k' + 1 - k') with 1 in Hr by lia. exact Hr. }
    assert (Hold : Forall (fun s => sack_get (ackr_sack_table (rx call)) (skb_seq s) <> 0)
                     (rx_oos_queue (rx call2))).
    { rewrite Hpre in Hsack. apply Forall_app in Hsack. apply Hsack. }
    destruct (Z.eqb_spec k' 1) as [Ek|Nk].
    + simpl. do 2 eexists. split; [reflexivity|].
      apply Hfin; try reflexivity; [congruence|].
      rewrite Ht2, Ht1. exact Hold.
    + destruct (reset_sack_total (u32 (w0 + k'))
                  (Z.to_nat (u32 (u32 (w0 + k') - u32 (w0 + 1))))
                  (ackr_sack_table (rx call2)) (u32 (w0 + 1)) ltac:(lia))
        as (tbl' & Rt).
      rewrite Rt. simpl. do 2 eexists. split; [reflexivity|].
      assert (Ed : u32 (u32 (w0 + k') - u32 (w0 + 1)) = k' - 1).
      { unfold is_u32 in *. mod_lia. }
      destruct (reset_sack_spec (u32 (w0 + k')) (Z.to_nat (k' - 2))
                  (ackr_sack_table (rx call2)) (u32 (w0 + 1))
                  (u32_range _) ltac:(rewrite Ed; lia) ltac:(lia) _ _ Rt) as [L C].
      apply Hfin; try reflexivity; [simpl; congruence|]. simpl.
      apply oos_sorted_Forall in Hs'.
      rewrite Forall_forall in Hs', Hold |- *. intros s Hin.
      rewrite C; [rewrite Ht2, Ht1; apply Hold; assumption|].
      intros j Hj. destruct (Hs' s Hin) as [Hsu Hso].
      apply sack_index_ne; [assumption|]. unfold is_u32 in *. mod_lia.
  - (* the packet is further into the window *)
    assert (Hd1 : 1 <= u32 (skb_seq skb - w0)) by (unfold is_u32 in *; mod_lia).
    set (wtop1 := if after (u32 (skb_seq skb + 1)) wtop then u32 (skb_seq skb + 1) else wtop).
    assert (Hwt1 : is_u32 wtop1 /\
                   u32 (wtop1 - w0) = Z.max T (u32 (skb_seq skb - w0) + 1)).
    { subst wtop1. destruct (after (u32 (skb_seq skb + 1)) wtop) eqn:E.
      - apply after_iff in E. split; [apply u32_range|].
        subst T. unfold is_u32 in *. mod_lia.
      - assert (A : ~ (1 <= u32 (u32 (skb_seq skb + 1) - wtop) < 2^31))
          by (rewrite <- after_iff; congruence).
        split; [assumption|]. subst T. unfold is_u32 in *. mod_lia. }
    destruct Hwt1 as [Hwt1 HT1].
    destruct (Z.eqb_spec (sack_get (ackr_sack_table (rx call)) (skb_seq skb)) 0) as [E0|N0].
    + (* a new packet: queue it *)
      assert (Hwf' : forall c : rxrpc_call,
                 rx_winsize (rx c) = rx_winsize (rx call) ->
                 call_window (rx c) = w0 -> call_wtop (rx c) = wtop1 ->
                 ackr_sack_table (rx c) = sack_set (ackr_sack_table (rx call)) (skb_seq skb) 1 ->
                 rx_oos_queue (rx c) =
                   rxrpc_oos_insert skb (skb_seq skb) (rx_oos_queue (rx call)) ->
                 rx_wf (rx c)).
      { intros c Hz Hcw Hct Hst Hq. unfold rx_wf. rewrite Hz, Hcw, Hct, Hst, Hq, HT1.
        split_and!; try lia.
        - apply oos_insert_sorted with (T := T); try assumption; try lia.
          rewrite Forall_forall in Hsack |- *. intros s Hin C.
          apply (Hsack s Hin). rewrite C. assumption.
        - apply oos_insert_Forall.
          + rewrite sack_get_set_eq by assumption. lia.
          + eapply Forall_impl; [eassumption|]. simpl. intros s Hs.
            apply sack_get_set_nonzero; assumption.
        - rewrite sack_set_length. assumption. }
      subst wtop1. destruct (after (u32 (skb_seq skb + 1)) wtop) eqn:E; simpl;
        do 2 eexists; (split; [reflexivity|]); apply Hwf'; try reflexivity.
      * unfold call_window. simpl. apply ackr_pack_window; [assumption|apply u32_range].
      * unfold call_wtop. simpl. apply ackr_pack_wtop; [assumption|apply u32_range].
    + (* a duplicate of a queued packet *)
      assert (Hwf' : forall c : rxrpc_call,
                 rx_winsize (rx c) = rx_winsize (rx call) ->
                 call_window (rx c) = w0 -> call_wtop (rx c) = wtop1 ->
                 ackr_sack_table (rx c) = ackr_sack_table (rx call) ->
                 rx_oos_queue (rx c) = rx_oos_queue (rx call) ->
                 rx_wf (rx c)).
      { intros c Hz Hcw Hct Hst Hq. unfold rx_wf. rewrite Hz, Hcw, Hct, Hst, Hq, HT1.
        split_and!; try lia; try assumption.
        eapply oos_sorted_weaken; [| eassumption | lia]. lia. }
      subst wtop1. destruct (after (u32 (skb_seq skb + 1)) wtop) eqn:E; simpl;
        destruct (has_flag (hdr_flags (skb_hdr skb)) RXRPC_JUMBO_PACKET); simpl;
        do 2 eexists; (split; [reflexivity|]); apply Hwf'; try reflexivity.
      all: try (unfold call_window; simpl; apply ackr_pack_window;
                [assumption|apply u32_range]).
      all: try (unfold call_wtop; simpl; apply ackr_pack_wtop;
                [assumption|apply u32_range]).
Qed.

End Admission.

Lemma oos_sortedb_spec window hi q : forall lo,
  oos_sortedb window lo hi q = true -> oos_sorted window lo hi q.
Proof.
  induction q as [|s q IH]; simpl; intros lo H; [exact I|].
  repeat (apply andb_true_iff in H; destruct H as [H ?]).
  unfold is_u32. split_and!; try lia. apply IH. assumption.
Qed.

Lemma rx_wfb_spec `{P : rxrpc_params} (r : call_rx) : rx_wfb r = true -> rx_wf r.
Proof.
  unfold rx_wfb, rx_wf. intros H.
  apply andb_true_iff in H. destruct H as [H H6].
  apply andb_true_iff in H. destruct H as [H H5].
  apply andb_true_iff in H. destruct H as [H H4].
  apply andb_true_iff in H. destruct H as [H H3].
  apply andb_true_iff in H. destruct H as [H1 H2].
  split_and!; try lia.
  - apply oos_sortedb_spec. assumption.
  - apply List.Forall_forall. intros s Hin.
    rewrite forallb_forall in H5. specialize (H5 s Hin).
    apply negb_true_iff in H5. lia.
Qed.

(** ** Frames: what the parts of the engine leave alone *)

Lemma set_call_completion_rx call compl code err :
  rx (rxrpc_set_call_completion call compl code err).2 = rx call.
Proof. unfold rxrpc_set_call_completion. destruct (_ <? _); reflexivity. Qed.

Lemma proto_abort_rx why call seq :
  rx (rxrpc_proto_abort why call seq).1 = rx call.
Proof.
  unfold rxrpc_proto_abort, rxrpc_abort_call, rxrpc_set_call_completion.
  destruct (_ <? _); reflexivity.
Qed.

Lemma test_bit_set_bit f g word :
  test_bit f (set_bit g word) = (if decide (flag_nr g = flag_nr f) then true else test_bit f word).
Proof.
  unfold test_bit, set_bit. destruct (decide _) as [E|E].
  - rewrite E. apply Z.setbit_eq. destruct f; simpl; lia.
  - apply Z.setbit_neq; [destruct g; simpl; lia | assumption].
Qed.

Lemma rotate_loop_frame buf : forall call to summary rot_last call' summary' rot_last',
  rxrpc_rotate_loop buf call to summary rot_last = (call', summary', rot_last') ->
  rx call' = rx call /\ state call' = state call /\ tx call' = tx call /\
  cong call' = cong call /\
  (rot_last' = true -> rot_last = true \/ test_bit RXRPC_CALL_TX_LAST (flags call') = true) /\
  (test_bit RXRPC_CALL_TX_LAST (flags call) = true ->
   test_bit RXRPC_CALL_TX_LAST (flags call') = true).
Proof.
  induction buf as [|txb buf IH]; simpl; intros call to summary rot_last call' summary' rot_last' R.
  - injection R as <- <- <-. auto 10.
  - destruct (before_eq _ _); [eauto|].
    destruct (txb_last txb).
    + destruct (_ =? _).
      * injection R as <- <- <-. simpl. rewrite test_bit_set_bit. simpl. auto 10.
      * apply IH in R. simpl in R. rewrite test_bit_set_bit in R. simpl in R.
        destruct R as (? & ? & ? & ? & ? & ?). split_and!; auto.
    + destruct (_ =? _).
      * injection R as <- <- <-. auto 10.
      * apply IH in R. assumption.
Qed.

Lemma rotate_tx_window_frame call to summary rot_last call' summary' out :
  rxrpc_rotate_tx_window call to summary = (rot_last, call', summary', out) ->
  rx call' = rx call /\ state call' = state call /\ cong call' = cong call /\
  (rot_last = true -> test_bit RXRPC_CALL_TX_LAST (flags call') = true) /\
  (test_bit RXRPC_CALL_TX_LAST (flags call) = true ->
   test_bit RXRPC_CALL_TX_LAST (flags call') = true).
Proof.
  unfold rxrpc_rotate_tx_window.
  destruct (rxrpc_rotate_loop _ _ _ _ _) as [[c1 s1] r1] eqn:L.
  apply rotate_loop_frame in L. destruct L as (L1 & L2 & L3 & L4 & L5 & L6).
  intros R.
  assert (F : forall c : rxrpc_call,
             test_bit RXRPC_CALL_TX_LAST
               (flags (if r1 then set_flags (set_bit RXRPC_CALL_TX_ALL_ACKED (flags c)) c else c))
             = test_bit RXRPC_CALL_TX_LAST (flags c)).
  { intros c. destruct r1; [|reflexivity]. simpl. rewrite test_bit_set_bit. reflexivity. }
  destruct r1; destruct (_ =? _); try destruct (after _ _);
    injection R as <- <- <- <-; simpl;
    rewrite ?test_bit_set_bit; simpl; split_and!; auto;
    intros; destruct L5; auto; discriminate.
Qed.

Lemma end_tx_phase_total call reply_begun why :
  test_bit RXRPC_CALL_TX_LAST (flags call) = true ->
  exists ok call' out,
    rxrpc_end_tx_phase call reply_begun why = Done (ok, call', out) /\
    rx call' = rx call.
Proof.
  intros H. unfold rxrpc_end_tx_phase. rewrite H. simpl.
  destruct (state call) eqn:S;
    try (destruct (rxrpc_proto_abort why call (tx_top (tx call))) as [c o] eqn:A;
         do 3 eexists; split; [reflexivity|];
         change c with (c, o).1; rewrite <- A; apply proto_abort_rx).
  - destruct reply_begun; do 3 eexists; split; reflexivity.
  - destruct reply_begun; do 3 eexists; split; reflexivity.
  - do 3 eexists; split; [reflexivity|]. apply set_call_completion_rx.
Qed.

Lemma receiving_reply_total call :
  exists ok call' out,
    rxrpc_receiving_reply call = Done (ok, call', out) /\ rx call' = rx call.
Proof.
  unfold rxrpc_receiving_reply.
  destruct (test_bit RXRPC_CALL_TX_LAST (flags call)) eqn:TL; simpl.
  - destruct (end_tx_phase_total call true "ETD" TL) as (ok & c & o & -> & Hc). simpl.
    destruct ok; simpl; do 3 eexists; (split; [reflexivity|]); simpl; assumption.
  - destruct (rxrpc_rotate_tx_window call (tx_top (tx call)) empty_summary)
      as [[[rl c1] s1] o1] eqn:R.
    apply rotate_tx_window_frame in R. destruct R as (R1 & R2 & R3 & R4 & R5).
    destruct rl; simpl.
    + destruct (end_tx_phase_total c1 true "ETD" (R4 eq_refl)) as (ok & c & o & -> & Hc).
      simpl. destruct ok; simpl; do 3 eexists; (split; [reflexivity|]); simpl; congruence.
    + destruct (rxrpc_proto_abort "TXL" c1 (tx_top (tx call))) as [c o] eqn:A.
      do 3 eexists; split; [reflexivity|].
      change c with (c, o).1. rewrite <- A, proto_abort_rx. assumption.
Qed.

Section DataPath.
Context `{P : rxrpc_params}.
Hypothesis Pok : params_ok.

Lemma data_one_wf call skb :
  rx_wf (rx call) -> is_u32 (skb_seq skb) ->
  exists call' out,
    rxrpc_receive_data_one call skb = Done (call', out) /\ rx_wf (rx call').
Proof.
  intros Hwf Hseq. unfold rxrpc_receive_data_one.
  assert (A : forall why (c : rxrpc_call), rx c = rx call ->
            exists call' out,
              (let '(call0, out0) := rxrpc_proto_abort why c (hdr_seq (skb_hdr skb)) in
               Done (call0, out0 ++ rxrpc_free_skb (Some skb))) = Done (call', out) /\
              rx_wf (rx call')).
  { intros why c Hc. pose proof (proto_abort_rx why c (hdr_seq (skb_hdr skb))) as E.
    destruct (rxrpc_proto_abort _ _ _) as [c' o]. simpl in E.
    do 2 eexists. split; [reflexivity|]. rewrite E, Hc. assumption. }
  assert (B : forall c : rxrpc_call,
            ackr_window (rx c) = ackr_window (rx call) ->
            rx_winsize (rx c) = rx_winsize (rx call) ->
            rx_oos_queue (rx c) = rx_oos_queue (rx call) ->
            ackr_sack_table (rx c) = ackr_sack_table (rx call) ->
            exists call' out,
              rxrpc_data_admission c skb (lower_32_bits (ackr_window (rx call)))
                (upper_32_bits (ackr_window (rx call)))
                (u32 (lower_32_bits (ackr_window (rx call)) + rx_winsize (rx call) - 1))
              = Done (call', out) /\ rx_wf (rx call')).
  { intros c E1 E2 E3 E4.
    assert (W : rx_wf (rx c)).
    { unfold rx_wf, call_window, call_wtop in *. rewrite E1, E2, E3, E4. assumption. }
    destruct (data_admission_wf Pok c skb W Hseq) as (c' & o & R & W').
    unfold call_window, call_wtop in R. rewrite E1, E2 in R. eauto. }
  destruct (has_flag _ RXRPC_LAST_PACKET).
  - destruct (_ && _).
    + apply A. reflexivity.
    + destruct (after _ _); apply B; reflexivity.
  - destruct (_ && _).
    + apply A. reflexivity.
    + destruct (after _ _); apply B; reflexivity.
Qed.

Lemma split_jumbo_loop_wf clone_ok : forall fuel n call skb offset len,
  is_u32 len -> len / RXRPC_JUMBO_SUBPKTLEN < Z.of_nat fuel ->
  rx_wf (rx call) -> is_u32 (skb_seq skb) ->
  exists ok call' skb' out,
    rxrpc_split_jumbo_loop fuel clone_ok n call skb offset len
      = Done (ok, call', skb', out) /\ rx_wf (rx call').
Proof.
  destruct Pok as [_ Hsub].
  induction fuel as [|fuel IH]; intros n call skb offset len Hlen Hfuel Hwf Hseq.
  - exfalso. pose proof (Z.div_pos len RXRPC_JUMBO_SUBPKTLEN ltac:(apply Hlen) Hsub). lia.
  - simpl. destruct (has_flag _ RXRPC_JUMBO_PACKET).
    + destruct (Z.ltb_spec len RXRPC_JUMBO_SUBPKTLEN); [eauto 10|].
      destruct (has_flag _ RXRPC_LAST_PACKET); [eauto 10|].
      destruct (skb_copy_jumbo _ _) as [jhdr|]; [|eauto 10].
      destruct (clone_ok n); simpl; [|eauto 10].
      destruct (data_one_wf call
                  (set_skb_plen RXRPC_JUMBO_DATALEN (set_skb_offset offset skb)) Hwf Hseq)
        as (c1 & o1 & -> & W1). simpl.
      edestruct (IH (S n) c1) as (ok & c2 & s2 & o2 & -> & W2); [| | exact W1 | |].
      * apply u32_range.
      * assert (E : u32 (len - RXRPC_JUMBO_SUBPKTLEN) = len - RXRPC_JUMBO_SUBPKTLEN).
        { unfold u32. apply Z.mod_small. unfold is_u32 in Hlen. lia. }
        rewrite E.
        replace len with ((len - RXRPC_JUMBO_SUBPKTLEN) + 1 * RXRPC_JUMBO_SUBPKTLEN) in Hfuel by lia.
        rewrite Z.div_add in Hfuel by lia. lia.
      * unfold skb_seq. simpl. apply u32_range.
      * simpl. eauto 10.
    + destruct (data_one_wf call (set_skb_plen len (set_skb_offset offset skb)) Hwf Hseq)
        as (c1 & o1 & -> & W1). simpl. eauto 10.
Qed.

End DataPath.

Section AckPath.
Context `{P : rxrpc_params}.

Lemma complete_rtt_probe_frame call resp_time acked_serial ack_serial type :
  let call' := (rxrpc_complete_rtt_probe call resp_time acked_serial ack_serial type).1 in
  state call' = state call /\ flags call' = flags call /\ rx call' = rx call /\
  tx call' = tx call /\ cong call' = cong call.
Proof.
  unfold rxrpc_complete_rtt_probe.
  generalize (rtt_avail (rtt call)) as avail.
  generalize (seq 0 (length (rtt_serial (rtt call)))) as l.
  intros l avail.
  assert (G : forall (acc : rxrpc_call * list action),
             (state acc.1 = state call /\ flags acc.1 = flags call /\ rx acc.1 = rx call /\
              tx acc.1 = tx call /\ cong acc.1 = cong call) ->
             let call' :=
               (fold_left
                  (fun (acc : rxrpc_call * list action) (i : nat) =>
                     let '(call, out) := acc in
                     let pend := Z.of_nat i + RXRPC_CALL_RTT_PEND_SHIFT in
                     if negb (Z.testbit avail pend) then (call, out)
                     else
                       let sent_at := default 0 (rtt_sent_at (rtt call) !! i) in
                       let orig_serial := default 0 (rtt_serial (rtt call) !! i) in
                       let '(call, out) :=
                         if orig_serial =? acked_serial then
                           let call :=
                             upd_rtt (fun r => set_rtt_avail
                                        (Z.setbit (Z.clearbit (rtt_avail r) pend) (Z.of_nat i)) r)
                               call in
                           match type with
                           | rxrpc_rtt_rx_cancel => (call, out)
                           | _ =>
                             (upd_peer (fun p => rxrpc_peer_add_rtt p sent_at resp_time) call,
                              out ++ [A_peer_add_rtt type i acked_serial ack_serial sent_at resp_time])
                           end
                         else (call, out) in
                       if after acked_serial orig_serial then
                         (upd_rtt (fun r => set_rtt_avail
                                     (Z.setbit (Z.clearbit (rtt_avail r) pend) (Z.of_nat i)) r)
                            call, out)
                       else (call, out)) l acc).1 in
             state call' = state call /\ flags call' = flags call /\ rx call' = rx call /\
             tx call' = tx call /\ cong call' = cong call).
  { induction l as [|i l IH]; intros acc H; simpl; [assumption|].
    apply IH. destruct acc as [c o]. simpl in H.
    destruct (negb _); [assumption|].
    destruct (_ =? _); destruct type; destruct (after _ _); simpl; assumption. }
  apply G. simpl. auto.
Qed.

Lemma receive_ackinfo_frame call skb info :
  let call' := (rxrpc_receive_ackinfo call skb info).1 in
  state call' = state call /\ flags call' = flags call /\ rx call' = rx call /\
  tx_top (tx call') = tx_top (tx call) /\
  tx_buffer (tx call') = tx_buffer (tx call) /\
  acks_hard_ack (tx call') = acks_hard_ack (tx call) /\
  acks_lowest_nak (tx call') = acks_lowest_nak (tx call).
Proof.
  unfold rxrpc_receive_ackinfo.
  destruct (negb _); destruct (_ <? cong_ssthresh _); destruct (_ <? maxdata _);
    simpl; auto 10.
Qed.

Lemma soft_acks_loop_frame acks seq : forall n i call summary,
  let call' := (rxrpc_soft_acks_loop n i call acks seq summary).1 in
  state call' = state call /\ flags call' = flags call /\ rx call' = rx call.
Proof.
  induction n as [|n IH]; intros i call summary; simpl; [auto|].
  destruct (_ =? RXRPC_ACK_TYPE_ACK); [apply IH|].
  destruct (_ && _); [|apply IH].
  destruct (IH (i + 1)
              (upd_tx (set_acks_lowest_nak (u32 (seq + i))) call)
              (set_saw_nacks true (set_new_low_nack true summary))) as (? & ? & ?).
  simpl in *. auto.
Qed.

Lemma congestion_management_frame env call skb summary acked_serial :
  let call' := (rxrpc_congestion_management env call skb summary acked_serial).1.1 in
  state call' = state call /\ rx call' = rx call /\ tx call' = tx call.
Proof.
  unfold rxrpc_congestion_management, rxrpc_cong_packet_loss_detected,
    rxrpc_cong_send_extra_data, rxrpc_cong_resume_normality, rxrpc_cong_out,
    rxrpc_cong_out_no_clear_ca.
  repeat (case_match; simplify_eq/=); auto.
Qed.

End AckPath.

Section AckTotal.
Context `{P : rxrpc_params}.

Lemma proto_abort_done why call seq :
  exists call' out,
    Done (rxrpc_proto_abort why call seq) = Done (call', out) /\ rx call' = rx call.
Proof.
  pose proof (proto_abort_rx why call seq) as F.
  destruct (rxrpc_proto_abort why call seq) as [c o]. eauto.
Qed.

Lemma receive_ack_tx_total env call skb ack summary :
  exists call' out,
    rxrpc_receive_ack_tx env call skb ack summary = Done (call', out) /\
    rx call' = rx call.
Proof.
  unfold rxrpc_receive_ack_tx.
  destruct (_ || _).
  { apply proto_abort_done. }
  destruct (_ <? ack_nAcks ack).
  { apply proto_abort_done. }
  set (hard_ack := u32 (ack_firstPacket ack - 1)).
  set (rot := if after hard_ack (acks_hard_ack (tx call))
              then rxrpc_rotate_tx_window call hard_ack summary
              else (false, call, summary, [])).
  assert (Hrot : rx rot.1.1.2 = rx call /\
                 (rot.1.1.1 = true ->
                  test_bit RXRPC_CALL_TX_LAST (flags rot.1.1.2) = true)).
  { subst rot. destruct (after _ _); [|simpl; split; [reflexivity|discriminate]].
    destruct (rxrpc_rotate_tx_window call hard_ack summary) as [[[rl c] s] o] eqn:R.
    apply rotate_tx_window_frame in R. simpl. tauto. }
  destruct rot as [[[rot_last c1] s1] out2]. simpl in Hrot. destruct Hrot as [Hr1 Hr2].
  destruct rot_last.
  { destruct (end_tx_phase_total c1 false "ETA" (Hr2 eq_refl)) as (ok & c & o & -> & Hc).
    simpl. do 2 eexists. split; [reflexivity|]. simpl. congruence. }
  set (soft := if 0 <? ack_nAcks ack then _ else _).
  assert (Hsoft : match soft with
                  | Some (c, _) => rx c = rx call
                  | None => True
                  end).
  { subst soft. destruct (_ <? _); [|assumption].
    destruct (_ <? _); [exact I|].
    unfold rxrpc_receive_soft_acks.
    pose proof (soft_acks_loop_frame (skb_soft_acks skb) (ack_firstPacket ack)
                  (Z.to_nat (ack_nAcks ack)) 0 c1 s1) as F.
    destruct (rxrpc_soft_acks_loop _ _ _ _ _ _) as [c s]. simpl in F.
    destruct F as (_ & _ & F). congruence. }
  destruct soft as [[c2 s2]|].
  - pose proof (congestion_management_frame env c2 skb s2 (ack_serial_f ack)) as F.
    destruct (rxrpc_congestion_management env c2 skb s2 (ack_serial_f ack))
      as [[c3 s3] o3]. simpl in F.
    do 2 eexists. split; [reflexivity|]. simpl. destruct F as (_ & F & _). congruence.
  - pose proof (proto_abort_rx "XSA" c1 0) as F.
    destruct (rxrpc_proto_abort "XSA" c1 0) as [c o]. simpl in F.
    do 2 eexists. split; [reflexivity|]. simpl. congruence.
Qed.

Lemma receive_ack_valid_total env call skb ack summary :
  exists call' out,
    rxrpc_receive_ack_valid env call skb ack summary = Done (call', out) /\
    rx call' = rx call.
Proof.
  unfold rxrpc_receive_ack_valid.
  set (copied := if _ <=? skb_len skb then _ else _).
  destruct copied as [[rxMTU info]|].
  2: { apply proto_abort_done. }
  set (c1 := upd_tx _ call).
  set (c2 := if ack_reason_f ack =? RXRPC_ACK_PING then c1 else _).
  assert (H2 : rx c2 = rx call).
  { subst c2. destruct (_ =? _); [reflexivity|]. destruct (after _ _); reflexivity. }
  set (r3 := match info with Some _ => _ | None => _ end).
  assert (H3 : rx r3.1 = rx call).
  { subst r3. destruct info as [i|]; [|assumption].
    destruct (negb _); [|assumption].
    pose proof (receive_ackinfo_frame c2 skb i) as F. simpl in F.
    destruct F as (_ & _ & F & _). congruence. }
  destruct r3 as [c3 out1]. simpl in H3.
  destruct (_ =? 0).
  { pose proof (proto_abort_rx "AK0" c3 0) as F.
    destruct (rxrpc_proto_abort "AK0" c3 0) as [c o]. simpl in F.
    do 2 eexists. split; [reflexivity|]. simpl. congruence. }
  destruct (receive_ack_tx_total env c3 skb ack summary) as (c4 & o4 & R & H4).
  destruct (state c3); try (do 2 eexists; split; [reflexivity|assumption]);
    rewrite R; simpl; do 2 eexists; (split; [reflexivity|]); simpl; congruence.
Qed.

Lemma receive_ack_total env call skb :
  exists call' out,
    rxrpc_receive_ack env call skb = Done (call', out) /\ rx call' = rx call.
Proof.
  unfold rxrpc_receive_ack.
  destruct (skb_ack skb) as [ack|].
  2: { apply proto_abort_done. }
  set (r1 := if ack_reason_f ack =? RXRPC_ACK_PING_RESPONSE then _ else _).
  assert (H1 : rx r1.1 = rx call).
  { subst r1.
    destruct (_ =? RXRPC_ACK_PING_RESPONSE); [apply complete_rtt_probe_frame|].
    destruct (_ =? RXRPC_ACK_REQUESTED); [apply complete_rtt_probe_frame|].
    destruct (negb _); [apply complete_rtt_probe_frame|reflexivity]. }
  destruct r1 as [c1 out1]. simpl in H1.
  destruct (_ && _).
  { do 2 eexists. split; [reflexivity|]. simpl. rewrite set_call_completion_rx. assumption. }
  destruct (_ && _).
  { do 2 eexists. split; [reflexivity|]. simpl. rewrite set_call_completion_rx. assumption. }
  destruct (negb _).
  { do 2 eexists. split; [reflexivity|]. assumption. }
  destruct (receive_ack_valid_total env c1 skb ack
              (set_ack_reason
                 (if ack_reason_f ack <? RXRPC_ACK__INVALID then ack_reason_f ack
                  else RXRPC_ACK__INVALID) empty_summary)) as (c2 & o2 & -> & H2).
  simpl. do 2 eexists. split; [reflexivity|]. simpl. congruence.
Qed.

Lemma receive_ackall_total call skb :
  exists call' out,
    rxrpc_receive_ackall call skb = Done (call', out) /\ rx call' = rx call.
Proof.
  unfold rxrpc_receive_ackall.
  destruct (rxrpc_rotate_tx_window _ _ _) as [[[rl c] s] o] eqn:R.
  apply rotate_tx_window_frame in R. destruct R as (R1 & _ & _ & R4 & _).
  destruct rl; [|eauto].
  destruct (end_tx_phase_total c false "ETL" (R4 eq_refl)) as (ok & c' & o' & -> & Hc).
  simpl. do 2 eexists. split; [reflexivity|]. simpl. congruence.
Qed.

End AckTotal.

Section ReceiveTotal.
Context `{P : rxrpc_params}.
Hypothesis Pok : params_ok.

Lemma receive_data_wf env call skb :
  rx_wf (rx call) -> is_u32 (skb_seq skb) ->
  exists call' out,
    rxrpc_receive_data env call skb = Done (call', out) /\ rx_wf (rx call').
Proof.
  intros Hwf Hseq. unfold rxrpc_receive_data.
  destruct (_ <=? _); [eauto|].
  set (un := if negb _ then _ else _). destruct un as [o|o0]; [eauto|].
  set (rr := match state call with
             | RXRPC_CALL_CLIENT_SEND_REQUEST | RXRPC_CALL_CLIENT_AWAIT_REPLY =>
               rxrpc_receiving_reply call
             | _ => Done (true, call, [])
             end).
  assert (Hrr : exists ok c o, rr = Done (ok, c, o) /\ rx c = rx call).
  { subst rr. destruct (state call); try (do 3 eexists; split; reflexivity);
      apply receiving_reply_total. }
  destruct Hrr as (ok & c1 & o1 & -> & H1). simpl.
  destruct ok; simpl.
  2: { do 2 eexists. split; [reflexivity|]. rewrite H1. assumption. }
  unfold rxrpc_receive_split_jumbo.
  edestruct (split_jumbo_loop_wf Pok (env_clone_ok env)
               (S (Z.to_nat (u32 (skb_len skb - sizeof_wire_header) / RXRPC_JUMBO_SUBPKTLEN)))
               0%nat c1 skb sizeof_wire_header (u32 (skb_len skb - sizeof_wire_header)))
    as (sp & c2 & s2 & o2 & -> & W2).
  { apply u32_range. }
  { destruct Pok as [_ Hsub].
    pose proof (Z.div_pos (u32 (skb_len skb - sizeof_wire_header)) RXRPC_JUMBO_SUBPKTLEN
                  ltac:(apply u32_range) Hsub). lia. }
  { rewrite H1. assumption. }
  { assumption. }
  simpl. destruct sp; simpl.
  - eauto.
  - pose proof (proto_abort_rx "VLD" c2 (hdr_seq (skb_hdr s2))) as F.
    destruct (rxrpc_proto_abort _ _ _) as [c o]. simpl in F.
    do 2 eexists. split; [reflexivity|]. rewrite F. assumption.
Qed.

Lemma receive_wf env call skb :
  rx_wf (rx call) -> is_u32 (skb_seq skb) ->
  exists call' out,
    rxrpc_receive env call skb = Done (call', out) /\ rx_wf (rx call').
Proof.
  intros Hwf Hseq. unfold rxrpc_receive.
  set (c1 := if negb _ then _ else call).
  set (c2 := if 0 <? _ then _ else c1).
  assert (H2 : rx c2 = rx call).
  { subst c2 c1. destruct (0 <? _); destruct (negb _); reflexivity. }
  clearbody c2. rewrite <- H2 in Hwf. clear c1 H2.
  unfold rxrpc_receive_call_packet.
  destruct (_ =? RXRPC_PACKET_TYPE_DATA); [apply receive_data_wf; assumption|].
  destruct (_ =? RXRPC_PACKET_TYPE_ACK).
  { destruct (receive_ack_total env c2 skb) as (c & o & -> & H). simpl.
    do 2 eexists. split; [reflexivity|]. rewrite H. assumption. }
  destruct (_ =? RXRPC_PACKET_TYPE_BUSY); [simpl; eauto|].
  destruct (_ =? RXRPC_PACKET_TYPE_ABORT).
  { simpl. do 2 eexists. split; [reflexivity|]. unfold rxrpc_receive_abort.
    rewrite set_call_completion_rx. assumption. }
  destruct (_ =? RXRPC_PACKET_TYPE_ACKALL); [|simpl; eauto].
  destruct (receive_ackall_total c2 skb) as (c & o & -> & H). simpl.
  do 2 eexists. split; [reflexivity|]. rewrite H. assumption.
Qed.

End ReceiveTotal.

(** ** The model always ends with a result

    No run of the receive path ends in [BUG()] or out of fuel, whatever
    the state of the call and the packet. *)

Section Total.
Context `{P : rxrpc_params}.

Lemma data_admission_total call skb window wtop wlimit :
  exists r, rxrpc_data_admission call skb window wtop wlimit = Done r.
Proof.
  unfold rxrpc_data_admission.
  destruct (_ && _); [eauto|].
  destruct (before _ _); [eauto|].
  destruct (after _ _); [eauto|].
  destruct (_ =? window).
  - destruct (if has_flag _ RXRPC_REQUEST_ACK then _ else _) as [ack_reason c1].
    destruct (rxrpc_drain_oos _ _ _ _ _) as [[c2 w2] [rf|]]; simpl; [|eauto].
    destruct (reset_sack_total w2 (Z.to_nat (u32 (w2 - rf))) (ackr_sack_table (rx c2)) rf
                ltac:(lia)) as (tbl & ->).
    simpl. eauto.
  - destruct (_ =? 0); destruct (after _ _); simpl;
      try destruct (rxrpc_receive_dup_data _ _ _ _); eauto.
Qed.

Lemma data_one_total call skb :
  exists r, rxrpc_receive_data_one call skb = Done r.
Proof.
  unfold rxrpc_receive_data_one.
  destruct (has_flag _ RXRPC_LAST_PACKET); destruct (_ && _);
    try (destruct (rxrpc_proto_abort _ _ _); eauto);
    apply data_admission_total.
Qed.

Lemma split_jumbo_loop_total clone_ok :
  0 < RXRPC_JUMBO_SUBPKTLEN ->
  forall fuel n call skb offset len,
    is_u32 len -> len / RXRPC_JUMBO_SUBPKTLEN < Z.of_nat fuel ->
    exists r, rxrpc_split_jumbo_loop fuel clone_ok n call skb offset len = Done r.
Proof.
  intros Hsub.
  induction fuel as [|fuel IH]; intros n call skb offset len Hlen Hfuel.
  - exfalso. pose proof (Z.div_pos len RXRPC_JUMBO_SUBPKTLEN ltac:(apply Hlen) Hsub). lia.
  - simpl. destruct (has_flag _ RXRPC_JUMBO_PACKET).
    + destruct (Z.ltb_spec len RXRPC_JUMBO_SUBPKTLEN); [eauto|].
      destruct (has_flag _ RXRPC_LAST_PACKET); [eauto|].
      destruct (skb_copy_jumbo _ _) as [jhdr|]; [|eauto].
      destruct (clone_ok n); simpl; [|eauto].
      destruct (data_one_total call
                  (set_skb_plen RXRPC_JUMBO_DATALEN (set_skb_offset offset skb)))
        as ([c1 o1] & ->). simpl.
      edestruct (IH (S n) c1) as ([[[ok c2] s2] o2] & ->).
      * apply u32_range.
      * assert (E : u32 (len - RXRPC_JUMBO_SUBPKTLEN) = len - RXRPC_JUMBO_SUBPKTLEN).
        { unfold u32. apply Z.mod_small. unfold is_u32 in Hlen. lia. }
        rewrite E.
        replace len with ((len - RXRPC_JUMBO_SUBPKTLEN) + 1 * RXRPC_JUMBO_SUBPKTLEN)
          in Hfuel by lia.
        rewrite Z.div_add in Hfuel by lia. lia.
      * simpl. eauto.
    + destruct (data_one_total call (set_skb_plen len (set_skb_offset offset skb)))
        as ([c1 o1] & ->). simpl. eauto.
Qed.

Lemma receive_total env call skb :
  0 < RXRPC_JUMBO_SUBPKTLEN ->
  exists r, rxrpc_receive env call skb = Done r.
Proof.
  intros Hsub. unfold rxrpc_receive.
  generalize (if 0 <? s32 (hdr_serial (skb_hdr skb) -
                           rx_serial (if negb (hdr_serviceId (skb_hdr skb) =? service_id call)
                                      then set_service_id (hdr_serviceId (skb_hdr skb)) call
                                      else call))
              then set_rx_serial (hdr_serial (skb_hdr skb))
                     (if negb (hdr_serviceId (skb_hdr skb) =? service_id call)
                      then set_service_id (hdr_serviceId (skb_hdr skb)) call
                      else call)
              else if negb (hdr_serviceId (skb_hdr skb) =? service_id call)
                   then set_service_id (hdr_serviceId (skb_hdr skb)) call
                   else call) as c.
  intros c. unfold rxrpc_receive_call_packet.
  destruct (_ =? RXRPC_PACKET_TYPE_DATA).
  - unfold rxrpc_receive_data.
    destruct (_ <=? _); [eauto|].
    destruct (if negb _ then _ else _) as [o|o0]; [eauto|].
    assert (Hrr : exists ok c1 o1,
               match state c with
               | RXRPC_CALL_CLIENT_SEND_REQUEST | RXRPC_CALL_CLIENT_AWAIT_REPLY =>
                 rxrpc_receiving_reply c
               | _ => Done (true, c, [])
               end = Done (ok, c1, o1)).
    { destruct (state c); try (do 3 eexists; reflexivity);
        destruct (receiving_reply_total c) as (ok & c1 & o1 & R & _); eauto. }
    destruct Hrr as (ok & c1 & o1 & ->). simpl. destruct ok; simpl; [|eauto].
    unfold rxrpc_receive_split_jumbo.
    edestruct (split_jumbo_loop_total (env_clone_ok env) Hsub
                 (S (Z.to_nat (u32 (skb_len skb - sizeof_wire_header)
                               / RXRPC_JUMBO_SUBPKTLEN)))
                 0%nat c1 skb sizeof_wire_header
                 (u32 (skb_len skb - sizeof_wire_header)))
      as ([[[sp c2] s2] o2] & ->).
    { apply u32_range. }
    { pose proof (Z.div_pos (u32 (skb_len skb - sizeof_wire_header)) RXRPC_JUMBO_SUBPKTLEN
                    ltac:(apply u32_range) Hsub). lia. }
    simpl. destruct sp; simpl; [eauto|].
    destruct (rxrpc_proto_abort _ _ _). eauto.
  - destruct (_ =? RXRPC_PACKET_TYPE_ACK).
    { destruct (receive_ack_total env c skb) as (c1 & o1 & -> & _). simpl. eauto. }
    destruct (_ =? RXRPC_PACKET_TYPE_BUSY); [simpl; eauto|].
    destruct (_ =? RXRPC_PACKET_TYPE_ABORT); [simpl; eauto|].
    destruct (_ =? RXRPC_PACKET_TYPE_ACKALL); [|simpl; eauto].
    destruct (receive_ackall_total c skb) as (c1 & o1 & -> & _). simpl. eauto.
Qed.

End Total.

(** ** The receive window stays well formed *)

Lemma rx_wf_window_inv `{P : rxrpc_params} (r : call_rx) :
  params_ok -> rx_wf r -> window_inv r.
Proof.
  intros Pok (HW & HT & _). pose proof (sack_size_pos Pok) as HN.
  split; [|assumption]. apply before_eq_iff.
  pose proof (lower_32_bits_range (ackr_window r)) as Hw.
  pose proof (upper_32_bits_range (ackr_window r)) as Ht.
  unfold call_window, call_wtop, is_u32 in *.
  set (w := lower_32_bits (ackr_window r)) in *.
  set (t := upper_32_bits (ackr_window r)) in *.
  mod_lia.
Qed.

Lemma receive_all_wf `{P : rxrpc_params} (pkts : list (rx_env * sk_buff)) :
  params_ok -> Forall (fun p => is_u32 (skb_seq p.2)) pkts ->
  forall call, rx_wf (rx call) ->
  exists call' out, receive_all pkts call = Done (call', out) /\ rx_wf (rx call').
Proof.
  intros Pok Hp. induction Hp as [|[env skb] pkts Hs Hp IH]; intros call Hwf; simpl.
  - eauto.
  - destruct (receive_wf Pok env call skb Hwf Hs) as (c1 & o1 & -> & W1). simpl.
    destruct (IH c1 W1) as (c2 & o2 & -> & W2). simpl. eauto.
Qed.

(** C1.  Whatever packets the receive path processes, in whatever order,
    the run ends with a result, and the window/wtop pair read from the
    packed [ackr_window] then satisfies [before_eq(window, wtop)] and
    [wtop - window <= rx_winsize].  The sequence numbers of the packets
    are 32-bit values; the call starts in a well-formed state ([rx_wf]),
    which includes both properties and is itself preserved.  As the
    packet list is arbitrary, this holds after each packet of a run. *)
Theorem C1_receive_window_invariant `{P : rxrpc_params}
    (pkts : list (rx_env * sk_buff)) (call : rxrpc_call) :
  params_ok ->
  rx_wf (rx call) ->
  Forall (fun p => is_u32 (skb_seq p.2)) pkts ->
  window_inv (rx call) /\
  exists call' out,
    receive_all pkts call = Done (call', out) /\
    before_eq (call_window (rx call')) (call_wtop (rx call')) = true /\
    u32 (call_wtop (rx call') - call_window (rx call')) <= rx_winsize (rx call') /\
    rx_wf (rx call').
Proof.
  intros Pok Hwf Hp. split; [apply rx_wf_window_inv; assumption|].
  destruct (receive_all_wf pkts Pok Hp call Hwf) as (c & o & R & W).
  destruct (rx_wf_window_inv (rx c) Pok W) as [I1 I2].
  exists c, o. auto.
Qed.

(** The gap-and-fill run of the specification (DATA 1, 3, 2) and a
    duplicate, from a fresh call. *)
Lemma C1_receive_window_invariant_witness :
  window_inv (rx fresh_call) /\
  exists call' out,
    @receive_all linux_params
      [(quiet_env, data_pkt 1 0 38 []); (quiet_env, data_pkt 3 0 38 []);
       (quiet_env, data_pkt 2 0 38 []); (quiet_env, data_pkt 3 0 38 [])]
      fresh_call = Done (call', out) /\
    before_eq (call_window (rx call')) (call_wtop (rx call')) = true /\
    u32 (call_wtop (rx call') - call_window (rx call')) <= rx_winsize (rx call') /\
    @rx_wf linux_params (rx call').
Proof.
  apply (@C1_receive_window_invariant linux_params).
  - split; [exists 8; split; [lia|reflexivity] | reflexivity].
  - apply rx_wfb_spec. vm_compute. reflexivity.
  - repeat (apply List.Forall_cons; [unfold is_u32, skb_seq, data_pkt; simpl; lia|]).
    apply List.Forall_nil.
Defined.

(** ** ACK validation *)

Lemma before_u32_r a b : before a (u32 b) = before a b.
Proof.
  unfold before. f_equal. unfold s32, u32.
  replace ((a - b mod 2 ^ 32) mod 2 ^ 32) with ((a - b) mod 2 ^ 32); [reflexivity|].
  rewrite Zminus_mod_idemp_r. reflexivity.
Qed.

Lemma after_eq_u32_r a b : after_eq a (u32 b) = after_eq a b.
Proof.
  unfold after_eq. f_equal. unfold s32, u32.
  replace ((a - b mod 2 ^ 32) mod 2 ^ 32) with ((a - b) mod 2 ^ 32); [reflexivity|].
  rewrite Zminus_mod_idemp_r. reflexivity.
Qed.

Lemma after_eq_false_before a b : after_eq a b = false <-> before a b = true.
Proof.
  rewrite before_iff. split.
  - intros H. assert (N : ~ u32 (a - b) < 2^31) by (rewrite <- after_eq_iff; congruence).
    lia.
  - intros H. destruct (after_eq a b) eqn:E; [|reflexivity].
    apply after_eq_iff in E. lia.
Qed.

Lemma is_ack_valid_iff call first_pkt prev_pkt :
  is_u32 first_pkt -> is_u32 (acks_first_seq (tx call)) ->
  rxrpc_is_ack_valid call first_pkt prev_pkt = true <->
  (after first_pkt (acks_first_seq (tx call)) = true \/
   (first_pkt = acks_first_seq (tx call) /\
    (after_eq prev_pkt (acks_prev_seq (tx call)) = true \/
     before prev_pkt (acks_first_seq (tx call) + tx_winsize (tx call)) = true))).
Proof.
  intros Hf Hb. unfold rxrpc_is_ack_valid. rewrite after_eq_u32_r.
  set (base := acks_first_seq (tx call)) in *.
  destruct (after first_pkt base) eqn:Ea; [tauto|].
  destruct (before first_pkt base) eqn:Eb.
  - split; [discriminate|]. intros [C|[C _]]; [discriminate|].
    subst first_pkt. apply before_iff in Eb. exfalso. unfold is_u32 in *. mod_lia.
  - assert (E : first_pkt = base).
    { assert (A : ~ (1 <= u32 (first_pkt - base) < 2^31)) by (rewrite <- after_iff; congruence).
      assert (B : ~ (2^31 <= u32 (first_pkt - base))) by (rewrite <- before_iff; congruence).
      unfold is_u32 in *. mod_lia. }
    destruct (after_eq prev_pkt (acks_prev_seq (tx call))) eqn:Ep; [tauto|].
    destruct (after_eq prev_pkt (base + tx_winsize (tx call))) eqn:Ew.
    + split; [discriminate|]. intros [C|[_ [C|C]]]; try discriminate.
      apply after_eq_false_before in C. congruence.
    + apply after_eq_false_before in Ew. tauto.
Qed.

Lemma is_ack_valid_tx call call' first_pkt prev_pkt :
  tx call' = tx call ->
  rxrpc_is_ack_valid call' first_pkt prev_pkt = rxrpc_is_ack_valid call first_pkt prev_pkt.
Proof. intros E. unfold rxrpc_is_ack_valid. rewrite E. reflexivity. Qed.

Lemma set_call_completion_frame call compl code err :
  let call' := (rxrpc_set_call_completion call compl code err).2 in
  flags call' = flags call /\ rx call' = rx call /\ tx call' = tx call /\
  cong call' = cong call.
Proof. unfold rxrpc_set_call_completion. destruct (_ <? _); simpl; auto. Qed.

(** C5.  An inbound ACK passes [rxrpc_is_ack_valid] exactly when its
    first soft-ACK is after [acks_first_seq], or equals it and the
    previous packet either has not regressed
    ([after_eq(prev_pkt, acks_prev_seq)]) or lies before
    [acks_first_seq + tx_winsize]; and an ACK that fails the check
    leaves the Tx side of the call as it was: the whole Tx window and
    ACK bookkeeping ([tx]), the congestion fields ([cong]) and the call
    flags. *)
Theorem C5_ack_valid_or_discarded `{P : rxrpc_params} (env : rx_env)
    (call : rxrpc_call) (skb : sk_buff) (ack : rxrpc_ackpacket) :
  skb_ack skb = Some ack ->
  is_u32 (ack_firstPacket ack) ->
  is_u32 (acks_first_seq (tx call)) ->
  let first_soft_ack := ack_firstPacket ack in
  let prev_pkt := ack_previousPacket ack in
  (rxrpc_is_ack_valid call first_soft_ack prev_pkt = true <->
   (after first_soft_ack (acks_first_seq (tx call)) = true \/
    (first_soft_ack = acks_first_seq (tx call) /\
     (after_eq prev_pkt (acks_prev_seq (tx call)) = true \/
      before prev_pkt (acks_first_seq (tx call) + tx_winsize (tx call)) = true)))) /\
  (rxrpc_is_ack_valid call first_soft_ack prev_pkt = false ->
   exists call' out,
     rxrpc_receive_ack env call skb = Done (call', out) /\
     tx call' = tx call /\ cong call' = cong call /\ flags call' = flags call).
Proof.
  intros Hs Hf Hb first_soft_ack prev_pkt.
  split; [apply is_ack_valid_iff; assumption|].
  intros Hv. unfold rxrpc_receive_ack. rewrite Hs.
  set (r1 := if ack_reason_f ack =? RXRPC_ACK_PING_RESPONSE then _ else _).
  assert (H1 : flags r1.1 = flags call /\ tx r1.1 = tx call /\ cong r1.1 = cong call).
  { subst r1.
    destruct (_ =? RXRPC_ACK_PING_RESPONSE);
      [|destruct (_ =? RXRPC_ACK_REQUESTED); [|destruct (negb _); [|simpl; auto]]];
      match goal with
      | |- context [rxrpc_complete_rtt_probe ?c ?t ?a ?b ?ty] =>
        pose proof (complete_rtt_probe_frame c t a b ty) as F; simpl in F; tauto
      end. }
  destruct r1 as [c1 out1]. simpl in H1. destruct H1 as (F1 & F2 & F3).
  destruct (_ && _).
  { do 2 eexists. split; [reflexivity|]. simpl.
    pose proof (set_call_completion_frame c1 RXRPC_CALL_REMOTELY_ABORTED 0 (- ENETRESET)) as F.
    simpl in F. destruct F as (G1 & _ & G2 & G3). split_and!; congruence. }
  destruct (_ && _).
  { do 2 eexists. split; [reflexivity|]. simpl.
    pose proof (set_call_completion_frame c1 RXRPC_CALL_REMOTELY_ABORTED 0 (- ENETRESET)) as F.
    simpl in F. destruct F as (G1 & _ & G2 & G3). split_and!; congruence. }
  rewrite (is_ack_valid_tx call c1) by assumption.
  fold first_soft_ack prev_pkt. rewrite Hv. simpl.
  do 2 eexists. split; [reflexivity|]. auto.
Qed.

(** An ACK whose first packet has regressed from 5 to 3. *)
Lemma C5_ack_valid_or_discarded_witness :
  (rxrpc_is_ack_valid advanced_call (ack_firstPacket regressed_ack)
     (ack_previousPacket regressed_ack) = true <->
   (after (ack_firstPacket regressed_ack) (acks_first_seq (tx advanced_call)) = true \/
    (ack_firstPacket regressed_ack = acks_first_seq (tx advanced_call) /\
     (after_eq (ack_previousPacket regressed_ack) (acks_prev_seq (tx advanced_call)) = true \/
      before (ack_previousPacket regressed_ack)
        (acks_first_seq (tx advanced_call) + tx_winsize (tx advanced_call)) = true)))) /\
  (rxrpc_is_ack_valid advanced_call (ack_firstPacket regressed_ack)
     (ack_previousPacket regressed_ack) = false ->
   exists call' out,
     @rxrpc_receive_ack linux_params quiet_env advanced_call
       (ack_pkt 7 regressed_ack []) = Done (call', out) /\
     tx call' = tx advanced_call /\ cong call' = cong advanced_call /\
     flags call' = flags advanced_call).
Proof.
  apply (@C5_ack_valid_or_discarded linux_params quiet_env advanced_call
           (ack_pkt 7 regressed_ack []) regressed_ack).
  - reflexivity.
  - unfold is_u32. simpl. lia.
  - unfold is_u32. simpl. lia.
Defined.

(** ** Hard-ACK checks *)

Lemma proto_abort_spec why call seq :
  state_nr (state call) < state_nr RXRPC_CALL_COMPLETE ->
  exists call',
    rxrpc_proto_abort why call seq =
      (call', [A_abort why seq RX_PROTOCOL_ERROR (- EBADMSG); A_send_abort_packet]) /\
    state call' = RXRPC_CALL_COMPLETE /\
    completion call' = RXRPC_CALL_LOCALLY_ABORTED /\
    abort_code call' = RX_PROTOCOL_ERROR /\
    flags call' = flags call /\ rx call' = rx call /\ tx call' = tx call /\
    cong call' = cong call.
Proof.
  intros H. unfold rxrpc_proto_abort, rxrpc_abort_call, rxrpc_set_call_completion.
  destruct (Z.ltb_spec (state_nr (state call)) (state_nr RXRPC_CALL_COMPLETE)); [|lia].
  eexists. split; [reflexivity|]. simpl. auto 10.
Qed.

Lemma before_eq_false_before a b : before_eq a b = false -> before b a = true.
Proof.
  intros H. apply before_iff.
  assert (N : ~ (u32 (a - b) = 0 \/ 2^31 <= u32 (a - b)))
    by (rewrite <- before_eq_iff; congruence).
  mod_lia.
Qed.

Lemma before_eq_false_after a b : before_eq a b = false -> after a b = true.
Proof.
  intros H. apply after_iff.
  assert (N : ~ (u32 (a - b) = 0 \/ 2^31 <= u32 (a - b)))
    by (rewrite <- before_eq_iff; congruence).
  pose proof (u32_range (a - b)). lia.
Qed.

Section HardAck.
Context `{P : rxrpc_params}.

Lemma receive_ack_tx_violation env call skb ack summary :
  state_nr (state call) < state_nr RXRPC_CALL_COMPLETE ->
  (before_eq (acks_hard_ack (tx call)) (u32 (ack_firstPacket ack - 1)) = false \/
   before_eq (u32 (ack_firstPacket ack - 1)) (tx_top (tx call)) = false \/
   ~ ack_nAcks ack <= u32 (tx_top (tx call) - u32 (ack_firstPacket ack - 1))) ->
  exists call' out,
    rxrpc_receive_ack_tx env call skb ack summary = Done (call', out) /\
    state call' = RXRPC_CALL_COMPLETE /\
    completion call' = RXRPC_CALL_LOCALLY_ABORTED /\
    abort_code call' = RX_PROTOCOL_ERROR /\
    In A_send_abort_packet out /\
    flags call' = flags call /\ tx call' = tx call.
Proof.
  intros Hst Hv. unfold rxrpc_receive_ack_tx.
  destruct (proto_abort_spec "AKW" call 0 Hst) as (c1 & E1 & S1).
  destruct (proto_abort_spec "AKN" call 0 Hst) as (c2 & E2 & S2).
  destruct (_ || _) eqn:Ew.
  { rewrite E1. do 2 eexists. split; [reflexivity|]. simpl. tauto. }
  apply orb_false_iff in Ew. destruct Ew as [Ew1 Ew2].
  destruct (Z.ltb_spec (u32 (tx_top (tx call) - u32 (ack_firstPacket ack - 1)))
              (ack_nAcks ack)).
  { rewrite E2. do 2 eexists. split; [reflexivity|]. simpl. tauto. }
  exfalso. destruct Hv as [Hv|[Hv|Hv]].
  - apply before_eq_false_before in Hv. congruence.
  - apply before_eq_false_after in Hv. congruence.
  - lia.
Qed.

Lemma receive_ack_valid_violation env call skb ack summary :
  call_is_transmitting call = true ->
  (before_eq (acks_hard_ack (tx call)) (u32 (ack_firstPacket ack - 1)) = false \/
   before_eq (u32 (ack_firstPacket ack - 1)) (tx_top (tx call)) = false \/
   ~ ack_nAcks ack <= u32 (tx_top (tx call) - u32 (ack_firstPacket ack - 1))) ->
  exists call' out,
    rxrpc_receive_ack_valid env call skb ack summary = Done (call', out) /\
    state call' = RXRPC_CALL_COMPLETE /\
    completion call' = RXRPC_CALL_LOCALLY_ABORTED /\
    abort_code call' = RX_PROTOCOL_ERROR /\
    In A_send_abort_packet out /\
    flags call' = flags call /\
    acks_hard_ack (tx call') = acks_hard_ack (tx call) /\
    acks_lowest_nak (tx call') = acks_lowest_nak (tx call) /\
    tx_buffer (tx call') = tx_buffer (tx call).
Proof.
  intros Htr Hv.
  assert (Hst : state_nr (state call) < state_nr RXRPC_CALL_COMPLETE).
  { unfold call_is_transmitting in Htr. destruct (state call); simpl; try lia; discriminate. }
  unfold rxrpc_receive_ack_valid.
  set (copied := if _ <=? skb_len skb then _ else _).
  destruct copied as [[rxMTU info]|].
  2: { destruct (proto_abort_spec "XAI" call 0 Hst) as (c & E & S). rewrite E.
       do 2 eexists. split; [reflexivity|]. simpl.
       destruct S as (? & ? & ? & ? & ? & St & ?). rewrite St. tauto. }
  set (c1 := upd_tx _ call).
  set (c2 := if ack_reason_f ack =? RXRPC_ACK_PING then c1 else _).
  assert (H2 : state c2 = state call /\ flags c2 = flags call /\
               tx_top (tx c2) = tx_top (tx call) /\
               tx_buffer (tx c2) = tx_buffer (tx call) /\
               acks_hard_ack (tx c2) = acks_hard_ack (tx call) /\
               acks_lowest_nak (tx c2) = acks_lowest_nak (tx call)).
  { subst c2 c1. destruct (_ =? _); [simpl; auto 10|].
    destruct (after _ _); simpl; auto 10. }
  set (r3 := match info with Some _ => _ | None => _ end).
  assert (H3 : state r3.1 = state call /\ flags r3.1 = flags call /\
               tx_top (tx r3.1) = tx_top (tx call) /\
               tx_buffer (tx r3.1) = tx_buffer (tx call) /\
               acks_hard_ack (tx r3.1) = acks_hard_ack (tx call) /\
               acks_lowest_nak (tx r3.1) = acks_lowest_nak (tx call)).
  { subst r3. destruct info as [i|]; [|assumption].
    destruct (negb _); [|assumption].
    pose proof (receive_ackinfo_frame c2 skb i) as F. simpl in F.
    destruct F as (F1 & F2 & _ & F3 & F4 & F5 & F6).
    destruct H2 as (G1 & G2 & G3 & G4 & G5 & G6). split_and!; congruence. }
  clearbody r3. destruct r3 as [c3 out1]. simpl in H3.
  destruct H3 as (G1 & G2 & G3 & G4 & G5 & G6).
  assert (Hst3 : state_nr (state c3) < state_nr RXRPC_CALL_COMPLETE) by (rewrite G1; assumption).
  destruct (_ =? 0).
  { destruct (proto_abort_spec "AK0" c3 0 Hst3) as (c & E & S). rewrite E.
    do 2 eexists. split; [reflexivity|].
    destruct S as (? & ? & ? & Sf & ? & St & ?). rewrite St, Sf.
    split_and!; auto. apply in_or_app. right. simpl. tauto. }
  destruct (receive_ack_tx_violation env c3 skb ack summary Hst3) as
    (c4 & o4 & R & S1 & S2 & S3 & S4 & S5 & S6).
  { rewrite G3, G5. assumption. }
  unfold call_is_transmitting in Htr. rewrite <- G1 in Htr.
  destruct (state c3); try discriminate; rewrite R; simpl;
    do 2 eexists; (split; [reflexivity|]); rewrite S5, S6;
    split_and!; auto; apply in_or_app; right; assumption.
Qed.

End HardAck.

(** C7.  An accepted ACK that arrives while the call is in a
    transmitting state and whose hard-ACK point [firstPacket - 1]
    violates [before_eq(acks_hard_ack, hard_ack)],
    [before_eq(hard_ack, tx_top)] or [nr_acks <= tx_top - hard_ack]
    aborts the call: the call becomes complete as locally aborted with
    a protocol error, the ABORT packet is sent, and the Tx window is
    not rotated ([acks_hard_ack], [acks_lowest_nak], the Tx buffer and
    the call flags stay as they were). *)
Theorem C7_bad_hard_ack_aborts `{P : rxrpc_params} (env : rx_env)
    (call : rxrpc_call) (skb : sk_buff) (ack : rxrpc_ackpacket) :
  skb_ack skb = Some ack ->
  ack_accepted call ack = true ->
  call_is_transmitting call = true ->
  let hard_ack := u32 (ack_firstPacket ack - 1) in
  (before_eq (acks_hard_ack (tx call)) hard_ack = false \/
   before_eq hard_ack (tx_top (tx call)) = false \/
   ~ ack_nAcks ack <= u32 (tx_top (tx call) - hard_ack)) ->
  exists call' out,
    rxrpc_receive_ack env call skb = Done (call', out) /\
    state call' = RXRPC_CALL_COMPLETE /\
    completion call' = RXRPC_CALL_LOCALLY_ABORTED /\
    abort_code call' = RX_PROTOCOL_ERROR /\
    In A_send_abort_packet out /\
    flags call' = flags call /\
    acks_hard_ack (tx call') = acks_hard_ack (tx call) /\
    acks_lowest_nak (tx call') = acks_lowest_nak (tx call) /\
    tx_buffer (tx call') = tx_buffer (tx call).
Proof.
  intros Hs Hacc Htr hard_ack Hv. unfold rxrpc_receive_ack. rewrite Hs.
  apply andb_true_iff in Hacc. destruct Hacc as [Hn Hvalid].
  apply negb_true_iff in Hn. unfold ack_reports_reset in Hn.
  apply orb_false_iff in Hn. destruct Hn as [Hn1 Hn2].
  set (r1 := if ack_reason_f ack =? RXRPC_ACK_PING_RESPONSE then _ else _).
  assert (H1 : state r1.1 = state call /\ flags r1.1 = flags call /\ tx r1.1 = tx call).
  { subst r1.
    destruct (_ =? RXRPC_ACK_PING_RESPONSE);
      [|destruct (_ =? RXRPC_ACK_REQUESTED); [|destruct (negb _); [|simpl; auto]]];
      match goal with
      | |- context [rxrpc_complete_rtt_probe ?c ?t ?a ?b ?ty] =>
        pose proof (complete_rtt_probe_frame c t a b ty) as F; simpl in F; tauto
      end. }
  clearbody r1. destruct r1 as [c1 out1]. simpl in H1. destruct H1 as (F1 & F2 & F3).
  unfold rxrpc_is_client_call in *. rewrite F2, F3, Hn1, Hn2.
  rewrite (is_ack_valid_tx call c1) by assumption. rewrite Hvalid. simpl.
  destruct (receive_ack_valid_violation env c1 skb ack
              (set_ack_reason
                 (if ack_reason_f ack <? RXRPC_ACK__INVALID then ack_reason_f ack
                  else RXRPC_ACK__INVALID) empty_summary))
    as (c2 & o2 & R & S1 & S2 & S3 & S4 & S5 & S6 & S7 & S8).
  { unfold call_is_transmitting in *. rewrite F1. assumption. }
  { rewrite F3. assumption. }
  rewrite R. simpl. do 2 eexists. split; [reflexivity|].
  rewrite S5, S6, S7, S8, F2, F3. split_and!; auto.
  rewrite !in_app_iff. auto.
Qed.

(** An ACK that hard-ACKs packet 11 when only ten packets were sent. *)
Lemma C7_bad_hard_ack_aborts_witness :
  exists call' out,
    @rxrpc_receive_ack linux_params quiet_env ca_call (ack_pkt 7 overshoot_ack [])
      = Done (call', out) /\
    state call' = RXRPC_CALL_COMPLETE /\
    completion call' = RXRPC_CALL_LOCALLY_ABORTED /\
    abort_code call' = RX_PROTOCOL_ERROR /\
    In A_send_abort_packet out /\
    flags call' = flags ca_call /\
    acks_hard_ack (tx call') = acks_hard_ack (tx ca_call) /\
    acks_lowest_nak (tx call') = acks_lowest_nak (tx ca_call) /\
    tx_buffer (tx call') = tx_buffer (tx ca_call).
Proof.
  apply (@C7_bad_hard_ack_aborts linux_params quiet_env ca_call
           (ack_pkt 7 overshoot_ack []) overshoot_ack).
  - reflexivity.
  - reflexivity.
  - reflexivity.
  - right. left. reflexivity.
Defined.

(** ** DATA admission *)

Lemma before_refl w : before w w = false.
Proof. unfold before. rewrite Z.sub_diag. reflexivity. Qed.

Lemma drain_unacked q : forall call window wtop reset,
  ackr_nr_unacked (rx (rxrpc_drain_oos q call window wtop reset).1.1)
    = ackr_nr_unacked (rx call).
Proof.
  induction q as [|s q IH]; intros; simpl; [reflexivity|].
  destruct (after _ _); [reflexivity|]. rewrite IH. reflexivity.
Qed.

(** C10.  On the duplicate in-window branch of DATA admission (the
    sequence number is in the window, is not the next one expected, and
    its SACK entry is already set) the packet is freed after
    ACK(DUPLICATE) was sent, and the call differs from what it was only
    in the packed [ackr_window] and in [nr_jumbo_bad]: the window half
    of [ackr_window] is the same, wtop is advanced to seq+1 when that
    is after the old wtop, and [nr_jumbo_bad] stays or is incremented
    as the 8-bit counter it is (255 is followed by 0).
    The SACK table, [rx_queue], [rx_oos_queue] and every field outside
    the receive window are untouched. *)
Theorem C10_duplicate_in_window_frame `{P : rxrpc_params}
    (call : rxrpc_call) (skb : sk_buff) :
  let window := call_window (rx call) in
  let wtop := call_wtop (rx call) in
  let wlimit := u32 (window + rx_winsize (rx call) - 1) in
  let seq := skb_seq skb in
  has_flag (hdr_flags (skb_hdr skb)) RXRPC_JUMBO_PACKET
    && (3 <? nr_jumbo_bad (rx call)) = false ->
  before seq window = false ->
  after seq wlimit = false ->
  seq <> window ->
  sack_get (ackr_sack_table (rx call)) seq <> 0 ->
  exists call' aw nb,
    rxrpc_data_admission call skb window wtop wlimit =
      Done (call', [A_send_ACK RXRPC_ACK_DUPLICATE (hdr_serial (skb_hdr skb))
                      rxrpc_propose_ack_input_data;
                    A_free_skb skb]) /\
    call' = upd_rx (fun r => set_nr_jumbo_bad nb (set_ackr_window aw r)) call /\
    lower_32_bits aw = window /\
    upper_32_bits aw = (if after (u32 (seq + 1)) wtop then u32 (seq + 1) else wtop) /\
    (nb = nr_jumbo_bad (rx call) \/ nb = u8 (nr_jumbo_bad (rx call) + 1)) /\
    ackr_sack_table (rx call') = ackr_sack_table (rx call) /\
    rx_queue (rx call') = rx_queue (rx call) /\
    rx_oos_queue (rx call') = rx_oos_queue (rx call).
Proof.
  intros window wtop wlimit seq Hj Hb Ha Hne Hs.
  unfold rxrpc_data_admission. fold (skb_seq skb). fold seq. rewrite Hj, Hb, Ha.
  destruct (Z.eqb_spec seq window) as [|_]; [contradiction|].
  destruct (Z.eqb_spec (sack_get (ackr_sack_table (rx call)) seq) 0) as [|_];
    [contradiction|].
  assert (Hw : is_u32 window) by apply lower_32_bits_range.
  assert (Eta : forall c : rxrpc_call,
             c = upd_rx (fun r => set_nr_jumbo_bad (nr_jumbo_bad r)
                                    (set_ackr_window (ackr_window r) r)) c).
  { intros [? ? ? ? ? ? ? ? ? [] ? ? ? ?]. reflexivity. }
  assert (Hpw : forall t, lower_32_bits (ackr_pack window (u32 t)) = window)
    by (intros; apply ackr_pack_window; [assumption|apply u32_range]).
  assert (Hpt : forall t, upper_32_bits (ackr_pack window (u32 t)) = u32 t)
    by (intros; apply ackr_pack_wtop; [assumption|apply u32_range]).
  destruct (after (u32 (seq + 1)) wtop);
    destruct (has_flag (hdr_flags (skb_hdr skb)) RXRPC_JUMBO_PACKET); simpl.
  - exists (rxrpc_receive_update_ack_window call window (u32 (seq + 1))),
      (ackr_pack window (u32 (seq + 1))), (nr_jumbo_bad (rx call)).
    split_and!; try reflexivity; auto.
  - eexists _, (ackr_pack window (u32 (seq + 1))), (u8 (nr_jumbo_bad (rx call) + 1)).
    split_and!; try reflexivity; auto.
  - exists call, (ackr_window (rx call)), (nr_jumbo_bad (rx call)).
    split_and!; try reflexivity; auto.
  - eexists _, (ackr_window (rx call)), (u8 (nr_jumbo_bad (rx call) + 1)).
    split_and!; try reflexivity; auto.
Qed.

(** DATA 3 arrives again while it waits in the out-of-sequence queue. *)
Lemma C10_duplicate_in_window_frame_witness :
  exists call' aw nb,
    @rxrpc_data_admission linux_params gap_call (data_pkt 3 0 38 [])
      (call_window (rx gap_call)) (call_wtop (rx gap_call))
      (u32 (call_window (rx gap_call) + rx_winsize (rx gap_call) - 1)) =
      Done (call', [A_send_ACK RXRPC_ACK_DUPLICATE 103 rxrpc_propose_ack_input_data;
                    A_free_skb (data_pkt 3 0 38 [])]) /\
    call' = upd_rx (fun r => set_nr_jumbo_bad nb (set_ackr_window aw r)) gap_call /\
    lower_32_bits aw = call_window (rx gap_call) /\
    upper_32_bits aw =
      (if after (u32 (3 + 1)) (call_wtop (rx gap_call)) then u32 (3 + 1)
       else call_wtop (rx gap_call)) /\
    (nb = nr_jumbo_bad (rx gap_call) \/ nb = u8 (nr_jumbo_bad (rx gap_call) + 1)) /\
    ackr_sack_table (rx call') = ackr_sack_table (rx gap_call) /\
    rx_queue (rx call') = rx_queue (rx gap_call) /\
    rx_oos_queue (rx call') = rx_oos_queue (rx gap_call).
Proof.
  apply (@C10_duplicate_in_window_frame linux_params gap_call (data_pkt 3 0 38 [])).
  - reflexivity.
  - reflexivity.
  - reflexivity.
  - vm_compute. discriminate.
  - vm_compute. discriminate.
Defined.

(** C6 (amended).  When a DATA packet with seq equal to window is
    admitted, the action depends on the packet and on the
    out-of-sequence queue as it was on arrival: with REQUEST_ACK set
    the action is ACK(REQUESTED); otherwise, if the out-of-sequence
    queue was not empty, it is ACK(DELAY); otherwise the unacked count
    is incremented and a delayed ACK is proposed.  The unacked count
    changes in the last case only, and the packet is not freed. *)
Theorem C6_in_order_ack_choice `{P : rxrpc_params}
    (call : rxrpc_call) (skb : sk_buff) :
  let window := call_window (rx call) in
  let wtop := call_wtop (rx call) in
  let wlimit := u32 (window + rx_winsize (rx call) - 1) in
  let serial := hdr_serial (skb_hdr skb) in
  has_flag (hdr_flags (skb_hdr skb)) RXRPC_JUMBO_PACKET
    && (3 <? nr_jumbo_bad (rx call)) = false ->
  skb_seq skb = window ->
  after (skb_seq skb) wlimit = false ->
  exists call',
    rxrpc_data_admission call skb window wtop wlimit =
      Done (call',
            [if has_flag (hdr_flags (skb_hdr skb)) RXRPC_REQUEST_ACK
             then A_send_ACK RXRPC_ACK_REQUESTED serial rxrpc_propose_ack_input_data
             else match rx_oos_queue (rx call) with
                  | _ :: _ => A_send_ACK RXRPC_ACK_DELAY serial rxrpc_propose_ack_input_data
                  | [] => A_propose_delay_ACK serial rxrpc_propose_ack_input_data
                  end]) /\
    ackr_nr_unacked (rx call') =
      (if has_flag (hdr_flags (skb_hdr skb)) RXRPC_REQUEST_ACK
       then ackr_nr_unacked (rx call)
       else match rx_oos_queue (rx call) with
            | _ :: _ => ackr_nr_unacked (rx call)
            | [] => ackr_nr_unacked (rx call) + 1
            end).
Proof.
  intros window wtop wlimit serial Hj Hs Ha.
  unfold rxrpc_data_admission. fold (skb_seq skb). fold serial.
  rewrite Hj, Ha, Hs, before_refl, Z.eqb_refl.
  set (ac := if has_flag _ RXRPC_REQUEST_ACK then _ else _).
  assert (Hac : ac =
            (if has_flag (hdr_flags (skb_hdr skb)) RXRPC_REQUEST_ACK then RXRPC_ACK_REQUESTED
             else match rx_oos_queue (rx call) with
                  | _ :: _ => RXRPC_ACK_DELAY
                  | [] => -1
                  end, ac.2) /\
          ackr_nr_unacked (rx ac.2) =
            (if has_flag (hdr_flags (skb_hdr skb)) RXRPC_REQUEST_ACK
             then ackr_nr_unacked (rx call)
             else match rx_oos_queue (rx call) with
                  | _ :: _ => ackr_nr_unacked (rx call)
                  | [] => ackr_nr_unacked (rx call) + 1
                  end)).
  { subst ac. destruct (has_flag (hdr_flags (skb_hdr skb)) RXRPC_REQUEST_ACK); [auto|].
    destruct (rx_oos_queue (rx call)); simpl; auto. }
  destruct Hac as [Hac Hun]. rewrite Hac. clearbody ac. destruct ac as [r c1].
  simpl in Hun |- *.
  set (wtop1 := if after (u32 (window + 1)) wtop then u32 (window + 1) else wtop).
  pose proof (drain_unacked (rx_oos_queue (rx c1))
                (rxrpc_receive_queue_data c1 skb (u32 (window + 1)) wtop1)
                (u32 (window + 1)) wtop1 None) as Hd.
  change (rx_oos_queue (rx (rxrpc_receive_queue_data c1 skb (u32 (window + 1)) wtop1)))
    with (rx_oos_queue (rx c1)).
  destruct (rxrpc_drain_oos _ _ _ _ _) as [[c2 w2] reset]. simpl in Hd.
  assert (Hout : forall r : Z,
            rxrpc_send_ack_label
              (if has_flag (hdr_flags (skb_hdr skb)) RXRPC_REQUEST_ACK then RXRPC_ACK_REQUESTED
               else match rx_oos_queue (rx call) with
                    | _ :: _ => RXRPC_ACK_DELAY
                    | [] => -1
                    end) serial None =
            [if has_flag (hdr_flags (skb_hdr skb)) RXRPC_REQUEST_ACK
             then A_send_ACK RXRPC_ACK_REQUESTED serial rxrpc_propose_ack_input_data
             else match rx_oos_queue (rx call) with
                  | _ :: _ => A_send_ACK RXRPC_ACK_DELAY serial rxrpc_propose_ack_input_data
                  | [] => A_propose_delay_ACK serial rxrpc_propose_ack_input_data
                  end]).
  { intros _. destruct (has_flag (hdr_flags (skb_hdr skb)) RXRPC_REQUEST_ACK);
      [reflexivity|].
    destruct (rx_oos_queue (rx call)); reflexivity. }
  rewrite (Hout 0). clear Hout.
  destruct reset as [rf|]; simpl.
  - destruct (reset_sack_total w2 (Z.to_nat (u32 (w2 - rf))) (ackr_sack_table (rx c2)) rf
                ltac:(lia)) as (tbl & ->).
    simpl. eexists. split; [reflexivity|]. simpl. congruence.
  - eexists. split; [reflexivity|]. congruence.
Qed.

(** DATA 1 arrives while DATA 3 waits in the out-of-sequence queue. *)
Lemma C6_in_order_ack_choice_witness :
  exists call',
    @rxrpc_data_admission linux_params hole_call (data_pkt 1 0 38 [])
      (call_window (rx hole_call)) (call_wtop (rx hole_call))
      (u32 (call_window (rx hole_call) + rx_winsize (rx hole_call) - 1)) =
      Done (call',
            [if has_flag 0 RXRPC_REQUEST_ACK
             then A_send_ACK RXRPC_ACK_REQUESTED 101 rxrpc_propose_ack_input_data
             else match rx_oos_queue (rx hole_call) with
                  | _ :: _ => A_send_ACK RXRPC_ACK_DELAY 101 rxrpc_propose_ack_input_data
                  | [] => A_propose_delay_ACK 101 rxrpc_propose_ack_input_data
                  end]) /\
    ackr_nr_unacked (rx call') =
      (if has_flag 0 RXRPC_REQUEST_ACK
       then ackr_nr_unacked (rx hole_call)
       else match rx_oos_queue (rx hole_call) with
            | _ :: _ => ackr_nr_unacked (rx hole_call)
            | [] => ackr_nr_unacked (rx hole_call) + 1
            end).
Proof.
  apply (@C6_in_order_ack_choice linux_params hole_call (data_pkt 1 0 38 [])).
  - reflexivity.
  - reflexivity.
  - reflexivity.
Defined.

(** C6 as stated fails, in two ways.  DATA 1 arrives while DATA 3
    waits for DATA 2: nothing is drained from the out-of-sequence queue
    and the packet does not ask for an ACK, yet the action is
    ACK(DELAY), and the unacked count is not incremented.  DATA 2 with
    REQUEST_ACK arrives while DATA 3 waits for it: DATA 3 is drained,
    yet the action is ACK(REQUESTED). *)
Lemma C6_counterexample :
  match @rxrpc_receive_data_one linux_params hole_call (data_pkt 1 0 38 []) with
  | Done (call', out) =>
    (has_flag (hdr_flags (skb_hdr (data_pkt 1 0 38 []))) RXRPC_REQUEST_ACK,
     map skb_seq (rx_oos_queue (rx hole_call)),
     map skb_seq (rx_oos_queue (rx call')),
     map skb_seq (rx_queue (rx call')),
     out,
     ackr_nr_unacked (rx call') - ackr_nr_unacked (rx hole_call))
  | _ => (true, [], [], [], [], 0)
  end
  = (false, [3], [3], [1],
     [A_send_ACK RXRPC_ACK_DELAY 101 rxrpc_propose_ack_input_data], 0) /\
  match @rxrpc_receive_data_one linux_params gap_call
          (data_pkt 2 RXRPC_REQUEST_ACK 38 []) with
  | Done (call', out) =>
    (map skb_seq (rx_oos_queue (rx gap_call)),
     map skb_seq (rx_oos_queue (rx call')),
     map skb_seq (rx_queue (rx call')),
     out)
  | _ => ([], [], [], [])
  end
  = ([3], [], [1; 2; 3],
     [A_send_ACK RXRPC_ACK_REQUESTED 102 rxrpc_propose_ack_input_data]).
Proof. split; vm_compute; reflexivity. Qed.

(** ** Replayed packets *)

Lemma data_admission_replay `{P : rxrpc_params} (c : rxrpc_call) (skb : sk_buff)
    (window wtop W : Z) :
  is_u32 window -> is_u32 wtop -> is_u32 (skb_seq skb) ->
  u32 (wtop - window) <= W -> 1 <= W <= 2^30 ->
  has_flag (hdr_flags (skb_hdr skb)) RXRPC_JUMBO_PACKET
    && (3 <? nr_jumbo_bad (rx c)) = false ->
  (before (skb_seq skb) window = true \/
   (1 <= u32 (skb_seq skb - window) < u32 (wtop - window) /\
    sack_get (ackr_sack_table (rx c)) (skb_seq skb) <> 0)) ->
  exists c',
    rxrpc_data_admission c skb window wtop (u32 (window + W - 1)) =
      Done (c', [A_send_ACK RXRPC_ACK_DUPLICATE (hdr_serial (skb_hdr skb))
                   rxrpc_propose_ack_input_data;
                 A_free_skb skb]) /\
    ackr_window (rx c') = ackr_window (rx c) /\
    ackr_sack_table (rx c') = ackr_sack_table (rx c) /\
    rx_queue (rx c') = rx_queue (rx c) /\
    rx_oos_queue (rx c') = rx_oos_queue (rx c) /\
    ackr_nr_unacked (rx c') = ackr_nr_unacked (rx c) /\
    tx c' = tx c /\ cong c' = cong c /\
    state c' = state c /\ completion c' = completion c /\ flags c' = flags c.
Proof.
  intros Hw Ht Hs HT HW Hj Hp. unfold rxrpc_data_admission. fold (skb_seq skb). rewrite Hj.
  destruct Hp as [Hb|[Hd Hsack]].
  - rewrite Hb. eexists. split; [reflexivity|]. auto 12.
  - destruct (before (skb_seq skb) window) eqn:Eb.
    { apply before_iff in Eb. lia. }
    destruct (after (skb_seq skb) (u32 (window + W - 1))) eqn:Ea.
    { apply after_iff in Ea. exfalso. unfold is_u32 in *. mod_lia. }
    destruct (Z.eqb_spec (skb_seq skb) window) as [E|_].
    { exfalso. rewrite E in Hd. unfold is_u32 in *. mod_lia. }
    destruct (Z.eqb_spec (sack_get (ackr_sack_table (rx c)) (skb_seq skb)) 0) as [|_];
      [contradiction|].
    destruct (after (u32 (skb_seq skb + 1)) wtop) eqn:Et.
    { apply after_iff in Et. exfalso. unfold is_u32 in *. mod_lia. }
    destruct (has_flag (hdr_flags (skb_hdr skb)) RXRPC_JUMBO_PACKET); simpl;
      eexists; (split; [reflexivity|]); simpl; auto 12.
Qed.

(** C9 (amended).  Replaying a DATA packet that was already processed
    (its sequence number is before the window, or it waits in the
    out-of-sequence queue), when the replay is not refused by the
    jumbo limit and passes the last-packet checks, yields
    ACK(DUPLICATE) and frees the packet; the window and wtop, the SACK
    table, [rx_queue], [rx_oos_queue], the unacked count, the Tx side,
    the congestion fields and the call state are unchanged. *)
Theorem C9_replay_yields_duplicate `{P : rxrpc_params}
    (call : rxrpc_call) (skb : sk_buff) :
  params_ok ->
  rx_wf (rx call) ->
  is_u32 (skb_seq skb) ->
  (before (skb_seq skb) (call_window (rx call)) = true \/
   In (skb_seq skb) (map skb_seq (rx_oos_queue (rx call)))) ->
  has_flag (hdr_flags (skb_hdr skb)) RXRPC_JUMBO_PACKET
    && (3 <? nr_jumbo_bad (rx call)) = false ->
  passes_last_check call skb = true ->
  exists call',
    rxrpc_receive_data_one call skb =
      Done (call', [A_send_ACK RXRPC_ACK_DUPLICATE (hdr_serial (skb_hdr skb))
                      rxrpc_propose_ack_input_data;
                    A_free_skb skb]) /\
    ackr_window (rx call') = ackr_window (rx call) /\
    ackr_sack_table (rx call') = ackr_sack_table (rx call) /\
    rx_queue (rx call') = rx_queue (rx call) /\
    rx_oos_queue (rx call') = rx_oos_queue (rx call) /\
    ackr_nr_unacked (rx call') = ackr_nr_unacked (rx call) /\
    tx call' = tx call /\ cong call' = cong call /\
    state call' = state call /\ completion call' = completion call.
Proof.
  intros Pok Hwf Hs Hp Hj Hl. pose proof Hwf as (HW & HT & Hsorted & Hsack & Hlen).
  pose proof (sack_size_pos Pok) as HN.
  assert (Hp' : forall c : rxrpc_call,
             ackr_sack_table (rx c) = ackr_sack_table (rx call) ->
             before (skb_seq skb) (call_window (rx call)) = true \/
             (1 <= u32 (skb_seq skb - call_window (rx call))
                < u32 (call_wtop (rx call) - call_window (rx call)) /\
              sack_get (ackr_sack_table (rx c)) (skb_seq skb) <> 0)).
  { intros c Hc. destruct Hp as [Hb|Hin]; [left; assumption|right].
    apply in_map_iff in Hin. destruct Hin as (s & Es & Hin).
    apply oos_sorted_Forall in Hsorted.
    rewrite Forall_forall in Hsorted, Hsack. apply list_elem_of_In in Hin.
    destruct (Hsorted s Hin) as [_ Hr]. specialize (Hsack s Hin).
    rewrite Hc, <- Es. auto. }
  assert (A : forall c : rxrpc_call,
             rx_winsize (rx c) = rx_winsize (rx call) ->
             nr_jumbo_bad (rx c) = nr_jumbo_bad (rx call) ->
             ackr_sack_table (rx c) = ackr_sack_table (rx call) ->
             ackr_window (rx c) = ackr_window (rx call) ->
             rx_queue (rx c) = rx_queue (rx call) ->
             rx_oos_queue (rx c) = rx_oos_queue (rx call) ->
             ackr_nr_unacked (rx c) = ackr_nr_unacked (rx call) ->
             tx c = tx call -> cong c = cong call -> state c = state call ->
             completion c = completion call ->
             exists call',
               rxrpc_data_admission c skb (lower_32_bits (ackr_window (rx call)))
                 (upper_32_bits (ackr_window (rx call)))
                 (u32 (lower_32_bits (ackr_window (rx call)) + rx_winsize (rx call) - 1)) =
                 Done (call', [A_send_ACK RXRPC_ACK_DUPLICATE (hdr_serial (skb_hdr skb))
                                 rxrpc_propose_ack_input_data;
                               A_free_skb skb]) /\
               ackr_window (rx call') = ackr_window (rx call) /\
               ackr_sack_table (rx call') = ackr_sack_table (rx call) /\
               rx_queue (rx call') = rx_queue (rx call) /\
               rx_oos_queue (rx call') = rx_oos_queue (rx call) /\
               ackr_nr_unacked (rx call') = ackr_nr_unacked (rx call) /\
               tx call' = tx call /\ cong call' = cong call /\
               state call' = state call /\ completion call' = completion call).
  { intros c E1 E2 E3 E4 E5 E6 E7 E8 E9 E10 E11.
    destruct (data_admission_replay c skb (call_window (rx call)) (call_wtop (rx call))
                (rx_winsize (rx call))) as (c' & R & F);
      try assumption; try lia.
    - apply lower_32_bits_range.
    - apply upper_32_bits_range.
    - rewrite E2. assumption.
    - apply Hp'. assumption.
    - exists c'. split; [exact R|].
      destruct F as (F1 & F2 & F3 & F4 & F5 & F6 & F7 & F8 & F9 & _).
      split_and!; congruence. }
  unfold rxrpc_receive_data_one. unfold passes_last_check in Hl.
  fold (skb_seq skb). fold (call_wtop (rx call)).
  destruct (has_flag (hdr_flags (skb_hdr skb)) RXRPC_LAST_PACKET).
  - apply andb_true_iff in Hl. destruct Hl as [Hl1 Hl2]. rewrite Hl1, Hl2. simpl.
    destruct (after _ _); apply A; reflexivity.
  - apply negb_true_iff in Hl. rewrite Hl.
    destruct (after _ _); apply A; reflexivity.
Qed.

(** DATA 1, already delivered, arrives again. *)
Lemma C9_replay_yields_duplicate_witness :
  exists call',
    @rxrpc_receive_data_one linux_params gap_call (data_pkt 1 0 38 []) =
      Done (call', [A_send_ACK RXRPC_ACK_DUPLICATE 101 rxrpc_propose_ack_input_data;
                    A_free_skb (data_pkt 1 0 38 [])]) /\
    ackr_window (rx call') = ackr_window (rx gap_call) /\
    ackr_sack_table (rx call') = ackr_sack_table (rx gap_call) /\
    rx_queue (rx call') = rx_queue (rx gap_call) /\
    rx_oos_queue (rx call') = rx_oos_queue (rx gap_call) /\
    ackr_nr_unacked (rx call') = ackr_nr_unacked (rx gap_call) /\
    tx call' = tx gap_call /\ cong call' = cong gap_call /\
    state call' = state gap_call /\ completion call' = completion gap_call.
Proof.
  apply (@C9_replay_yields_duplicate linux_params gap_call (data_pkt 1 0 38 [])).
  - split; [exists 8; split; [lia|reflexivity] | reflexivity].
  - apply rx_wfb_spec. vm_compute. reflexivity.
  - unfold is_u32, skb_seq, data_pkt. simpl. lia.
  - left. reflexivity.
  - reflexivity.
  - reflexivity.
Defined.

(** C9 as stated fails, in two ways.  The subpacket with sequence
    number 1 of a jumbo was delivered; once [nr_jumbo_bad] has reached
    4, its replay is answered with ACK(NOSPACE), not ACK(DUPLICATE).
    And DATA 2 with the LAST flag waits in the out-of-sequence queue
    below wtop = 4: its replay fails the last-packet check, no ACK is
    sent and the call is aborted. *)
Lemma C9_counterexample :
  (map skb_seq (rx_queue (rx replayed_call)),
   nr_jumbo_bad (rx replayed_call),
   before (skb_seq jumbo_sub1) (call_window (rx replayed_call)),
   match @rxrpc_receive_data_one linux_params replayed_call jumbo_sub1 with
   | Done (_, out) => sent_acks out
   | _ => []
   end)
  = ([1], 4, true, [RXRPC_ACK_NOSPACE]) /\
  (map skb_seq (rx_oos_queue (rx early_last_call)),
   call_wtop (rx early_last_call),
   state early_last_call,
   match @rxrpc_receive_data_one linux_params early_last_call
           (data_pkt 2 RXRPC_LAST_PACKET 38 []) with
   | Done (call', out) => (sent_acks out, state call', completion call')
   | _ => ([], state early_last_call, completion early_last_call)
   end)
  = ([2; 3], 4, RXRPC_CALL_SERVER_RECV_REQUEST,
     ([], RXRPC_CALL_COMPLETE, RXRPC_CALL_LOCALLY_ABORTED)).
Proof. split; vm_compute; reflexivity. Qed.

(** ** Congestion management *)

Lemma test_bit_clear_bit f word : test_bit f (clear_bit f word) = false.
Proof. unfold test_bit, clear_bit. apply Z.clearbit_eq. Qed.

Section Congestion.
Context `{P : rxrpc_params}.

(** A NAK seen in congestion avoidance: packet loss is detected. *)
Lemma congestion_ca_nack env call skb summary acked_serial :
  cong_mode (cong call) = RXRPC_CALL_CONGEST_AVOIDANCE ->
  test_bit RXRPC_CALL_RETRANS_TIMEOUT (flags call) = false ->
  saw_nacks summary = true ->
  cong_cwnd (cong call) < RXRPC_TX_MAX_WINDOW ->
  let r := rxrpc_congestion_management env call skb summary acked_serial in
  cong_mode (cong r.1.1) = RXRPC_CALL_PACKET_LOSS /\
  cong_dup_acks (cong r.1.1) = 0 /\
  cong_ssthresh (cong r.1.1) = cong_ssthresh (cong call) /\
  cong_cwnd (cong r.1.1) = cong_cwnd (cong call) /\
  resends r.2 = 0%nat /\
  tx r.1.1 = tx call /\
  test_bit RXRPC_CALL_RETRANS_TIMEOUT (flags r.1.1) = false.
Proof.
  intros Hm Hf Hn Hc. unfold rxrpc_congestion_management. rewrite Hf. simpl.
  rewrite Hm. simpl.
  unfold rxrpc_cong_packet_loss_detected, rxrpc_cong_send_extra_data,
    rxrpc_cong_out_no_clear_ca.
  destruct (Z.leb_spec RXRPC_TX_MAX_WINDOW (cong_cwnd (cong call))); [lia|].
  destruct (_ <? env_now env); simpl; rewrite Hn;
    destruct (_ || _); simpl; rewrite test_bit_clear_bit; auto 10.
Qed.

(** Further NAKs in packet loss, none of them a new lowest NAK: the
    duplicate count grows, and at three fast retransmission begins. *)
Lemma congestion_loss_nack env call skb summary acked_serial :
  cong_mode (cong call) = RXRPC_CALL_PACKET_LOSS ->
  test_bit RXRPC_CALL_RETRANS_TIMEOUT (flags call) = false ->
  saw_nacks summary = true ->
  new_low_nack summary = false ->
  cong_cwnd (cong call) < RXRPC_TX_MAX_WINDOW ->
  let flight :=
    u32 (u32 (tx_top (tx call) - acks_hard_ack (tx call)) - nr_acks summary) in
  Z.max (flight / 2) 2 + 3 < RXRPC_TX_MAX_WINDOW ->
  let r := rxrpc_congestion_management env call skb summary acked_serial in
  tx r.1.1 = tx call /\
  test_bit RXRPC_CALL_RETRANS_TIMEOUT (flags r.1.1) = false /\
  if cong_dup_acks (cong call) + 1 <? 3 then
    cong_mode (cong r.1.1) = RXRPC_CALL_PACKET_LOSS /\
    cong_dup_acks (cong r.1.1) = cong_dup_acks (cong call) + 1 /\
    cong_ssthresh (cong r.1.1) = cong_ssthresh (cong call) /\
    cong_cwnd (cong r.1.1) = cong_cwnd (cong call) /\
    resends r.2 = 0%nat
  else
    cong_mode (cong r.1.1) = RXRPC_CALL_FAST_RETRANSMIT /\
    cong_dup_acks (cong r.1.1) = 0 /\
    cong_ssthresh (cong r.1.1) = Z.max (flight / 2) 2 /\
    cong_cwnd (cong r.1.1) = Z.max (flight / 2) 2 + 3 /\
    resends r.2 = 1%nat.
Proof.
  intros Hm Hf Hn Hl Hc flight Hfl. unfold rxrpc_congestion_management.
  rewrite Hf. simpl. rewrite Hm. simpl. rewrite Hn. simpl. rewrite Hl. simpl.
  fold flight.
  destruct (cong_dup_acks (cong call) + 1 <? 3).
  - unfold rxrpc_cong_send_extra_data, rxrpc_cong_out_no_clear_ca.
    destruct (Z.leb_spec RXRPC_TX_MAX_WINDOW (cong_cwnd (cong call))); [lia|].
    destruct (_ || _); simpl; rewrite test_bit_clear_bit; auto 10.
  - unfold rxrpc_cong_out, rxrpc_cong_out_no_clear_ca. simpl.
    destruct (Z.leb_spec RXRPC_TX_MAX_WINDOW (Z.max (flight / 2) 2 + 3)); [lia|].
    simpl. rewrite test_bit_clear_bit. auto 10.
Qed.

End Congestion.

Lemma resends_app out out' : resends (out ++ out') = (resends out + resends out')%nat.
Proof. unfold resends. rewrite List.filter_app, length_app. reflexivity. Qed.

(** C4 (amended).  Starting in CONGEST_AVOIDANCE with cwnd=10 and
    ssthresh=8, with a flight size of 8, successive ACK summaries with
    [saw_nacks] set and without [new_low_nack] lead to fast
    retransmission at the fourth ACK, not the third: the first ACK
    moves the call to PACKET_LOSS with a duplicate count of 0, so after
    three ACKs the mode is PACKET_LOSS with ssthresh=8, cwnd=10,
    dup_acks=2 and no resend requested; after the fourth the mode is
    FAST_RETRANSMIT with ssthresh=max(8/2,2)=4, cwnd=ssthresh+3=7,
    dup_acks=0, and resend was requested exactly once over the four
    ACKs. *)
Theorem C4_fast_retransmit_on_fourth_nack `{P : rxrpc_params} (env : rx_env)
    (skb : sk_buff) (acked_serial : Z) (call : rxrpc_call)
    (s1 s2 s3 s4 : rxrpc_ack_summary) :
  cong_mode (cong call) = RXRPC_CALL_CONGEST_AVOIDANCE ->
  cong_cwnd (cong call) = 10 ->
  cong_ssthresh (cong call) = 8 ->
  test_bit RXRPC_CALL_RETRANS_TIMEOUT (flags call) = false ->
  10 < RXRPC_TX_MAX_WINDOW ->
  dup_nack_summary call 8 s1 -> dup_nack_summary call 8 s2 ->
  dup_nack_summary call 8 s3 -> dup_nack_summary call 8 s4 ->
  let r3 := congestion_all env skb acked_serial [s1; s2; s3] call in
  let r4 := congestion_all env skb acked_serial [s1; s2; s3; s4] call in
  (cong_mode (cong r3.1) = RXRPC_CALL_PACKET_LOSS /\
   cong_ssthresh (cong r3.1) = 8 /\ cong_cwnd (cong r3.1) = 10 /\
   cong_dup_acks (cong r3.1) = 2 /\ resends r3.2 = 0%nat) /\
  (cong_mode (cong r4.1) = RXRPC_CALL_FAST_RETRANSMIT /\
   cong_ssthresh (cong r4.1) = 4 /\ cong_cwnd (cong r4.1) = 7 /\
   cong_dup_acks (cong r4.1) = 0 /\ resends r4.2 = 1%nat).
Proof.
  intros Hm Hc Hs Hf Hw (N1 & L1 & F1) (N2 & L2 & F2) (N3 & L3 & F3) (N4 & L4 & F4).
  simpl.
  assert (W0 : cong_cwnd (cong call) < RXRPC_TX_MAX_WINDOW) by lia.
  assert (W8 : Z.max (8 / 2) 2 + 3 < RXRPC_TX_MAX_WINDOW)
    by (change (Z.max (8 / 2) 2 + 3) with 7; lia).
  pose proof (congestion_ca_nack env call skb s1 acked_serial Hm Hf N1 W0) as A1.
  destruct (rxrpc_congestion_management env call skb s1 acked_serial) as [[c1 m1] o1].
  simpl in A1. destruct A1 as (M1 & D1 & S1 & C1 & R1 & T1 & B1).
  rewrite <- C1 in W0.
  pose proof (congestion_loss_nack env c1 skb s2 acked_serial M1 B1 N2 L2 W0) as A2.
  rewrite T1, F2, D1 in A2. specialize (A2 W8).
  destruct (rxrpc_congestion_management env c1 skb s2 acked_serial) as [[c2 m2] o2].
  simpl in A2. destruct A2 as (T2 & B2 & M2 & D2 & S2 & C2 & R2).
  rewrite <- C2 in W0.
  pose proof (congestion_loss_nack env c2 skb s3 acked_serial M2 B2 N3 L3 W0) as A3.
  rewrite T2, F3, D2 in A3. specialize (A3 W8).
  destruct (rxrpc_congestion_management env c2 skb s3 acked_serial) as [[c3 m3] o3].
  simpl in A3. destruct A3 as (T3 & B3 & M3 & D3 & S3 & C3 & R3).
  rewrite <- C3 in W0.
  pose proof (congestion_loss_nack env c3 skb s4 acked_serial M3 B3 N4 L4 W0) as A4.
  rewrite T3, F4, D3 in A4. specialize (A4 W8).
  destruct (rxrpc_congestion_management env c3 skb s4 acked_serial) as [[c4 m4] o4].
  simpl in A4. destruct A4 as (T4 & B4 & M4 & D4 & S4 & C4 & R4).
  simpl. rewrite !resends_app, R1, R2, R3, R4. simpl.
  split; split_and!; try assumption; try reflexivity; lia.
Qed.

(** The call that has sent ten packets, with NAKs in each of four ACKs. *)
Lemma C4_fast_retransmit_on_fourth_nack_witness :
  (cong_mode (cong after_three_nacks.1) = RXRPC_CALL_PACKET_LOSS /\
   cong_ssthresh (cong after_three_nacks.1) = 8 /\
   cong_cwnd (cong after_three_nacks.1) = 10 /\
   cong_dup_acks (cong after_three_nacks.1) = 2 /\
   resends after_three_nacks.2 = 0%nat) /\
  (cong_mode (cong after_four_nacks.1) = RXRPC_CALL_FAST_RETRANSMIT /\
   cong_ssthresh (cong after_four_nacks.1) = 4 /\
   cong_cwnd (cong after_four_nacks.1) = 7 /\
   cong_dup_acks (cong after_four_nacks.1) = 0 /\
   resends after_four_nacks.2 = 1%nat).
Proof.
  apply (@C4_fast_retransmit_on_fourth_nack linux_params quiet_env
           (ack_pkt 7 regressed_ack []) 0 ca_call
           nack_summary nack_summary nack_summary nack_summary).
  - reflexivity.
  - reflexivity.
  - reflexivity.
  - reflexivity.
  - simpl. lia.
  - unfold dup_nack_summary. split_and!; reflexivity.
  - unfold dup_nack_summary. split_and!; reflexivity.
  - unfold dup_nack_summary. split_and!; reflexivity.
  - unfold dup_nack_summary. split_and!; reflexivity.
Defined.

(** C4 as stated fails: starting in CONGEST_AVOIDANCE with cwnd=10,
    ssthresh=8 and a flight size of 8, after three ACKs with NAKs and
    without a new lowest NAK the call is in PACKET_LOSS, with ssthresh
    and cwnd as they were, a duplicate count of 2, and no resend
    requested. *)
Lemma C4_counterexample :
  (cong_mode (cong ca_call), cong_cwnd (cong ca_call), cong_ssthresh (cong ca_call),
   saw_nacks nack_summary, new_low_nack nack_summary,
   u32 (u32 (tx_top (tx ca_call) - acks_hard_ack (tx ca_call)) - nr_acks nack_summary),
   cong_mode (cong after_three_nacks.1), cong_ssthresh (cong after_three_nacks.1),
   cong_cwnd (cong after_three_nacks.1), cong_dup_acks (cong after_three_nacks.1),
   resends after_three_nacks.2)
  = (RXRPC_CALL_CONGEST_AVOIDANCE, 10, 8, true, false, 8,
     RXRPC_CALL_PACKET_LOSS, 8, 10, 2, 0%nat).
Proof. vm_compute. reflexivity. Qed.

(** ** The jumbo limit *)

(** C3 (the code departs from the claim).  The limit on bad jumbos is
    tested in [rxrpc_receive_data_one] (line 415), for each subpacket
    after the jumbo has been split, on the JUMBO flag of that
    subpacket's header: a packet or subpacket that carries the flag
    (and passes the last-packet checks) is refused with ACK(NOSPACE)
    and freed once [nr_jumbo_bad] exceeds 3.  But a jumbo is split all
    the same, and its last subpacket, whose header does not carry the
    flag, gets past the test: with [nr_jumbo_bad] at 4, of a jumbo with
    the sequence numbers 1 and 2 the first part is refused and the
    second is queued out of sequence, wtop moving to 3.  Nor does the
    refusal last: the count is 8 bits wide, so after 4 plain duplicates
    of DATA 3 a subpacket 2 with the JUMBO flag is refused, and after
    256 of them the count is 0 again and the same subpacket is
    taken into the receive queue. *)
Theorem C3_jumbo_limit_lets_tail_through `{P : rxrpc_params} :
  (forall (call : rxrpc_call) (skb : sk_buff),
     3 < nr_jumbo_bad (rx call) ->
     has_flag (hdr_flags (skb_hdr skb)) RXRPC_JUMBO_PACKET = true ->
     has_flag (hdr_flags (skb_hdr skb)) RXRPC_LAST_PACKET = false ->
     passes_last_check call skb = true ->
     rxrpc_receive_data_one call skb =
       Done (if after (skb_seq skb) (rx_highest_seq (rx call))
             then upd_rx (set_rx_highest_seq (skb_seq skb)) call
             else call,
             [A_send_ACK RXRPC_ACK_NOSPACE (hdr_serial (skb_hdr skb))
                rxrpc_propose_ack_input_data;
              A_free_skb skb])) /\
  (nr_jumbo_bad (rx jumbo_bad_call),
   has_flag (hdr_flags (skb_hdr jumbo_pkt)) RXRPC_JUMBO_PACKET,
   match @rxrpc_receive_data linux_params quiet_env jumbo_bad_call jumbo_pkt with
   | Done (call', out) =>
     (sent_acks out, map skb_seq (rx_oos_queue (rx call')),
      call_window (rx call'), call_wtop (rx call'))
   | _ => ([], [], 0, 0)
   end)
  = (4, true, ([RXRPC_ACK_NOSPACE; RXRPC_ACK_OUT_OF_SEQUENCE], [2], 1, 3)) /\
  (nr_jumbo_bad (rx (duplicated_call 4)),
   match @rxrpc_receive_data_one linux_params (duplicated_call 4) jumbo_sub2 with
   | Done (call', out) => (sent_acks out, map skb_seq (rx_queue (rx call')))
   | _ => ([], [])
   end,
   nr_jumbo_bad (rx (duplicated_call 256)),
   match @rxrpc_receive_data_one linux_params (duplicated_call 256) jumbo_sub2 with
   | Done (call', out) => (sent_acks out, map skb_seq (rx_queue (rx call')))
   | _ => ([], [])
   end)
  = (4, ([RXRPC_ACK_NOSPACE], [1]), 0, ([RXRPC_ACK_DELAY], [1; 2; 3])).
Proof.
  split; [|split].
  - intros call skb Hbad Hj Hl Hp. unfold passes_last_check in Hp. rewrite Hl in Hp.
    apply negb_true_iff in Hp.
    unfold rxrpc_receive_data_one. rewrite Hl.
    fold (skb_seq skb). fold (call_wtop (rx call)). rewrite Hp.
    unfold rxrpc_data_admission. rewrite Hj.
    destruct (after (skb_seq skb) (rx_highest_seq (rx call))); simpl;
      destruct (Z.ltb_spec 3 (nr_jumbo_bad (rx call))); try lia; reflexivity.
  - vm_compute. reflexivity.
  - vm_compute. reflexivity.
Qed.

(** ** Duplicates and the bad-jumbo count *)

(** C2 (the code departs from the claim).  [rxrpc_receive_dup_data]
    counts a duplicate in [nr_jumbo_bad] exactly when the packet does
    NOT carry the JUMBO flag: a duplicate of a normal packet
    increments the count (an 8-bit counter: 255 is followed by 0), a
    duplicate subpacket of a jumbo leaves it alone.  So it is on a
    run: DATA 3 waits in the out-of-sequence
    queue; its plain duplicate raises [nr_jumbo_bad] from 0 to 1, its
    duplicate with the JUMBO flag does not. *)
Theorem C2_dup_data_counts_plain_duplicates `{P : rxrpc_params} :
  (forall (call : rxrpc_call) (seq : Z) (is_jumbo : bool),
     nr_jumbo_bad (rx (rxrpc_receive_dup_data call seq is_jumbo false).1) =
       if is_jumbo then nr_jumbo_bad (rx call)
       else u8 (nr_jumbo_bad (rx call) + 1)) /\
  (map skb_seq (rx_oos_queue (rx gap_call)), nr_jumbo_bad (rx gap_call),
   match @rxrpc_receive_data_one linux_params gap_call (data_pkt 3 0 38 []) with
   | Done (call', out) => (sent_acks out, nr_jumbo_bad (rx call'))
   | _ => ([], 0)
   end,
   match @rxrpc_receive_data_one linux_params gap_call
           (data_pkt 3 RXRPC_JUMBO_PACKET 38 []) with
   | Done (call', out) => (sent_acks out, nr_jumbo_bad (rx call'))
   | _ => ([], 0)
   end)
  = ([3], 0, ([RXRPC_ACK_DUPLICATE], 1), ([RXRPC_ACK_DUPLICATE], 0)).
Proof.
  split.
  - intros call seq is_jumbo. unfold rxrpc_receive_dup_data.
    destruct is_jumbo; reflexivity.
  - vm_compute. reflexivity.
Qed.

(** ** Allocation failures *)

(** C8 (the code departs from the claim).  When [skb_unshare] fails,
    the packet is dropped and the call is as it was.  When [skb_clone]
    fails in the jumbo splitter, [rxrpc_receive_split_jumbo] returns
    false as it does for a malformed jumbo, and [rxrpc_receive_data]
    aborts the call: the call ends as locally aborted with a protocol
    error, and the ABORT packet is sent. *)
Theorem C8_clone_failure_aborts_call :
  @rxrpc_receive_data linux_params no_unshare_env fresh_call secure_pkt
    = Done (fresh_call, [A_eaten_skb secure_pkt]) /\
  match @rxrpc_receive_data linux_params no_clone_env fresh_call jumbo_pkt with
  | Done (call', out) =>
    (state call', completion call', abort_code call',
     map skb_seq (rx_queue (rx call') ++ rx_oos_queue (rx call')), out)
  | _ => (state fresh_call, completion fresh_call, 0, [], [])
  end
  = (RXRPC_CALL_COMPLETE, RXRPC_CALL_LOCALLY_ABORTED, RX_PROTOCOL_ERROR, [],
     [A_abort "VLD" 1 RX_PROTOCOL_ERROR (- EBADMSG); A_send_abort_packet;
      A_notify_socket; A_free_skb jumbo_pkt]).
Proof. split; vm_compute; reflexivity. Qed.

(** * Further properties of the receive path *)

Lemma receive_all_total `{P : rxrpc_params} (pkts : list (rx_env * sk_buff)) :
  0 < RXRPC_JUMBO_SUBPKTLEN ->
  forall call, exists call' out, receive_all pkts call = Done (call', out).
Proof.
  intros Hsub. induction pkts as [|[env skb] pkts IH]; intros call; simpl.
  - eauto.
  - destruct (receive_total env call skb Hsub) as ([c1 o1] & ->). simpl.
    destruct (IH c1) as (c2 & o2 & ->). simpl. eauto.
Qed.

Lemma rotate_loop_skip rest to : forall stale call summary rl,
  Forall (fun t => before_eq (txb_seq t) (acks_hard_ack (tx call)) = true) stale ->
  rxrpc_rotate_loop (stale ++ rest) call to summary rl =
  rxrpc_rotate_loop rest call to summary rl.
Proof.
  induction stale as [|t stale IH]; intros call summary rl H; simpl; [reflexivity|].
  inversion H as [|? ? H1 H2]; subst. rewrite H1. apply IH. assumption.
Qed.

Lemma set_bit_idem f word : set_bit f (set_bit f word) = set_bit f word.
Proof.
  unfold set_bit. apply Z.bits_inj'. intros n Hn.
  rewrite !Z.setbit_eqb by (destruct f; simpl; lia).
  destruct (flag_nr f =? n); reflexivity.
Qed.

Lemma rotate_loop_count rest h d to :
  d < 2^31 -> to = u32 (h + d) ->
  forall acked j call summary rl,
    tx_consecutive (h + 1 + j) acked -> acked <> [] ->
    0 <= j -> j + Z.of_nat (length acked) = d ->
    acks_hard_ack (tx call) = h ->
    exists call' summary',
      rxrpc_rotate_loop (acked ++ rest) call to summary rl
        = (call', summary', rl || existsb txb_last acked) /\
      nr_rot_new_acks summary' = nr_rot_new_acks summary + Z.of_nat (length acked) /\
      new_low_nack summary' = new_low_nack summary /\
      flags call' = (if existsb txb_last acked
                     then set_bit RXRPC_CALL_TX_LAST (flags call) else flags call) /\
      tx call' = tx call /\ state call' = state call /\ rx call' = rx call /\
      cong call' = cong call.
Proof.
  intros Hd Hto. induction acked as [|t acked IH]; intros j call summary rl Hc Hne Hj Hlen Hh.
  - congruence.
  - destruct Hc as [Ht Hc]. simpl.
    destruct (before_eq (txb_seq t) (acks_hard_ack (tx call))) eqn:E.
    { apply before_eq_iff in E. exfalso. rewrite Ht, Hh in E.
      simpl length in Hlen. mod_lia. }
    destruct (Z.eqb_spec (txb_seq t) to) as [Eq|Ne].
    + assert (acked = []) as ->.
      { destruct acked; [reflexivity|]. exfalso. rewrite Ht, Hto in Eq.
        simpl length in Hlen. mod_lia. }
      destruct (txb_last t); simpl; do 2 eexists;
        (split; [rewrite ?orb_true_r, ?orb_false_r; reflexivity|]);
        simpl; split_and!; try reflexivity; lia.
    + assert (acked <> []) as Hne'.
      { intros ->. apply Ne. rewrite Ht, Hto. simpl in Hlen. f_equal. lia. }
      destruct (txb_last t) eqn:L.
      * edestruct (IH (j + 1)
                     (set_flags (set_bit RXRPC_CALL_TX_LAST (flags call)) call)
                     (set_nr_rot_new_acks (nr_rot_new_acks summary + 1) summary) true)
          as (c' & s' & R & H1 & H2 & H3 & H4 & H5 & H6 & H7); try assumption.
        { replace (h + 1 + (j + 1)) with (h + 1 + j + 1) by lia. assumption. }
        { lia. }
        { simpl length in Hlen. lia. }
        exists c', s'. rewrite R. simpl in *. rewrite orb_true_r.
        split_and!; try assumption; try reflexivity.
        -- rewrite H1. simpl length. lia.
        -- rewrite H3. rewrite set_bit_idem. destruct (existsb _ _); reflexivity.
      * edestruct (IH (j + 1) call
                     (set_nr_rot_new_acks (nr_rot_new_acks summary + 1) summary) rl)
          as (c' & s' & R & H1 & H2 & H3 & H4 & H5 & H6 & H7); try assumption.
        { replace (h + 1 + (j + 1)) with (h + 1 + j + 1) by lia. assumption. }
        { lia. }
        { simpl length in Hlen. lia. }
        exists c', s'. rewrite R. simpl in *.
        split_and!; try assumption; try reflexivity.
        rewrite H1. simpl length. lia.
Qed.

Lemma same_result_refl c : same_result c c.
Proof. repeat split. Qed.
Lemma same_ident_refl c : same_ident c c.
Proof. repeat split. Qed.

Lemma same_result_trans c1 c2 c3 :
  same_result c1 c2 -> same_result c2 c3 -> same_result c1 c3.
Proof. unfold same_result. intros (?&?&?&?) (?&?&?&?). split_and!; congruence. Qed.
Lemma same_ident_trans c1 c2 c3 :
  same_ident c1 c2 -> same_ident c2 c3 -> same_ident c1 c3.
Proof. unfold same_ident. intros (?&?&?&?) (?&?&?&?). split_and!; congruence. Qed.

Lemma rotate_loop_flags buf : forall call to summary rl,
  exists call' summary' rl',
    rxrpc_rotate_loop buf call to summary rl = (call', summary', rl') /\
    ((flags call' = flags call /\ rl' = rl) \/
     (flags call' = set_bit RXRPC_CALL_TX_LAST (flags call) /\ rl' = true)) /\
    tx call' = tx call /\ rx call' = rx call /\ cong call' = cong call /\
    rtt call' = rtt call /\ peer call' = peer call /\
    same_result call call' /\ same_ident call call' /\
    nr_rot_new_acks summary <= nr_rot_new_acks summary'
      <= nr_rot_new_acks summary + Z.of_nat (length buf) /\
    new_low_nack summary' = new_low_nack summary.
Proof.
  induction buf as [|t buf IH]; intros call to summary rl; simpl.
  - do 3 eexists. split; [reflexivity|].
    split_and!; auto using same_result_refl, same_ident_refl; lia.
  - destruct (before_eq _ _).
    { destruct (IH call to summary rl)
        as (c & s & r & -> & H1 & H3 & H4 & H5 & H6 & H7 & H8 & H9 & H10 & H11).
      do 3 eexists. split; [reflexivity|]. split_and!; auto; lia. }
    destruct (txb_last t).
    + destruct (_ =? _).
      * do 3 eexists. split; [reflexivity|]. simpl.
        split_and!; auto using same_result_refl, same_ident_refl; try lia;
          repeat split.
      * destruct (IH (set_flags (set_bit RXRPC_CALL_TX_LAST (flags call)) call) to
                    (set_nr_rot_new_acks (nr_rot_new_acks summary + 1) summary) true)
          as (c & s & r & -> & H1 & H3 & H4 & H5 & H6 & H7 & H8 & H9 & H10 & H11).
        simpl in *. do 3 eexists. split; [reflexivity|].
        split_and!; auto; try lia.
        right. destruct H1 as [[E ->]|[E ->]]; rewrite E, ?set_bit_idem; auto.
    + destruct (_ =? _).
      * do 3 eexists. split; [reflexivity|]. simpl.
        split_and!; auto using same_result_refl, same_ident_refl; lia.
      * destruct (IH call to (set_nr_rot_new_acks (nr_rot_new_acks summary + 1) summary) rl)
          as (c & s & r & -> & H1 & H3 & H4 & H5 & H6 & H7 & H8 & H9 & H10 & H11).
        simpl in *. do 3 eexists. split; [reflexivity|]. split_and!; auto; lia.
Qed.

Lemma before_eq_refl a : before_eq a a = true.
Proof. apply before_eq_iff. left. mod_lia. Qed.

Lemma after_false_before_eq a b : after a b = false -> before_eq a b = true.
Proof.
  intros H. apply before_eq_iff.
  assert (N : ~ (1 <= u32 (a - b) < 2^31)) by (rewrite <- after_iff; congruence).
  mod_lia.
Qed.

Lemma rotate_tx_window_effects (call : rxrpc_call) (to : Z)
    (summary : rxrpc_ack_summary) :
  exists rot_last call' summary',
    rxrpc_rotate_tx_window call to summary = (rot_last, call', summary', [A_wake_up]) /\
    acks_hard_ack (tx call') = to /\
    before_eq to (acks_lowest_nak (tx call')) = true /\
    (acks_lowest_nak (tx call') = to \/
     acks_lowest_nak (tx call') = acks_lowest_nak (tx call)) /\
    flags call' =
      (if rot_last
       then set_bit RXRPC_CALL_TX_ALL_ACKED (set_bit RXRPC_CALL_TX_LAST (flags call))
       else flags call) /\
    nr_rot_new_acks summary <= nr_rot_new_acks summary'
      <= nr_rot_new_acks summary + Z.of_nat (length (tx_buffer (tx call))) /\
    (tx_top (tx call') = tx_top (tx call) /\
     tx_buffer (tx call') = tx_buffer (tx call) /\
     tx_winsize (tx call') = tx_winsize (tx call) /\
     tx_last_sent (tx call') = tx_last_sent (tx call) /\
     acks_first_seq (tx call') = acks_first_seq (tx call) /\
     acks_prev_seq (tx call') = acks_prev_seq (tx call) /\
     acks_latest_ts (tx call') = acks_latest_ts (tx call) /\
     acks_highest_serial (tx call') = acks_highest_serial (tx call)) /\
    rx call' = rx call /\ cong call' = cong call /\
    rtt call' = rtt call /\ peer call' = peer call /\
    same_result call call' /\ same_ident call call'.
Proof.
  unfold rxrpc_rotate_tx_window.
  destruct (rotate_loop_flags (tx_buffer (tx call)) call to summary false)
    as (c & s & r & -> & H1 & H3 & H4 & H5 & H6 & H7 & H8 & H9 & H10 & H11).
  assert (F : flags c = if r then set_bit RXRPC_CALL_TX_LAST (flags call) else flags call).
  { destruct H1 as [[E ->]|[E ->]]; assumption. }
  destruct r; simpl; rewrite H3;
    destruct (Z.eqb_spec (acks_lowest_nak (tx call)) (acks_hard_ack (tx call)));
    try destruct (after to (acks_lowest_nak (tx call))) eqn:A;
    do 3 eexists; (split; [reflexivity|]); simpl; rewrite ?H3, ?F;
    split_and!; auto using before_eq_refl, after_false_before_eq; try lia.
Qed.

Lemma rotate_tx_window_count (call : rxrpc_call) (to : Z)
    (summary : rxrpc_ack_summary) (stale acked rest : list rxrpc_txbuf) :
  tx_buffer (tx call) = stale ++ acked ++ rest ->
  Forall (fun t => before_eq (txb_seq t) (acks_hard_ack (tx call)) = true) stale ->
  tx_consecutive (acks_hard_ack (tx call) + 1) acked ->
  acked <> [] ->
  Z.of_nat (length acked) < 2^31 ->
  to = u32 (acks_hard_ack (tx call) + Z.of_nat (length acked)) ->
  exists call' summary',
    rxrpc_rotate_tx_window call to summary
      = (existsb txb_last acked, call', summary', [A_wake_up]) /\
    nr_rot_new_acks summary' = nr_rot_new_acks summary + Z.of_nat (length acked).
Proof.
  intros Hbuf Hstale Hcons Hne Hlen Hto. unfold rxrpc_rotate_tx_window.
  rewrite Hbuf, rotate_loop_skip by assumption.
  destruct (rotate_loop_count rest (acks_hard_ack (tx call)) (Z.of_nat (length acked)) to
              Hlen Hto acked 0 call summary false)
    as (c & s & -> & H1 & H2 & H3 & H4 & H5 & H6 & H7); try assumption; try lia.
  { rewrite Z.add_0_r. assumption. }
  simpl. destruct (existsb txb_last acked); simpl; rewrite H4;
    destruct (Z.eqb_spec (acks_lowest_nak (tx call)) (acks_hard_ack (tx call)));
    try destruct (after to (acks_lowest_nak (tx call)));
    do 2 eexists; (split; [reflexivity|]); simpl; rewrite ?H3; auto.
Qed.

Lemma rotate_loop_no_last buf : forall call to summary rl,
  Forall (fun t => txb_last t = false) buf ->
  exists summary', rxrpc_rotate_loop buf call to summary rl = (call, summary', rl).
Proof.
  induction buf as [|t buf IH]; intros call to summary rl H; simpl; [eauto|].
  inversion H as [|? ? H1 H2]; subst. rewrite H1.
  destruct (before_eq _ _); [apply IH; assumption|].
  destruct (_ =? _); [eauto|]. apply IH; assumption.
Qed.

Lemma test_bit_set_bit_same f word : test_bit f (set_bit f word) = true.
Proof. rewrite test_bit_set_bit. destruct (decide _); congruence. Qed.

(** X2.  When the transmit buffers that follow the hard-ACK point carry
    consecutive sequence numbers up to [to], rotating the Tx window to
    [to] counts exactly these buffers as newly ACKed, moves the hard ACK
    to [to] and wakes the sender; it reports whether one of them was the
    last packet of the transmission, and sets TX_LAST and TX_ALL_ACKED
    in that case and no flag otherwise.  Buffers at or before the old
    hard ACK are skipped. *)
Theorem X2_rotate_counts_acked_buffers (call : rxrpc_call) (to : Z)
    (summary : rxrpc_ack_summary) (stale acked rest : list rxrpc_txbuf) :
  tx_buffer (tx call) = stale ++ acked ++ rest ->
  Forall (fun t => before_eq (txb_seq t) (acks_hard_ack (tx call)) = true) stale ->
  tx_consecutive (acks_hard_ack (tx call) + 1) acked ->
  acked <> [] ->
  Z.of_nat (length acked) < 2^31 ->
  to = u32 (acks_hard_ack (tx call) + Z.of_nat (length acked)) ->
  exists call' summary',
    rxrpc_rotate_tx_window call to summary
      = (existsb txb_last acked, call', summary', [A_wake_up]) /\
    nr_rot_new_acks summary' = nr_rot_new_acks summary + Z.of_nat (length acked) /\
    acks_hard_ack (tx call') = to /\
    flags call' =
      (if existsb txb_last acked
       then set_bit RXRPC_CALL_TX_ALL_ACKED (set_bit RXRPC_CALL_TX_LAST (flags call))
       else flags call).
Proof.
  intros Hbuf Hstale Hcons Hne Hlen Hto.
  destruct (rotate_tx_window_count call to summary stale acked rest
              Hbuf Hstale Hcons Hne Hlen Hto) as (c & s & R & N).
  destruct (rotate_tx_window_effects call to summary)
    as (rl & c' & s' & R' & H1 & _ & _ & H4 & _).
  rewrite R in R'. injection R' as <- <- <-.
  exists c, s. auto.
Qed.

(** X3.  On any call and for any target, [rxrpc_rotate_tx_window] moves the
    hard ACK to the target and never leaves the lowest NAK behind it;
    the flags change only when the last packet was rotated (TX_LAST and
    TX_ALL_ACKED are then set); the count of rotated packets grows by at
    most the number of buffers; [tx_top], the buffer list, the call
    state, the receive side and the congestion state are untouched; the
    one request made is a wake-up of the sender. *)
Theorem X3_rotate_tx_window_effects (call : rxrpc_call) (to : Z)
    (summary : rxrpc_ack_summary) :
  exists rot_last call' summary',
    rxrpc_rotate_tx_window call to summary = (rot_last, call', summary', [A_wake_up]) /\
    acks_hard_ack (tx call') = to /\
    before_eq to (acks_lowest_nak (tx call')) = true /\
    flags call' =
      (if rot_last
       then set_bit RXRPC_CALL_TX_ALL_ACKED (set_bit RXRPC_CALL_TX_LAST (flags call))
       else flags call) /\
    nr_rot_new_acks summary <= nr_rot_new_acks summary'
      <= nr_rot_new_acks summary + Z.of_nat (length (tx_buffer (tx call))) /\
    tx_top (tx call') = tx_top (tx call) /\
    tx_buffer (tx call') = tx_buffer (tx call) /\
    state call' = state call /\ rx call' = rx call /\ cong call' = cong call.
Proof.
  destruct (rotate_tx_window_effects call to summary)
    as (rl & c & s & R & H1 & H2 & H3 & H4 & H5 & (T1 & T2 & _) & H7 & H8 & H9 & H10
        & (S1 & _) & _).
  exists rl, c, s. split_and!; try assumption; apply H5.
Qed.

Lemma end_tx_phase_cases call reply_begun why :
  test_bit RXRPC_CALL_TX_LAST (flags call) = true ->
  rxrpc_end_tx_phase call reply_begun why =
  Done match state call with
       | RXRPC_CALL_CLIENT_SEND_REQUEST
       | RXRPC_CALL_CLIENT_AWAIT_REPLY =>
         (true, set_state (if reply_begun then RXRPC_CALL_CLIENT_RECV_REPLY
                           else RXRPC_CALL_CLIENT_AWAIT_REPLY) call, [])
       | RXRPC_CALL_SERVER_AWAIT_ACK => (true, rxrpc_call_completed call, [])
       | _ => (false, (rxrpc_proto_abort why call (tx_top (tx call))).1,
               (rxrpc_proto_abort why call (tx_top (tx call))).2)
       end.
Proof.
  intros H. unfold rxrpc_end_tx_phase. rewrite H. simpl.
  destruct (state call); try (destruct (rxrpc_proto_abort _ _ _); reflexivity);
    try (destruct reply_begun; reflexivity); reflexivity.
Qed.

(** What a protocol abort does to a call that is not yet complete, and
    to one that is. *)
Lemma proto_abort_live why call seq :
  state call <> RXRPC_CALL_COMPLETE ->
  rxrpc_proto_abort why call seq =
  (set_state RXRPC_CALL_COMPLETE
     (set_completion RXRPC_CALL_LOCALLY_ABORTED
        (set_abort_code RX_PROTOCOL_ERROR (set_error (- EBADMSG) call))),
   [A_abort why seq RX_PROTOCOL_ERROR (- EBADMSG); A_send_abort_packet]).
Proof.
  intros H. unfold rxrpc_proto_abort, rxrpc_abort_call, rxrpc_set_call_completion.
  destruct (state call); try congruence; reflexivity.
Qed.

Lemma proto_abort_complete why call seq :
  state call = RXRPC_CALL_COMPLETE ->
  rxrpc_proto_abort why call seq =
  (call, [A_abort why seq RX_PROTOCOL_ERROR (- EBADMSG)]).
Proof.
  intros H. unfold rxrpc_proto_abort, rxrpc_abort_call, rxrpc_set_call_completion.
  rewrite H. reflexivity.
Qed.

(** X4.  An ACKALL packet hard-ACKs everything up to [tx_top].  If the last
    packet of the transmission is among the buffers ACKed, the Tx phase
    ends: a client call awaits the reply, a server call awaiting the
    final ACK completes successfully, a call in any other state is
    aborted with a protocol error (the abort packet is not sent when
    the call was complete already).  If not, the call state and the
    flags stay as they are. *)
Theorem X4_ackall_ends_tx_phase (call : rxrpc_call) (skb : sk_buff)
    (stale acked rest : list rxrpc_txbuf) :
  tx_buffer (tx call) = stale ++ acked ++ rest ->
  Forall (fun t => before_eq (txb_seq t) (acks_hard_ack (tx call)) = true) stale ->
  tx_consecutive (acks_hard_ack (tx call) + 1) acked ->
  acked <> [] ->
  Z.of_nat (length acked) < 2^31 ->
  tx_top (tx call) = u32 (acks_hard_ack (tx call) + Z.of_nat (length acked)) ->
  exists call' out,
    rxrpc_receive_ackall call skb = Done (call', out) /\
    acks_hard_ack (tx call') = tx_top (tx call) /\
    if existsb txb_last acked then
      test_bit RXRPC_CALL_TX_LAST (flags call') = true /\
      test_bit RXRPC_CALL_TX_ALL_ACKED (flags call') = true /\
      match state call with
      | RXRPC_CALL_CLIENT_SEND_REQUEST
      | RXRPC_CALL_CLIENT_AWAIT_REPLY =>
        state call' = RXRPC_CALL_CLIENT_AWAIT_REPLY /\ out = [A_wake_up]
      | RXRPC_CALL_SERVER_AWAIT_ACK =>
        state call' = RXRPC_CALL_COMPLETE /\
        completion call' = RXRPC_CALL_SUCCEEDED /\ out = [A_wake_up]
      | RXRPC_CALL_COMPLETE =>
        same_result call call' /\
        out = [A_wake_up;
               A_abort "ETL" (tx_top (tx call)) RX_PROTOCOL_ERROR (- EBADMSG)]
      | _ =>
        state call' = RXRPC_CALL_COMPLETE /\
        completion call' = RXRPC_CALL_LOCALLY_ABORTED /\
        abort_code call' = RX_PROTOCOL_ERROR /\
        out = [A_wake_up;
               A_abort "ETL" (tx_top (tx call)) RX_PROTOCOL_ERROR (- EBADMSG);
               A_send_abort_packet]
      end
    else
      flags call' = flags call /\ same_result call call' /\ out = [A_wake_up].
Proof.
  intros Hbuf Hstale Hcons Hne Hlen Hto. unfold rxrpc_receive_ackall.
  destruct (rotate_tx_window_count call (tx_top (tx call)) empty_summary stale acked rest
              Hbuf Hstale Hcons Hne Hlen Hto) as (c & s & R & N).
  destruct (rotate_tx_window_effects call (tx_top (tx call)) empty_summary)
    as (rl & c' & s' & R' & H1 & _ & _ & H4 & _ & (T1 & _) & _ & _ & _ & _ & SR & _).
  rewrite R in R'. injection R' as <- <- <-. rewrite R.
  destruct (existsb txb_last acked).
  - assert (TL : test_bit RXRPC_CALL_TX_LAST (flags c) = true).
    { rewrite H4, test_bit_set_bit. simpl. apply test_bit_set_bit_same. }
    rewrite (end_tx_phase_cases c false "ETL" TL).
    destruct SR as (S1 & S2 & S3 & S4). rewrite S1, T1.
    destruct (state call) eqn:St; simpl;
      try (rewrite proto_abort_live by congruence; simpl;
           do 2 eexists; split; [reflexivity|]; simpl;
           rewrite H4, test_bit_set_bit_same, test_bit_set_bit; simpl;
           rewrite test_bit_set_bit_same; auto 10).
    + do 2 eexists. split; [reflexivity|]. simpl.
      rewrite H4, test_bit_set_bit_same, test_bit_set_bit; simpl;
           rewrite test_bit_set_bit_same; auto 10.
    + do 2 eexists. split; [reflexivity|]. simpl.
      rewrite H4, test_bit_set_bit_same, test_bit_set_bit; simpl;
           rewrite test_bit_set_bit_same; auto 10.
    + do 2 eexists. split; [reflexivity|].
      unfold rxrpc_call_completed, rxrpc_set_call_completion. rewrite S1. simpl.
      rewrite H4, test_bit_set_bit_same, test_bit_set_bit; simpl;
           rewrite test_bit_set_bit_same; auto 10.
    + rewrite proto_abort_complete by congruence. simpl.
      do 2 eexists. split; [reflexivity|]. simpl.
      rewrite H4, test_bit_set_bit_same, test_bit_set_bit; simpl;
           rewrite test_bit_set_bit_same. split_and!; auto.
      repeat split; congruence.
  - do 2 eexists. split; [reflexivity|]. auto.
Qed.

Lemma X2_rotate_counts_acked_buffers_witness :
  exists call' summary',
    rxrpc_rotate_tx_window half_acked_call 5 empty_summary
      = (existsb txb_last (request_bufs [3; 4; 5]), call', summary', [A_wake_up]) /\
    nr_rot_new_acks summary'
      = nr_rot_new_acks empty_summary + Z.of_nat (length (request_bufs [3; 4; 5])) /\
    acks_hard_ack (tx call') = 5 /\
    flags call' =
      (if existsb txb_last (request_bufs [3; 4; 5])
       then set_bit RXRPC_CALL_TX_ALL_ACKED
              (set_bit RXRPC_CALL_TX_LAST (flags half_acked_call))
       else flags half_acked_call).
Proof.
  apply (X2_rotate_counts_acked_buffers half_acked_call 5 empty_summary
           (request_bufs [1; 2]) (request_bufs [3; 4; 5])
           (request_bufs [6; 7; 8; 9; 10])).
  - reflexivity.
  - repeat constructor.
  - simpl. repeat split.
  - discriminate.
  - simpl. lia.
  - reflexivity.
Defined.

Lemma X4_ackall_ends_tx_phase_witness :
  exists call' out,
    rxrpc_receive_ackall half_acked_call (data_pkt 0 0 28 []) = Done (call', out) /\
    acks_hard_ack (tx call') = tx_top (tx half_acked_call) /\
    if existsb txb_last (request_bufs [3; 4; 5; 6; 7; 8; 9; 10]) then
      test_bit RXRPC_CALL_TX_LAST (flags call') = true /\
      test_bit RXRPC_CALL_TX_ALL_ACKED (flags call') = true /\
      match state half_acked_call with
      | RXRPC_CALL_CLIENT_SEND_REQUEST
      | RXRPC_CALL_CLIENT_AWAIT_REPLY =>
        state call' = RXRPC_CALL_CLIENT_AWAIT_REPLY /\ out = [A_wake_up]
      | RXRPC_CALL_SERVER_AWAIT_ACK =>
        state call' = RXRPC_CALL_COMPLETE /\
        completion call' = RXRPC_CALL_SUCCEEDED /\ out = [A_wake_up]
      | RXRPC_CALL_COMPLETE =>
        same_result half_acked_call call' /\
        out = [A_wake_up;
               A_abort "ETL" (tx_top (tx half_acked_call)) RX_PROTOCOL_ERROR (- EBADMSG)]
      | _ =>
        state call' = RXRPC_CALL_COMPLETE /\
        completion call' = RXRPC_CALL_LOCALLY_ABORTED /\
        abort_code call' = RX_PROTOCOL_ERROR /\
        out = [A_wake_up;
               A_abort "ETL" (tx_top (tx half_acked_call)) RX_PROTOCOL_ERROR (- EBADMSG);
               A_send_abort_packet]
      end
    else
      flags call' = flags half_acked_call /\ same_result half_acked_call call' /\
      out = [A_wake_up].
Proof.
  apply (X4_ackall_ends_tx_phase half_acked_call (data_pkt 0 0 28 [])
           (request_bufs [1; 2]) (request_bufs [3; 4; 5; 6; 7; 8; 9; 10]) []).
  - reflexivity.
  - repeat constructor.
  - simpl. repeat split.
  - discriminate.
  - simpl. lia.
  - reflexivity.
Defined.

(** X5.  The first DATA packet of a reply implicitly ACKs the whole request:
    when the client has queued all of its request (the last packet is
    among the buffers not yet hard-ACKed) and TX_LAST is not set yet,
    [rxrpc_receiving_reply] succeeds, the hard ACK moves to [tx_top],
    TX_LAST and TX_ALL_ACKED are set, the call moves to
    CLIENT_RECV_REPLY with [tx_phase] cleared, and the receive side is
    untouched. *)
Theorem X5_reply_implicitly_acks_request (call : rxrpc_call)
    (stale acked rest : list rxrpc_txbuf) :
  state call = RXRPC_CALL_CLIENT_SEND_REQUEST \/
  state call = RXRPC_CALL_CLIENT_AWAIT_REPLY ->
  test_bit RXRPC_CALL_TX_LAST (flags call) = false ->
  tx_buffer (tx call) = stale ++ acked ++ rest ->
  Forall (fun t => before_eq (txb_seq t) (acks_hard_ack (tx call)) = true) stale ->
  tx_consecutive (acks_hard_ack (tx call) + 1) acked ->
  Z.of_nat (length acked) < 2^31 ->
  tx_top (tx call) = u32 (acks_hard_ack (tx call) + Z.of_nat (length acked)) ->
  existsb txb_last acked = true ->
  exists call',
    rxrpc_receiving_reply call = Done (true, call', [A_wake_up]) /\
    state call' = RXRPC_CALL_CLIENT_RECV_REPLY /\
    tx_phase call' = false /\
    acks_hard_ack (tx call') = tx_top (tx call) /\
    test_bit RXRPC_CALL_TX_LAST (flags call') = true /\
    test_bit RXRPC_CALL_TX_ALL_ACKED (flags call') = true /\
    rx call' = rx call.
Proof.
  intros Hst TL Hbuf Hstale Hcons Hlen Hto Hlast.
  assert (Hne : acked <> []) by (intros ->; discriminate).
  unfold rxrpc_receiving_reply. rewrite TL. simpl.
  destruct (rotate_tx_window_count call (tx_top (tx call)) empty_summary stale acked rest
              Hbuf Hstale Hcons Hne Hlen Hto) as (c & s & R & N).
  destruct (rotate_tx_window_effects call (tx_top (tx call)) empty_summary)
    as (rl & c' & s' & R' & H1 & _ & _ & H4 & _ & _ & Hrx & _ & _ & _ & SR & _).
  rewrite R in R'. injection R' as <- <- <-. rewrite R, Hlast. simpl.
  rewrite Hlast in H4.
  assert (TL' : test_bit RXRPC_CALL_TX_LAST (flags c) = true).
  { rewrite H4, test_bit_set_bit. simpl. apply test_bit_set_bit_same. }
  rewrite (end_tx_phase_cases c true "ETD" TL').
  destruct SR as (S1 & _). rewrite S1.
  destruct Hst as [-> | ->]; simpl; eexists; (split; [reflexivity|]); simpl;
    rewrite H4, test_bit_set_bit_same, test_bit_set_bit; simpl;
    rewrite test_bit_set_bit_same; auto 10.
Qed.

(** X6.  A DATA packet that reaches a client call before the last packet of
    the request has been queued.  If the packet belongs to a secured
    connection (security index not 0) and [skb_unshare] fails, the
    packet is eaten and the call is left as it was.  In every other
    case (security index 0, or the packet could be unshared, the
    original being eaten first if a copy was made) the Tx window is
    rotated to [tx_top], then the call is aborted with reason TXL and a
    protocol error, the abort packet is sent, the socket is notified and
    the packet is freed; nothing is admitted to the receive window. *)
Theorem X6_reply_before_request_sent (env : rx_env) `{P : rxrpc_params}
    (call : rxrpc_call) (skb : sk_buff) :
  state call = RXRPC_CALL_CLIENT_SEND_REQUEST \/
  state call = RXRPC_CALL_CLIENT_AWAIT_REPLY ->
  test_bit RXRPC_CALL_TX_LAST (flags call) = false ->
  Forall (fun t => txb_last t = false) (tx_buffer (tx call)) ->
  match (if hdr_securityIndex (skb_hdr skb) =? 0 then Some false
         else env_unshare env) with
  | None => rxrpc_receive_data env call skb = Done (call, [A_eaten_skb skb])
  | Some copied =>
    exists call',
      rxrpc_receive_data env call skb =
        Done (call',
              (if copied then [A_eaten_skb skb] else []) ++
              [A_wake_up;
               A_abort "TXL" (tx_top (tx call)) RX_PROTOCOL_ERROR (- EBADMSG);
               A_send_abort_packet; A_notify_socket; A_free_skb skb]) /\
      state call' = RXRPC_CALL_COMPLETE /\
      completion call' = RXRPC_CALL_LOCALLY_ABORTED /\
      abort_code call' = RX_PROTOCOL_ERROR /\
      error call' = - EBADMSG /\
      acks_hard_ack (tx call') = tx_top (tx call) /\
      flags call' = flags call /\
      rx call' = rx call
  end.
Proof.
  intros Hst TL Hbuf.
  assert (RR : exists call',
             rxrpc_receiving_reply call =
               Done (false, call',
                     [A_wake_up;
                      A_abort "TXL" (tx_top (tx call)) RX_PROTOCOL_ERROR (- EBADMSG);
                      A_send_abort_packet]) /\
             state call' = RXRPC_CALL_COMPLETE /\
             completion call' = RXRPC_CALL_LOCALLY_ABORTED /\
             abort_code call' = RX_PROTOCOL_ERROR /\
             error call' = - EBADMSG /\
             acks_hard_ack (tx call') = tx_top (tx call) /\
             flags call' = flags call /\
             rx call' = rx call).
  { unfold rxrpc_receiving_reply. rewrite TL. simpl.
    unfold rxrpc_rotate_tx_window.
    destruct (rotate_loop_no_last (tx_buffer (tx call)) call (tx_top (tx call))
                empty_summary false Hbuf) as (s & ->).
    assert (Hlive : forall c : rxrpc_call, state c = state call ->
                      state c <> RXRPC_CALL_COMPLETE).
    { intros c ->. destruct Hst as [-> | ->]; discriminate. }
    destruct (acks_lowest_nak (tx call) =? acks_hard_ack (tx call));
      [|destruct (after _ _)]; simpl;
      rewrite proto_abort_live by (apply Hlive; reflexivity);
      eexists; (split; [reflexivity|]); simpl; auto 10. }
  destruct RR as (c & R & H).
  assert (Hlt : (state_nr RXRPC_CALL_COMPLETE <=? state_nr (state call)) = false).
  { destruct Hst as [-> | ->]; reflexivity. }
  unfold rxrpc_receive_data. rewrite Hlt.
  destruct (hdr_securityIndex (skb_hdr skb) =? 0); simpl;
    [|destruct (env_unshare env) as [[|]|]; [| |reflexivity]];
    (destruct Hst as [E | E]; rewrite E; rewrite R; simpl; eauto).
Qed.

Lemma X5_reply_implicitly_acks_request_witness :
  exists call',
    rxrpc_receiving_reply half_acked_call = Done (true, call', [A_wake_up]) /\
    state call' = RXRPC_CALL_CLIENT_RECV_REPLY /\
    tx_phase call' = false /\
    acks_hard_ack (tx call') = tx_top (tx half_acked_call) /\
    test_bit RXRPC_CALL_TX_LAST (flags call') = true /\
    test_bit RXRPC_CALL_TX_ALL_ACKED (flags call') = true /\
    rx call' = rx half_acked_call.
Proof.
  apply (X5_reply_implicitly_acks_request half_acked_call
           (request_bufs [1; 2]) (request_bufs [3; 4; 5; 6; 7; 8; 9; 10]) []).
  - left. reflexivity.
  - reflexivity.
  - reflexivity.
  - repeat constructor.
  - simpl. repeat split.
  - simpl. lia.
  - reflexivity.
  - reflexivity.
Defined.

Lemma X6_reply_before_request_sent_witness :
  exists call',
    @rxrpc_receive_data linux_params quiet_env sending_call (data_pkt 1 0 38 []) =
      Done (call',
            [A_wake_up;
             A_abort "TXL" (tx_top (tx sending_call)) RX_PROTOCOL_ERROR (- EBADMSG);
             A_send_abort_packet; A_notify_socket; A_free_skb (data_pkt 1 0 38 [])]) /\
    state call' = RXRPC_CALL_COMPLETE /\
    completion call' = RXRPC_CALL_LOCALLY_ABORTED /\
    abort_code call' = RX_PROTOCOL_ERROR /\
    error call' = - EBADMSG /\
    acks_hard_ack (tx call') = tx_top (tx sending_call) /\
    flags call' = flags sending_call /\
    rx call' = rx sending_call.
Proof.
  apply (@X6_reply_before_request_sent quiet_env linux_params sending_call
           (data_pkt 1 0 38 [])).
  - left. reflexivity.
  - reflexivity.
  - repeat constructor.
Defined.

Lemma count_acks_cons a l :
  count_acks (a :: l) = (if a =? RXRPC_ACK_TYPE_ACK then 1 else 0) + count_acks l.
Proof.
  unfold count_acks. simpl. destruct (a =? RXRPC_ACK_TYPE_ACK); simpl length; lia.
Qed.

Lemma lookup_after_prefix (pre : list Z) a l :
  default 0 ((pre ++ a :: l) !! Z.to_nat (Z.of_nat (length pre))) = a.
Proof.
  rewrite Nat2Z.id. rewrite lookup_app_r by lia. rewrite Nat.sub_diag. reflexivity.
Qed.

(** Once a NAK has been seen, the rest of the scan only counts. *)
Lemma soft_acks_loop_after_nak seq : forall l pre call summary,
  saw_nacks summary = true ->
  exists summary',
    rxrpc_soft_acks_loop (length l) (Z.of_nat (length pre)) call (pre ++ l) seq summary
      = (call, summary') /\
    nr_acks summary' = nr_acks summary + count_acks l /\
    nr_new_acks summary' = nr_new_acks summary + count_acks l /\
    saw_nacks summary' = true /\
    new_low_nack summary' = new_low_nack summary /\
    nr_rot_new_acks summary' = nr_rot_new_acks summary.
Proof.
  induction l as [|a l IH]; intros pre call summary Hs; simpl.
  - eexists. split; [reflexivity|]. unfold count_acks. simpl. split_and!; auto; lia.
  - rewrite lookup_after_prefix, count_acks_cons.
    replace (Z.of_nat (length pre) + 1) with (Z.of_nat (length (pre ++ [a])))
      by (rewrite length_app; simpl; lia).
    replace (pre ++ a :: l) with ((pre ++ [a]) ++ l) by (rewrite <- app_assoc; reflexivity).
    destruct (a =? RXRPC_ACK_TYPE_ACK).
    + destruct (IH (pre ++ [a]) call
                  (set_nr_new_acks (nr_new_acks summary + 1)
                     (set_nr_acks (nr_acks summary + 1) summary)) Hs)
        as (s' & -> & H1 & H2 & H3 & H4 & H5).
      eexists. split; [reflexivity|]. simpl in *. split_and!; auto; lia.
    + rewrite Hs. simpl.
      destruct (IH (pre ++ [a]) call (set_saw_nacks true summary) eq_refl)
        as (s' & -> & H1 & H2 & H3 & H4 & H5).
      eexists. split; [reflexivity|]. simpl in *. split_and!; auto; lia.
Qed.

Lemma soft_acks_loop_spec seq : forall l pre call summary,
  saw_nacks summary = false ->
  exists call' summary',
    rxrpc_soft_acks_loop (length l) (Z.of_nat (length pre)) call (pre ++ l) seq summary
      = (call', summary') /\
    nr_acks summary' = nr_acks summary + count_acks l /\
    nr_new_acks summary' = nr_new_acks summary + count_acks l /\
    nr_rot_new_acks summary' = nr_rot_new_acks summary /\
    match first_nak l with
    | None =>
      call' = call /\ saw_nacks summary' = false /\
      new_low_nack summary' = new_low_nack summary
    | Some k =>
      saw_nacks summary' = true /\
      acks_lowest_nak (tx call') = u32 (seq + (Z.of_nat (length pre) + k)) /\
      new_low_nack summary' =
        new_low_nack summary
        || negb (acks_lowest_nak (tx call) =? u32 (seq + (Z.of_nat (length pre) + k))) /\
      (call' = call \/
       call' = upd_tx (set_acks_lowest_nak (u32 (seq + (Z.of_nat (length pre) + k)))) call)
    end.
Proof.
  induction l as [|a l IH]; intros pre call summary Hs; simpl.
  - do 2 eexists. split; [reflexivity|]. unfold count_acks. simpl. split_and!; auto; lia.
  - rewrite lookup_after_prefix, count_acks_cons.
    replace (Z.of_nat (length pre) + 1) with (Z.of_nat (length (pre ++ [a])))
      by (rewrite length_app; simpl; lia).
    replace (pre ++ a :: l) with ((pre ++ [a]) ++ l) by (rewrite <- app_assoc; reflexivity).
    destruct (a =? RXRPC_ACK_TYPE_ACK).
    + destruct (IH (pre ++ [a]) call
                  (set_nr_new_acks (nr_new_acks summary + 1)
                     (set_nr_acks (nr_acks summary + 1) summary)) Hs)
        as (c' & s' & -> & H1 & H2 & H3 & H4).
      do 2 eexists. split; [reflexivity|]. simpl in *. split_and!; try lia.
      destruct (first_nak l) as [k|]; simpl; [|assumption].
      rewrite length_app in H4. simpl length in H4.
      replace (Z.of_nat (length pre) + Z.succ k)
        with (Z.of_nat (length pre + 1) + k) by lia.
      assumption.
    + rewrite Hs. simpl. rewrite Z.add_0_r.
      destruct (Z.eqb_spec (acks_lowest_nak (tx call)) (u32 (seq + Z.of_nat (length pre))))
        as [E|N]; simpl.
      * destruct (soft_acks_loop_after_nak seq l (pre ++ [a]) call
                    (set_saw_nacks true summary) eq_refl)
          as (s' & -> & H1 & H2 & H3 & H4 & H5).
        do 2 eexists. split; [reflexivity|]. simpl in *.
        rewrite orb_false_r. split_and!; auto; try lia.
      * destruct (soft_acks_loop_after_nak seq l (pre ++ [a])
                    (upd_tx (set_acks_lowest_nak (u32 (seq + Z.of_nat (length pre)))) call)
                    (set_saw_nacks true (set_new_low_nack true summary)) eq_refl)
          as (s' & -> & H1 & H2 & H3 & H4 & H5).
        do 2 eexists. split; [reflexivity|]. simpl in *.
        rewrite orb_true_r. split_and!; auto; try lia.
Qed.

(** X7.  Scanning a soft-ACK array of [nAcks] entries: every ACK entry is
    counted in [nr_acks] and [nr_new_acks]; if the array holds no NAK the
    call is unchanged; otherwise NAKs have been seen, the lowest NAK of
    the call is the sequence number of the first NAK entry, and
    [new_low_nack] is raised exactly when that differs from the lowest
    NAK recorded before. *)
Theorem X7_soft_ack_scan (call : rxrpc_call) (acks : list Z) (seq : Z)
    (summary : rxrpc_ack_summary) :
  saw_nacks summary = false ->
  exists call' summary',
    rxrpc_receive_soft_acks call acks seq (Z.of_nat (length acks)) summary
      = (call', summary') /\
    nr_acks summary' = nr_acks summary + count_acks acks /\
    nr_new_acks summary' = nr_new_acks summary + count_acks acks /\
    match first_nak acks with
    | None =>
      call' = call /\ saw_nacks summary' = false /\
      new_low_nack summary' = new_low_nack summary
    | Some k =>
      saw_nacks summary' = true /\
      acks_lowest_nak (tx call') = u32 (seq + k) /\
      new_low_nack summary' =
        new_low_nack summary || negb (acks_lowest_nak (tx call) =? u32 (seq + k)) /\
      (call' = call \/ call' = upd_tx (set_acks_lowest_nak (u32 (seq + k))) call)
    end.
Proof.
  intros Hs. unfold rxrpc_receive_soft_acks. rewrite Nat2Z.id.
  destruct (soft_acks_loop_spec seq acks [] call summary Hs)
    as (c & s & R & H1 & H2 & H3 & H4).
  simpl in R. exists c, s. split_and!; auto.
Qed.

Lemma X7_soft_ack_scan_witness :
  exists call' summary',
    rxrpc_receive_soft_acks ca_call [1; 1; 0; 1; 0] 1 (Z.of_nat (length [1; 1; 0; 1; 0]))
      empty_summary = (call', summary') /\
    nr_acks summary' = nr_acks empty_summary + count_acks [1; 1; 0; 1; 0] /\
    nr_new_acks summary' = nr_new_acks empty_summary + count_acks [1; 1; 0; 1; 0] /\
    match first_nak [1; 1; 0; 1; 0] with
    | None =>
      call' = ca_call /\ saw_nacks summary' = false /\
      new_low_nack summary' = new_low_nack empty_summary
    | Some k =>
      saw_nacks summary' = true /\
      acks_lowest_nak (tx call') = u32 (1 + k) /\
      new_low_nack summary' =
        new_low_nack empty_summary
        || negb (acks_lowest_nak (tx ca_call) =? u32 (1 + k)) /\
      (call' = ca_call \/ call' = upd_tx (set_acks_lowest_nak (u32 (1 + k))) ca_call)
    end.
Proof.
  apply (X7_soft_ack_scan ca_call [1; 1; 0; 1; 0] 1 empty_summary).
  reflexivity.
Defined.

(** X8.  The ackinfo trailer is applied with clamping: the Tx window size
    becomes min(rwind, RXRPC_TX_MAX_WINDOW), the slow-start threshold is
    capped by it, the peer's [maxdata] only ever shrinks, to
    min(rxMTU, maxMTU), and [mtu] follows it; the sender is woken
    exactly when the window grew; everything else of the call is
    left alone. *)
Theorem X8_ackinfo_clamps `{P : rxrpc_params} (call : rxrpc_call) (skb : sk_buff)
    (info : rxrpc_ackinfo) :
  let rwind := Z.min (info_rwind info) RXRPC_TX_MAX_WINDOW in
  let mtu_in := Z.min (info_rxMTU info) (info_maxMTU info) in
  exists call',
    rxrpc_receive_ackinfo call skb info
      = (call', if tx_winsize (tx call) <? rwind then [A_wake_up] else []) /\
    tx_winsize (tx call') = rwind /\
    cong_ssthresh (cong call') = Z.min (cong_ssthresh (cong call)) rwind /\
    maxdata (peer call') = Z.min (maxdata (peer call)) mtu_in /\
    mtu (peer call') =
      (if mtu_in <? maxdata (peer call) then mtu_in + hdrsize (peer call)
       else mtu (peer call)) /\
    hdrsize (peer call') = hdrsize (peer call) /\
    state call' = state call /\ flags call' = flags call /\ rx call' = rx call /\
    tx_top (tx call') = tx_top (tx call) /\
    acks_hard_ack (tx call') = acks_hard_ack (tx call) /\
    cong_cwnd (cong call') = cong_cwnd (cong call) /\
    cong_mode (cong call') = cong_mode (cong call).
Proof.
  intros rwind mtu_in. unfold rxrpc_receive_ackinfo.
  fold mtu_in.
  replace (if RXRPC_TX_MAX_WINDOW <? info_rwind info then RXRPC_TX_MAX_WINDOW
           else info_rwind info) with rwind
    by (subst rwind; destruct (Z.ltb_spec RXRPC_TX_MAX_WINDOW (info_rwind info)); lia).
  clearbody rwind mtu_in.
  destruct (Z.eqb_spec (tx_winsize (tx call)) rwind) as [E|N]; simpl;
    destruct (Z.ltb_spec rwind (cong_ssthresh (cong call))); simpl;
    destruct (Z.ltb_spec mtu_in (maxdata (peer call))); simpl;
    destruct (Z.ltb_spec (tx_winsize (tx call)) rwind); try lia;
    eexists; (split; [reflexivity|]); simpl; split_and!; auto; lia.
Qed.

Lemma after_refl a : after a a = false.
Proof.
  destruct (after a a) eqn:E; [|reflexivity]. apply after_iff in E. exfalso. mod_lia.
Qed.

Section RttProbe.
Context `{P : rxrpc_params}.

(** The bit [b] of [rtt_avail] after the slots of [l] have been looked
    at: set if it is the free bit of a retired slot, clear if it is the
    pending bit of one, unchanged otherwise. *)
Lemma rtt_probe_bits call resp_time acked_serial ack_serial type :
  0 <= RXRPC_CALL_RTT_PEND_SHIFT ->
  let call' := (rxrpc_complete_rtt_probe call resp_time acked_serial ack_serial type).1 in
  let hit i := rtt_pending call i && rtt_retires call acked_serial i in
  let n := length (rtt_serial (rtt call)) in
  rtt_serial (rtt call') = rtt_serial (rtt call) /\
  rtt_sent_at (rtt call') = rtt_sent_at (rtt call) /\
  (rxrpc_complete_rtt_probe call resp_time acked_serial ack_serial type).2 =
    flat_map (rtt_sample call resp_time acked_serial ack_serial type) (seq 0 n) /\
  forall b,
    (forall i j, (i < n)%nat -> (j < n)%nat ->
       Z.of_nat i <> Z.of_nat j + RXRPC_CALL_RTT_PEND_SHIFT) ->
    Z.testbit (rtt_avail (rtt call')) b =
      if existsb (fun i => hit i && (b =? Z.of_nat i)) (seq 0 n) then true
      else if existsb (fun i => hit i && (b =? Z.of_nat i + RXRPC_CALL_RTT_PEND_SHIFT))
                (seq 0 n) then false
      else Z.testbit (rtt_avail (rtt call)) b.
Proof.
  intros HS call' hit n. subst call'. unfold rxrpc_complete_rtt_probe.
  match goal with |- context [fold_left ?g _ _] => set (f := g) end.
  assert (Step : forall (c : rxrpc_call) o i,
             rtt_serial (rtt c) = rtt_serial (rtt call) ->
             rtt_sent_at (rtt c) = rtt_sent_at (rtt call) ->
             exists c',
               f (c, o) i =
                 (c', o ++ rtt_sample call resp_time acked_serial ack_serial type i) /\
               rtt_serial (rtt c') = rtt_serial (rtt c) /\
               rtt_sent_at (rtt c') = rtt_sent_at (rtt c) /\
               rtt_avail (rtt c') =
                 if hit i
                 then Z.setbit (Z.clearbit (rtt_avail (rtt c))
                                  (Z.of_nat i + RXRPC_CALL_RTT_PEND_SHIFT)) (Z.of_nat i)
                 else rtt_avail (rtt c)).
  { intros c o i Hc Hc'. subst f hit. cbv beta.
    unfold rtt_pending, rtt_retires, rtt_sample, rtt_pending.
    cbv zeta. rewrite Hc, Hc'.
    destruct (Z.testbit (rtt_avail (rtt call)) _); simpl;
      [|rewrite app_nil_r; eauto 10].
    destruct (Z.eqb_spec (default 0 (rtt_serial (rtt call) !! i)) acked_serial) as [E|N].
    - rewrite <- E, after_refl. simpl.
      destruct type; simpl; rewrite ?app_nil_r; eauto 10.
    - simpl. destruct (after _ _); simpl; rewrite app_nil_r; eauto 10. }
  clearbody f.
  assert (Fold : forall l (c : rxrpc_call) o,
             rtt_serial (rtt c) = rtt_serial (rtt call) ->
             rtt_sent_at (rtt c) = rtt_sent_at (rtt call) ->
             let c' := (fold_left f l (c, o)).1 in
             rtt_serial (rtt c') = rtt_serial (rtt c) /\
             rtt_sent_at (rtt c') = rtt_sent_at (rtt c) /\
             (fold_left f l (c, o)).2 =
               o ++ flat_map (rtt_sample call resp_time acked_serial ack_serial type) l /\
             forall b,
               (forall i j, In i l -> In j l ->
                  Z.of_nat i <> Z.of_nat j + RXRPC_CALL_RTT_PEND_SHIFT) ->
               Z.testbit (rtt_avail (rtt c')) b =
                 if existsb (fun i => hit i && (b =? Z.of_nat i)) l then true
                 else if existsb (fun i => hit i
                                           && (b =? Z.of_nat i + RXRPC_CALL_RTT_PEND_SHIFT)) l
                      then false
                 else Z.testbit (rtt_avail (rtt c)) b).
  { induction l as [|i l IH]; intros c o Hc Hc'; simpl.
    - rewrite app_nil_r. auto.
    - destruct (Step c o i Hc Hc') as (c1 & -> & S1 & S2 & S3).
      destruct (IH c1 (o ++ rtt_sample call resp_time acked_serial ack_serial type i)
                  ltac:(congruence) ltac:(congruence)) as (I1 & I2 & I4 & I3).
      split; [congruence|]. split; [congruence|].
      split; [rewrite I4, <- app_assoc; reflexivity|].
      intros b Hd. rewrite I3 by (intros; apply Hd; auto).
      destruct (existsb (fun i0 => hit i0 && (b =? Z.of_nat i0)) l) eqn:E1;
        [rewrite orb_true_r; reflexivity|].
      rewrite orb_false_r.
      destruct (existsb (fun i0 => hit i0 && (b =? Z.of_nat i0 + RXRPC_CALL_RTT_PEND_SHIFT)) l)
        eqn:E2.
      + rewrite orb_true_r.
        destruct (hit i && (b =? Z.of_nat i)) eqn:E3; [|reflexivity].
        exfalso. apply andb_true_iff in E3. destruct E3 as [_ E3].
        apply Z.eqb_eq in E3. apply existsb_exists in E2.
        destruct E2 as (j & Hj & E2). apply andb_true_iff in E2. destruct E2 as [_ E2].
        apply Z.eqb_eq in E2. apply (Hd i j); auto. lia.
      + rewrite orb_false_r. rewrite S3.
        destruct (hit i); simpl; [|reflexivity].
        rewrite Z.setbit_eqb by lia.
        destruct (Z.eqb_spec b (Z.of_nat i)) as [->|Nb].
        * rewrite Z.eqb_refl. reflexivity.
        * destruct (Z.eqb_spec (Z.of_nat i) b); [lia|]. simpl.
          rewrite Z.clearbit_eqb by lia.
          destruct (Z.eqb_spec b (Z.of_nat i + RXRPC_CALL_RTT_PEND_SHIFT)) as [->|Nc].
          -- rewrite Z.eqb_refl, andb_false_r. reflexivity.
          -- destruct (Z.eqb_spec (Z.of_nat i + RXRPC_CALL_RTT_PEND_SHIFT) b); [lia|].
             rewrite andb_true_r. reflexivity. }
  destruct (Fold (seq 0 n) call [] eq_refl eq_refl) as (F1 & F2 & F4 & F3).
  split; [assumption|]. split; [assumption|]. split; [assumption|].
  intros b Hd. apply F3. intros i j Hi Hj. apply in_seq in Hi, Hj. apply Hd; lia.
Qed.

Lemma existsb_seq_pick (h : nat -> bool) (k : nat -> bool) n i :
  (i < n)%nat -> (forall j, (j < n)%nat -> k j = true <-> j = i) ->
  existsb (fun j => h j && k j) (seq 0 n) = h i.
Proof.
  intros Hi Hk. apply eq_true_iff_eq. rewrite existsb_exists. split.
  - intros (j & Hj & E). apply in_seq in Hj. apply andb_true_iff in E.
    destruct E as [E1 E2]. apply Hk in E2; [|lia]. congruence.
  - intros E. exists i. split; [apply in_seq; lia|].
    rewrite E. simpl. apply Hk; auto.
Qed.

Lemma existsb_seq_none (h : nat -> bool) (k : nat -> bool) n :
  (forall j, (j < n)%nat -> k j = false) ->
  existsb (fun j => h j && k j) (seq 0 n) = false.
Proof.
  intros Hk. destruct (existsb _ _) eqn:E; [|reflexivity].
  apply existsb_exists in E. destruct E as (j & Hj & E). apply in_seq in Hj.
  rewrite Hk, andb_false_r in E by lia. discriminate.
Qed.

(** X9.  Completing RTT probes with an ACK: a pending slot is retired (made
    free again) exactly when its probe serial equals the acknowledged
    serial or was sent before it; all other slots keep their state; the
    recorded serials and send times are not touched; an RTT sample is
    handed to the peer for each pending slot whose serial matches
    exactly, unless the ACK only cancels probes. *)
Theorem X9_rtt_probe_slots (call : rxrpc_call)
    (resp_time acked_serial ack_serial : Z) (type : rxrpc_rtt_rx_trace) :
  Z.of_nat (length (rtt_serial (rtt call))) <= RXRPC_CALL_RTT_PEND_SHIFT ->
  let r := rxrpc_complete_rtt_probe call resp_time acked_serial ack_serial type in
  rtt_serial (rtt r.1) = rtt_serial (rtt call) /\
  rtt_sent_at (rtt r.1) = rtt_sent_at (rtt call) /\
  r.2 = flat_map (rtt_sample call resp_time acked_serial ack_serial type)
          (seq 0 (length (rtt_serial (rtt call)))) /\
  forall i, (i < length (rtt_serial (rtt call)))%nat ->
    rtt_pending r.1 i = rtt_pending call i && negb (rtt_retires call acked_serial i) /\
    rtt_free r.1 i
      = rtt_free call i || (rtt_pending call i && rtt_retires call acked_serial i).
Proof.
  intros Hn r. subst r.
  destruct (rtt_probe_bits call resp_time acked_serial ack_serial type ltac:(lia))
    as (H1 & H2 & H3 & H4).
  split; [assumption|]. split; [assumption|]. split; [assumption|].
  intros i Hi.
  assert (Hd : forall i j, (i < length (rtt_serial (rtt call)))%nat ->
                 (j < length (rtt_serial (rtt call)))%nat ->
                 Z.of_nat i <> Z.of_nat j + RXRPC_CALL_RTT_PEND_SHIFT) by (intros; lia).
  split.
  - unfold rtt_pending at 1. rewrite (H4 _ Hd).
    rewrite existsb_seq_none by (intros j Hj; apply Z.eqb_neq; lia).
    rewrite (existsb_seq_pick _ _ _ i Hi)
      by (intros j Hj; rewrite Z.eqb_eq; lia).
    fold (rtt_pending call i).
    destruct (rtt_pending call i); destruct (rtt_retires call acked_serial i); reflexivity.
  - unfold rtt_free at 1. rewrite (H4 _ Hd).
    rewrite (existsb_seq_pick _ _ _ i Hi)
      by (intros j Hj; rewrite Z.eqb_eq; lia).
    fold (rtt_free call i).
    destruct (rtt_pending call i); destruct (rtt_retires call acked_serial i); simpl;
      rewrite ?orb_true_r, ?orb_false_r; try reflexivity.
    all: rewrite existsb_seq_none by (intros j Hj; apply Z.eqb_neq; lia); reflexivity.
Qed.

End RttProbe.

Section CongestionBounds.
Context `{P : rxrpc_params}.

Ltac bool_to_prop :=
  repeat match goal with
         | H : negb _ = true |- _ => apply negb_true_iff in H
         | H : negb _ = false |- _ => apply negb_false_iff in H
         | H : (_ <=? _) = true |- _ => apply Z.leb_le in H
         | H : (_ <=? _) = false |- _ => apply Z.leb_gt in H
         | H : (_ <? _) = true |- _ => apply Z.ltb_lt in H
         | H : (_ <? _) = false |- _ => apply Z.ltb_ge in H
         | H : (_ =? _) = true |- _ => apply Z.eqb_eq in H
         | H : (_ =? _) = false |- _ => apply Z.eqb_neq in H
         end.

Ltac cong_unfold :=
  unfold rxrpc_cong_packet_loss_detected,
    rxrpc_cong_send_extra_data, rxrpc_cong_resume_normality, rxrpc_cong_out,
    rxrpc_cong_out_no_clear_ca.

Lemma congestion_facts (env : rx_env) (call : rxrpc_call) (skb : sk_buff)
    (summary : rxrpc_ack_summary) (acked_serial : Z) :
  let r := rxrpc_congestion_management env call skb summary acked_serial in
  let flight :=
    u32 (u32 (tx_top (tx call) - acks_hard_ack (tx call)) - nr_acks summary) in
  cong_cwnd (cong r.1.1) <= RXRPC_TX_MAX_WINDOW /\
  cong_cumul_acks (cong r.1.1) <= 255 /\
  flags r.1.1 = clear_bit RXRPC_CALL_RETRANS_TIMEOUT (flags call) /\
  (r.2 = [] \/ r.2 = [A_wake_up] \/ r.2 = [A_resend]) /\
  (r.2 = [A_resend] ->
     cong_mode (cong r.1.1) = RXRPC_CALL_FAST_RETRANSMIT /\
     cong_dup_acks (cong r.1.1) = 0 /\
     (cong_mode (cong call) = RXRPC_CALL_PACKET_LOSS \/
      cong_mode (cong call) = RXRPC_CALL_FAST_RETRANSMIT)) /\
  (r.2 = [A_wake_up] ->
     cong_mode (cong r.1.1) = RXRPC_CALL_PACKET_LOSS /\ saw_nacks summary = true) /\
  (test_bit RXRPC_CALL_RETRANS_TIMEOUT (flags call) = true ->
     cong_ssthresh (cong r.1.1) = Z.max (flight / 2) 2 /\
     (2 < cong_cwnd (cong r.1.1) ->
        cong_cwnd (cong r.1.1) <= cong_ssthresh (cong r.1.1) + 3 /\
        (cong_mode (cong call) = RXRPC_CALL_PACKET_LOSS \/
         cong_mode (cong call) = RXRPC_CALL_FAST_RETRANSMIT))).
Proof.
  intros r flight. subst r. unfold rxrpc_congestion_management.
  fold flight.
  set (timeo := test_bit RXRPC_CALL_RETRANS_TIMEOUT (flags call)).
  set (pre := if timeo then _ else _).
  assert (Hpre : flags pre.1.1.1 = clear_bit RXRPC_CALL_RETRANS_TIMEOUT (flags call) /\
                 cong_mode (cong pre.1.1.1) = cong_mode (cong call) /\
                 saw_nacks pre.1.1.2 = saw_nacks summary /\
                 new_low_nack pre.1.1.2 = new_low_nack summary /\
                 flight_size pre.1.1.2 = flight /\
                 (timeo = true ->
                    cong_ssthresh (cong pre.1.1.1) = Z.max (flight / 2) 2 /\ pre.1.2 = 1)).
  { subst pre. destruct timeo; simpl; [|split_and!; auto; discriminate].
    destruct (Z.leb_spec (Z.max (flight / 2) 2) 1); [lia|]. simpl. auto 10. }
  destruct pre as [[[c1 s1] cwnd1] cumul1]. simpl in Hpre.
  destruct Hpre as (Hf & Hm & Hsaw & Hlow & Hfl & Hto).
  match goal with
  | |- context [if 255 <? ?x then 255 else ?y] =>
    set (cumul2 := if 255 <? x then 255 else y)
  end.
  assert (Hc2 : cumul2 <= 255) by (subst cumul2; destruct (Z.ltb_spec 255 (cumul1 + nr_new_acks s1 + nr_rot_new_acks s1)); lia).
  clearbody cumul2.
  match goal with
  | |- context [if ?b then set_sum_cwnd ?x ?y else ?z] =>
    set (s2 := if b then set_sum_cwnd x y else z)
  end.
  assert (Hs2 : saw_nacks s2 = saw_nacks summary /\ new_low_nack s2 = new_low_nack summary /\
                flight_size s2 = flight /\ nr_new_acks s2 = nr_new_acks s1 /\
                nr_acks s2 = nr_acks s1 /\ sum_cumulative_acks s2 = cumul2).
  { subst s2. destruct (match cong_mode (cong c1) with
                        | RXRPC_CALL_SLOW_START | RXRPC_CALL_CONGEST_AVOIDANCE => _
                        | _ => false end); simpl; auto 10. }
  clearbody s2. destruct Hs2 as (Hsaw2 & Hlow2 & Hfl2 & Hnew2 & Hacks2 & Hcum2).
  clearbody timeo.
  cong_unfold. rewrite Hsaw2, Hlow2, Hfl2, Hcum2.
  destruct (cong_mode (cong c1)) eqn:M; rewrite <- Hm;
    repeat (case_match; simplify_eq/=);
    (split_and!; [lia | lia | assumption | auto | ..]);
    intros; try discriminate;
    try match goal with
        | H : timeo = true |- _ => destruct (Hto H) as [Hto1 Hto2]
        end;
    simplify_eq/=;
    repeat match goal with
           | H : negb _ = true |- _ => apply negb_true_iff in H
           | H : negb _ = false |- _ => apply negb_false_iff in H
           | H : (_ <=? _) = true |- _ => apply Z.leb_le in H
           | H : (_ <=? _) = false |- _ => apply Z.leb_gt in H
           | H : (_ <? _) = true |- _ => apply Z.ltb_lt in H
           | H : (_ <? _) = false |- _ => apply Z.ltb_ge in H
           end;
    split_and!; auto; try lia; try congruence;
    intros; split_and!; auto; try lia.
Qed.

(** X10.  After congestion management, whatever the ACK: the congestion
    window is at most RXRPC_TX_MAX_WINDOW, the cumulative ACK count at
    most 255, the RETRANS_TIMEOUT flag is cleared and no other flag
    changed, and the call state, the receive side and the transmit side
    are untouched. *)
Theorem X10_congestion_clamps (env : rx_env) (call : rxrpc_call) (skb : sk_buff)
    (summary : rxrpc_ack_summary) (acked_serial : Z) :
  let call' := (rxrpc_congestion_management env call skb summary acked_serial).1.1 in
  cong_cwnd (cong call') <= RXRPC_TX_MAX_WINDOW /\
  cong_cumul_acks (cong call') <= 255 /\
  flags call' = clear_bit RXRPC_CALL_RETRANS_TIMEOUT (flags call) /\
  test_bit RXRPC_CALL_RETRANS_TIMEOUT (flags call') = false /\
  state call' = state call /\ rx call' = rx call /\ tx call' = tx call.
Proof.
  intros call'. subst call'.
  destruct (congestion_facts env call skb summary acked_serial) as (H1 & H2 & H3 & _).
  destruct (congestion_management_frame env call skb summary acked_serial) as (F1 & F2 & F3).
  split_and!; try assumption. rewrite H3. apply test_bit_clear_bit.
Qed.

(** X11.  Congestion management makes at most one request: nothing, a
    wake-up of the sender, or a resend.  A resend is requested only on
    entering or staying in fast retransmit from packet loss or fast
    retransmit, with the duplicate-ACK count reset; a wake-up only when
    the ACK showed NAKs and the call is put in packet-loss mode. *)
Theorem X11_congestion_requests (env : rx_env) (call : rxrpc_call) (skb : sk_buff)
    (summary : rxrpc_ack_summary) (acked_serial : Z) :
  let r := rxrpc_congestion_management env call skb summary acked_serial in
  (r.2 = [] \/ r.2 = [A_wake_up] \/ r.2 = [A_resend]) /\
  (r.2 = [A_resend] ->
     cong_mode (cong r.1.1) = RXRPC_CALL_FAST_RETRANSMIT /\
     cong_dup_acks (cong r.1.1) = 0 /\
     (cong_mode (cong call) = RXRPC_CALL_PACKET_LOSS \/
      cong_mode (cong call) = RXRPC_CALL_FAST_RETRANSMIT)) /\
  (r.2 = [A_wake_up] ->
     cong_mode (cong r.1.1) = RXRPC_CALL_PACKET_LOSS /\ saw_nacks summary = true).
Proof.
  intros r. subst r.
  destruct (congestion_facts env call skb summary acked_serial)
    as (_ & _ & _ & H4 & H5 & H6 & _).
  auto.
Qed.

(** X12.  When the retransmission timer has expired, congestion management
    sets the slow-start threshold to max(flight_size / 2, 2), leaves the
    congestion window at most three above it, and, for a call in slow
    start or congestion avoidance, at no more than 2. *)
Theorem X12_retransmission_timeout (env : rx_env) (call : rxrpc_call) (skb : sk_buff)
    (summary : rxrpc_ack_summary) (acked_serial : Z) :
  test_bit RXRPC_CALL_RETRANS_TIMEOUT (flags call) = true ->
  let call' := (rxrpc_congestion_management env call skb summary acked_serial).1.1 in
  let flight :=
    u32 (u32 (tx_top (tx call) - acks_hard_ack (tx call)) - nr_acks summary) in
  cong_ssthresh (cong call') = Z.max (flight / 2) 2 /\
  cong_cwnd (cong call') <= cong_ssthresh (cong call') + 3 /\
  ((cong_mode (cong call) = RXRPC_CALL_SLOW_START \/
    cong_mode (cong call) = RXRPC_CALL_CONGEST_AVOIDANCE) ->
   cong_cwnd (cong call') <= 2).
Proof.
  intros Ht call' flight. subst call'.
  destruct (congestion_facts env call skb summary acked_serial)
    as (_ & _ & _ & _ & _ & _ & H7).
  destruct (H7 Ht) as [H8 H9]. fold flight in H8.
  split; [assumption|].
  destruct (Z_lt_le_dec 2
              (cong_cwnd (cong (rxrpc_congestion_management env call skb summary
                                  acked_serial).1.1))) as [L|L].
  - destruct (H9 L) as [H10 H11]. split; [assumption|].
    intros [E|E]; rewrite E in H11; destruct H11; discriminate.
  - split; [|auto]. rewrite H8. lia.
Qed.

(** X13.  The idle reset of congestion management (nothing transmitted for
    more than one RTT) changes nothing but the summary that is traced:
    the resulting call and the requests made do not depend on the
    clock. *)
Theorem X13_congestion_ignores_idle_time (env env' : rx_env) (call : rxrpc_call)
    (skb : sk_buff) (summary : rxrpc_ack_summary) (acked_serial : Z) :
  let r := rxrpc_congestion_management env call skb summary acked_serial in
  let r' := rxrpc_congestion_management env' call skb summary acked_serial in
  r.1.1 = r'.1.1 /\ r.2 = r'.2.
Proof.
  intros r r'. subst r r'. unfold rxrpc_congestion_management.
  set (pre := if test_bit _ _ then _ else _).
  destruct pre as [[[c1 s1] cwnd1] cumul1].
  match goal with
  | |- context [if 255 <? ?x then 255 else ?y] =>
    set (cumul2 := if 255 <? x then 255 else y)
  end.
  clearbody cumul2.
  assert (E1 : forall (X : rxrpc_call * list action) (S : rxrpc_ack_summary),
             (let '(c, o) := X in (c, S, o)).1.1 = X.1) by (intros [? ?] ?; reflexivity).
  assert (E2 : forall (X : rxrpc_call * list action) (S : rxrpc_ack_summary),
             (let '(c, o) := X in (c, S, o)).2 = X.2) by (intros [? ?] ?; reflexivity).
  rewrite !E1, !E2.
  destruct (cong_mode (cong c1));
    try destruct (_ <? env_now env); try destruct (_ <? env_now env');
    split; reflexivity.
Qed.

End CongestionBounds.

Lemma sent_acks_app l l' : sent_acks (l ++ l') = sent_acks l ++ sent_acks l'.
Proof. unfold sent_acks. apply flat_map_app. Qed.

Lemma released_app l l' : released (l ++ l') = released l ++ released l'.
Proof. unfold released. apply flat_map_app. Qed.

Lemma tx_side_quiet out :
  Forall (fun a => tx_side_action a = true) out ->
  sent_acks out = [] /\ released out = [].
Proof.
  induction 1 as [|a l Ha Hl [IH1 IH2]]; [split; reflexivity|].
  unfold sent_acks, released in *. simpl. rewrite IH1, IH2.
  destruct a; try discriminate; split; reflexivity.
Qed.

Lemma tx_side_app l l' :
  Forall (fun a => tx_side_action a = true) l ->
  Forall (fun a => tx_side_action a = true) l' ->
  Forall (fun a => tx_side_action a = true) (l ++ l').
Proof. intros. apply Forall_app. auto. Qed.

Lemma proto_abort_tx_side why call seq :
  Forall (fun a => tx_side_action a = true) (rxrpc_proto_abort why call seq).2.
Proof.
  unfold rxrpc_proto_abort, rxrpc_abort_call, rxrpc_set_call_completion.
  destruct (_ <? _); simpl; repeat constructor.
Qed.

Section AckActions.
Context `{P : rxrpc_params}.

Lemma rtt_probe_samples call resp_time acked_serial ack_serial type :
  Forall (fun a => is_rtt_sample a = true)
    (rxrpc_complete_rtt_probe call resp_time acked_serial ack_serial type).2.
Proof.
  unfold rxrpc_complete_rtt_probe.
  match goal with |- context [fold_left ?g _ _] => set (f := g) end.
  assert (G : forall l (acc : rxrpc_call * list action),
             Forall (fun a => is_rtt_sample a = true) acc.2 ->
             Forall (fun a => is_rtt_sample a = true) (fold_left f l acc).2).
  { induction l as [|i l IH]; intros [c o] Ho; simpl; [assumption|].
    apply IH. subst f. cbv beta. simpl in Ho.
    destruct (negb _); [assumption|].
    destruct (_ =? _); destruct type; destruct (after _ _); simpl;
      try assumption; apply Forall_app; split; try assumption; repeat constructor. }
  apply G. constructor.
Qed.

Lemma rtt_probe_tx_side call resp_time acked_serial ack_serial type :
  Forall (fun a => tx_side_action a = true)
    (rxrpc_complete_rtt_probe call resp_time acked_serial ack_serial type).2.
Proof.
  eapply Forall_impl; [apply rtt_probe_samples|].
  intros a. destruct a; simpl; congruence.
Qed.

Lemma ackinfo_tx_side call skb info :
  Forall (fun a => tx_side_action a = true) (rxrpc_receive_ackinfo call skb info).2.
Proof.
  unfold rxrpc_receive_ackinfo.
  destruct (negb _); simpl; [destruct (_ <? _)|]; repeat constructor.
Qed.

Lemma congestion_tx_side env call skb summary acked_serial :
  Forall (fun a => tx_side_action a = true)
    (rxrpc_congestion_management env call skb summary acked_serial).2.
Proof.
  destruct (congestion_facts env call skb summary acked_serial)
    as (_ & _ & _ & [-> | [-> | ->]] & _); repeat constructor.
Qed.

Lemma end_tx_phase_tx_side call reply_begun why ok call' out :
  rxrpc_end_tx_phase call reply_begun why = Done (ok, call', out) ->
  Forall (fun a => tx_side_action a = true) out.
Proof.
  unfold rxrpc_end_tx_phase. destruct (negb _); [discriminate|].
  pose proof (proto_abort_tx_side why call (tx_top (tx call))) as A.
  destruct (rxrpc_proto_abort why call (tx_top (tx call))) as [c o]. simpl in A.
  destruct (state call); try destruct reply_begun; intros [= <- <- <-];
    try assumption; constructor.
Qed.

Lemma done_proto_abort_tx_side why call seq call' out :
  Done (rxrpc_proto_abort why call seq) = Done (call', out) ->
  Forall (fun a => tx_side_action a = true) out.
Proof.
  intros [= E]. pose proof (proto_abort_tx_side why call seq) as A.
  rewrite E in A. exact A.
Qed.

Lemma rotate_tx_side call to summary :
  (rxrpc_rotate_tx_window call to summary).2 = [A_wake_up].
Proof.
  destruct (rotate_tx_window_effects call to summary) as (rl & c & s & -> & _).
  reflexivity.
Qed.

Lemma receive_ack_tx_tx_side env call skb ack summary call' out :
  rxrpc_receive_ack_tx env call skb ack summary = Done (call', out) ->
  Forall (fun a => tx_side_action a = true) out.
Proof.
  unfold rxrpc_receive_ack_tx.
  destruct (_ || _); [apply done_proto_abort_tx_side|].
  destruct (_ <? ack_nAcks ack); [apply done_proto_abort_tx_side|].
  set (rot := if after _ _ then _ else _).
  assert (Hrot : Forall (fun a => tx_side_action a = true) rot.2).
  { subst rot. destruct (after _ _); [|constructor].
    rewrite rotate_tx_side. repeat constructor. }
  destruct rot as [[[rot_last c1] s1] out2]. simpl in Hrot.
  destruct rot_last.
  { destruct (rxrpc_end_tx_phase c1 false "ETA") as [[[ok c] o]| |] eqn:E;
      simpl; try discriminate.
    intros [= <- <-]. apply tx_side_app; [assumption|].
    eapply end_tx_phase_tx_side; eassumption. }
  set (soft := if 0 <? ack_nAcks ack then _ else _).
  destruct soft as [[c2 s2]|].
  - set (ping := if _ && _ && _ then _ else _).
    assert (Hping : Forall (fun a => tx_side_action a = true) ping).
    { subst ping. destruct (_ && _ && _); repeat constructor. }
    clearbody ping.
    pose proof (congestion_tx_side env c2 skb s2 (ack_serial_f ack)) as Hc.
    destruct (rxrpc_congestion_management env c2 skb s2 (ack_serial_f ack))
      as [[c3 s3] o3]. simpl in Hc.
    intros [= <- <-]. repeat apply tx_side_app; assumption.
  - pose proof (proto_abort_tx_side "XSA" c1 0) as A.
    destruct (rxrpc_proto_abort "XSA" c1 0) as [c o]. simpl in A.
    intros [= <- <-]. apply tx_side_app; assumption.
Qed.

Lemma receive_ack_valid_tx_side env call skb ack summary call' out :
  rxrpc_receive_ack_valid env call skb ack summary = Done (call', out) ->
  Forall (fun a => tx_side_action a = true) out.
Proof.
  unfold rxrpc_receive_ack_valid.
  set (copied := if _ <=? skb_len skb then _ else _).
  destruct copied as [[rxMTU info]|]; [|apply done_proto_abort_tx_side].
  set (c2 := if ack_reason_f ack =? RXRPC_ACK_PING then _ else _). clearbody c2.
  set (r3 := match info with Some _ => _ | None => _ end).
  assert (H3 : Forall (fun a => tx_side_action a = true) r3.2).
  { subst r3. destruct info as [i|]; [|constructor].
    destruct (negb _); [apply ackinfo_tx_side|constructor]. }
  destruct r3 as [c3 out1]. simpl in H3.
  destruct (_ =? 0).
  { pose proof (proto_abort_tx_side "AK0" c3 0) as A.
    destruct (rxrpc_proto_abort "AK0" c3 0) as [c o]. simpl in A.
    intros [= <- <-]. apply tx_side_app; assumption. }
  destruct (state c3); try (intros [= <- <-]; assumption);
    destruct (rxrpc_receive_ack_tx env c3 skb ack summary) as [[c o]| |] eqn:E;
    simpl; try discriminate; intros [= <- <-];
    (apply tx_side_app; [assumption|]);
    eapply receive_ack_tx_tx_side; eassumption.
Qed.

Lemma receive_ack_shape env call skb ack :
  skb_ack skb = Some ack ->
  exists call' out1 out3,
    rxrpc_receive_ack env call skb = Done (call', out1 ++ reactive_ack skb ack ++ out3) /\
    Forall (fun a => tx_side_action a = true) out1 /\
    Forall (fun a => tx_side_action a = true) out3 /\
    rx call' = rx call.
Proof.
  intros Hack.
  assert (Shape : exists call' out1 out3,
             rxrpc_receive_ack env call skb
               = Done (call', out1 ++ reactive_ack skb ack ++ out3) /\
             Forall (fun a => tx_side_action a = true) out1 /\
             Forall (fun a => tx_side_action a = true) out3).
  { unfold rxrpc_receive_ack. rewrite Hack.
    fold (reactive_ack skb ack).
    set (r1 := if ack_reason_f ack =? RXRPC_ACK_PING_RESPONSE then _ else _).
    assert (H1 : Forall (fun a => tx_side_action a = true) r1.2).
    { subst r1.
      destruct (_ =? RXRPC_ACK_PING_RESPONSE); [apply rtt_probe_tx_side|].
      destruct (_ =? RXRPC_ACK_REQUESTED); [apply rtt_probe_tx_side|].
      destruct (negb _); [apply rtt_probe_tx_side|constructor]. }
    destruct r1 as [c1 out1]. simpl in H1.
    destruct (_ && _).
    { eexists _, out1, []. rewrite app_nil_r. split_and!; auto. }
    destruct (_ && _).
    { eexists _, out1, []. rewrite app_nil_r. split_and!; auto. }
    destruct (negb _).
    { eexists _, out1, []. rewrite app_nil_r. split_and!; auto. }
    destruct (receive_ack_valid_total env c1 skb ack
                (set_ack_reason
                   (if ack_reason_f ack <? RXRPC_ACK__INVALID then ack_reason_f ack
                    else RXRPC_ACK__INVALID) empty_summary)) as (c2 & o2 & E & _).
    rewrite E. simpl. exists c2, out1, o2. split_and!; auto.
    eapply receive_ack_valid_tx_side; eassumption. }
  destruct Shape as (c & o1 & o3 & R & H1 & H3).
  destruct (receive_ack_total env call skb) as (c' & o' & R' & Hrx).
  rewrite R in R'. injection R' as <- _.
  exists c, o1, o3. auto.
Qed.

End AckActions.

Section Dispatch.
Context `{P : rxrpc_params}.

Lemma rtt_probe_same call resp_time acked_serial ack_serial type :
  same_but_rtt_peer call
    (rxrpc_complete_rtt_probe call resp_time acked_serial ack_serial type).1.
Proof.
  unfold rxrpc_complete_rtt_probe.
  match goal with |- context [fold_left ?g _ _] => set (f := g) end.
  assert (G : forall l (acc : rxrpc_call * list action),
             same_but_rtt_peer call acc.1 ->
             same_but_rtt_peer call (fold_left f l acc).1).
  { induction l as [|i l IH]; intros [c o] Ho; simpl; [assumption|].
    apply IH. subst f. cbv beta. simpl in Ho.
    destruct (negb _); [assumption|].
    destruct (_ =? _); destruct type; destruct (after _ _); simpl; assumption. }
  apply G. simpl. unfold same_but_rtt_peer, same_result, same_ident. auto 20.
Qed.

Lemma ackinfo_same call skb info :
  let call' := (rxrpc_receive_ackinfo call skb info).1 in
  same_result call call' /\ same_ident call call' /\ flags call' = flags call /\
  rx call' = rx call /\ rtt call' = rtt call /\
  tx_top (tx call') = tx_top (tx call) /\
  tx_buffer (tx call') = tx_buffer (tx call) /\
  tx_last_sent (tx call') = tx_last_sent (tx call) /\
  acks_hard_ack (tx call') = acks_hard_ack (tx call) /\
  acks_lowest_nak (tx call') = acks_lowest_nak (tx call) /\
  acks_first_seq (tx call') = acks_first_seq (tx call) /\
  acks_prev_seq (tx call') = acks_prev_seq (tx call).
Proof.
  unfold rxrpc_receive_ackinfo, same_result, same_ident.
  destruct (negb _); destruct (_ <? cong_ssthresh _); destruct (_ <? maxdata _);
    simpl; auto 20.
Qed.

Lemma set_call_completion_complete call compl code err :
  state call = RXRPC_CALL_COMPLETE ->
  rxrpc_set_call_completion call compl code err = (false, call).
Proof. intros H. unfold rxrpc_set_call_completion. rewrite H. reflexivity. Qed.

Lemma no_abort_packet_app l l' :
  ~ In A_send_abort_packet l -> ~ In A_send_abort_packet l' ->
  ~ In A_send_abort_packet (l ++ l').
Proof. intros H H' Hin. apply in_app_or in Hin. tauto. Qed.

Lemma samples_no_abort_packet l :
  Forall (fun a => is_rtt_sample a = true) l -> ~ In A_send_abort_packet l.
Proof.
  intros H Hin. rewrite Forall_forall in H. apply list_elem_of_In in Hin.
  specialize (H _ Hin). discriminate.
Qed.

Lemma reactive_no_abort_packet skb ack : ~ In A_send_abort_packet (reactive_ack skb ack).
Proof.
  unfold reactive_ack. destruct (_ =? _); [|destruct (has_flag _ _)]; simpl;
    intros H; repeat destruct H as [H|H]; try discriminate; assumption.
Qed.

Lemma ackinfo_no_abort_packet call skb info :
  ~ In A_send_abort_packet (rxrpc_receive_ackinfo call skb info).2.
Proof.
  unfold rxrpc_receive_ackinfo.
  destruct (negb _); simpl; [destruct (_ <? _)|]; simpl;
    intros H; repeat destruct H as [H|H]; try discriminate; assumption.
Qed.

Lemma receive_ack_complete env call skb :
  state call = RXRPC_CALL_COMPLETE ->
  exists call' out,
    rxrpc_receive_ack env call skb = Done (call', out) /\
    same_result call call' /\ rx call' = rx call /\
    ~ In A_send_abort_packet out.
Proof.
  intros Hst. unfold rxrpc_receive_ack.
  destruct (skb_ack skb) as [ack|].
  2: { rewrite proto_abort_complete by assumption.
       do 2 eexists. split; [reflexivity|]. split_and!; auto using same_result_refl.
       simpl. intros [H|[]]; discriminate. }
  fold (reactive_ack skb ack).
  set (r1 := if ack_reason_f ack =? RXRPC_ACK_PING_RESPONSE then _ else _).
  assert (H1 : same_but_rtt_peer call r1.1 /\ Forall (fun a => is_rtt_sample a = true) r1.2).
  { subst r1.
    destruct (_ =? RXRPC_ACK_PING_RESPONSE);
      [split; [apply rtt_probe_same|apply rtt_probe_samples]|].
    destruct (_ =? RXRPC_ACK_REQUESTED);
      [split; [apply rtt_probe_same|apply rtt_probe_samples]|].
    destruct (negb _);
      [split; [apply rtt_probe_same|apply rtt_probe_samples]|].
    split; [|constructor]. unfold same_but_rtt_peer, same_result, same_ident. auto 20. }
  destruct r1 as [c1 out1]. simpl in H1.
  destruct H1 as ((SR & SI & Hfl & Hrx & Htx & Hcg) & Hout1).
  assert (Hs1 : state c1 = RXRPC_CALL_COMPLETE) by (destruct SR; congruence).
  pose proof (samples_no_abort_packet _ Hout1) as N1.
  pose proof (reactive_no_abort_packet skb ack) as N2.
  assert (N12 : ~ In A_send_abort_packet (out1 ++ reactive_ack skb ack))
    by (apply no_abort_packet_app; assumption).
  rewrite set_call_completion_complete by assumption. simpl.
  destruct (_ && _); [eauto 10|].
  destruct (_ && _); [eauto 10|].
  destruct (negb _); [eauto 10|].
  unfold rxrpc_receive_ack_valid.
  set (copied := if _ <=? skb_len skb then _ else _).
  destruct copied as [[rxMTU info]|].
  2: { rewrite proto_abort_complete by assumption. simpl.
       do 2 eexists. split; [reflexivity|]. split_and!; auto.
       repeat apply no_abort_packet_app; auto.
       simpl. intros [H|[]]; discriminate. }
  set (c2 := if ack_reason_f ack =? RXRPC_ACK_PING then _ else _).
  assert (H2 : same_result c1 c2 /\ rx c2 = rx c1).
  { subst c2. unfold same_result.
    destruct (_ =? _); [|destruct (after _ _)]; simpl; auto 10. }
  clearbody c2. destruct H2 as [SR2 Hrx2].
  set (r3 := match info with Some _ => _ | None => _ end).
  assert (H3 : same_result c2 r3.1 /\ rx r3.1 = rx c2 /\ ~ In A_send_abort_packet r3.2).
  { subst r3. destruct info as [i|]; [|simpl; auto using same_result_refl].
    destruct (negb _); [|simpl; auto using same_result_refl].
    pose proof (ackinfo_same c2 skb i) as (A1 & _ & _ & A4 & _).
    split_and!; auto using ackinfo_no_abort_packet. }
  destruct r3 as [c3 out3]. simpl in H3. destruct H3 as (SR3 & Hrx3 & N3).
  assert (SR13 : same_result call c3).
  { eapply same_result_trans; [exact SR|].
    eapply same_result_trans; [exact SR2|exact SR3]. }
  assert (Hs3 : state c3 = RXRPC_CALL_COMPLETE) by (destruct SR13; congruence).
  destruct (_ =? 0).
  { rewrite proto_abort_complete by assumption. simpl.
    do 2 eexists. split; [reflexivity|]. split_and!; auto; [congruence|].
    repeat apply no_abort_packet_app; auto.
    simpl. intros [H|[]]; discriminate. }
  rewrite Hs3. simpl.
  do 2 eexists. split; [reflexivity|]. split_and!; auto; [congruence|].
  repeat apply no_abort_packet_app; auto.
Qed.

(** X16.  Once a call is complete, no packet changes how it completed: for
    every packet type the state, completion, abort code and error stay
    as they are, the receive side is untouched, and no abort packet is
    sent. *)
Theorem X16_completed_call_stays_completed (env : rx_env) (call : rxrpc_call)
    (skb : sk_buff) :
  state call = RXRPC_CALL_COMPLETE ->
  exists call' out,
    rxrpc_receive env call skb = Done (call', out) /\
    same_result call call' /\
    rx call' = rx call /\
    ~ In A_send_abort_packet out.
Proof.
  intros Hst. unfold rxrpc_receive.
  set (c0 := if 0 <? _ then _ else _).
  assert (H0 : state c0 = RXRPC_CALL_COMPLETE /\ same_result call c0 /\ rx c0 = rx call).
  { subst c0. unfold same_result.
    destruct (0 <? _); destruct (negb _); simpl; auto 10. }
  clearbody c0. destruct H0 as (Hs0 & Hr0 & Hx0).
  assert (Main : exists call' out,
             rxrpc_receive_call_packet env c0 skb = Done (call', out) /\
             same_result c0 call' /\ rx call' = rx c0 /\ ~ In A_send_abort_packet out).
  2: { destruct Main as (c & o & R & G1 & G2 & G3). exists c, o.
       split_and!; auto; [eapply same_result_trans; eassumption | congruence]. }
  clear call Hst Hr0 Hx0.
  unfold rxrpc_receive_call_packet.
  destruct (_ =? RXRPC_PACKET_TYPE_DATA).
  { unfold rxrpc_receive_data. rewrite Hs0. simpl.
    do 2 eexists. split; [reflexivity|]. split_and!; auto using same_result_refl.
    simpl. intros [H|[H|[]]]; discriminate. }
  destruct (_ =? RXRPC_PACKET_TYPE_ACK).
  { destruct (receive_ack_complete env c0 skb Hs0) as (c & o & -> & G1 & G2 & G3).
    simpl. do 2 eexists. split; [reflexivity|]. split_and!; auto.
    apply no_abort_packet_app; [assumption|].
    simpl. intros [H|[]]; discriminate. }
  destruct (_ =? RXRPC_PACKET_TYPE_BUSY).
  { simpl. do 2 eexists. split; [reflexivity|]. split_and!; auto using same_result_refl.
    simpl. intros [H|[]]; discriminate. }
  destruct (_ =? RXRPC_PACKET_TYPE_ABORT).
  { simpl. unfold rxrpc_receive_abort. rewrite set_call_completion_complete by assumption.
    do 2 eexists. split; [reflexivity|]. split_and!; auto using same_result_refl.
    simpl. intros [H|[]]; discriminate. }
  destruct (_ =? RXRPC_PACKET_TYPE_ACKALL).
  2: { simpl. do 2 eexists. split; [reflexivity|]. split_and!; auto using same_result_refl.
       simpl. intros [H|[]]; discriminate. }
  unfold rxrpc_receive_ackall.
  destruct (rotate_tx_window_effects c0 (tx_top (tx c0)) empty_summary)
    as (rl & c & s & -> & H1 & _ & _ & H4 & _ & (T1 & _) & Hrx & _ & _ & _ & SR & _).
  destruct rl.
  - assert (TL : test_bit RXRPC_CALL_TX_LAST (flags c) = true).
    { rewrite H4, test_bit_set_bit. simpl. apply test_bit_set_bit_same. }
    rewrite (end_tx_phase_cases c false "ETL" TL).
    destruct SR as (S1 & S2 & S3 & S4). rewrite S1, Hs0.
    rewrite proto_abort_complete by congruence. simpl.
    do 2 eexists. split; [reflexivity|]. split_and!; auto.
    + repeat split; assumption.
    + simpl. intros [H|[H|[H|[]]]]; discriminate.
  - simpl. do 2 eexists. split; [reflexivity|]. split_and!; auto.
    simpl. intros [H|[H|[]]]; discriminate.
Qed.

End Dispatch.

Section Dispatch2.
Context `{P : rxrpc_params}.

Lemma receive_ackall_tx_side call skb call' out :
  rxrpc_receive_ackall call skb = Done (call', out) ->
  Forall (fun a => tx_side_action a = true) out.
Proof.
  unfold rxrpc_receive_ackall.
  destruct (rotate_tx_window_effects call (tx_top (tx call)) empty_summary)
    as (rl & c & s & -> & _).
  destruct rl.
  - destruct (rxrpc_end_tx_phase c false "ETL") as [[[ok c1] o]| |] eqn:E;
      simpl; try discriminate.
    intros [= <- <-]. constructor; [reflexivity|].
    eapply end_tx_phase_tx_side; eassumption.
  - intros [= <- <-]. repeat constructor.
Qed.

Lemma receive_note_eq env call skb :
  rxrpc_receive env call skb
  = rxrpc_receive_call_packet env (rxrpc_receive_note call skb) skb.
Proof. reflexivity. Qed.

Lemma receive_note_frame call skb :
  let c0 := rxrpc_receive_note call skb in
  rx c0 = rx call /\ tx c0 = tx call /\ cong c0 = cong call /\ rtt c0 = rtt call /\
  peer c0 = peer call /\ flags c0 = flags call /\ same_result call c0 /\
  tx_phase c0 = tx_phase call /\ ackr_reason c0 = ackr_reason call /\
  service_id c0 = hdr_serviceId (skb_hdr skb) /\
  rx_serial c0 = (if after (hdr_serial (skb_hdr skb)) (rx_serial call)
                  then hdr_serial (skb_hdr skb) else rx_serial call).
Proof.
  unfold rxrpc_receive_note, same_result, after.
  destruct (Z.eqb_spec (hdr_serviceId (skb_hdr skb)) (service_id call)); simpl;
    destruct (0 <? _); simpl; auto 20.
Qed.

(** X14.  Only DATA packets touch the receive side: any other packet, valid
    or not, leaves the receive window, both queues and the SACK table as
    they are and is freed exactly once, at the end; unless it is an ACK
    packet no ACK is sent in answer. *)
Theorem X14_only_data_changes_rx (env : rx_env) (call : rxrpc_call) (skb : sk_buff) :
  hdr_type (skb_hdr skb) <> RXRPC_PACKET_TYPE_DATA ->
  exists call' out,
    rxrpc_receive env call skb = Done (call', out ++ [A_free_skb skb]) /\
    rx call' = rx call /\
    released out = [] /\
    (hdr_type (skb_hdr skb) <> RXRPC_PACKET_TYPE_ACK -> sent_acks out = []).
Proof.
  intros Hty. rewrite receive_note_eq.
  destruct (receive_note_frame call skb) as (Hrx & _).
  set (c0 := rxrpc_receive_note call skb) in *. clearbody c0.
  unfold rxrpc_receive_call_packet.
  destruct (Z.eqb_spec (hdr_type (skb_hdr skb)) RXRPC_PACKET_TYPE_DATA); [contradiction|].
  destruct (Z.eqb_spec (hdr_type (skb_hdr skb)) RXRPC_PACKET_TYPE_ACK).
  { destruct (skb_ack skb) as [ack|] eqn:Hack.
    - destruct (receive_ack_shape env c0 skb ack Hack)
        as (c & o1 & o3 & -> & H1 & H3 & Hc).
      simpl. do 2 eexists. split; [reflexivity|]. split_and!; [congruence| |contradiction].
      rewrite !released_app.
      destruct (tx_side_quiet _ H1) as [_ ->]. destruct (tx_side_quiet _ H3) as [_ ->].
      unfold reactive_ack. destruct (_ =? _); [|destruct (has_flag _ _)]; reflexivity.
    - unfold rxrpc_receive_ack. rewrite Hack. simpl.
      pose proof (proto_abort_tx_side "XAK" c0 0) as A.
      pose proof (proto_abort_rx "XAK" c0 0) as B.
      destruct (rxrpc_proto_abort "XAK" c0 0) as [c o]. simpl in *.
      do 2 eexists. split; [reflexivity|]. split_and!; [congruence| |contradiction].
      apply tx_side_quiet. assumption. }
  destruct (_ =? RXRPC_PACKET_TYPE_BUSY).
  { simpl. exists c0, []. auto. }
  destruct (_ =? RXRPC_PACKET_TYPE_ABORT).
  { simpl. eexists _, []. split; [reflexivity|].
    unfold rxrpc_receive_abort. rewrite set_call_completion_rx. auto. }
  destruct (_ =? RXRPC_PACKET_TYPE_ACKALL); [|simpl; exists c0, []; auto].
  destruct (receive_ackall_total c0 skb) as (c & o & R & Hc).
  pose proof (receive_ackall_tx_side c0 skb c o R) as A.
  rewrite R. simpl. exists c, o. destruct (tx_side_quiet _ A) as [A1 A2].
  split_and!; auto. congruence.
Qed.

(** X22.  The ACK sent in answer to an ACK packet depends only on the packet:
    PING_RESPONSE for a PING, else REQUESTED if the header asks for an
    ACK, else none.  Apart from this ACK and the freeing of the packet,
    all that ACK processing asks for is transmit-side work (RTT samples,
    wake-ups, resends, pings, aborts). *)
Theorem X22_ack_packet_is_answered (env : rx_env) (call : rxrpc_call) (skb : sk_buff)
    (ack : rxrpc_ackpacket) :
  hdr_type (skb_hdr skb) = RXRPC_PACKET_TYPE_ACK ->
  skb_ack skb = Some ack ->
  exists call' out,
    rxrpc_receive env call skb = Done (call', out) /\
    List.filter (fun a => negb (tx_side_action a)) out
      = reactive_ack skb ack ++ [A_free_skb skb] /\
    sent_acks out =
      (if ack_reason_f ack =? RXRPC_ACK_PING then [RXRPC_ACK_PING_RESPONSE]
       else if has_flag (hdr_flags (skb_hdr skb)) RXRPC_REQUEST_ACK
            then [RXRPC_ACK_REQUESTED] else []).
Proof.
  intros Hty Hack. rewrite receive_note_eq.
  set (c0 := rxrpc_receive_note call skb). clearbody c0.
  unfold rxrpc_receive_call_packet. rewrite Hty. simpl.
  destruct (receive_ack_shape env c0 skb ack Hack) as (c & o1 & o3 & -> & H1 & H3 & Hc).
  simpl. do 2 eexists. split; [reflexivity|].
  assert (F : forall l, Forall (fun a => tx_side_action a = true) l ->
                List.filter (fun a => negb (tx_side_action a)) l = []).
  { induction 1 as [|a l Ha Hl IH]; [reflexivity|]. simpl. rewrite Ha. simpl. exact IH. }
  split.
  - rewrite <- !app_assoc, !List.filter_app, (F _ H1), (F _ H3). simpl.
    unfold reactive_ack. destruct (_ =? _); [|destruct (has_flag _ _)]; reflexivity.
  - rewrite !sent_acks_app.
    destruct (tx_side_quiet _ H1) as [-> _]. destruct (tx_side_quiet _ H3) as [-> _].
    unfold reactive_ack. destruct (_ =? _); [|destruct (has_flag _ _)]; reflexivity.
Qed.

End Dispatch2.

(** ** Lifting an invariant of the receive window to whole runs *)

Section Lift.
Context `{P : rxrpc_params}.
Variable I : call_rx -> Prop.
Hypothesis Hsub : 0 < RXRPC_JUMBO_SUBPKTLEN.
Hypothesis I_data_one : forall call skb,
  I (rx call) -> is_u32 (skb_seq skb) ->
  exists call' out, rxrpc_receive_data_one call skb = Done (call', out) /\ I (rx call').

Lemma split_jumbo_loop_keeps clone_ok : forall fuel n call skb offset len,
  is_u32 len -> len / RXRPC_JUMBO_SUBPKTLEN < Z.of_nat fuel ->
  I (rx call) -> is_u32 (skb_seq skb) ->
  exists ok call' skb' out,
    rxrpc_split_jumbo_loop fuel clone_ok n call skb offset len
      = Done (ok, call', skb', out) /\ I (rx call').
Proof.
  induction fuel as [|fuel IH]; intros n call skb offset len Hlen Hfuel Hwf Hseq.
  - exfalso. pose proof (Z.div_pos len RXRPC_JUMBO_SUBPKTLEN ltac:(apply Hlen) Hsub). lia.
  - simpl. destruct (has_flag _ RXRPC_JUMBO_PACKET).
    + destruct (Z.ltb_spec len RXRPC_JUMBO_SUBPKTLEN); [eauto 10|].
      destruct (has_flag _ RXRPC_LAST_PACKET); [eauto 10|].
      destruct (skb_copy_jumbo _ _) as [jhdr|]; [|eauto 10].
      destruct (clone_ok n); simpl; [|eauto 10].
      destruct (I_data_one call
                  (set_skb_plen RXRPC_JUMBO_DATALEN (set_skb_offset offset skb)) Hwf Hseq)
        as (c1 & o1 & -> & W1). simpl.
      edestruct (IH (S n) c1) as (ok & c2 & s2 & o2 & -> & W2); [| | exact W1 | |].
      * apply u32_range.
      * assert (E : u32 (len - RXRPC_JUMBO_SUBPKTLEN) = len - RXRPC_JUMBO_SUBPKTLEN).
        { unfold u32. apply Z.mod_small. unfold is_u32 in Hlen. lia. }
        rewrite E.
        replace len with ((len - RXRPC_JUMBO_SUBPKTLEN) + 1 * RXRPC_JUMBO_SUBPKTLEN)
          in Hfuel by lia.
        rewrite Z.div_add in Hfuel by lia. lia.
      * unfold skb_seq. simpl. apply u32_range.
      * simpl. eauto 10.
    + destruct (I_data_one call (set_skb_plen len (set_skb_offset offset skb)) Hwf Hseq)
        as (c1 & o1 & -> & W1). simpl. eauto 10.
Qed.

Lemma receive_data_keeps env call skb :
  I (rx call) -> is_u32 (skb_seq skb) ->
  exists call' out,
    rxrpc_receive_data env call skb = Done (call', out) /\ I (rx call').
Proof.
  intros Hwf Hseq. unfold rxrpc_receive_data.
  destruct (_ <=? _); [eauto|].
  set (un := if negb _ then _ else _). destruct un as [o|o0]; [eauto|].
  set (rr := match state call with
             | RXRPC_CALL_CLIENT_SEND_REQUEST | RXRPC_CALL_CLIENT_AWAIT_REPLY =>
               rxrpc_receiving_reply call
             | _ => Done (true, call, [])
             end).
  assert (Hrr : exists ok c o, rr = Done (ok, c, o) /\ rx c = rx call).
  { subst rr. destruct (state call); try (do 3 eexists; split; reflexivity);
      apply receiving_reply_total. }
  destruct Hrr as (ok & c1 & o1 & -> & H1). simpl.
  destruct ok; simpl.
  2: { do 2 eexists. split; [reflexivity|]. rewrite H1. assumption. }
  unfold rxrpc_receive_split_jumbo.
  edestruct (split_jumbo_loop_keeps (env_clone_ok env)
               (S (Z.to_nat (u32 (skb_len skb - sizeof_wire_header) / RXRPC_JUMBO_SUBPKTLEN)))
               0%nat c1 skb sizeof_wire_header (u32 (skb_len skb - sizeof_wire_header)))
    as (sp & c2 & s2 & o2 & -> & W2).
  { apply u32_range. }
  { pose proof (Z.div_pos (u32 (skb_len skb - sizeof_wire_header)) RXRPC_JUMBO_SUBPKTLEN
                  ltac:(apply u32_range) Hsub). lia. }
  { rewrite H1. assumption. }
  { assumption. }
  simpl. destruct sp; simpl.
  - eauto.
  - pose proof (proto_abort_rx "VLD" c2 (hdr_seq (skb_hdr s2))) as F.
    destruct (rxrpc_proto_abort _ _ _) as [c o]. simpl in F.
    do 2 eexists. split; [reflexivity|]. rewrite F. assumption.
Qed.

Lemma receive_keeps env call skb :
  I (rx call) -> is_u32 (skb_seq skb) ->
  exists call' out,
    rxrpc_receive env call skb = Done (call', out) /\ I (rx call').
Proof.
  intros Hwf Hseq. unfold rxrpc_receive.
  set (c1 := if negb _ then _ else call).
  set (c2 := if 0 <? _ then _ else c1).
  assert (H2 : rx c2 = rx call).
  { subst c2 c1. destruct (0 <? _); destruct (negb _); reflexivity. }
  clearbody c2. rewrite <- H2 in Hwf. clear c1 H2.
  unfold rxrpc_receive_call_packet.
  destruct (_ =? RXRPC_PACKET_TYPE_DATA); [apply receive_data_keeps; assumption|].
  destruct (_ =? RXRPC_PACKET_TYPE_ACK).
  { destruct (receive_ack_total env c2 skb) as (c & o & -> & H). simpl.
    do 2 eexists. split; [reflexivity|]. rewrite H. assumption. }
  destruct (_ =? RXRPC_PACKET_TYPE_BUSY); [simpl; eauto|].
  destruct (_ =? RXRPC_PACKET_TYPE_ABORT).
  { simpl. do 2 eexists. split; [reflexivity|]. unfold rxrpc_receive_abort.
    rewrite set_call_completion_rx. assumption. }
  destruct (_ =? RXRPC_PACKET_TYPE_ACKALL); [|simpl; eauto].
  destruct (receive_ackall_total c2 skb) as (c & o & -> & H). simpl.
  do 2 eexists. split; [reflexivity|]. rewrite H. assumption.
Qed.

Lemma receive_all_keeps (pkts : list (rx_env * sk_buff)) :
  Forall (fun p => is_u32 (skb_seq p.2)) pkts ->
  forall call, I (rx call) ->
  exists call' out, receive_all pkts call = Done (call', out) /\ I (rx call').
Proof.
  intros Hp. induction Hp as [|[env skb] pkts Hs Hp IH]; intros call Hwf; simpl.
  - eauto.
  - destruct (receive_keeps env call skb Hwf Hs) as (c1 & o1 & -> & W1). simpl.
    destruct (IH c1 W1) as (c2 & o2 & -> & W2). simpl. eauto.
Qed.

End Lift.

(** An invariant of the window that [rxrpc_data_admission] keeps is kept
    by [rxrpc_receive_data_one]: before admission only [rx_highest_seq]
    changes. *)
Lemma data_one_keeps `{P : rxrpc_params} (I : call_rx -> Prop) :
  (forall r v, I r -> I (set_rx_highest_seq v r)) ->
  (forall call skb,
     I (rx call) -> is_u32 (skb_seq skb) ->
     exists call' out,
       rxrpc_data_admission call skb (call_window (rx call)) (call_wtop (rx call))
         (u32 (call_window (rx call) + rx_winsize (rx call) - 1)) = Done (call', out) /\
       I (rx call')) ->
  forall call skb,
    I (rx call) -> is_u32 (skb_seq skb) ->
    exists call' out, rxrpc_receive_data_one call skb = Done (call', out) /\ I (rx call').
Proof.
  intros Hh Hadm call skb Hwf Hseq. unfold rxrpc_receive_data_one.
  assert (A : forall why (c : rxrpc_call), rx c = rx call ->
            exists call' out,
              (let '(call0, out0) := rxrpc_proto_abort why c (hdr_seq (skb_hdr skb)) in
               Done (call0, out0 ++ rxrpc_free_skb (Some skb))) = Done (call', out) /\
              I (rx call')).
  { intros why c Hc. pose proof (proto_abort_rx why c (hdr_seq (skb_hdr skb))) as E.
    destruct (rxrpc_proto_abort _ _ _) as [c' o]. simpl in E.
    do 2 eexists. split; [reflexivity|]. rewrite E, Hc. assumption. }
  assert (B : forall c : rxrpc_call,
            (rx c = rx call \/ exists v, rx c = set_rx_highest_seq v (rx call)) ->
            exists call' out,
              rxrpc_data_admission c skb (lower_32_bits (ackr_window (rx call)))
                (upper_32_bits (ackr_window (rx call)))
                (u32 (lower_32_bits (ackr_window (rx call)) + rx_winsize (rx call) - 1))
              = Done (call', out) /\ I (rx call')).
  { intros c Hc.
    assert (W : I (rx c)) by (destruct Hc as [-> | [v ->]]; auto).
    destruct (Hadm c skb W Hseq) as (c' & o & R & W').
    assert (E : call_window (rx c) = lower_32_bits (ackr_window (rx call)) /\
                call_wtop (rx c) = upper_32_bits (ackr_window (rx call)) /\
                rx_winsize (rx c) = rx_winsize (rx call)).
    { destruct Hc as [-> | [v ->]]; auto. }
    destruct E as (E1 & E2 & E3). rewrite E1, E2, E3 in R. eauto. }
  destruct (has_flag _ RXRPC_LAST_PACKET).
  - destruct (_ && _).
    + apply A. reflexivity.
    + destruct (after _ _); apply B; [right; eexists|left]; reflexivity.
  - destruct (_ && _).
    + apply A. reflexivity.
    + destruct (after _ _); apply B; [right; eexists|left]; reflexivity.
Qed.

Lemma seq_consecutive_app first q q' :
  seq_consecutive first q ->
  seq_consecutive (first + Z.of_nat (length q)) q' ->
  seq_consecutive first (q ++ q').
Proof.
  revert first. induction q as [|s q IH]; intros first Hq Hq'; simpl in *.
  - rewrite Z.add_0_r in Hq'. assumption.
  - destruct Hq as [Hs Hq]. split; [assumption|]. apply IH; [assumption|].
    replace (first + 1 + Z.of_nat (length q))
      with (first + Z.pos (Pos.of_succ_nat (length q))) by lia.
    assumption.
Qed.

(** The drain loop hands the receive queue the packets that follow the
    window, one after the other. *)
Lemma drain_delivers w0 wtop T1 : is_u32 w0 -> T1 <= 2^31 ->
  forall q call k reset,
    rx_oos_queue (rx call) = q -> oos_sorted w0 k T1 q -> 1 <= k <= T1 ->
    let r := rxrpc_drain_oos q call (u32 (w0 + k)) wtop reset in
    exists pre,
      rx_queue (rx r.1.1) = rx_queue (rx call) ++ pre /\
      seq_consecutive (w0 + k) pre /\
      r.1.2 = u32 (w0 + k + Z.of_nat (length pre)) /\
      q = pre ++ rx_oos_queue (rx r.1.1) /\
      k + Z.of_nat (length pre) <= T1.
Proof.
  intros Hw HT. induction q as [|s q IH]; intros call k reset Hq Hs Hk; simpl.
  - exists []. rewrite app_nil_r, Z.add_0_r. simpl. split_and!; auto; lia.
  - destruct Hs as (Hu & Hr & Hs). fold (skb_seq s).
    destruct (after (skb_seq s) (u32 (w0 + k))) eqn:E.
    + exists []. simpl. rewrite app_nil_r, Z.add_0_r. split_and!; auto; lia.
    + assert (N : ~ (1 <= u32 (skb_seq s - u32 (w0 + k)) < 2^31)).
      { intros C. apply after_iff in C. congruence. }
      assert (Ek : u32 (skb_seq s - w0) = k) by (unfold is_u32 in *; mod_lia).
      assert (Es : skb_seq s = u32 (w0 + k)) by (unfold is_u32 in *; mod_lia).
      replace (u32 (u32 (w0 + k) + 1)) with (u32 (w0 + (k + 1))) by mod_lia.
      destruct (IH (rxrpc_receive_queue_data (upd_rx (set_rx_oos_queue q) call) s
                      (u32 (w0 + (k + 1))) wtop) (k + 1)
                   (match reset with None => Some (skb_seq s) | Some _ => reset end))
        as (pre & H1 & H2 & H3 & H4 & H5); try reflexivity; try lia.
      { rewrite Ek in Hs. assumption. }
      exists (s :: pre). simpl in H1. rewrite H1, <- app_assoc. simpl.
      split_and!; auto.
      * replace (w0 + k + 1) with (w0 + (k + 1)) by lia. assumption.
      * rewrite H3. f_equal. lia.
      * simpl in H4. congruence.
      * lia.
Qed.

Section Delivery.
Context `{P : rxrpc_params}.
Hypothesis Pok : params_ok.

Lemma data_admission_delivers call skb call' out :
  rx_wf (rx call) -> is_u32 (skb_seq skb) ->
  rxrpc_data_admission call skb (call_window (rx call)) (call_wtop (rx call))
    (u32 (call_window (rx call) + rx_winsize (rx call) - 1)) = Done (call', out) ->
  exists delivered,
    rx_queue (rx call') = rx_queue (rx call) ++ delivered /\
    seq_consecutive (call_window (rx call)) delivered /\
    call_window (rx call') = u32 (call_window (rx call) + Z.of_nat (length delivered)).
Proof.
  intros Hwf Hseq. pose proof Hwf as (HW & HT & Hsorted & Hsack & Hlen).
  pose proof (sack_size_pos Pok) as HN.
  pose proof (lower_32_bits_range (ackr_window (rx call))) as Hw0.
  pose proof (upper_32_bits_range (ackr_window (rx call))) as Hwt.
  fold (call_window (rx call)) in Hw0. fold (call_wtop (rx call)) in Hwt.
  assert (Same : forall c : rxrpc_call,
             rx_queue (rx c) = rx_queue (rx call) ->
             call_window (rx c) = call_window (rx call) ->
             exists delivered,
               rx_queue (rx c) = rx_queue (rx call) ++ delivered /\
               seq_consecutive (call_window (rx call)) delivered /\
               call_window (rx c)
                 = u32 (call_window (rx call) + Z.of_nat (length delivered))).
  { intros c E1 E2. exists []. rewrite app_nil_r, E1, E2. simpl.
    split_and!; auto. rewrite Z.add_0_r. unfold is_u32 in Hw0. mod_lia. }
  unfold rxrpc_data_admission. fold (skb_seq skb).
  set (w0 := call_window (rx call)) in *. set (wtop := call_wtop (rx call)) in *.
  set (T := u32 (wtop - w0)) in *.
  destruct (_ && _); [intros [= <- <-]; apply Same; reflexivity|].
  destruct (before (skb_seq skb) w0) eqn:Eb; [intros [= <- <-]; apply Same; reflexivity|].
  destruct (after (skb_seq skb) _) eqn:Ea; [intros [= <- <-]; apply Same; reflexivity|].
  pose proof (in_window_offset w0 (rx_winsize (rx call)) (skb_seq skb) Hw0 Hseq
                ltac:(lia) Eb Ea) as Hd.
  destruct (Z.eqb_spec (skb_seq skb) w0) as [Eq|Ne].
  - set (ac := if has_flag _ _ then _ else _).
    assert (Hac : rx_oos_queue (rx ac.2) = rx_oos_queue (rx call) /\
                  rx_queue (rx ac.2) = rx_queue (rx call)).
    { subst ac. destruct (has_flag _ _); [auto|]. destruct (negb _); auto. }
    destruct ac as [ack_reason call1]. simpl in Hac. destruct Hac as (Hq1 & Hr1).
    set (wtop1 := if after (u32 (w0 + 1)) wtop then u32 (w0 + 1) else wtop).
    assert (Hwt1 : is_u32 wtop1 /\ u32 (wtop1 - w0) = Z.max T 1).
    { subst wtop1. destruct (after (u32 (w0 + 1)) wtop) eqn:E.
      - apply after_iff in E. split; [apply u32_range|].
        subst T. unfold is_u32 in *. mod_lia.
      - assert (A : ~ (1 <= u32 (u32 (w0 + 1) - wtop) < 2^31))
          by (rewrite <- after_iff; congruence).
        split; [assumption|]. subst T. unfold is_u32 in *. mod_lia. }
    destruct Hwt1 as [Hwt1 HT1].
    change (rx_oos_queue (rx (rxrpc_receive_queue_data call1 skb (u32 (w0 + 1)) wtop1)))
      with (rx_oos_queue (rx call1)).
    rewrite Hq1.
    assert (Hsrt : oos_sorted w0 1 (Z.max T 1) (rx_oos_queue (rx call))).
    { eapply oos_sorted_weaken; [| eassumption | lia]. lia. }
    destruct (drain_spec w0 wtop1 (Z.max T 1) Hw0 ltac:(lia)
                (rx_oos_queue (rx call))
                (rxrpc_receive_queue_data call1 skb (u32 (w0 + 1)) wtop1) 1 None)
      as (call2 & k' & R & Hk' & Hs' & _ & _ & _ & Ha2);
      [simpl; assumption | assumption | lia | reflexivity |].
    destruct (drain_delivers w0 wtop1 (Z.max T 1) Hw0 ltac:(lia)
                (rx_oos_queue (rx call))
                (rxrpc_receive_queue_data call1 skb (u32 (w0 + 1)) wtop1) 1 None)
      as (pre & D1 & D2 & D3 & _ & _);
      [simpl; assumption | assumption | lia |].
    rewrite R in D1, D3 |- *. simpl in D1, D3.
    assert (Fin : forall c : rxrpc_call,
               rx_queue (rx c) = rx_queue (rx call2) ->
               ackr_window (rx c) = ackr_window (rx call2) ->
               exists delivered,
                 rx_queue (rx c) = rx_queue (rx call) ++ delivered /\
                 seq_consecutive w0 delivered /\
                 call_window (rx c) = u32 (w0 + Z.of_nat (length delivered))).
    { intros c E1 E2. exists (skb :: pre).
      rewrite E1, D1, Hr1, <- app_assoc. simpl. split_and!; auto.
      - rewrite Eq. unfold is_u32 in Hw0. mod_lia.
      - unfold call_window. rewrite E2, Ha2.
        rewrite ackr_pack_window; [|apply u32_range|assumption].
        rewrite D3. f_equal. lia. }
    destruct (if k' =? 1 then None else Some (u32 (w0 + 1))) as [rf|].
    + destruct (rxrpc_reset_sack _ _ _ _) as [tbl| |]; simpl; try discriminate.
      intros [= <- <-]. apply Fin; reflexivity.
    + simpl. intros [= <- <-]. apply Fin; reflexivity.
  - destruct (Z.eqb_spec (sack_get (ackr_sack_table (rx call)) (skb_seq skb)) 0);
      destruct (after (u32 (skb_seq skb + 1)) wtop); simpl;
      try destruct (has_flag (hdr_flags (skb_hdr skb)) RXRPC_JUMBO_PACKET); simpl;
      intros [= <- <-]; apply Same; try reflexivity;
      unfold call_window; simpl; apply ackr_pack_window;
      try assumption; apply u32_range.
Qed.

End Delivery.

Lemma seq_consecutive_ext a b q :
  u32 a = u32 b -> seq_consecutive a q -> seq_consecutive b q.
Proof.
  revert a b. induction q as [|s q IH]; intros a b E; simpl; [trivial|].
  intros [Hs Hq]. split; [congruence|].
  apply (IH (a + 1)); [mod_lia|assumption].
Qed.

Lemma rx_wf_highest `{P : rxrpc_params} r v : rx_wf r -> rx_wf (set_rx_highest_seq v r).
Proof. intros H. exact H. Qed.

Section InOrder.
Context `{P : rxrpc_params}.
Hypothesis Pok : params_ok.

Lemma data_admission_delivery w0 q0 call skb :
  delivery_inv w0 q0 (rx call) -> is_u32 (skb_seq skb) ->
  exists call' out,
    rxrpc_data_admission call skb (call_window (rx call)) (call_wtop (rx call))
      (u32 (call_window (rx call) + rx_winsize (rx call) - 1)) = Done (call', out) /\
    delivery_inv w0 q0 (rx call').
Proof.
  intros (Hwf & (Hc & Hw) & (more & Hm)) Hseq.
  destruct (data_admission_wf Pok call skb Hwf Hseq) as (c & o & R & W).
  destruct (data_admission_delivers Pok call skb c o Hwf Hseq R) as (d & D1 & D2 & D3).
  exists c, o. split; [assumption|]. split; [assumption|]. split.
  - split.
    + rewrite D1. apply seq_consecutive_app; [assumption|].
      eapply seq_consecutive_ext; [|exact D2]. rewrite Hw. mod_lia.
    + rewrite D3, D1, Hw, length_app. mod_lia.
  - exists (more ++ d). rewrite D1, Hm, app_assoc. reflexivity.
Qed.

Lemma receive_all_delivery w0 q0 (pkts : list (rx_env * sk_buff)) (call : rxrpc_call) :
  delivery_inv w0 q0 (rx call) ->
  Forall (fun p => is_u32 (skb_seq p.2)) pkts ->
  exists call' out,
    receive_all pkts call = Done (call', out) /\ delivery_inv w0 q0 (rx call').
Proof.
  intros Hinv Hp.
  apply (receive_all_keeps (delivery_inv w0 q0)); try assumption.
  - apply Pok.
  - apply data_one_keeps.
    + intros r v H. exact H.
    + apply data_admission_delivery.
Qed.

End InOrder.

(** X18.  DATA is delivered in order, without gaps or repeats: if the receive
    queue holds the packets from [w0] up to the window, one of each
    sequence number, then after any sequence of packets it still does;
    packets already queued are never removed or reordered, and the
    window is [w0] plus the number of packets delivered. *)
Theorem X18_in_order_delivery `{P : rxrpc_params} (w0 : Z)
    (pkts : list (rx_env * sk_buff)) (call : rxrpc_call) :
  params_ok ->
  rx_wf (rx call) ->
  rx_delivered w0 (rx call) ->
  Forall (fun p => is_u32 (skb_seq p.2)) pkts ->
  exists call' out more,
    receive_all pkts call = Done (call', out) /\
    rx_queue (rx call') = rx_queue (rx call) ++ more /\
    seq_consecutive w0 (rx_queue (rx call')) /\
    call_window (rx call') = u32 (w0 + Z.of_nat (length (rx_queue (rx call')))).
Proof.
  intros Pok Hwf Hd Hp.
  destruct (receive_all_delivery Pok w0 (rx_queue (rx call)) pkts call) as
    (c & o & R & _ & (D1 & D2) & (more & Hm)); [|assumption|].
  { split; [assumption|]. split; [assumption|]. exists []. rewrite app_nil_r. reflexivity. }
  exists c, o, more. auto.
Qed.

Lemma X18_in_order_delivery_witness :
  exists call' out more,
    @receive_all linux_params
      [(quiet_env, data_pkt 3 0 38 []); (quiet_env, data_pkt 1 0 38 []);
       (quiet_env, data_pkt 3 0 38 []); (quiet_env, data_pkt 2 0 38 [])]
      fresh_call = Done (call', out) /\
    rx_queue (rx call') = rx_queue (rx fresh_call) ++ more /\
    seq_consecutive 1 (rx_queue (rx call')) /\
    call_window (rx call') = u32 (1 + Z.of_nat (length (rx_queue (rx call')))).
Proof.
  apply (@X18_in_order_delivery linux_params 1).
  - split; [exists 8; split; [lia|reflexivity] | reflexivity].
  - apply rx_wfb_spec. vm_compute. reflexivity.
  - split; [exact I|reflexivity].
  - repeat (apply List.Forall_cons; [unfold is_u32, skb_seq, data_pkt; simpl; lia|]).
    apply List.Forall_nil.
Defined.

Lemma seq_consecutive_In first q s :
  seq_consecutive first q -> In s q ->
  exists j, 0 <= j < Z.of_nat (length q) /\ skb_seq s = u32 (first + j).
Proof.
  revert first. induction q as [|t q IH]; intros first Hq Hin; [destruct Hin|].
  destruct Hq as [Ht Hq]. destruct Hin as [->|Hin].
  - exists 0. simpl length. rewrite Z.add_0_r. split; [lia|assumption].
  - destruct (IH _ Hq Hin) as (j & Hj & E). exists (j + 1). simpl length.
    split; [lia|]. rewrite E. f_equal. lia.
Qed.

Lemma oos_insert_In skb seq q s :
  In s (rxrpc_oos_insert skb seq q) <-> s = skb \/ In s q.
Proof.
  induction q as [|t q IH]; simpl.
  - intuition.
  - destruct (after _ _); simpl; [intuition|]. rewrite IH. intuition.
Qed.

Section SackBacked.
Context `{P : rxrpc_params}.
Hypothesis Pok : params_ok.

Lemma sack_get_index (tbl : list Z) s s' :
  sack_index s = sack_index s' -> sack_get tbl s = sack_get tbl s'.
Proof. unfold sack_get. intros ->. reflexivity. Qed.

Lemma sack_set_zero_mono (tbl : list Z) rf s :
  sack_get (sack_set tbl rf 0) s <> 0 -> sack_get tbl s <> 0.
Proof.
  destruct (decide (sack_index rf = sack_index s)) as [E|N].
  - unfold sack_get, sack_set. rewrite E.
    destruct (decide (sack_index s < length tbl)%nat) as [L|L].
    + rewrite list_lookup_insert_eq by assumption. simpl. congruence.
    + rewrite list_insert_ge by lia. trivial.
  - rewrite sack_get_set_ne by assumption. trivial.
Qed.

(** The reset loop only writes zeroes. *)
Lemma reset_sack_mono window : forall fuel (tbl : list Z) rf tbl' s,
  rxrpc_reset_sack fuel tbl rf window = Done tbl' ->
  sack_get tbl' s <> 0 -> sack_get tbl s <> 0.
Proof.
  induction fuel as [|fuel IH]; intros tbl rf tbl' s R; simpl in R.
  - destruct (before _ _); [discriminate|]. injection R as <-.
    apply sack_set_zero_mono.
  - destruct (before _ _).
    + intros H. apply (sack_set_zero_mono tbl rf). eapply IH; eassumption.
    + injection R as <-. apply sack_set_zero_mono.
Qed.

(** The reset loop clears the entries of the sequence numbers from
    [rf] up to the window. *)
Lemma reset_sack_clears window : forall (n : nat) (tbl : list Z) rf,
  is_u32 rf -> u32 (window - rf) = Z.of_nat (S n) -> Z.of_nat (S n) <= 2^31 ->
  length tbl = Z.to_nat RXRPC_SACK_SIZE ->
  forall fuel tbl', rxrpc_reset_sack fuel tbl rf window = Done tbl' ->
    forall j, 0 <= j <= Z.of_nat n -> sack_get tbl' (u32 (rf + j)) = 0.
Proof.
  assert (Z0 : forall fuel (tbl : list Z) rf tbl' s,
             rxrpc_reset_sack fuel tbl rf window = Done tbl' ->
             sack_get tbl s = 0 -> sack_get tbl' s = 0).
  { intros fuel tbl rf tbl' s R E.
    destruct (Z.eq_dec (sack_get tbl' s) 0) as [|N]; [assumption|].
    exfalso. eapply reset_sack_mono in N; eauto. }
  induction n as [|n IH]; intros tbl rf Hrf Hd Hb L fuel tbl' R j Hj.
  - assert (j = 0) as -> by lia.
    replace (u32 (rf + 0)) with rf by (unfold is_u32 in *; mod_lia).
    destruct fuel; simpl in R.
    + destruct (before _ _); [discriminate|]. injection R as <-.
      apply (sack_get_set_eq Pok); assumption.
    + destruct (before _ _) eqn:E.
      * apply (Z0 _ _ _ _ _ R). apply (sack_get_set_eq Pok); assumption.
      * injection R as <-. apply (sack_get_set_eq Pok); assumption.
  - destruct fuel; simpl in R.
    + destruct (before _ _) eqn:E; [discriminate|].
      exfalso. assert (before (u32 (rf + 1)) window = true); [|congruence].
      apply before_iff. unfold is_u32 in *. mod_lia.
    + destruct (before _ _) eqn:E.
      * destruct (Z.eq_dec j 0) as [->|Nj].
        -- replace (u32 (rf + 0)) with rf by (unfold is_u32 in *; mod_lia).
           apply (Z0 _ _ _ _ _ R). apply (sack_get_set_eq Pok); assumption.
        -- replace (u32 (rf + j)) with (u32 (u32 (rf + 1) + (j - 1))) by mod_lia.
           eapply (IH (sack_set tbl rf 0) (u32 (rf + 1))); try eassumption.
           ++ apply u32_range.
           ++ unfold is_u32 in *. mod_lia.
           ++ lia.
           ++ rewrite sack_set_length. assumption.
           ++ lia.
      * exfalso. assert (before (u32 (rf + 1)) window = true); [|congruence].
        apply before_iff. unfold is_u32 in *. mod_lia.
Qed.

Lemma data_admission_backed call skb call' out :
  rx_wf (rx call) -> sack_backed (rx call) -> is_u32 (skb_seq skb) ->
  rxrpc_data_admission call skb (call_window (rx call)) (call_wtop (rx call))
    (u32 (call_window (rx call) + rx_winsize (rx call) - 1)) = Done (call', out) ->
  sack_backed (rx call').
Proof.
  intros Hwf Hbk Hseq. pose proof Hwf as (HW & HT & Hsorted & Hsack & Hlen).
  pose proof (sack_size_pos Pok) as HN.
  pose proof (lower_32_bits_range (ackr_window (rx call))) as Hw0.
  pose proof (upper_32_bits_range (ackr_window (rx call))) as Hwt.
  fold (call_window (rx call)) in Hw0. fold (call_wtop (rx call)) in Hwt.
  assert (Same : forall c : rxrpc_call,
             ackr_sack_table (rx c) = ackr_sack_table (rx call) ->
             rx_oos_queue (rx c) = rx_oos_queue (rx call) ->
             sack_backed (rx c)).
  { intros c E1 E2. unfold sack_backed. rewrite E1, E2. exact Hbk. }
  unfold rxrpc_data_admission. fold (skb_seq skb).
  set (w0 := call_window (rx call)) in *. set (wtop := call_wtop (rx call)) in *.
  set (T := u32 (wtop - w0)) in *.
  destruct (_ && _); [intros [= <- <-]; apply Same; reflexivity|].
  destruct (before (skb_seq skb) w0) eqn:Eb; [intros [= <- <-]; apply Same; reflexivity|].
  destruct (after (skb_seq skb) _) eqn:Ea; [intros [= <- <-]; apply Same; reflexivity|].
  destruct (Z.eqb_spec (skb_seq skb) w0) as [Eq|Ne].
  - set (ac := if has_flag _ _ then _ else _).
    assert (Hac : rx_oos_queue (rx ac.2) = rx_oos_queue (rx call) /\
                  ackr_sack_table (rx ac.2) = ackr_sack_table (rx call)).
    { subst ac. destruct (has_flag _ _); [auto|]. destruct (negb _); auto. }
    destruct ac as [ack_reason call1]. simpl in Hac. destruct Hac as (Hq1 & Ht1).
    set (wtop1 := if after (u32 (w0 + 1)) wtop then u32 (w0 + 1) else wtop).
    change (rx_oos_queue (rx (rxrpc_receive_queue_data call1 skb (u32 (w0 + 1)) wtop1)))
      with (rx_oos_queue (rx call1)).
    rewrite Hq1.
    assert (Hsrt : oos_sorted w0 1 (Z.max T 1) (rx_oos_queue (rx call))).
    { eapply oos_sorted_weaken; [| eassumption | lia]. lia. }
    destruct (drain_spec w0 wtop1 (Z.max T 1) Hw0 ltac:(lia)
                (rx_oos_queue (rx call))
                (rxrpc_receive_queue_data call1 skb (u32 (w0 + 1)) wtop1) 1 None)
      as (call2 & k' & R & Hk' & Hs' & _ & Ht2 & _ & _);
      [simpl; assumption | assumption | lia | reflexivity |].
    destruct (drain_delivers w0 wtop1 (Z.max T 1) Hw0 ltac:(lia)
                (rx_oos_queue (rx call))
                (rxrpc_receive_queue_data call1 skb (u32 (w0 + 1)) wtop1) 1 None)
      as (pre & _ & D2 & D3 & D4 & D5);
      [simpl; assumption | assumption | lia |].
    rewrite R in D3, D4 |- *. simpl in D3, D4, Ht2.
    assert (Ek : k' = 1 + Z.of_nat (length pre)) by (unfold is_u32 in *; mod_lia).
    assert (Fin : forall c : rxrpc_call,
               rx_oos_queue (rx c) = rx_oos_queue (rx call2) ->
               (forall seq, sack_get (ackr_sack_table (rx c)) seq <> 0 ->
                  sack_get (ackr_sack_table (rx call)) seq <> 0) ->
               (forall s, In s pre -> sack_get (ackr_sack_table (rx c)) (skb_seq s) = 0) ->
               sack_backed (rx c)).
    { intros c E1 Mono Clr seq Hne.
      destruct (Hbk seq (Mono seq Hne)) as (s & Hin & Hix).
      rewrite D4 in Hin. apply in_app_or in Hin. destruct Hin as [Hin|Hin].
      - exfalso. apply Hne. rewrite <- (sack_get_index _ _ _ Hix). auto.
      - exists s. rewrite E1. auto. }
    destruct (Z.eqb_spec k' 1) as [E1|N1].
    + simpl. intros [= <- <-]. apply Fin; [reflexivity| |].
      * intros seq. rewrite Ht2, Ht1. trivial.
      * intros s Hin. destruct pre; [destruct Hin|simpl length in Ek; lia].
    + destruct (rxrpc_reset_sack _ _ _ _) as [tbl| |] eqn:Rt; simpl; try discriminate.
      intros [= <- <-]. apply Fin; [reflexivity| |].
      * intros seq H. simpl in H. apply (reset_sack_mono _ _ _ _ _ _ Rt) in H.
        rewrite Ht2, Ht1 in H. assumption.
      * intros s Hin. simpl.
        destruct (seq_consecutive_In _ _ _ D2 Hin) as (j & Hj & Es).
        rewrite Es. replace (u32 (w0 + 1 + j)) with (u32 (u32 (w0 + 1) + j)) by mod_lia.
        eapply (reset_sack_clears (u32 (w0 + k')) (Z.to_nat (k' - 2))); try exact Rt.
        -- apply u32_range.
        -- unfold is_u32 in *. mod_lia.
        -- lia.
        -- rewrite Ht2, Ht1. assumption.
        -- lia.
  - destruct (Z.eqb_spec (sack_get (ackr_sack_table (rx call)) (skb_seq skb)) 0) as [E0|N0].
    + assert (New : forall c : rxrpc_call,
                 ackr_sack_table (rx c)
                   = sack_set (ackr_sack_table (rx call)) (skb_seq skb) 1 ->
                 rx_oos_queue (rx c)
                   = rxrpc_oos_insert skb (skb_seq skb) (rx_oos_queue (rx call)) ->
                 sack_backed (rx c)).
      { intros c E1 E2 seq. rewrite E1, E2.
        destruct (decide (sack_index (skb_seq skb) = sack_index seq)) as [E|N].
        - intros _. exists skb. split; [apply oos_insert_In; auto|assumption].
        - rewrite sack_get_set_ne by assumption. intros H.
          destruct (Hbk seq H) as (s & Hin & Hix). exists s.
          split; [apply oos_insert_In; auto|assumption]. }
      destruct (after (u32 (skb_seq skb + 1)) wtop); simpl;
        intros [= <- <-]; apply New; reflexivity.
    + destruct (after (u32 (skb_seq skb + 1)) wtop); simpl;
        destruct (has_flag (hdr_flags (skb_hdr skb)) RXRPC_JUMBO_PACKET); simpl;
        intros [= <- <-]; apply Same; reflexivity.
Qed.

Lemma data_admission_sack_inv call skb :
  (rx_wf (rx call) /\ sack_backed (rx call)) -> is_u32 (skb_seq skb) ->
  exists call' out,
    rxrpc_data_admission call skb (call_window (rx call)) (call_wtop (rx call))
      (u32 (call_window (rx call) + rx_winsize (rx call) - 1)) = Done (call', out) /\
    (rx_wf (rx call') /\ sack_backed (rx call')).
Proof.
  intros (Hwf & Hbk) Hseq.
  destruct (data_admission_wf Pok call skb Hwf Hseq) as (c & o & R & W).
  exists c, o. split; [assumption|]. split; [assumption|].
  apply (data_admission_backed call skb c o); assumption.
Qed.

(** In a well-formed window whose SACK entries are all backed, the entry
    of an in-window sequence number is set exactly when the packet is in
    the out-of-sequence queue. *)
Lemma sack_entry_iff (r : call_rx) seq :
  rx_wf r -> sack_backed r -> is_u32 seq ->
  u32 (seq - call_window r) < rx_winsize r ->
  sack_get (ackr_sack_table r) seq <> 0 <->
  exists s, In s (rx_oos_queue r) /\ skb_seq s = seq.
Proof.
  intros (HW & HT & Hsorted & Hsack & Hlen) Hbk Hseq Hin.
  pose proof (sack_size_pos Pok) as HN.
  pose proof (lower_32_bits_range (ackr_window r)) as Hw0.
  fold (call_window r) in Hw0.
  split.
  - intros H. destruct (Hbk seq H) as (s & Hs & Hix). exists s. split; [assumption|].
    apply oos_sorted_Forall in Hsorted. rewrite Forall_forall in Hsorted.
    destruct (Hsorted s ltac:(apply list_elem_of_In; assumption)) as [Hu Hr].
    destruct (Z.eq_dec (skb_seq s) seq) as [|Ne]; [assumption|]. exfalso.
    destruct (Z_lt_le_dec (u32 (skb_seq s - call_window r)) (u32 (seq - call_window r))).
    + apply (sack_index_ne Pok seq (skb_seq s)); [|congruence].
      unfold is_u32 in *. mod_lia.
    + apply (sack_index_ne Pok (skb_seq s) seq); [|congruence].
      unfold is_u32 in *. mod_lia.
  - intros (s & Hs & <-). rewrite Forall_forall in Hsack.
    apply Hsack. apply list_elem_of_In. assumption.
Qed.

End SackBacked.

(** X20.  The SACK table describes the out-of-sequence queue: after any
    sequence of packets, a SACK entry is set only if a queued
    out-of-sequence packet uses it, the entry of the window bottom is
    clear, and for every sequence number inside the window the entry is
    set exactly when a packet with that number waits in the
    out-of-sequence queue. *)
Theorem X20_sack_table_matches_oos_queue `{P : rxrpc_params}
    (pkts : list (rx_env * sk_buff)) (call : rxrpc_call) :
  params_ok ->
  rx_wf (rx call) ->
  sack_backed (rx call) ->
  Forall (fun p => is_u32 (skb_seq p.2)) pkts ->
  exists call' out,
    receive_all pkts call = Done (call', out) /\
    sack_backed (rx call') /\
    sack_get (ackr_sack_table (rx call')) (call_window (rx call')) = 0 /\
    forall seq, is_u32 seq ->
      u32 (seq - call_window (rx call')) < rx_winsize (rx call') ->
      (sack_get (ackr_sack_table (rx call')) seq <> 0 <->
       exists s, In s (rx_oos_queue (rx call')) /\ skb_seq s = seq).
Proof.
  intros Pok Hwf Hbk Hp.
  destruct (receive_all_keeps (fun r => rx_wf r /\ sack_backed r)
              ltac:(apply Pok)
              ltac:(apply data_one_keeps;
                    [intros r v H; exact H | apply (data_admission_sack_inv Pok)])
              pkts Hp call ltac:(split; assumption))
    as (c & o & R & W & B).
  exists c, o. split; [assumption|]. split; [assumption|].
  split; [|intros seq Hs Hin; apply sack_entry_iff; assumption].
  destruct (Z.eq_dec (sack_get (ackr_sack_table (rx c)) (call_window (rx c))) 0)
    as [|N]; [assumption|]. exfalso.
  pose proof W as (HW & HT & Hsorted & _).
  pose proof (lower_32_bits_range (ackr_window (rx c))) as Hw0.
  fold (call_window (rx c)) in Hw0.
  apply (sack_entry_iff Pok (rx c) (call_window (rx c)) W B Hw0) in N.
  - destruct N as (s & Hs & Es).
    apply oos_sorted_Forall in Hsorted. rewrite Forall_forall in Hsorted.
    destruct (Hsorted s ltac:(apply list_elem_of_In; assumption)) as [_ Hr].
    rewrite Es in Hr. unfold is_u32 in *. mod_lia.
  - unfold is_u32 in *. mod_lia.
Qed.

Lemma sack_backedb_spec `{P : rxrpc_params} (r : call_rx) :
  sack_backedb r = true -> sack_backed r.
Proof.
  unfold sack_backedb, sack_backed, sack_get. intros H seq Hne.
  rewrite forallb_forall in H.
  destruct (ackr_sack_table r !! sack_index seq) as [v|] eqn:L; [|simpl in Hne; congruence].
  assert (Hlt : (sack_index seq < length (ackr_sack_table r))%nat)
    by (eapply lookup_lt_Some; eassumption).
  specialize (H (sack_index seq) ltac:(apply in_seq; lia)).
  rewrite L in H. simpl in H, Hne.
  apply orb_true_iff in H. destruct H as [H|H]; [apply Z.eqb_eq in H; congruence|].
  apply existsb_exists in H. destruct H as (s & Hs & E).
  apply Nat.eqb_eq in E. eauto.
Qed.

Lemma X20_sack_table_matches_oos_queue_witness :
  exists call' out,
    @receive_all linux_params
      [(quiet_env, data_pkt 2 0 38 []); (quiet_env, data_pkt 1 0 38 [])]
      hole_call = Done (call', out) /\
    @sack_backed linux_params (rx call') /\
    @sack_get linux_params (ackr_sack_table (rx call')) (call_window (rx call')) = 0 /\
    forall seq, is_u32 seq ->
      u32 (seq - call_window (rx call')) < rx_winsize (rx call') ->
      (@sack_get linux_params (ackr_sack_table (rx call')) seq <> 0 <->
       exists s, In s (rx_oos_queue (rx call')) /\ skb_seq s = seq).
Proof.
  apply (@X20_sack_table_matches_oos_queue linux_params).
  - split; [exists 8; split; [lia|reflexivity] | reflexivity].
  - apply rx_wfb_spec. vm_compute. reflexivity.
  - apply sack_backedb_spec. vm_compute. reflexivity.
  - repeat (apply List.Forall_cons; [unfold is_u32, skb_seq, data_pkt; simpl; lia|]).
    apply List.Forall_nil.
Defined.

(** The drain loop moves packets from the head of the out-of-sequence
    queue to the tail of the receive queue. *)
Lemma drain_moves : forall q call window wtop reset,
  rx_oos_queue (rx call) = q ->
  let r := rxrpc_drain_oos q call window wtop reset in
  rx_queue (rx r.1.1) ++ rx_oos_queue (rx r.1.1) = rx_queue (rx call) ++ q /\
  ackr_nr_unacked (rx r.1.1) = ackr_nr_unacked (rx call) /\
  flags r.1.1 = flags call /\ tx r.1.1 = tx call /\ same_result call r.1.1.
Proof.
  induction q as [|s q IH]; intros call window wtop reset Hq; simpl.
  - rewrite Hq. auto using same_result_refl.
  - destruct (after _ _); [simpl; rewrite Hq; auto using same_result_refl|].
    edestruct (IH (rxrpc_receive_queue_data (upd_rx (set_rx_oos_queue q) call) s
                     (u32 (window + 1)) wtop) (u32 (window + 1)) wtop
                  (match reset with None => Some (hdr_seq (skb_hdr s)) | Some _ => reset end))
      as (H1 & H2 & H3 & H4 & H5); [reflexivity|].
    simpl in *. rewrite H1, <- app_assoc. auto.
Qed.

Section Conservation.
Context `{P : rxrpc_params}.

Lemma oos_insert_perm skb seq q : Permutation (rxrpc_oos_insert skb seq q) (skb :: q).
Proof.
  induction q as [|t q IH]; simpl; [reflexivity|].
  destruct (after _ _); [reflexivity|].
  rewrite IH. apply perm_swap.
Qed.

Lemma send_ack_label_released ack_reason serial skb :
  released (rxrpc_send_ack_label ack_reason serial skb)
  = match skb with Some s => [s] | None => [] end.
Proof.
  unfold rxrpc_send_ack_label. destruct (0 <=? _); destruct skb; reflexivity.
Qed.

Lemma data_admission_conserves call skb window wtop wlimit call' out :
  rxrpc_data_admission call skb window wtop wlimit = Done (call', out) ->
  (released out = [skb] /\
   rx_queue (rx call') = rx_queue (rx call) /\
   rx_oos_queue (rx call') = rx_oos_queue (rx call)) \/
  (released out = [] /\
   Permutation (rx_queue (rx call') ++ rx_oos_queue (rx call'))
     (skb :: rx_queue (rx call) ++ rx_oos_queue (rx call))).
Proof.
  unfold rxrpc_data_admission.
  destruct (_ && _);
    [intros [= <- <-]; left; rewrite send_ack_label_released; auto|].
  destruct (before _ _);
    [intros [= <- <-]; left; rewrite send_ack_label_released; auto|].
  destruct (after _ _);
    [intros [= <- <-]; left; rewrite send_ack_label_released; auto|].
  destruct (_ =? window).
  - set (ac := if has_flag _ _ then _ else _).
    assert (Hac : rx_oos_queue (rx ac.2) = rx_oos_queue (rx call) /\
                  rx_queue (rx ac.2) = rx_queue (rx call)).
    { subst ac. destruct (has_flag _ _); [auto|]. destruct (negb _); auto. }
    destruct ac as [ack_reason call1]. simpl in Hac. destruct Hac as (Hq1 & Hr1).
    match goal with
    | |- context [rxrpc_drain_oos ?q ?c ?w ?t ?r] =>
      pose proof (drain_moves q c w t r eq_refl) as (D & _);
      destruct (rxrpc_drain_oos q c w t r) as [[call2 w2] rs]
    end.
    simpl in D. rewrite Hq1, Hr1 in D.
    assert (Fin : forall c : rxrpc_call,
               rx_queue (rx c) = rx_queue (rx call2) ->
               rx_oos_queue (rx c) = rx_oos_queue (rx call2) ->
               Permutation (rx_queue (rx c) ++ rx_oos_queue (rx c))
                 (skb :: rx_queue (rx call) ++ rx_oos_queue (rx call))).
    { intros c E1 E2. rewrite E1, E2, D, <- app_assoc. simpl.
      symmetry. apply Permutation_middle. }
    destruct rs as [rf|].
    + destruct (rxrpc_reset_sack _ _ _ _) as [tbl| |]; simpl; try discriminate.
      intros [= <- <-]. right. rewrite send_ack_label_released.
      split; [reflexivity|]. apply Fin; reflexivity.
    + simpl. intros [= <- <-]. right. rewrite send_ack_label_released.
      split; [reflexivity|]. apply Fin; reflexivity.
  - destruct (_ =? 0); destruct (after _ _); simpl;
      try destruct (has_flag (hdr_flags (skb_hdr skb)) RXRPC_JUMBO_PACKET); simpl;
      intros [= <- <-]; rewrite send_ack_label_released; simpl; auto;
      right; (split; [reflexivity|]);
      rewrite oos_insert_perm; symmetry; apply Permutation_middle.
Qed.

(** X19.  Every DATA packet handed to [rxrpc_receive_data_one] ends up in
    exactly one place: either it is freed and both queues are as before,
    or it is not freed and the two queues together hold what they held
    before plus this packet.  Packets only move from the out-of-sequence
    queue to the receive queue; none is lost or duplicated. *)
Theorem X19_data_packet_queued_or_freed (call : rxrpc_call) (skb : sk_buff) :
  exists call' out,
    rxrpc_receive_data_one call skb = Done (call', out) /\
    ((released out = [skb] /\
      rx_queue (rx call') = rx_queue (rx call) /\
      rx_oos_queue (rx call') = rx_oos_queue (rx call)) \/
     (released out = [] /\
      Permutation (rx_queue (rx call') ++ rx_oos_queue (rx call'))
        (skb :: rx_queue (rx call) ++ rx_oos_queue (rx call)))).
Proof.
  destruct (data_one_total call skb) as ([c o] & R). exists c, o.
  split; [assumption|]. revert R. unfold rxrpc_receive_data_one.
  set (checked := if has_flag _ RXRPC_LAST_PACKET then _ else _).
  assert (Hck : match checked with
                | inl (c1, o1) => rx c1 = rx call /\ released o1 = []
                | inr c1 => rx c1 = rx call
                end).
  { subst checked.
    destruct (has_flag _ RXRPC_LAST_PACKET); destruct (_ && _); try reflexivity;
      match goal with
      | |- context [rxrpc_proto_abort ?w ?c ?s] =>
        pose proof (proto_abort_rx w c s) as A;
        pose proof (proto_abort_tx_side w c s) as B;
        destruct (rxrpc_proto_abort w c s) as [c1 o1]
      end; simpl in *; (split; [assumption|]); apply tx_side_quiet; assumption. }
  destruct checked as [[c1 o1]|c1].
  - destruct Hck as [Hrx Hrel]. intros [= <- <-]. left.
    rewrite released_app, Hrel, Hrx. auto.
  - set (c2 := if after _ _ then _ else _).
    assert (H2 : rx_queue (rx c2) = rx_queue (rx call) /\
                 rx_oos_queue (rx c2) = rx_oos_queue (rx call)).
    { subst c2. destruct (after _ _); simpl; rewrite ?Hck; auto. }
    clearbody c2. destruct H2 as [Hq Ho]. intros R.
    apply data_admission_conserves in R. rewrite Hq, Ho in R. exact R.
Qed.

End Conservation.

Lemma flags_grow_refl w : flags_grow w w.
Proof. intros f _ H. exact H. Qed.

Lemma flags_grow_trans w1 w2 w3 :
  flags_grow w1 w2 -> flags_grow w2 w3 -> flags_grow w1 w3.
Proof. intros H1 H2 f Hf H. apply H2; [assumption|]. apply H1; assumption. Qed.

Lemma flags_grow_set g w : flags_grow w (set_bit g w).
Proof.
  intros f _ H. rewrite test_bit_set_bit. destruct (decide _); [reflexivity|assumption].
Qed.

Lemma flags_grow_clear w : flags_grow w (clear_bit RXRPC_CALL_RETRANS_TIMEOUT w).
Proof.
  intros f Hf H. unfold test_bit, clear_bit in *.
  rewrite Z.clearbit_neq; [assumption|]. destruct f; simpl; try lia. congruence.
Qed.

Lemma receive_frame_refl c : receive_frame c c.
Proof. unfold receive_frame. split_and!; auto using flags_grow_refl. lia. Qed.

Lemma receive_frame_trans c1 c2 c3 :
  receive_frame c1 c2 -> receive_frame c2 c3 -> receive_frame c1 c3.
Proof.
  unfold receive_frame.
  intros (A1 & A2 & A4 & A5 & A6 & A7 & A8) (B1 & B2 & B4 & B5 & B6 & B7 & B8).
  split_and!; try congruence; [eapply flags_grow_trans; eassumption | lia].
Qed.

(** A step that changes neither the flags nor the transmit window nor
    the identity of the call. *)
Lemma receive_frame_same c c' :
  service_id c' = service_id c -> rx_serial c' = rx_serial c ->
  flags c' = flags c ->
  tx_top (tx c') = tx_top (tx c) -> tx_buffer (tx c') = tx_buffer (tx c) ->
  tx_last_sent (tx c') = tx_last_sent (tx c) ->
  acks_hard_ack (tx c') = acks_hard_ack (tx c) ->
  receive_frame c c'.
Proof.
  intros H1 H2 H4 H5 H6 H7 H8. unfold receive_frame.
  rewrite H4, H5, H8. split_and!; auto using flags_grow_refl. lia.
Qed.

Lemma set_call_completion_frame2 call compl code err :
  receive_frame call (rxrpc_set_call_completion call compl code err).2.
Proof.
  unfold rxrpc_set_call_completion. destruct (_ <? _); simpl;
    apply receive_frame_same; reflexivity.
Qed.

Lemma proto_abort_frame why call seq :
  receive_frame call (rxrpc_proto_abort why call seq).1.
Proof.
  unfold rxrpc_proto_abort, rxrpc_abort_call, rxrpc_set_call_completion.
  destruct (_ <? _); simpl; apply receive_frame_same; reflexivity.
Qed.

Section Frames.
Context `{P : rxrpc_params}.

Lemma rtt_probe_frame2 call resp_time acked_serial ack_serial type :
  receive_frame call
    (rxrpc_complete_rtt_probe call resp_time acked_serial ack_serial type).1.
Proof.
  destruct (rtt_probe_same call resp_time acked_serial ack_serial type)
    as (_ & (I1 & I2 & I3 & I4) & Hf & _ & Ht & _).
  apply receive_frame_same; try assumption; rewrite Ht; reflexivity.
Qed.

Lemma ackinfo_frame2 call skb info :
  receive_frame call (rxrpc_receive_ackinfo call skb info).1.
Proof.
  destruct (ackinfo_same call skb info)
    as (_ & (I1 & I2 & I3 & I4) & Hf & _ & _ & T1 & T2 & T3 & T4 & _).
  apply receive_frame_same; assumption.
Qed.

Lemma rotate_frame call to summary :
  to = tx_top (tx call) \/
  (after to (acks_hard_ack (tx call)) = true /\ after to (tx_top (tx call)) = false) ->
  receive_frame call (rxrpc_rotate_tx_window call to summary).1.1.2.
Proof.
  intros Hto.
  destruct (rotate_tx_window_effects call to summary)
    as (rl & c & s & -> & H1 & _ & _ & H4 & _ & (T1 & T2 & _ & T4 & _) & _ & _ & _ & _
        & _ & (I1 & I2 & I3 & I4)).
  simpl. unfold receive_frame.
  split_and!; try assumption.
  - rewrite H4. destruct rl; [|apply flags_grow_refl].
    eapply flags_grow_trans; apply flags_grow_set.
  - rewrite H1, T1. destruct Hto as [-> | [A B]]; [mod_lia|].
    apply after_iff in A.
    assert (N : ~ (1 <= u32 (to - tx_top (tx call)) < 2^31))
      by (rewrite <- after_iff; congruence).
    mod_lia.
Qed.

Lemma end_tx_phase_frame call reply_begun why ok call' out :
  rxrpc_end_tx_phase call reply_begun why = Done (ok, call', out) ->
  receive_frame call call'.
Proof.
  unfold rxrpc_end_tx_phase. destruct (negb _); [discriminate|].
  pose proof (proto_abort_frame why call (tx_top (tx call))) as A.
  destruct (rxrpc_proto_abort why call (tx_top (tx call))) as [c o]. simpl in A.
  pose proof (set_call_completion_frame2 call RXRPC_CALL_SUCCEEDED 0 0) as B.
  destruct (state call); try destruct reply_begun; intros [= <- <- <-];
    try assumption; try (apply receive_frame_same; reflexivity).
Qed.

Lemma soft_acks_frame2 acks seq : forall n i call summary,
  receive_frame call (rxrpc_soft_acks_loop n i call acks seq summary).1.
Proof.
  induction n as [|n IH]; intros i call summary; simpl; [apply receive_frame_refl|].
  destruct (_ =? RXRPC_ACK_TYPE_ACK); [apply IH|].
  destruct (_ && _); [|apply IH].
  eapply receive_frame_trans; [|apply IH].
  apply receive_frame_same; reflexivity.
Qed.

Lemma congestion_frame2 env call skb summary acked_serial :
  receive_frame call (rxrpc_congestion_management env call skb summary acked_serial).1.1.
Proof.
  destruct (congestion_facts env call skb summary acked_serial) as (_ & _ & Hf & _).
  destruct (congestion_management_frame env call skb summary acked_serial) as (_ & _ & Ht).
  assert (Hi : same_ident call
                 (rxrpc_congestion_management env call skb summary acked_serial).1.1).
  { unfold rxrpc_congestion_management.
    set (pre := if test_bit _ _ then _ else _).
    assert (Hpre : same_ident call pre.1.1.1).
    { subst pre. unfold same_ident.
      repeat (case_match; simplify_eq/=); split_and!; reflexivity. }
    destruct pre as [[[c1 s1] cwnd1] cumul1]. simpl in Hpre.
    unfold rxrpc_cong_packet_loss_detected,
      rxrpc_cong_send_extra_data, rxrpc_cong_resume_normality, rxrpc_cong_out,
      rxrpc_cong_out_no_clear_ca.
    destruct (cong_mode (cong c1)); repeat (case_match; simplify_eq/=); assumption. }
  destruct Hi as (I1 & I2 & I3 & I4).
  unfold receive_frame. rewrite Hf, Ht.
  split_and!; auto using flags_grow_clear. lia.
Qed.

End Frames.

(** ** The DATA path *)

Lemma drain_only_rx : forall q call window wtop reset,
  exists r, (rxrpc_drain_oos q call window wtop reset).1.1 = set_rx r call.
Proof.
  induction q as [|oos q IH]; intros call window wtop reset; simpl.
  - exists (rx call). destruct call; reflexivity.
  - destruct (after _ _); simpl.
    + exists (rx call). destruct call; reflexivity.
    + match goal with |- context [rxrpc_drain_oos q ?c ?w ?t ?r] =>
        destruct (IH c w t r) as [r' ->] end.
      eexists. reflexivity.
Qed.

Section DataFrames.
Context `{P : rxrpc_params}.

Lemma data_admission_only_rx call skb window wtop wlimit call' out :
  rxrpc_data_admission call skb window wtop wlimit = Done (call', out) ->
  exists r, call' = set_rx r call.
Proof.
  assert (Id : exists r, call = set_rx r call)
    by (exists (rx call); destruct call; reflexivity).
  unfold rxrpc_data_admission.
  destruct (_ && _); [intros [= <- <-]; exact Id|].
  destruct (before _ _); [intros [= <- <-]; exact Id|].
  destruct (after _ _); [intros [= <- <-]; exact Id|].
  destruct (_ =? _).
  - set (first := if has_flag _ _ then _ else _).
    assert (Hf : exists r, first.2 = set_rx r call).
    { subst first. repeat case_match; simpl; try exact Id; eexists; reflexivity. }
    destruct first as [reason c0]. simpl in Hf. destruct Hf as [r0 ->].
    match goal with |- context [rxrpc_drain_oos ?q ?c ?w ?t ?r] =>
      destruct (drain_only_rx q c w t r) as [r1 Hr];
      destruct (rxrpc_drain_oos q c w t r) as [[c1 w1] [rf|]] end;
      simpl in Hr; subst c1.
    + destruct (rxrpc_reset_sack _ _ _ _); simpl; try discriminate.
      intros [= <- <-]. eexists; reflexivity.
    + simpl. intros [= <- <-]. eexists; reflexivity.
  - unfold rxrpc_receive_dup_data.
    repeat (case_match; simplify_eq/=); intros [= <- <-];
      first [exact Id | eexists; reflexivity].
Qed.

Lemma data_one_frame call skb call' out :
  rxrpc_receive_data_one call skb = Done (call', out) ->
  receive_frame call call'.
Proof.
  unfold rxrpc_receive_data_one.
  set (checked := if has_flag _ _ then _ else _).
  assert (Hc : match checked with
               | inl (c, _) | inr c => receive_frame call c
               end).
  { subst checked. destruct (has_flag _ _).
    - assert (F : receive_frame call
                    (set_flags (set_bit RXRPC_CALL_RX_LAST (flags call)) call)).
      { unfold receive_frame. simpl. split_and!; auto using flags_grow_set. lia. }
      destruct (_ && _); [|exact F].
      pose proof (proto_abort_frame "LSN"
                    (set_flags (set_bit RXRPC_CALL_RX_LAST (flags call)) call)
                    (hdr_seq (skb_hdr skb))) as A.
      destruct (rxrpc_proto_abort _ _ _). eapply receive_frame_trans; eassumption.
    - destruct (_ && _); [|apply receive_frame_refl].
      pose proof (proto_abort_frame "LSA" call (hdr_seq (skb_hdr skb))) as A.
      destruct (rxrpc_proto_abort _ _ _). exact A. }
  destruct checked as [[c o]|c].
  - intros [= <- <-]. exact Hc.
  - intros H. apply data_admission_only_rx in H as [r ->].
    eapply receive_frame_trans; [exact Hc|].
    destruct (after _ _); apply receive_frame_same; reflexivity.
Qed.

Lemma split_jumbo_loop_frame clone_ok : forall fuel n call skb offset len ok call' skb' out,
  rxrpc_split_jumbo_loop fuel clone_ok n call skb offset len
    = Done (ok, call', skb', out) ->
  receive_frame call call'.
Proof.
  induction fuel as [|fuel IH]; intros n call skb offset len ok call' skb' out;
    simpl; [discriminate|].
  destruct (has_flag _ RXRPC_JUMBO_PACKET).
  - destruct (_ <? _); [intros [= <- <- <- <-]; apply receive_frame_refl|].
    destruct (has_flag _ _); [intros [= <- <- <- <-]; apply receive_frame_refl|].
    destruct (skb_copy_jumbo _ _); [|intros [= <- <- <- <-]; apply receive_frame_refl].
    destruct (negb _); [intros [= <- <- <- <-]; apply receive_frame_refl|].
    destruct (rxrpc_receive_data_one _ _) as [[c1 o1]| |] eqn:E1; simpl; try discriminate.
    match goal with |- context [rxrpc_split_jumbo_loop fuel clone_ok ?n ?c ?s ?o ?l] =>
      destruct (rxrpc_split_jumbo_loop fuel clone_ok n c s o l)
        as [[[[ok2 c2] s2] o2]| |] eqn:E2 end; simpl; try discriminate.
    intros [= <- <- <- <-].
    eapply receive_frame_trans; [eapply data_one_frame; exact E1|].
    eapply IH; exact E2.
  - destruct (rxrpc_receive_data_one _ _) as [[c1 o1]| |] eqn:E1; simpl; try discriminate.
    intros [= <- <- <- <-]. eapply data_one_frame; exact E1.
Qed.

Lemma receiving_reply_frame call ok call' out :
  rxrpc_receiving_reply call = Done (ok, call', out) ->
  receive_frame call call'.
Proof.
  unfold rxrpc_receiving_reply.
  set (rotated := if negb _ then _ else _).
  assert (Hr : match rotated with
               | inl (c, _) | inr (c, _) => receive_frame call c
               end).
  { subst rotated. destruct (negb _); [|apply receive_frame_refl].
    pose proof (rotate_frame call (tx_top (tx call)) empty_summary (or_introl eq_refl)) as R.
    destruct (rxrpc_rotate_tx_window _ _ _) as [[[rl c] s] o]. simpl in R.
    destruct (negb rl); [|exact R].
    pose proof (proto_abort_frame "TXL" c (tx_top (tx call))) as A.
    destruct (rxrpc_proto_abort _ _ _). eapply receive_frame_trans; eassumption. }
  destruct rotated as [[c o]|[c o]].
  - intros [= <- <- <-]. exact Hr.
  - destruct (rxrpc_end_tx_phase c true "ETD") as [[[ok1 c1] o1]| |] eqn:E; simpl;
      try discriminate.
    apply end_tx_phase_frame in E.
    destruct (negb ok1); intros [= <- <- <-].
    + eapply receive_frame_trans; eassumption.
    + eapply receive_frame_trans; [exact Hr|].
      eapply receive_frame_trans; [exact E|].
      apply receive_frame_same; reflexivity.
Qed.

Lemma receive_data_frame env call skb call' out :
  rxrpc_receive_data env call skb = Done (call', out) ->
  receive_frame call call'.
Proof.
  unfold rxrpc_receive_data.
  destruct (_ <=? _); [intros [= <- <-]; apply receive_frame_refl|].
  set (unshared := if negb _ then _ else _).
  destruct unshared as [o|o0]; [intros [= <- <-]; apply receive_frame_refl|].
  set (first := match state call with
                | RXRPC_CALL_CLIENT_SEND_REQUEST
                | RXRPC_CALL_CLIENT_AWAIT_REPLY => rxrpc_receiving_reply call
                | _ => Done (true, call, [])
                end).
  assert (Hf : forall ok c o, first = Done (ok, c, o) -> receive_frame call c).
  { subst first. intros ok c o.
    destruct (state call); try (intros [= <- <- <-]; apply receive_frame_refl);
      apply receiving_reply_frame. }
  destruct first as [[[ok c1] o1]| |]; simpl; try discriminate.
  specialize (Hf ok c1 o1 eq_refl).
  destruct (negb ok); [intros [= <- <-]; exact Hf|].
  unfold rxrpc_receive_split_jumbo.
  match goal with |- context [rxrpc_split_jumbo_loop ?f ?k ?n ?c ?s ?o ?l] =>
    destruct (rxrpc_split_jumbo_loop f k n c s o l)
      as [[[[sp c2] s2] o2]| |] eqn:E2 end; simpl; try discriminate.
  apply split_jumbo_loop_frame in E2.
  destruct (negb sp).
  - pose proof (proto_abort_frame "VLD" c2 (hdr_seq (skb_hdr s2))) as A.
    destruct (rxrpc_proto_abort _ _ _). intros [= <- <-].
    eapply receive_frame_trans; [exact Hf|].
    eapply receive_frame_trans; eassumption.
  - intros [= <- <-]. eapply receive_frame_trans; eassumption.
Qed.

End DataFrames.

Section AckFrames.
Context `{P : rxrpc_params}.

Lemma receive_ack_tx_frame env call skb ack summary call' out :
  rxrpc_receive_ack_tx env call skb ack summary = Done (call', out) ->
  receive_frame call call'.
Proof.
  unfold rxrpc_receive_ack_tx.
  set (hard := u32 (ack_firstPacket ack - 1)).
  destruct (before hard _ || after hard _) eqn:Hchk.
  { intros H. pose proof (proto_abort_frame "AKW" call 0) as A.
    injection H as H. rewrite H in A. exact A. }
  apply orb_false_iff in Hchk as [_ Haft].
  destruct (_ <? _).
  { intros H. pose proof (proto_abort_frame "AKN" call 0) as A.
    injection H as H. rewrite H in A. exact A. }
  set (rot := if after hard _ then _ else _).
  assert (Hrot : receive_frame call rot.1.1.2).
  { subst rot. destruct (after hard (acks_hard_ack (tx call))) eqn:Ha.
    - apply rotate_frame. right. split; assumption.
    - apply receive_frame_refl. }
  destruct rot as [[[rl c1] s1] o2]. simpl in Hrot.
  destruct rl.
  - destruct (rxrpc_end_tx_phase c1 false "ETA") as [[[ok c2] o3]| |] eqn:E; simpl;
      try discriminate.
    intros [= <- <-]. eapply receive_frame_trans; [exact Hrot|].
    eapply end_tx_phase_frame; exact E.
  - set (soft := if 0 <? _ then _ else _).
    assert (Hs : match soft with
                 | Some (c, _) => receive_frame c1 c
                 | None => True
                 end).
    { subst soft. destruct (0 <? _); [|apply receive_frame_refl].
      destruct (_ <? _); [exact I|].
      unfold rxrpc_receive_soft_acks.
      match goal with |- context [rxrpc_soft_acks_loop ?n ?i ?c ?a ?s ?m] =>
        pose proof (soft_acks_frame2 a s n i c m) as S;
        destruct (rxrpc_soft_acks_loop n i c a s m) end.
      exact S. }
    destruct soft as [[c2 s2]|].
    + pose proof (congestion_frame2 env c2 skb s2 (ack_serial_f ack)) as C.
      destruct (rxrpc_congestion_management _ _ _ _ _) as [[c3 s3] o4]. simpl in C.
      intros [= <- <-].
      eapply receive_frame_trans; [exact Hrot|].
      eapply receive_frame_trans; eassumption.
    + pose proof (proto_abort_frame "XSA" c1 0) as A.
      destruct (rxrpc_proto_abort _ _ _). intros [= <- <-].
      eapply receive_frame_trans; eassumption.
Qed.

Lemma receive_ack_valid_frame env call skb ack summary call' out :
  rxrpc_receive_ack_valid env call skb ack summary = Done (call', out) ->
  receive_frame call call'.
Proof.
  unfold rxrpc_receive_ack_valid.
  set (copied := if _ <=? _ then _ else _).
  destruct copied as [[rxMTU info]|].
  2:{ intros H. pose proof (proto_abort_frame "XAI" call 0) as A.
      injection H as H. rewrite H in A. exact A. }
  set (c1 := upd_tx _ call).
  set (c2 := if _ =? RXRPC_ACK_PING then c1 else _).
  assert (H2 : receive_frame call c2).
  { subst c2 c1. repeat case_match; apply receive_frame_same; reflexivity. }
  clearbody c2. clear c1.
  set (r3 := match info with Some _ => _ | None => _ end).
  assert (H3 : receive_frame c2 r3.1).
  { subst r3. destruct info as [i|]; [|apply receive_frame_refl].
    destruct (negb _); [apply ackinfo_frame2|apply receive_frame_refl]. }
  destruct r3 as [c3 o1]. simpl in H3.
  assert (H13 : receive_frame call c3) by (eapply receive_frame_trans; eassumption).
  destruct (_ =? 0).
  { pose proof (proto_abort_frame "AK0" c3 0) as A.
    destruct (rxrpc_proto_abort _ _ _). intros [= <- <-].
    eapply receive_frame_trans; eassumption. }
  destruct (state c3); try (intros [= <- <-]; exact H13);
    (destruct (rxrpc_receive_ack_tx env c3 skb ack summary) as [[c4 o4]| |] eqn:E;
     simpl; try discriminate; intros [= <- <-];
     eapply receive_frame_trans; [exact H13|];
     eapply receive_ack_tx_frame; exact E).
Qed.

Lemma receive_ack_frame env call skb call' out :
  rxrpc_receive_ack env call skb = Done (call', out) ->
  receive_frame call call'.
Proof.
  unfold rxrpc_receive_ack.
  destruct (skb_ack skb) as [ack|].
  2:{ intros H. pose proof (proto_abort_frame "XAK" call 0) as A.
      injection H as H. rewrite H in A. exact A. }
  set (r1 := if _ =? RXRPC_ACK_PING_RESPONSE then _ else _).
  assert (H1 : receive_frame call r1.1).
  { subst r1. repeat case_match; try apply rtt_probe_frame2; apply receive_frame_refl. }
  destruct r1 as [c1 o1]. simpl in H1.
  destruct (_ && _ && _ && _).
  { intros [= <- <-]. eapply receive_frame_trans; [exact H1|].
    apply set_call_completion_frame2. }
  destruct (_ && _ && _ && _ && _).
  { intros [= <- <-]. eapply receive_frame_trans; [exact H1|].
    apply set_call_completion_frame2. }
  destruct (negb _); [intros [= <- <-]; exact H1|].
  match goal with |- context [rxrpc_receive_ack_valid env c1 skb ack ?s] =>
    destruct (rxrpc_receive_ack_valid env c1 skb ack s) as [[c2 o3]| |] eqn:E end;
    simpl; try discriminate.
  intros [= <- <-]. eapply receive_frame_trans; [exact H1|].
  eapply receive_ack_valid_frame; exact E.
Qed.

End AckFrames.

Lemma receive_ackall_frame call skb call' out :
  rxrpc_receive_ackall call skb = Done (call', out) ->
  receive_frame call call'.
Proof.
  unfold rxrpc_receive_ackall.
  pose proof (rotate_frame call (tx_top (tx call)) empty_summary (or_introl eq_refl)) as R.
  destruct (rxrpc_rotate_tx_window _ _ _) as [[[rl c] s] o]. simpl in R.
  destruct rl; [|intros [= <- <-]; exact R].
  destruct (rxrpc_end_tx_phase c false "ETL") as [[[ok c2] o3]| |] eqn:E; simpl;
    try discriminate.
  intros [= <- <-]. eapply receive_frame_trans; [exact R|].
  eapply end_tx_phase_frame; exact E.
Qed.

Section ReceiveFrame.
Context `{P : rxrpc_params}.

Lemma receive_call_packet_frame env call skb call' out :
  rxrpc_receive_call_packet env call skb = Done (call', out) ->
  receive_frame call call'.
Proof.
  unfold rxrpc_receive_call_packet.
  destruct (_ =? RXRPC_PACKET_TYPE_DATA); [apply receive_data_frame|].
  set (r := if _ =? RXRPC_PACKET_TYPE_ACK then _ else _).
  assert (Hr : forall c o, r = Done (c, o) -> receive_frame call c).
  { subst r. intros c o.
    destruct (_ =? RXRPC_PACKET_TYPE_ACK); [apply receive_ack_frame|].
    destruct (_ =? RXRPC_PACKET_TYPE_BUSY); [intros [= <- <-]; apply receive_frame_refl|].
    destruct (_ =? RXRPC_PACKET_TYPE_ABORT).
    { intros [= <- <-]. apply set_call_completion_frame2. }
    destruct (_ =? RXRPC_PACKET_TYPE_ACKALL); [apply receive_ackall_frame|].
    intros [= <- <-]; apply receive_frame_refl. }
  destruct r as [[c o]| |]; simpl; try discriminate.
  intros [= <- <-]. eapply Hr; reflexivity.
Qed.

Lemma receive_frame_holds env call skb call' out :
  rxrpc_receive env call skb = Done (call', out) ->
  receive_frame (rxrpc_receive_note call skb) call'.
Proof.
  rewrite receive_note_eq. apply receive_call_packet_frame.
Qed.

End ReceiveFrame.

Lemma state_not_complete s :
  s <> RXRPC_CALL_COMPLETE ->
  (state_nr s <? state_nr RXRPC_CALL_COMPLETE) = true.
Proof. destruct s; intros H; try reflexivity. contradiction. Qed.

Section Whole.
Context `{P : rxrpc_params}.

Lemma receive_all_frame (pkts : list (rx_env * sk_buff)) :
  0 < RXRPC_JUMBO_SUBPKTLEN ->
  forall call, exists call' out,
    receive_all pkts call = Done (call', out) /\
    tx_top (tx call') = tx_top (tx call) /\
    tx_buffer (tx call') = tx_buffer (tx call) /\
    tx_last_sent (tx call') = tx_last_sent (tx call) /\
    flags_grow (flags call) (flags call') /\
    u32 (tx_top (tx call') - acks_hard_ack (tx call'))
      <= u32 (tx_top (tx call) - acks_hard_ack (tx call)).
Proof.
  intros Hsub. induction pkts as [|[env skb] pkts IH]; intros call; simpl.
  - exists call, []. split_and!; auto using flags_grow_refl. lia.
  - destruct (receive_total env call skb Hsub) as ([c1 o1] & E1). rewrite E1. simpl.
    apply receive_frame_holds in E1 as (_ & _ & A1 & A2 & A3 & A4 & A5).
    destruct (receive_note_frame call skb) as (_ & Nt & _ & _ & _ & Nf & _).
    rewrite Nt in *. rewrite Nf in A4.
    destruct (IH c1) as (c2 & o2 & -> & B1 & B2 & B3 & B4 & B5). simpl.
    exists c2, (o1 ++ o2). split_and!; try congruence; [|lia].
    eapply flags_grow_trans; eassumption.
Qed.

(** X1.  Whatever packets arrive for a call, in whatever order and whatever
    the environment decides for each (allocation failures, the clock),
    processing them one after the other runs to completion: the
    assertion of [rxrpc_end_tx_phase] that TX_LAST is set never fails,
    and no loop of the receive path runs out.  All this needs is a
    positive jumbo subpacket length. *)
Theorem X1_receive_never_trips_assertion (pkts : list (rx_env * sk_buff))
    (call : rxrpc_call) :
  0 < RXRPC_JUMBO_SUBPKTLEN ->
  exists call' out, receive_all pkts call = Done (call', out).
Proof.
  intros Hsub. destruct (receive_all_frame pkts Hsub call) as (c & o & R & _).
  eauto.
Qed.

(** X23.  Over any sequence of packets, [tx_top] and the list of transmit
    buffers are never changed by the receive path, and the span of
    transmitted packets not yet hard-ACKed, tx_top - acks_hard_ack,
    never grows; so a hard ACK that is not beyond [tx_top] stays that
    way. *)
Theorem X23_unacked_span_never_grows (pkts : list (rx_env * sk_buff))
    (call : rxrpc_call) :
  0 < RXRPC_JUMBO_SUBPKTLEN ->
  exists call' out,
    receive_all pkts call = Done (call', out) /\
    tx_top (tx call') = tx_top (tx call) /\
    tx_buffer (tx call') = tx_buffer (tx call) /\
    u32 (tx_top (tx call') - acks_hard_ack (tx call'))
      <= u32 (tx_top (tx call) - acks_hard_ack (tx call)) /\
    (before_eq (acks_hard_ack (tx call)) (tx_top (tx call)) = true ->
     before_eq (acks_hard_ack (tx call')) (tx_top (tx call')) = true).
Proof.
  intros Hsub.
  destruct (receive_all_frame pkts Hsub call) as (c & o & R & A1 & A2 & _ & _ & A5).
  exists c, o. split_and!; try assumption.
  rewrite !before_eq_iff. intros H.
  assert (D : u32 (tx_top (tx call) - acks_hard_ack (tx call)) <= 2^31) by mod_lia.
  assert (D' : u32 (tx_top (tx c) - acks_hard_ack (tx c)) <= 2^31) by lia.
  clear - D'. mod_lia.
Qed.

(** X24.  Over any sequence of packets, no call flag other than
    RETRANS_TIMEOUT is ever cleared: a flag that was set before is set
    afterwards. *)
Theorem X24_flags_are_sticky (pkts : list (rx_env * sk_buff)) (call : rxrpc_call) :
  0 < RXRPC_JUMBO_SUBPKTLEN ->
  exists call' out,
    receive_all pkts call = Done (call', out) /\
    forall f, f <> RXRPC_CALL_RETRANS_TIMEOUT ->
      test_bit f (flags call) = true -> test_bit f (flags call') = true.
Proof.
  intros Hsub.
  destruct (receive_all_frame pkts Hsub call) as (c & o & R & _ & _ & _ & A4 & _).
  exists c, o. split; [assumption|]. exact A4.
Qed.

(** X17.  After a packet has been processed, the call's service ID is the
    packet's, and [rx_serial] is the packet's serial if that is later
    than the one recorded (as signed 32-bit difference), and unchanged
    otherwise: nothing on the receive path writes these two fields after
    the head of [rxrpc_receive]. *)
Theorem X17_call_tracks_service_and_serial (env : rx_env) (call : rxrpc_call)
    (skb : sk_buff) :
  0 < RXRPC_JUMBO_SUBPKTLEN ->
  exists call' out,
    rxrpc_receive env call skb = Done (call', out) /\
    service_id call' = hdr_serviceId (skb_hdr skb) /\
    rx_serial call' =
      (if after (hdr_serial (skb_hdr skb)) (rx_serial call)
       then hdr_serial (skb_hdr skb) else rx_serial call).
Proof.
  intros Hsub.
  destruct (receive_total env call skb Hsub) as ([c1 o1] & E1).
  exists c1, o1. split; [assumption|].
  apply receive_frame_holds in E1 as (-> & -> & _).
  unfold rxrpc_receive_note, after.
  destruct (Z.eqb_spec (hdr_serviceId (skb_hdr skb)) (service_id call)); simpl;
    destruct (0 <? _); simpl; auto.
Qed.

(** X15.  An ABORT packet for a call that is not complete completes it as
    remotely aborted with error -ECONNABORTED; the abort code is the one
    carried by the packet, or RX_CALL_DEAD when the packet is shorter
    than 4 bytes or the code cannot be copied out.  No packet is sent in
    answer, the packet is freed, and flags, windows and congestion state
    stay as they are. *)
Theorem X15_abort_packet_completes_call (env : rx_env) (call : rxrpc_call)
    (skb : sk_buff) :
  hdr_type (skb_hdr skb) = RXRPC_PACKET_TYPE_ABORT ->
  state call <> RXRPC_CALL_COMPLETE ->
  exists call',
    rxrpc_receive env call skb = Done (call', [A_free_skb skb]) /\
    state call' = RXRPC_CALL_COMPLETE /\
    completion call' = RXRPC_CALL_REMOTELY_ABORTED /\
    error call' = - ECONNABORTED /\
    abort_code call' =
      (if 4 <=? skb_len skb then default RX_CALL_DEAD (skb_abort skb)
       else RX_CALL_DEAD) /\
    rx call' = rx call /\ tx call' = tx call /\ cong call' = cong call /\
    flags call' = flags call.
Proof.
  intros Hty Hst. rewrite receive_note_eq.
  destruct (receive_note_frame call skb) as (Nr & Nt & Nc & _ & _ & Nf & (Ns & _) & _).
  set (c0 := rxrpc_receive_note call skb) in *. clearbody c0.
  unfold rxrpc_receive_call_packet. rewrite Hty. simpl.
  unfold rxrpc_receive_abort, rxrpc_set_call_completion.
  rewrite Ns, (state_not_complete _ Hst). simpl.
  eexists. split; [reflexivity|]. simpl.
  split_and!; try reflexivity; try assumption.
Qed.

(** X21.  A jumbo DATA packet whose first subpacket is malformed (shorter
    than a subpacket, or flagged LAST as well, or with a jumbo header
    that cannot be copied out) is rejected as a whole: the call is
    aborted with reason VLD and a protocol error, the abort packet is
    sent, the socket is notified, the packet is freed, and nothing is
    admitted to the receive window. *)
Theorem X21_malformed_jumbo_aborts (env : rx_env) (call : rxrpc_call)
    (skb : sk_buff) :
  hdr_securityIndex (skb_hdr skb) = 0 ->
  (state call = RXRPC_CALL_SERVER_RECV_REQUEST \/
   state call = RXRPC_CALL_SERVER_ACK_REQUEST \/
   state call = RXRPC_CALL_CLIENT_RECV_REPLY) ->
  has_flag (hdr_flags (skb_hdr skb)) RXRPC_JUMBO_PACKET = true ->
  (u32 (skb_len skb - sizeof_wire_header) < RXRPC_JUMBO_SUBPKTLEN \/
   has_flag (hdr_flags (skb_hdr skb)) RXRPC_LAST_PACKET = true \/
   skb_copy_jumbo (skb_jumbo skb) (u32 (sizeof_wire_header + RXRPC_JUMBO_DATALEN))
     = None) ->
  exists call',
    rxrpc_receive_data env call skb
      = Done (call', [A_abort "VLD" (hdr_seq (skb_hdr skb)) RX_PROTOCOL_ERROR (- EBADMSG);
                      A_send_abort_packet; A_notify_socket; A_free_skb skb]) /\
    state call' = RXRPC_CALL_COMPLETE /\
    completion call' = RXRPC_CALL_LOCALLY_ABORTED /\
    abort_code call' = RX_PROTOCOL_ERROR /\
    rx call' = rx call /\ tx call' = tx call /\ flags call' = flags call.
Proof.
  intros Hsec Hst Hj Hbad.
  assert (Hsplit : rxrpc_receive_split_jumbo env call skb = Done (false, call, skb, [])).
  { unfold rxrpc_receive_split_jumbo. simpl. rewrite Hj.
    destruct (Z.ltb_spec (u32 (skb_len skb - sizeof_wire_header)) RXRPC_JUMBO_SUBPKTLEN);
      [reflexivity|].
    destruct (has_flag _ RXRPC_LAST_PACKET) eqn:Hl; [reflexivity|].
    destruct Hbad as [Hb|[Hb|Hb]]; [lia|discriminate|]. rewrite Hb. reflexivity. }
  unfold rxrpc_receive_data, rxrpc_proto_abort, rxrpc_abort_call,
    rxrpc_set_call_completion.
  rewrite Hsec. simpl.
  destruct Hst as [Hs|[Hs|Hs]]; rewrite Hs; simpl; rewrite Hsplit; simpl; rewrite Hs; simpl;
    (eexists; split; [reflexivity|]; simpl; split_and!; reflexivity).
Qed.

End Whole.

(** X25.  Implicitly ending a call that is not complete always leaves it
    complete: after the packet has been presented to the call, a call
    awaiting the final ACK completes successfully, a call the packet has
    completed stays as it is, and in any other state the call is aborted
    with reason IMP, RX_CALL_DEAD and -ESHUTDOWN and the abort packet is
    sent; in all cases the call is then disconnected, and flags and
    windows are as the packet left them. *)
Theorem X25_implicit_end_completes_call
    (rxrpc_input_call_packet :
       rxrpc_call -> sk_buff -> outcome (rxrpc_call * list action))
    (call : rxrpc_call) (skb : sk_buff) (c1 : rxrpc_call) (o1 : list action) :
  state call <> RXRPC_CALL_COMPLETE ->
  rxrpc_input_call_packet
    (set_flags (set_bit RXRPC_CALL_IS_DEAD (flags call)) call) skb = Done (c1, o1) ->
  exists call' o2,
    rxrpc_implicit_end_call rxrpc_input_call_packet call skb
      = Done (call', o1 ++ o2, true) /\
    state call' = RXRPC_CALL_COMPLETE /\
    flags call' = flags c1 /\ rx call' = rx c1 /\ tx call' = tx c1 /\
    match state c1 with
    | RXRPC_CALL_COMPLETE => same_result c1 call' /\ o2 = []
    | RXRPC_CALL_SERVER_AWAIT_ACK =>
      completion call' = RXRPC_CALL_SUCCEEDED /\ o2 = []
    | _ =>
      completion call' = RXRPC_CALL_LOCALLY_ABORTED /\
      abort_code call' = RX_CALL_DEAD /\ error call' = - ESHUTDOWN /\
      o2 = [A_abort "IMP" 0 RX_CALL_DEAD (- ESHUTDOWN); A_send_abort_packet]
    end.
Proof.
  intros Hst Hp. unfold rxrpc_implicit_end_call.
  rewrite (state_not_complete _ Hst), Hp. simpl.
  unfold rxrpc_call_completed, rxrpc_abort_call, rxrpc_set_call_completion.
  destruct (state c1) eqn:Hs; simpl; rewrite ?Hs; simpl;
    (eexists _, _; split; [reflexivity|]; simpl; rewrite ?Hs;
     split_and!; try reflexivity).
  unfold same_result. rewrite Hs. auto.
Qed.

Lemma X1_receive_never_trips_assertion_witness :
  exists call' out,
    @receive_all linux_params
      [(quiet_env, data_pkt 1 0 38 []); (quiet_env, ack_pkt 7 ping_ack [])]
      fresh_call = Done (call', out).
Proof.
  apply (@X1_receive_never_trips_assertion linux_params). reflexivity.
Defined.

Lemma X23_unacked_span_never_grows_witness :
  exists call' out,
    @receive_all linux_params
      [(quiet_env, ack_pkt 7 regressed_ack []); (quiet_env, ack_pkt 8 ping_ack [])]
      ca_call = Done (call', out) /\
    tx_top (tx call') = tx_top (tx ca_call) /\
    tx_buffer (tx call') = tx_buffer (tx ca_call) /\
    u32 (tx_top (tx call') - acks_hard_ack (tx call'))
      <= u32 (tx_top (tx ca_call) - acks_hard_ack (tx ca_call)) /\
    (before_eq (acks_hard_ack (tx ca_call)) (tx_top (tx ca_call)) = true ->
     before_eq (acks_hard_ack (tx call')) (tx_top (tx call')) = true).
Proof.
  apply (@X23_unacked_span_never_grows linux_params). reflexivity.
Defined.

Lemma X24_flags_are_sticky_witness :
  exists call' out,
    @receive_all linux_params
      [(quiet_env, data_pkt 1 RXRPC_LAST_PACKET 38 []);
       (quiet_env, ack_pkt 7 ping_ack [])]
      fresh_call = Done (call', out) /\
    forall f, f <> RXRPC_CALL_RETRANS_TIMEOUT ->
      test_bit f (flags fresh_call) = true -> test_bit f (flags call') = true.
Proof.
  apply (@X24_flags_are_sticky linux_params). reflexivity.
Defined.

Lemma X17_call_tracks_service_and_serial_witness :
  exists call' out,
    @rxrpc_receive linux_params quiet_env fresh_call (data_pkt 1 0 38 [])
      = Done (call', out) /\
    service_id call' = hdr_serviceId (skb_hdr (data_pkt 1 0 38 [])) /\
    rx_serial call' =
      (if after (hdr_serial (skb_hdr (data_pkt 1 0 38 []))) (rx_serial fresh_call)
       then hdr_serial (skb_hdr (data_pkt 1 0 38 [])) else rx_serial fresh_call).
Proof.
  apply (@X17_call_tracks_service_and_serial linux_params). reflexivity.
Defined.

Lemma X15_abort_packet_completes_call_witness :
  exists call',
    @rxrpc_receive linux_params quiet_env fresh_call abort_pkt
      = Done (call', [A_free_skb abort_pkt]) /\
    state call' = RXRPC_CALL_COMPLETE /\
    completion call' = RXRPC_CALL_REMOTELY_ABORTED /\
    error call' = - ECONNABORTED /\
    abort_code call' =
      (if 4 <=? skb_len abort_pkt then default RX_CALL_DEAD (skb_abort abort_pkt)
       else RX_CALL_DEAD) /\
    rx call' = rx fresh_call /\ tx call' = tx fresh_call /\
    cong call' = cong fresh_call /\ flags call' = flags fresh_call.
Proof.
  apply (@X15_abort_packet_completes_call linux_params).
  - reflexivity.
  - discriminate.
Defined.

Lemma X21_malformed_jumbo_aborts_witness :
  exists call',
    @rxrpc_receive_data linux_params quiet_env fresh_call short_jumbo_pkt
      = Done (call', [A_abort "VLD" (hdr_seq (skb_hdr short_jumbo_pkt))
                        RX_PROTOCOL_ERROR (- EBADMSG);
                      A_send_abort_packet; A_notify_socket;
                      A_free_skb short_jumbo_pkt]) /\
    state call' = RXRPC_CALL_COMPLETE /\
    completion call' = RXRPC_CALL_LOCALLY_ABORTED /\
    abort_code call' = RX_PROTOCOL_ERROR /\
    rx call' = rx fresh_call /\ tx call' = tx fresh_call /\
    flags call' = flags fresh_call.
Proof.
  apply (@X21_malformed_jumbo_aborts linux_params).
  - reflexivity.
  - left. reflexivity.
  - reflexivity.
  - left. reflexivity.
Defined.

Lemma X25_implicit_end_completes_call_witness :
  exists call' o2,
    rxrpc_implicit_end_call (@rxrpc_receive linux_params quiet_env) fresh_call
      (data_pkt 1 0 38 []) = Done (call', dead_step.2 ++ o2, true) /\
    state call' = RXRPC_CALL_COMPLETE /\
    flags call' = flags dead_step.1 /\ rx call' = rx dead_step.1 /\
    tx call' = tx dead_step.1 /\
    match state dead_step.1 with
    | RXRPC_CALL_COMPLETE => same_result dead_step.1 call' /\ o2 = []
    | RXRPC_CALL_SERVER_AWAIT_ACK =>
      completion call' = RXRPC_CALL_SUCCEEDED /\ o2 = []
    | _ =>
      completion call' = RXRPC_CALL_LOCALLY_ABORTED /\
      abort_code call' = RX_CALL_DEAD /\ error call' = - ESHUTDOWN /\
      o2 = [A_abort "IMP" 0 RX_CALL_DEAD (- ESHUTDOWN); A_send_abort_packet]
    end.
Proof.
  apply (X25_implicit_end_completes_call (@rxrpc_receive linux_params quiet_env)
           fresh_call (data_pkt 1 0 38 []) dead_step.1 dead_step.2).
  - discriminate.
  - vm_compute. reflexivity.
Defined.

Lemma X9_rtt_probe_slots_witness :
  let r := @rxrpc_complete_rtt_probe linux_params probing_call 150 7 8
             rxrpc_rtt_rx_ping_response in
  rtt_serial (rtt r.1) = rtt_serial (rtt probing_call) /\
  rtt_sent_at (rtt r.1) = rtt_sent_at (rtt probing_call) /\
  r.2 = flat_map (@rtt_sample linux_params probing_call 150 7 8
                    rxrpc_rtt_rx_ping_response)
          (seq 0 (length (rtt_serial (rtt probing_call)))) /\
  forall i, (i < length (rtt_serial (rtt probing_call)))%nat ->
    @rtt_pending linux_params r.1 i
      = @rtt_pending linux_params probing_call i
        && negb (rtt_retires probing_call 7 i) /\
    rtt_free r.1 i
      = rtt_free probing_call i
        || (@rtt_pending linux_params probing_call i && rtt_retires probing_call 7 i).
Proof.
  apply (@X9_rtt_probe_slots linux_params probing_call 150 7 8
           rxrpc_rtt_rx_ping_response).
  simpl. lia.
Defined.

Lemma X12_retransmission_timeout_witness :
  let call' := (@rxrpc_congestion_management linux_params quiet_env timed_out_call
                  (ack_pkt 7 regressed_ack []) nack_summary 0).1.1 in
  let flight :=
    u32 (u32 (tx_top (tx timed_out_call) - acks_hard_ack (tx timed_out_call))
         - nr_acks nack_summary) in
  cong_ssthresh (cong call') = Z.max (flight / 2) 2 /\
  cong_cwnd (cong call') <= cong_ssthresh (cong call') + 3 /\
  ((cong_mode (cong timed_out_call) = RXRPC_CALL_SLOW_START \/
    cong_mode (cong timed_out_call) = RXRPC_CALL_CONGEST_AVOIDANCE) ->
   cong_cwnd (cong call') <= 2).
Proof.
  apply (@X12_retransmission_timeout linux_params quiet_env timed_out_call
           (ack_pkt 7 regressed_ack []) nack_summary 0).
  reflexivity.
Defined.

Lemma X14_only_data_changes_rx_witness :
  exists call' out,
    @rxrpc_receive linux_params quiet_env hole_call abort_pkt
      = Done (call', out ++ [A_free_skb abort_pkt]) /\
    rx call' = rx hole_call /\
    released out = [] /\
    (hdr_type (skb_hdr abort_pkt) <> RXRPC_PACKET_TYPE_ACK -> sent_acks out = []).
Proof.
  apply (@X14_only_data_changes_rx linux_params quiet_env hole_call abort_pkt).
  discriminate.
Defined.

Lemma X16_completed_call_stays_completed_witness :
  exists call' out,
    @rxrpc_receive linux_params quiet_env completed_call abort_pkt
      = Done (call', out) /\
    same_result completed_call call' /\
    rx call' = rx completed_call /\
    ~ In A_send_abort_packet out.
Proof.
  apply (@X16_completed_call_stays_completed linux_params quiet_env completed_call
           abort_pkt).
  reflexivity.
Defined.

Lemma X22_ack_packet_is_answered_witness :
  exists call' out,
    @rxrpc_receive linux_params quiet_env fresh_call (ack_pkt 7 ping_ack [])
      = Done (call', out) /\
    List.filter (fun a => negb (tx_side_action a)) out
      = reactive_ack (ack_pkt 7 ping_ack []) ping_ack
        ++ [A_free_skb (ack_pkt 7 ping_ack [])] /\
    sent_acks out =
      (if ack_reason_f ping_ack =? RXRPC_ACK_PING then [RXRPC_ACK_PING_RESPONSE]
       else if has_flag (hdr_flags (skb_hdr (ack_pkt 7 ping_ack []))) RXRPC_REQUEST_ACK
            then [RXRPC_ACK_REQUESTED] else []).
Proof.
  apply (@X22_ack_packet_is_answered linux_params quiet_env fresh_call
           (ack_pkt 7 ping_ack []) ping_ack); reflexivity.
Defined.
